(* ===== verification/_CoqProject ===== *)
-Q . S2P
Prelude.v
PyDict.v
PySort.v
Records.v
PyInt.v
TimeDisplay.v
Exec.v
World.v
Sequencer.v
Cache.v
SeqSpec.v
Api.v
Flush.v
Invariant.v
TypedIds.v
Counters.v
Hydration.v
ApiSpec.v
Interleaving.v
Persistence.v
Routes.v
System.v
Concurrency.v
