(* ===== verification/Prelude.v ===== *)
(** * Campus forum backend: verification of the write-back forum cache

    This development models, as a shallow embedding in Rocq, the forum
    core of the repository: the memory-first cache of posts and comments
    ([src/app/services/https/ForumManager.py]), the entity objects with
    their class-level identifier counters ([src/app/objects/Post.py],
    [src/app/objects/Comment.py]), the user object ([src/app/objects/User.py])
    the two maintenance scripts ([src/force_reset_memory.py],
    [src/fix_memory_direct.py]), and the HTTP layer in front of the
    cache: the routes ([src/app/api/v1/ForumManager.py]) and their
    pydantic request and response models ([src/app/schemas/ForumManager.py]).

    ** The program and how its parts interact

    - [Post] and [Comment] each keep a class-level counter and an
      initialization flag (the identifier sequencer).  [initialize_counter]
      seeds the counter from the largest [_id] in storage (or from a
      millisecond timestamp when storage fails); the constructor raises a
      [RuntimeError] when the counter is not seeded, and otherwise
      increments it and takes the new value as the entity's id.
    - [ForumManager] is a process-wide singleton with two dictionaries
      [posts_dict] and [comments_dict] and a class-level flag
      [_initialized].  [initialize] seeds both counters, clears the
      dictionaries, reloads every stored document (rebuilding each entity
      through its constructor), and reconciles the users' [post_ids];
      every API operation first calls it when the flag is down.
    - The API operations (create/list/search/detail/like for posts,
      create/list/like for comments) read and write the dictionaries;
      a few of them also talk to the [users] collection of storage.
    - [save_to_database] (the flush) upserts every cached entity.
    - Each HTTP route validates the request body into its model (422 when
      refused), calls one service method with [str(user_id)], builds the
      response model from the service's dict and turns any exception into
      HTTP 500.
    - Users live in an in-memory registry owned by [UserManagement]
      (not part of the sources given: modelled from the specification).
    - Storage is a MongoDB wrapper [Database] (not part of the sources
      given: modelled from the specification as document collections).

    ** Files, in dependency order, and what they model

    - [Prelude]: this header; the [py_scope] notations; Python list
      helpers ([py_in] = [x in l], [py_remove] = [list.remove],
      [append_unique] = "append if absent", [py_slice] = [l[i:j]] with
      CPython's index normalization, [py_or_str] = [s or d]); the
      [forum] hint database and shared tactics.
    - [PyDict]: a Python [dict] as an insertion-ordered association list
      ([dict_get] = [d.get(k)], [dict_set] = [d[k] = v] replacing in place
      or appending), with its laws and the well-formedness [dict_wf].
    - [PySort]: [list.sort(key=f, reverse=r)] as a stable insertion sort
      over a class [PyOrd] of Python's [<] (integers, tuples compared
      lexicographically); it is proved to be the unique stable sort, so
      it agrees with CPython's timsort.
    - [Records]: datetimes (naive or aware), the [Post], [Comment] and
      [User] objects (one Module each, fields named as the attributes),
      the storage documents ([PostDoc], [CommentDoc], [UserDoc]: a
      missing key is [None]), [to_dict], the [$set] update, and
      count/list parity.
    - [TimeDisplay]: [_format_time_display] ([strftime("%m-%d %H:%M")]);
      the calendar date of a wall-clock count ([civil_from_days], by
      400-year eras) checked against CPython's [_ymd2ord].
    - [PyInt]: [str(int)] and pydantic's coercion of a [str] into an
      [int] field (optional sign, decimal digits).
    - [Exec]: the effect model, a state-and-exception monad [M S A]
      ([py_try] = try/except, [for_fold] = a for loop); exceptions keep
      the state reached.  Three reasoning tools over it: [preserves],
      Hoare [triple]s (normal and exceptional postconditions) with a
      forward symbolic executor, and [evolves] (a preorder between start
      and end state, for monotonicity).
    - [World]: the process state (both sequencers, the cache flag and
      dictionaries, the user registry, storage, the clock) and the
      primitive effects; storage calls consume a fault oracle
      [db_faults], so theorems hold for every pattern of storage failures.
    - [Sequencer]: [Post/Comment.initialize_counter] and both
      constructors ([post_new], [comment_new]).
    - [Cache]: [ForumManager.initialize], the two loaders, the
      reconciler, [force_reinitialize], [get_memory_status], the
      lazy-initialization guard [ensure_initialized].
    - [SeqSpec]: the specification's sequencer contract as a class
      ([SeqContract]: [seed()], [next()], [advance_to_at_least]); the
      post and comment sequencers are its instances; client lemmas are
      proved against the class alone.
    - [Api]: the eight forum operations, each the whole method; the
      specification of [get_post_detail] and of liking.
    - [Flush]: [ForumManager.save_to_database], the entity methods
      [save_to_database]/[add_like]/[remove_like]/[add_comment], and the
      maintenance scripts [force_reset_memory.py] and
      [fix_memory_direct.py].
    - [Invariant]: the process invariant [Inv] (dictionaries keyed by
      identifier without duplicates; cached entities with parity and an
      identifier not above their counter; the cache flag only with both
      counters seeded; stored documents keyed by [_id] with parity) and
      its preservation by every operation, proved by forward execution
      and footprint lemmas of the setters.
    - [TypedIds]: the typing invariant [Typed]: every cached creator and
      commenter, every registered [user_id] and every stored author field
      is an integer string (what the response models read as [int]);
      every operation, the loaders, the flush and the reset script keep
      it; the listings, the detail and the comments then only return
      items with integer creator ids.
    - [Counters]: every operation moves both counters forward
      ([evolves counters_le]); the guard always seeds both counters.
    - [Hydration]: what the loaders rebuild: the counter after loading,
      and the flush/reload round trip.
    - [ApiSpec]: the functional specifications of [create_comment],
      [toggle_post_like], [get_post_comments] (with the pairs of comments
      whose comparison raises), the listings' order and pagination, the
      comments' order; that the empty search is the latest listing; that
      no operation raises; the half-loaded cache a failed [initialize]
      leaves.
    - [Interleaving]: requests interleaved on the event loop: a request
      in flight is a [task] that runs one segment up to its next await;
      [loop_step] resumes one ready task.  [create_post] is split at the
      storage read of its lazy initialization's post seeding
      ([create_post_task], resuming with [create_post_resumed]); run
      alone the split task is [create_post].  [task_keeps I] says every
      segment of a task keeps [I]; then every schedule of such tasks
      keeps [I] (by induction on the run).
    - [Persistence]: what the flush writes ([flushed]: the documents of
      both loops, in order), that with storage answering it persists
      every cached entity and that it never touches the cache; what
      [fix_memory_direct.py] amounts to.
    - [Routes]: the request
      models (bodies with defaults and [Field] constraints), the response
      models and the eight routes ([route_call] is their common
      try/except shape); [serve] dispatches a request.
    - [Concurrency]: the other requests that hold the cache across an
      [await], as tasks: [toggle_post_like] split at its users update
      ([toggle_post_like_memory] before it, [toggle_post_like_sync]
      after it), and [save_to_database], whose two loops iterate the live
      dicts ([dict_values_next] is CPython's dict iterator: [RuntimeError]
      when the dict's size changed, else the entry at the next position)
      and run each item in two segments: [next], [to_dict] and the
      [find_one] request; then, once [find_one] answers, the write.
      [to_dict] copies the counters but shares the post's list objects,
      so the write serializes the lists of the live post
      ([post_doc_at_write], [live_at]).  [request_task] is the task of
      each request of [System] ([create_post] split as in
      [Interleaving], the others in one segment); run alone each is its
      handler.
    - [System]: the whole process as a step relation (one HTTP request
      served, one service call of the scheduler or a script, or an
      environment move: clock, storage faults, user registry, reset
      script); the HTTP layer refines the service; the invariant on every
      reachable state, strictly increasing post identifiers between
      resets, and that the cache can always be persisted, for requests
      served one at a time; over storage
      and a registry with integer user ids, [Typed] on every reachable
      state and no request answered 500.

    ** What the theorems show

    - Safety of the whole process, requests served one at a time: [Inv]
      holds in every reachable state ([System.reachable_Inv]); post
      identifiers increase strictly between resets
      ([System.create_post_ids_increase]); the
      constructors' [RuntimeError] is unreachable behind the guard
      ([Counters.ensure_initialized_seeds]).
    - Functional behaviour of each operation on every branch, storage
      failures included ([ApiSpec], [Api.get_post_detail_spec],
      [Cache.initialize_result] and [Cache.initialize_idempotent]).
    - Refinement: both sequencers implement the specification's contract
      ([SeqSpec.sequencers_implement_contract]), so an identifier absorbed
      from storage is never handed out again ([SeqSpec.post_id_after_advance]);
      every route answers the service's converted result and
      leaves the service's state ([Routes.routes_refine_service]); so an
      HTTP step is a service step or no step ([System.serve_refines]).
    - Typing and the absence of internal errors: over storage whose
      authors are integer strings and a registry of integer user ids,
      [Typed] holds in every reachable state ([System.reachable_Typed]),
      and no HTTP request is ever answered 500
      ([System.typed_process_never_500]); the orphan-post finding below
      shows the hypothesis on storage is needed.
    - Interleaving: two requests at start-up, interleaved at that await,
      both initialize; the second writes the stored maximum back into the
      post counter and clears the cache, so the first post is dropped and
      its identifier handed out again
      ([Interleaving.startup_race_counter_regresses], and on demonstration
      storage [Interleaving.startup_race_reuses_post_id]).  Yet the
      in-memory invariant holds under every interleaving, at the awaits
      modelled, of requests other than the flush, that race included: a
      request resumed at the seeding reloads the cache
      ([Concurrency.interleaved_requests_Inv]).  The flush is excluded
      for a reason: a like that runs while the flush waits for [find_one]
      on that post makes it store the old [like_count] with the new
      [liked_user_ids] ([Concurrency.flush_like_race_breaks_parity]).  A
      request that changes the number of cached posts while the flush is
      suspended stops the flush: the other posts and every comment are not
      written ([Concurrency.save_interrupted_by_resize]).  Run alone, each
      split task is its handler ([Concurrency.request_task_alone]).
    - Liveness: from every reachable state, once storage answers, one
      flush puts the whole cache in storage ([System.reachable_can_persist]).
    - Bounds: a validated listing page has at most [page_size <= 100]
      posts ([Routes.route_get_posts_list_bounds]); the time display is
      eleven characters [MM-DD HH:mm] whose fields read back as the
      month, day, hour and minute of the wall clock
      ([TimeDisplay.format_time_display_spec]).
    - Persistence: with storage answering, the flush returns [True] and
      storage then holds each cached entity's [to_dict] document
      ([Persistence.save_to_database_persists]); the flush never changes
      the cache ([Persistence.save_to_database_frame]).
    - Error handling: every operation, the flush and (re)initialization
      return a value in every state and under every failure pattern
      ([ApiSpec.api_never_raises]); the flush catches everything
      ([Flush.save_to_database_total]).
    - Round trips and their limits: flush then reload
      ([Hydration.load_post_roundtrip]), like then unlike
      ([Api.post_unlike_like]); pagination tiles a listing
      ([ApiSpec.pages_cover]).
    - Equivalence: the search with the empty query answers and leaves
      the state the latest listing does whenever a post is published
      ([ApiSpec.search_empty_query_is_latest]); the sort model is the
      unique stable sort
      ([PySort.py_sort_spec], [PySort.py_sort_reverse_spec]); the display's
      calendar and CPython's [_ymd2ord] are mutually inverse
      ([TimeDisplay.civil_from_days_spec],
      [TimeDisplay.civil_from_days_ymd2ord]); [int(str(n)) = n]
      ([PyInt.int_of_str_py_str_int]).
    - The findings, as theorems about the code as written: hydration
      consumes identifiers ([Hydration.initialize_post_counter]), tag
      lists longer than three are truncated on reload, a storage failure
      after an in-memory like is reported as a failure, a comment
      without [created_at] makes [get_post_comments] fail, deleted posts
      are served by [get_post_detail], a failed [initialize] leaves a
      half-loaded cache that [get_post_comments] serves
      ([ApiSpec.initialize_failure_half_loaded]), the self-healing
      reload drops unflushed comments ([Api.get_posts_list_self_heal]),
      the flush stores a post whose like count and likers disagree when
      a like runs during its [find_one]
      ([Concurrency.flush_like_race_breaks_parity]),
      [fix_memory_direct.py] compares string identifiers with an
      integer, so its repair never runs
      ([Flush.fix_memory_direct_spec]), a stored post without a
      creator makes the listing routes answer 500
      ([Routes.orphan_creator_fails_listing]), and the comment listing
      accepts [page_size = 0], where paging by [has_more] never ends
      ([Routes.route_get_post_comments_zero_page_size]).

    ** Bounds, fuel, and what is not modelled

    Every definition is structural (loops are folds over finite lists),
    so no fuel is needed and every operation is total.  Integers are [Z]:
    Python integers do not overflow.  The calendar theorems are proved
    for every day count by checking the 146097 days of one 400-year era
    (and the 400 x 12 x 31 dates of its years) by computation, then
    shifting by whole eras.  The flush's task recurses on the number of
    items left, which is bounded by the size the iterator recorded: a
    loop whose dict keeps that size has exactly that many items, and one
    whose dict changed size stops.  In [System] a request runs to
    completion in one step; interleavings at [await] points are modelled
    in [Interleaving] and [Concurrency] for [create_post] (at its lazy
    initialization), [toggle_post_like] and [save_to_database]; the other
    requests, and the awaits inside one segment (the guard's
    [initialize] outside [create_post]'s seeding; [to_dict], which does
    not suspend; the write of a flushed item, after which the next
    segment starts anyway), run without a switch: schedules that switch
    there are not explored.  A flushed item finds its live post by its
    position in the dict: a reload or a [create_post] that replaces the
    object at that position during [find_one] without changing the
    dict's size is not told apart from the original object.  Tasks
    carry no response:
    the state an interleaving reaches is modelled, not what an
    interleaved request answers (after its await [toggle_post_like]
    reads the like count of the shared post object).  Not
    modelled: values of the wrong type, in storage or in a request body;
    stored [null]s: a document field is present or missing, and the
    program itself writes [null] only for a datetime, which
    [_ensure_aware_datetime] loads as it loads a missing key (a [null]
    written by another client in another field would be kept as [None]
    by the loader and is not represented); pydantic's [int]
    coercion beyond an optional sign and decimal digits; [str.lower]
    beyond ASCII letters; logging; the end-to-end and smoke tests, which
    drive a deployed server.
*)

From stdpp Require Export base list sets strings.
From Stdlib Require Export ZArith Lia.
Export ListNotations.

Declare Scope py_scope.
Delimit Scope py_scope with py.
Open Scope py_scope.

Create HintDb forum discriminated.

(** ** Python list operations used by the code *)

Section PyList.
Context {A : Type} `{EqDecision A}.

  (** [x in l] *)
Definition py_in (x : A) (l : list A) : bool := bool_decide (x ∈ l).

  (** [l.remove(x)]: removes the first occurrence.  Every call site in
      the sources is guarded by [if x in l], so the [ValueError] raised on
      an absent element is unreachable; the model returns [l] there. *)
Fixpoint py_remove (x : A) (l : list A) : list A :=
    match l with
    | [] => []
    | y :: l' => if decide (x = y) then l' else y :: py_remove x l'
    end.

  (** [if x not in l: l.append(x)] *)
Definition append_unique (x : A) (l : list A) : list A :=
    if py_in x l then l else l ++ [x].
End PyList.

Notation "x 'in_py' l" := (py_in x l) (at level 70) : py_scope.

(** Python's normalization of a slice bound for a list of length [n]
    (CPython [PySlice_AdjustIndices], step 1). *)
Definition py_index_norm (n i : Z) : Z :=
  if (i <? 0)%Z then Z.max 0 (i + n) else Z.min i n.

(** [l[i:j]] *)
Definition py_slice {A} (l : list A) (i j : Z) : list A :=
  let n := Z.of_nat (length l) in
  let a := py_index_norm n i in
  let b := py_index_norm n j in
  take (Z.to_nat (b - a)) (drop (Z.to_nat a) l).

(** Truthiness of an optional string: [s or d] for [s : Optional[str]]. *)
Definition py_or_str (s : option string) (d : string) : string :=
  match s with
  | Some s' => if String.eqb s' "" then d else s'
  | None => d
  end.

(** ** Shared lemmas *)

Lemma py_in_true {A} `{EqDecision A} (x : A) l : py_in x l = true <-> x ∈ l.
Proof. unfold py_in. apply bool_decide_eq_true. Qed.

Lemma py_in_false {A} `{EqDecision A} (x : A) l : py_in x l = false <-> x ∉ l.
Proof. unfold py_in. apply bool_decide_eq_false. Qed.

Ltac py_in_case x l :=
  let H := fresh "Hin" in
  destruct (py_in x l) eqn:H;
  [apply py_in_true in H | apply py_in_false in H].

Section PyListLemmas.
Context {A : Type} `{EqDecision A}.
Implicit Types (x y : A) (l : list A).

Lemma elem_of_py_remove x y l : y ∈ py_remove x l -> y ∈ l.
  Proof.
    induction l as [|z l IH]; simpl; [done|].
    case_decide; set_solver.
  Qed.

Lemma py_remove_not_in x l : x ∉ l -> py_remove x l = l.
  Proof.
    induction l as [|z l IH]; simpl; intros Hx; [done|].
    case_decide; [set_solver|]. rewrite IH; set_solver.
  Qed.

(** Removing an element appended to a list that did not have it. *)
Lemma py_remove_app_not_in x l : x ∉ l -> py_remove x (l ++ [x]) = l.
  Proof.
    induction l as [|z l IH]; simpl; intros Hx; [by rewrite decide_True|].
    rewrite decide_False by set_solver. rewrite IH; set_solver.
  Qed.

Lemma NoDup_py_remove x l : NoDup l -> NoDup (py_remove x l).
  Proof.
    induction l as [|z l IH]; simpl; intros Hnd; [constructor|].
    apply NoDup_cons in Hnd as [Hz Hnd].
    case_decide; [done|]. constructor; [|auto].
    intros Hin. apply Hz. eapply elem_of_py_remove; eauto.
  Qed.

Lemma py_remove_length x l : x ∈ l -> length (py_remove x l) = pred (length l).
  Proof.
    induction l as [|z l IH]; simpl; intros Hx; [set_solver|].
    case_decide; [done|]. simpl.
    rewrite IH; [|set_solver]. destruct l; [set_solver|done].
  Qed.

Lemma py_remove_elem_of_NoDup x l : NoDup l -> x ∉ py_remove x l.
  Proof.
    induction l as [|z l IH]; simpl; intros Hnd; [set_solver|].
    apply NoDup_cons in Hnd as [Hz Hnd].
    case_decide; [subst; done|]. set_solver.
  Qed.

Lemma NoDup_append_unique x l : NoDup l -> NoDup (append_unique x l).
  Proof.
    unfold append_unique. intros Hnd. py_in_case x l; [done|].
    apply NoDup_app. split_and!; [done| |by apply NoDup_singleton].
    set_solver.
  Qed.

Lemma elem_of_append_unique x y l : y ∈ append_unique x l <-> y = x \/ y ∈ l.
  Proof. unfold append_unique. py_in_case x l; set_solver. Qed.

Lemma append_unique_length x l :
    length (append_unique x l) = (if py_in x l then length l else S (length l)).
  Proof.
    unfold append_unique. destruct (py_in x l); [done|].
    rewrite length_app. simpl. lia.
  Qed.
End PyListLemmas.

#[export] Hint Resolve NoDup_py_remove NoDup_append_unique : forum.

Lemma Forall_py_slice {A} (P : A -> Prop) (l : list A) (i j : Z) :
  Forall P l -> Forall P (py_slice l i j).
Proof. intros H. unfold py_slice. by apply Forall_take, Forall_drop. Qed.

Lemma Forall_list_filter {A} (P Q : A -> Prop) `{forall x, Decision (Q x)} (l : list A) :
  Forall P l -> Forall P (filter Q l).
Proof. rewrite !Forall_forall. intros HP x Hx. apply list_elem_of_filter in Hx. naive_solver. Qed.

(** Slicing with non-negative bounds is [take] after [drop]. *)
Lemma py_slice_nonneg {A} (l : list A) (i j : Z) :
  (0 <= i)%Z -> (i <= j)%Z ->
  py_slice l i j = take (Z.to_nat j - Z.to_nat i) (drop (Z.to_nat i) l).
Proof.
  intros Hi Hij. unfold py_slice, py_index_norm.
  rewrite !(proj2 (Z.ltb_ge _ _)) by lia.
  destruct (decide (j <= Z.of_nat (length l))%Z).
  - rewrite !Z.min_l by lia. f_equal. lia.
  - rewrite (Z.min_r j) by lia.
    destruct (decide (i <= Z.of_nat (length l))%Z).
    + rewrite Z.min_l by lia.
      rewrite !take_ge; [done| |]; rewrite length_drop; lia.
    + rewrite Z.min_r by lia. rewrite !drop_ge by lia. by rewrite !take_nil.
Qed.
