(* ===== verification/PyDict.v ===== *)
(** Python dictionaries as insertion-ordered association lists.

    [posts_dict] and [comments_dict] of [ForumManager] are Python dicts:
    iteration ([.values()], [.keys()]) follows insertion order, and
    assigning an existing key keeps its position.  Because the listings
    sort [posts_dict.values()] with a stable sort, the order matters for
    ties, so the model keeps it: a dict is a list of (key, value) pairs
    with no duplicate key.  The storage collections reuse the same model
    (documents are returned in natural, i.e. insertion, order). *)

From S2P Require Import Prelude.

Section PyDict.
Context {K V : Type} `{EqDecision K}.

Definition pydict : Type := list (K * V).

  (** [d.get(k)] *)
Fixpoint dict_get (k : K) (d : pydict) : option V :=
    match d with
    | [] => None
    | (k', v) :: d' => if decide (k = k') then Some v else dict_get k d'
    end.

  (** [d[k] = v] *)
Fixpoint dict_set (k : K) (v : V) (d : pydict) : pydict :=
    match d with
    | [] => [(k, v)]
    | (k', v') :: d' =>
        if decide (k = k') then (k', v) :: d' else (k', v') :: dict_set k v d'
    end.

Definition dict_keys (d : pydict) : list K := map fst d.
Definition dict_values (d : pydict) : list V := map snd d.
Definition dict_len (d : pydict) : nat := length d.

  (** Every entry satisfies [P]. *)
Definition dict_Forall (P : K -> V -> Prop) (d : pydict) : Prop :=
    Forall (fun kv => P kv.1 kv.2) d.

  (** The dictionary is well formed: no key occurs twice. *)
Definition dict_wf (d : pydict) : Prop := NoDup (dict_keys d).
End PyDict.

Arguments pydict : clear implicits.

Section PyDictLemmas.
Context {K V : Type} `{EqDecision K}.
Implicit Types (d : pydict K V) (k : K) (v : V).

Lemma dict_get_set_eq k v d : dict_get k (dict_set k v d) = Some v.
  Proof.
    induction d as [|[k' v'] d IH]; simpl; [by rewrite decide_True|].
    case_decide; simpl; [by rewrite decide_True|]. by rewrite decide_False.
  Qed.

Lemma dict_get_set_ne k k' v d :
    k <> k' -> dict_get k' (dict_set k v d) = dict_get k' d.
  Proof.
    intros Hne. induction d as [|[k0 v0] d IH]; simpl.
    - by rewrite decide_False.
    - case_decide as Hk; simpl.
      + subst. by rewrite !decide_False.
      + case_decide; [done|]. exact IH.
  Qed.

Lemma dict_get_set k k' v d :
    dict_get k' (dict_set k v d) = if decide (k' = k) then Some v else dict_get k' d.
  Proof.
    case_decide; [subst; apply dict_get_set_eq|]. apply dict_get_set_ne; auto.
  Qed.

Lemma dict_keys_set k v d :
    dict_keys (dict_set k v d) =
      if py_in k (dict_keys d) then dict_keys d else dict_keys d ++ [k].
  Proof.
    induction d as [|[k' v'] d IH]; simpl; [done|].
    unfold py_in in *. destruct (decide (k = k')) as [->|Hne]; simpl.
    - rewrite bool_decide_eq_true_2; [done|set_solver].
    - rewrite IH. unfold dict_keys.
      destruct (bool_decide (k ∈ map fst d)) eqn:E.
      + apply bool_decide_eq_true in E. rewrite bool_decide_eq_true_2; [done|set_solver].
      + apply bool_decide_eq_false in E. rewrite bool_decide_eq_false_2; [done|set_solver].
  Qed.

Lemma dict_wf_set k v d : dict_wf d -> dict_wf (dict_set k v d).
  Proof.
    unfold dict_wf. rewrite dict_keys_set. apply NoDup_append_unique.
  Qed.

Lemma dict_get_Some_elem_of k v d : dict_get k d = Some v -> (k, v) ∈ d.
  Proof.
    induction d as [|[k' v'] d IH]; simpl; [done|].
    case_decide; [intros [= <-]; subst; set_solver|]. set_solver.
  Qed.

Lemma dict_get_None k d : dict_get k d = None <-> k ∉ dict_keys d.
  Proof.
    induction d as [|[k' v'] d IH]; simpl; [set_solver|].
    case_decide; [subst; set_solver|]. rewrite IH. set_solver.
  Qed.

Lemma dict_Forall_get P k v d :
    dict_Forall P d -> dict_get k d = Some v -> P k v.
  Proof.
    intros HF Hg. apply dict_get_Some_elem_of in Hg.
    unfold dict_Forall in HF. rewrite Forall_forall in HF.
    by apply (HF (k, v)).
  Qed.

Lemma dict_Forall_set P k v d :
    dict_Forall P d -> P k v -> dict_Forall P (dict_set k v d).
  Proof.
    unfold dict_Forall. intros HF Hp.
    induction d as [|[k' v'] d IH]; simpl; [by constructor|].
    apply Forall_cons in HF as [Hh Ht].
    case_decide; constructor; simpl; subst; auto.
  Qed.

Lemma dict_Forall_impl (P Q : K -> V -> Prop) d :
  dict_Forall P d -> (forall k v, P k v -> Q k v) -> dict_Forall Q d.
Proof. unfold dict_Forall. intros HF HPQ. eapply Forall_impl; [exact HF|]. intros [k v]. apply HPQ. Qed.

Lemma dict_Forall_nil (P : K -> V -> Prop) : dict_Forall P [].
Proof. constructor. Qed.

Lemma dict_Forall_values_elem P d v :
  dict_Forall P d -> v ∈ dict_values d -> exists k, P k v.
Proof.
  unfold dict_Forall, dict_values. intros HF Hv.
  apply list_elem_of_In, in_map_iff in Hv as [[k v'] [Hv Hin]]. simpl in Hv. subst v'.
  rewrite Forall_forall in HF. exists k. apply (HF (k, v)). by apply list_elem_of_In.
Qed.

(** Checking every entry with a boolean test that implies [P]. *)
Lemma dict_Forall_check (P : K -> V -> Prop) (b : V -> bool) d :
  (forall k v, b v = true -> P k v) -> forallb (fun kv => b kv.2) d = true -> dict_Forall P d.
Proof.
  intros Hb Hd. unfold dict_Forall. apply Forall_forall. intros [k v] Hin.
  apply (Hb k v). rewrite forallb_forall in Hd. by apply (Hd (k, v)), list_elem_of_In.
Qed.

Lemma dict_Forall_values (P : V -> Prop) d :
    dict_Forall (fun _ v => P v) d <-> Forall P (dict_values d).
  Proof. unfold dict_Forall, dict_values. by rewrite Forall_map. Qed.

Lemma dict_len_set k v d :
    dict_len (dict_set k v d) = (if py_in k (dict_keys d) then dict_len d else S (dict_len d)).
  Proof.
    unfold dict_len.
    rewrite <- (length_map fst (dict_set k v d)), <- (length_map fst d).
    pose proof (dict_keys_set k v d) as Hk. unfold dict_keys in Hk. rewrite Hk.
    destruct (py_in _ _); rewrite ?length_app; simpl; lia.
  Qed.
(** A dictionary keyed by a projection of its values. *)
Lemma dict_values_keys (f : V -> K) d :
  dict_Forall (fun k v => f v = k) d -> map f (dict_values d) = dict_keys d.
Proof.
  unfold dict_Forall, dict_values, dict_keys. induction d as [|[k v] d IH]; simpl; [done|].
  intros [Hk Hd]%Forall_cons. simpl in Hk. by rewrite Hk, IH.
Qed.

Lemma dict_get_values k v d : dict_get k d = Some v -> v ∈ dict_values d.
Proof.
  intros H%dict_get_Some_elem_of. unfold dict_values. apply list_elem_of_fmap. by exists (k, v).
Qed.

End PyDictLemmas.

#[export] Hint Resolve dict_wf_set dict_Forall_set : forum.
#[export] Hint Rewrite @dict_get_set_eq : forum.
