(* ===== verification/PySort.v ===== *)
(** Python's [list.sort(key=f, reverse=r)].

    CPython's sort is stable, and with [reverse=True] equal elements keep
    their original order too.  The model is a stable insertion sort; the
    theorems show that it returns a permutation of its input, sorted by
    the key, keeping the original order among equal keys, and that these
    three properties determine the result: any stable sort (timsort
    included) returns the same list.  Keys are compared with Python's
    [<], given here by the class [PyOrd]; tuples compare
    lexicographically as in Python. *)

From S2P Require Import Prelude.
From Stdlib Require Import Sorting.Permutation Sorting.Sorted.
From stdpp Require Import sorting.

(** Python's [<] on a key type: a strict total order. *)
Class PyOrd (K : Type) := {
  py_lt : K -> K -> bool;
  py_lt_irrefl : forall a, py_lt a a = false;
  py_lt_trans : forall a b c, py_lt a b = true -> py_lt b c = true -> py_lt a c = true;
  py_lt_total : forall a b, a <> b -> py_lt a b = true \/ py_lt b a = true
}.

#[export] Program Instance PyOrd_Z : PyOrd Z := {| py_lt := Z.ltb |}.
Next Obligation. intros a. apply Z.ltb_irrefl. Qed.
Next Obligation. intros a b c H1 H2. apply Z.ltb_lt in H1, H2. apply Z.ltb_lt. lia. Qed.
Next Obligation.
  intros a b Hne. destruct (Z.lt_total a b) as [H|[H|H]]; [left|done|right]; by apply Z.ltb_lt.
Qed.

(** Tuples: [(a1, b1) < (a2, b2)] compares [a] first, then [b]. *)
Definition lex_lt {K1 K2} `{EqDecision K1} `{PyOrd K1} `{PyOrd K2}
    (x y : K1 * K2) : bool :=
  if decide (x.1 = y.1) then py_lt x.2 y.2 else py_lt x.1 y.1.

#[export] Program Instance PyOrd_prod {K1 K2} `{EqDecision K1} `{PyOrd K1} `{PyOrd K2} :
  PyOrd (K1 * K2) := {| py_lt := lex_lt |}.
Next Obligation.
  intros K1 K2 ? ? ? [a b]. unfold lex_lt. simpl. rewrite decide_True; [|done]. apply py_lt_irrefl.
Qed.
Next Obligation.
  intros K1 K2 ? ? ? [a1 b1] [a2 b2] [a3 b3] Hab Hbc. unfold lex_lt in *. simpl in *.
  destruct (decide (a1 = a2)) as [E12|H12], (decide (a2 = a3)) as [E23|H23]; subst.
  - rewrite decide_True; eauto using py_lt_trans.
  - by rewrite decide_False.
  - by rewrite decide_False.
  - destruct (decide (a1 = a3)) as [E13|H13]; subst.
    + pose proof (py_lt_trans _ _ _ Hab Hbc) as Hcy. by rewrite py_lt_irrefl in Hcy.
    + eauto using py_lt_trans.
Qed.
Next Obligation.
  intros K1 K2 ? ? ? [a1 b1] [a2 b2] Hne. unfold lex_lt. simpl.
  case_decide; subst.
  - rewrite decide_True; [|done]. apply py_lt_total. congruence.
  - rewrite decide_False; [|congruence]. by apply py_lt_total.
Qed.

(** ** The stable insertion sort *)

Section StableSort.
Context {A K : Type} (key : A -> K) (lt : K -> K -> bool).

  (** Insert [x] before the first element whose key is not smaller. *)
Fixpoint insert_key (x : A) (l : list A) : list A :=
    match l with
    | [] => [x]
    | y :: l' => if lt (key y) (key x) then y :: insert_key x l' else x :: l
    end.

Fixpoint sort_key (l : list A) : list A :=
    match l with
    | [] => []
    | x :: l' => insert_key x (sort_key l')
    end.

  (** [l] is sorted: no element is strictly smaller than an earlier one. *)
Definition key_sorted (l : list A) : Prop :=
    StronglySorted (fun x y => lt (key y) (key x) = false) l.

  (** The elements of [l] with key [k], in order. *)
Definition with_key `{EqDecision K} (k : K) (l : list A) : list A :=
    filter (fun y => key y = k) l.

Hypothesis lt_irrefl : forall a, lt a a = false.
Hypothesis lt_trans : forall a b c, lt a b = true -> lt b c = true -> lt a c = true.
Hypothesis lt_total : forall a b, a <> b -> lt a b = true \/ lt b a = true.

Lemma insert_key_perm x l : Permutation (insert_key x l) (x :: l).
  Proof.
    induction l as [|y l IH]; simpl; [done|].
    destruct (lt (key y) (key x)); [|done].
    rewrite IH. apply perm_swap.
  Qed.

Lemma sort_key_perm l : Permutation (sort_key l) l.
  Proof.
    induction l as [|x l IH]; simpl; [done|].
    rewrite insert_key_perm. by constructor.
  Qed.

Lemma lt_not_sym a b : lt a b = true -> lt b a = false.
  Proof.
    intros H. destruct (lt b a) eqn:E; [|done].
    rewrite <- (lt_irrefl a). symmetry. eauto.
  Qed.

  (** Not-smaller is transitive: the negation of a strict total order. *)
Lemma not_lt_trans `{EqDecision K} a b c :
    lt b a = false -> lt c b = false -> lt c a = false.
  Proof.
    intros H1 H2. destruct (lt c a) eqn:E; [|done].
    destruct (decide (b = a)) as [->|Hba]; [by rewrite E in H2|].
    destruct (lt_total b a Hba) as [H|H]; [congruence|].
    rewrite (lt_trans c a b E H) in H2. done.
  Qed.

Lemma Forall_insert_key (P : A -> Prop) x l :
    Forall P (insert_key x l) <-> P x /\ Forall P l.
  Proof. rewrite (insert_key_perm x l). apply Forall_cons. Qed.

Context `{EqDecision K}.

Lemma insert_key_sorted x l : key_sorted l -> key_sorted (insert_key x l).
  Proof.
    unfold key_sorted. induction l as [|y l IH]; simpl; intros Hs.
    { repeat constructor. }
    apply StronglySorted_inv in Hs as [Hs Hy].
    destruct (lt (key y) (key x)) eqn:Eyx.
    - constructor; [by apply IH|].
      apply Forall_insert_key. split; [by apply lt_not_sym|done].
    - constructor; [by constructor|]. constructor; [done|].
      eapply Forall_impl; [exact Hy|]. simpl. intros z Hz. eauto using not_lt_trans.
  Qed.

Lemma sort_key_sorted l : key_sorted (sort_key l).
  Proof.
    induction l as [|x l IH]; simpl; [constructor|]. by apply insert_key_sorted.
  Qed.

Lemma with_key_insert k x l :
    with_key k (insert_key x l) =
      if decide (key x = k) then x :: with_key k l else with_key k l.
  Proof.
    unfold with_key. induction l as [|y l IH]; simpl.
    - by rewrite filter_cons, filter_nil.
    - destruct (lt (key y) (key x)) eqn:Eyx.
      + rewrite !filter_cons, IH.
        destruct (decide (key y = k)) as [Ey|], (decide (key x = k)) as [Ex|]; try done.
        rewrite Ey, Ex, lt_irrefl in Eyx. done.
      + by rewrite filter_cons.
  Qed.

  (** Stability: among equal keys the input order is kept. *)
Lemma sort_key_stable k l : with_key k (sort_key l) = with_key k l.
  Proof.
    induction l as [|x l IH]; simpl; [done|].
    rewrite with_key_insert, IH. unfold with_key. by rewrite filter_cons.
  Qed.

  (** The three properties determine the sorted list. *)
Lemma key_sorted_unique l1 l2 :
    Permutation l1 l2 -> key_sorted l1 -> key_sorted l2 ->
    (forall k, with_key k l1 = with_key k l2) -> l1 = l2.
  Proof.
    unfold key_sorted, with_key.
    revert l2. induction l1 as [|x r1 IH]; intros l2 Hp Hs1 Hs2 Hk.
    { symmetry. by apply Permutation_nil. }
    destruct l2 as [|y r2]; [by apply Permutation_sym, Permutation_nil_cons in Hp|].
    apply StronglySorted_inv in Hs1 as [Hs1 Hx].
    apply StronglySorted_inv in Hs2 as [Hs2 Hy].
    assert (key x = key y) as Hxy.
    { destruct (decide (key x = key y)) as [|Hne]; [done|exfalso].
      assert (y ∈ x :: r1) as Hy1 by (rewrite Hp; set_solver).
      assert (x ∈ y :: r2) as Hx2 by (rewrite <- Hp; set_solver).
      apply elem_of_cons in Hy1 as [->|Hy1]; [done|].
      apply elem_of_cons in Hx2 as [->|Hx2]; [done|].
      rewrite Forall_forall in Hx, Hy.
      specialize (Hx y Hy1). specialize (Hy x Hx2). simpl in *.
      destruct (lt_total _ _ Hne); congruence. }
    pose proof (Hk (key x)) as Hkx. rewrite !filter_cons in Hkx.
    rewrite !decide_True in Hkx by done. injection Hkx as <- Hkx.
    f_equal. apply IH; [by apply Permutation_cons_inv in Hp|done|done|].
    intros k. specialize (Hk k). rewrite !filter_cons in Hk.
    destruct (decide (key x = k)); [|done]. by injection Hk.
  Qed.
End StableSort.

(** ** [list.sort(key=f)] and [list.sort(key=f, reverse=True)] *)

Definition py_sort {A K} `{PyOrd K} (key : A -> K) (l : list A) : list A :=
  sort_key key py_lt l.

Definition py_sort_reverse {A K} `{PyOrd K} (key : A -> K) (l : list A) : list A :=
  sort_key key (fun a b => py_lt b a) l.

Section PySortSpec.
Context {A K : Type} `{EqDecision K} `{PyOrd K} (key : A -> K).

Lemma rev_lt_irrefl a : (fun a b => py_lt b a) a a = false.
  Proof. apply py_lt_irrefl. Qed.

Lemma rev_lt_trans a b c :
    py_lt b a = true -> py_lt c b = true -> py_lt c a = true.
  Proof. intros H1 H2. eauto using py_lt_trans. Qed.

Lemma rev_lt_total a b : a <> b -> py_lt b a = true \/ py_lt a b = true.
  Proof. intros Hne. destruct (py_lt_total a b Hne); auto. Qed.

Lemma py_sort_characterization (l l' : list A) :
    Permutation (py_sort key l) l /\ key_sorted key py_lt (py_sort key l) /\
    (forall k, with_key key k (py_sort key l) = with_key key k l) /\
    (Permutation l' l -> key_sorted key py_lt l' ->
     (forall k, with_key key k l' = with_key key k l) -> l' = py_sort key l).
  Proof.
    unfold py_sort.
    pose proof (@py_lt_irrefl K _). pose proof (@py_lt_trans K _).
    pose proof (@py_lt_total K _).
    split_and!; auto using sort_key_perm, sort_key_sorted, sort_key_stable.
    intros Hp Hs Hk. eapply (key_sorted_unique key py_lt); eauto using sort_key_sorted.
    - by rewrite sort_key_perm.
    - intros k. by rewrite sort_key_stable.
  Qed.

(** [list.sort(key=f)]: a permutation, sorted by [f], stable; and the
      only list with these three properties. *)
Theorem py_sort_spec (l l' : list A) :
    Permutation (py_sort key l) l /\ key_sorted key py_lt (py_sort key l) /\
    (forall k, with_key key k (py_sort key l) = with_key key k l) /\
    (Permutation l' l -> key_sorted key py_lt l' ->
     (forall k, with_key key k l' = with_key key k l) -> l' = py_sort key l).
  Proof. apply py_sort_characterization. Qed.

  (** [list.sort(key=f, reverse=True)]: the same with the order reversed;
      equal keys still keep their input order. *)
Theorem py_sort_reverse_spec (l l' : list A) :
    Permutation (py_sort_reverse key l) l /\
    key_sorted key (fun a b => py_lt b a) (py_sort_reverse key l) /\
    (forall k, with_key key k (py_sort_reverse key l) = with_key key k l) /\
    (Permutation l' l -> key_sorted key (fun a b => py_lt b a) l' ->
     (forall k, with_key key k l' = with_key key k l) -> l' = py_sort_reverse key l).
  Proof.
    unfold py_sort_reverse.
    pose proof rev_lt_irrefl. pose proof rev_lt_trans. pose proof rev_lt_total.
    split_and!; auto using sort_key_perm, sort_key_sorted, sort_key_stable.
    intros Hp Hs Hk. eapply (key_sorted_unique key (fun a b => py_lt b a)); eauto using sort_key_sorted.
    - by rewrite sort_key_perm.
    - intros k. by rewrite sort_key_stable.
  Qed.
End PySortSpec.

(** ** Slices and projections of a sorted list *)

Section SortedSlices.
Context {A : Type} (R : relation A).

Lemma StronglySorted_take n l : StronglySorted R l -> StronglySorted R (take n l).
Proof. rewrite <- (take_drop n l) at 1. apply StronglySorted_app_1_l. Qed.

Lemma StronglySorted_drop n l : StronglySorted R l -> StronglySorted R (drop n l).
Proof. rewrite <- (take_drop n l) at 1. apply StronglySorted_app_1_r. Qed.

Lemma StronglySorted_py_slice l i j : StronglySorted R l -> StronglySorted R (py_slice l i j).
Proof. intros H. unfold py_slice. by apply StronglySorted_take, StronglySorted_drop. Qed.
End SortedSlices.

Lemma StronglySorted_map {A B} (R : relation B) (f : A -> B) l :
  StronglySorted (fun x y => R (f x) (f y)) l -> StronglySorted R (map f l).
Proof.
  induction 1 as [|x l _ IH Hx]; simpl; constructor; [done|].
  apply Forall_map. exact Hx.
Qed.
