(* ===== verification/Records.v ===== *)
(** The data model: datetimes, media attachments, the [Post], [Comment]
    and [User] objects, and the storage documents of the [posts],
    [comments] and [users] collections.

    Each object is a Module with a record [t] whose fields are the
    instance attributes set by the Python constructor, with the source's
    names.  A storage document is a record with one optional field per key
    written by [to_dict]: [None] is a missing key, so the readers'
    [doc.get(key, default)] is [default] on [None].  Values of the wrong
    type in storage are not modelled. *)

From S2P Require Import Prelude.

(** ** Datetimes

    A Python [datetime] is a wall-clock time (microseconds since the
    epoch) and an optional UTC offset (microseconds); [None] is a naive
    datetime.  Aware datetimes compare by the instant they denote. *)

Record datetime := mk_datetime { dt_wall : Z; dt_tz : option Z }.

#[export] Instance datetime_eq_dec : EqDecision datetime.
Proof. solve_decision. Qed.

Definition dt_instant (d : datetime) : Z :=
  (dt_wall d - default 0 (dt_tz d))%Z.

(** [datetime.now(timezone.utc)] at clock [t]. *)
Definition utc_now (t : Z) : datetime := mk_datetime t (Some 0%Z).

(** [datetime.min.replace(tzinfo=timezone.utc)]: 0001-01-01T00:00Z. *)
Definition dt_min : datetime := mk_datetime (-62135596800000000) (Some 0%Z).

(** [ForumManager._ensure_aware_datetime] on a datetime or [None]: a
    naive datetime is read as UTC.  (An ISO string that parses is the
    datetime it denotes; one that does not parse is [None].) *)
Definition ensure_aware (o : option datetime) : option datetime :=
  match o with
  | None => None
  | Some d =>
      match dt_tz d with
      | None => Some (mk_datetime (dt_wall d) (Some 0%Z))
      | Some _ => Some d
      end
  end.

(** The sort key of the listings:
    [_ensure_aware_datetime(x.created_at) or datetime.min(utc)]. *)
Definition time_key (o : option datetime) : Z :=
  match ensure_aware o with
  | Some d => dt_instant d
  | None => dt_instant dt_min
  end.

Definition is_aware (o : option datetime) : bool :=
  match o with Some d => bool_decide (is_Some (dt_tz d)) | None => false end.

(** ** Media attachments ([schemas.ForumManager.MediaFile]) *)

Record Media := mk_media {
  file_type : string;
  file_url : string;
  thumbnail_url : option string
}.

#[export] Instance Media_eq_dec : EqDecision Media.
Proof. solve_decision. Qed.

(** ** Post ([app/objects/Post.py]) *)

Module Post.
Record t := mk {
    post_id : Z;
    post_content : string;
    post_type : string;
    creator_user_id : string;
    creator_user_name : string;
    media_files : list Media;
    post_category : string;
    tags : list string;
    like_count : Z;
    comment_count : Z;
    view_count : Z;
    liked_user_ids : list string;
    comment_ids : list Z;
    post_status : string;
    created_at : option datetime;
    updated_at : option datetime
  }.

  (** The fields a like or unlike rewrites. *)
Definition set_likes (p : t) (liked : list string) (n : Z) (upd : option datetime) : t :=
    mk p.(post_id) p.(post_content) p.(post_type) p.(creator_user_id)
       p.(creator_user_name) p.(media_files) p.(post_category) p.(tags)
       n p.(comment_count) p.(view_count) liked p.(comment_ids)
       p.(post_status) p.(created_at) upd.

  (** The fields a new comment rewrites. *)
Definition set_comments (p : t) (ids : list Z) (n : Z) (upd : option datetime) : t :=
    mk p.(post_id) p.(post_content) p.(post_type) p.(creator_user_id)
       p.(creator_user_name) p.(media_files) p.(post_category) p.(tags)
       p.(like_count) n p.(view_count) p.(liked_user_ids) ids
       p.(post_status) p.(created_at) upd.
End Post.

(** ** Comment ([app/objects/Comment.py]) *)

Module Comment.
Record t := mk {
    comment_id : Z;
    post_id : option Z;
    comment_content : string;
    commenter_user_id : string;
    commenter_user_name : string;
    like_count : Z;
    liked_user_ids : list string;
    comment_status : string;
    created_at : option datetime
  }.

Definition set_likes (c : t) (liked : list string) (n : Z) : t :=
    mk c.(comment_id) c.(post_id) c.(comment_content) c.(commenter_user_id)
       c.(commenter_user_name) n liked c.(comment_status) c.(created_at).
End Comment.

(** ** User ([app/objects/User.py]) *)

Module User.
Record t := mk {
    user_id : string;
    telegram_user_name : option string;
    gender : option Z;
    age : option Z;
    target_gender : option Z;
    user_personality_summary : option string;
    match_ids : list Z;
    blocked_user_ids : list string;
    post_ids : list Z;
    liked_post_ids : list Z
  }.

  (** [User.__init__] *)
Definition new (telegram_user_name : option string) (gender : option Z)
      (user_id : string) : t :=
    mk user_id telegram_user_name gender None None None [] [] [] [].

  (** [User.edit_data]: each argument that is not [None] overwrites. *)
Definition edit_data (u : t) (new_name : option string) (new_gender new_age new_target : option Z)
      (new_summary : option string) : t :=
    let pick {A} (n : option A) (o : option A) := match n with Some _ => n | None => o end in
    mk u.(user_id) (pick new_name u.(telegram_user_name)) (pick new_gender u.(gender))
       (pick new_age u.(age)) (pick new_target u.(target_gender))
       (pick new_summary u.(user_personality_summary))
       u.(match_ids) u.(blocked_user_ids) u.(post_ids) u.(liked_post_ids).

Definition get_user_id (u : t) : string := u.(user_id).

Definition block_user (u : t) (b : string) : t :=
    mk u.(user_id) u.(telegram_user_name) u.(gender) u.(age) u.(target_gender)
       u.(user_personality_summary) u.(match_ids) (append_unique b u.(blocked_user_ids))
       u.(post_ids) u.(liked_post_ids).

Definition like_match (u : t) (m : Z) : t :=
    mk u.(user_id) u.(telegram_user_name) u.(gender) u.(age) u.(target_gender)
       u.(user_personality_summary) (append_unique m u.(match_ids)) u.(blocked_user_ids)
       u.(post_ids) u.(liked_post_ids).

Definition set_post_ids (u : t) (ids : list Z) : t :=
    mk u.(user_id) u.(telegram_user_name) u.(gender) u.(age) u.(target_gender)
       u.(user_personality_summary) u.(match_ids) u.(blocked_user_ids) ids u.(liked_post_ids).

Definition set_liked_post_ids (u : t) (ids : list Z) : t :=
    mk u.(user_id) u.(telegram_user_name) u.(gender) u.(age) u.(target_gender)
       u.(user_personality_summary) u.(match_ids) u.(blocked_user_ids) u.(post_ids) ids.

  (** [add_post], [remove_post], [add_liked_post], [remove_liked_post] *)
Definition add_post (u : t) (pid : Z) : t := set_post_ids u (append_unique pid u.(post_ids)).
Definition remove_post (u : t) (pid : Z) : t :=
    set_post_ids u (if py_in pid u.(post_ids) then py_remove pid u.(post_ids) else u.(post_ids)).
Definition add_liked_post (u : t) (pid : Z) : t :=
    set_liked_post_ids u (append_unique pid u.(liked_post_ids)).
Definition remove_liked_post (u : t) (pid : Z) : t :=
    set_liked_post_ids u
      (if py_in pid u.(liked_post_ids) then py_remove pid u.(liked_post_ids) else u.(liked_post_ids)).
End User.

(** ** Storage documents *)

Module PostDoc.
Record t := mk {
    _id : Z;
    post_content : option string;
    post_type : option string;
    creator_user_id : option string;
    creator_user_name : option string;
    media_files : option (list Media);
    like_count : option Z;
    comment_count : option Z;
    view_count : option Z;
    liked_user_ids : option (list string);
    comment_ids : option (list Z);
    post_category : option string;
    tags : option (list string);
    post_status : option string;
    created_at : option datetime;
    updated_at : option datetime
  }.
End PostDoc.

Module CommentDoc.
Record t := mk {
    _id : Z;
    post_id : option Z;
    comment_content : option string;
    commenter_user_id : option string;
    commenter_user_name : option string;
    like_count : option Z;
    liked_user_ids : option (list string);
    comment_status : option string;
    created_at : option datetime
  }.
End CommentDoc.

(** The fields of a [users] document the forum reads or writes. *)
Module UserDoc.
Record t := mk {
    post_ids : option (list Z);
    liked_post_ids : option (list Z)
  }.
End UserDoc.

(** [Post.to_dict] *)
Definition post_to_dict (p : Post.t) : PostDoc.t :=
  PostDoc.mk p.(Post.post_id) (Some p.(Post.post_content)) (Some p.(Post.post_type))
    (Some p.(Post.creator_user_id)) (Some p.(Post.creator_user_name))
    (Some p.(Post.media_files)) (Some p.(Post.like_count)) (Some p.(Post.comment_count))
    (Some p.(Post.view_count)) (Some p.(Post.liked_user_ids)) (Some p.(Post.comment_ids))
    (Some p.(Post.post_category)) (Some p.(Post.tags)) (Some p.(Post.post_status))
    p.(Post.created_at) p.(Post.updated_at).

(** [Comment.to_dict] *)
Definition comment_to_dict (c : Comment.t) : CommentDoc.t :=
  CommentDoc.mk c.(Comment.comment_id) c.(Comment.post_id) (Some c.(Comment.comment_content))
    (Some c.(Comment.commenter_user_id)) (Some c.(Comment.commenter_user_name))
    (Some c.(Comment.like_count)) (Some c.(Comment.liked_user_ids))
    (Some c.(Comment.comment_status)) c.(Comment.created_at).

(** [{"$set": {k: v for k, v in doc.items() if k != "_id"}}] applied to a
    stored document: every key of the new document overwrites.  The
    datetime fields (and a comment's [post_id]) are always present in a
    [to_dict] document, possibly as [None] (a stored null, read back as
    [None] like a missing key), so they overwrite unconditionally. *)
Definition post_doc_set (old new : PostDoc.t) : PostDoc.t :=
  let o {A} (n o : option A) := match n with Some _ => n | None => o end in
  PostDoc.mk old.(PostDoc._id)
    (o new.(PostDoc.post_content) old.(PostDoc.post_content))
    (o new.(PostDoc.post_type) old.(PostDoc.post_type))
    (o new.(PostDoc.creator_user_id) old.(PostDoc.creator_user_id))
    (o new.(PostDoc.creator_user_name) old.(PostDoc.creator_user_name))
    (o new.(PostDoc.media_files) old.(PostDoc.media_files))
    (o new.(PostDoc.like_count) old.(PostDoc.like_count))
    (o new.(PostDoc.comment_count) old.(PostDoc.comment_count))
    (o new.(PostDoc.view_count) old.(PostDoc.view_count))
    (o new.(PostDoc.liked_user_ids) old.(PostDoc.liked_user_ids))
    (o new.(PostDoc.comment_ids) old.(PostDoc.comment_ids))
    (o new.(PostDoc.post_category) old.(PostDoc.post_category))
    (o new.(PostDoc.tags) old.(PostDoc.tags))
    (o new.(PostDoc.post_status) old.(PostDoc.post_status))
    new.(PostDoc.created_at) new.(PostDoc.updated_at).

Definition comment_doc_set (old new : CommentDoc.t) : CommentDoc.t :=
  let o {A} (n o : option A) := match n with Some _ => n | None => o end in
  CommentDoc.mk old.(CommentDoc._id)
    new.(CommentDoc.post_id)
    (o new.(CommentDoc.comment_content) old.(CommentDoc.comment_content))
    (o new.(CommentDoc.commenter_user_id) old.(CommentDoc.commenter_user_id))
    (o new.(CommentDoc.commenter_user_name) old.(CommentDoc.commenter_user_name))
    (o new.(CommentDoc.like_count) old.(CommentDoc.like_count))
    (o new.(CommentDoc.liked_user_ids) old.(CommentDoc.liked_user_ids))
    (o new.(CommentDoc.comment_status) old.(CommentDoc.comment_status))
    new.(CommentDoc.created_at).

(** ** Count/list parity

    [like_count == len(liked_user_ids)] with no user twice, and
    [comment_count == len(comment_ids)]: the invariant of section 3 of the
    specification, for objects and for stored documents (read with the
    loaders' defaults). *)

Definition post_parity (p : Post.t) : Prop :=
  p.(Post.like_count) = Z.of_nat (length p.(Post.liked_user_ids)) /\
  NoDup p.(Post.liked_user_ids) /\
  p.(Post.comment_count) = Z.of_nat (length p.(Post.comment_ids)).

Definition comment_parity (c : Comment.t) : Prop :=
  c.(Comment.like_count) = Z.of_nat (length c.(Comment.liked_user_ids)) /\
  NoDup c.(Comment.liked_user_ids).

Definition post_doc_parity (d : PostDoc.t) : Prop :=
  default 0%Z d.(PostDoc.like_count) = Z.of_nat (length (default [] d.(PostDoc.liked_user_ids))) /\
  NoDup (default [] d.(PostDoc.liked_user_ids)) /\
  default 0%Z d.(PostDoc.comment_count) = Z.of_nat (length (default [] d.(PostDoc.comment_ids))).

Definition comment_doc_parity (d : CommentDoc.t) : Prop :=
  default 0%Z d.(CommentDoc.like_count) = Z.of_nat (length (default [] d.(CommentDoc.liked_user_ids))) /\
  NoDup (default [] d.(CommentDoc.liked_user_ids)).

Lemma post_to_dict_parity p : post_parity p -> post_doc_parity (post_to_dict p).
Proof. done. Qed.

Lemma comment_to_dict_parity c : comment_parity c -> comment_doc_parity (comment_to_dict c).
Proof. done. Qed.

(** A [$set] with a [to_dict] document leaves exactly that document
    (under the stored key). *)
Lemma post_doc_set_to_dict old p :
  post_doc_set old (post_to_dict p) = post_to_dict p <-> old.(PostDoc._id) = p.(Post.post_id).
Proof.
  split; [intros H; apply (f_equal PostDoc._id) in H; exact H|].
  intros H. unfold post_doc_set, post_to_dict. simpl. by rewrite H.
Qed.

Lemma comment_doc_set_to_dict old c :
  comment_doc_set old (comment_to_dict c) = comment_to_dict c <->
  old.(CommentDoc._id) = c.(Comment.comment_id).
Proof.
  split; [intros H; apply (f_equal CommentDoc._id) in H; exact H|].
  intros H. unfold comment_doc_set, comment_to_dict. simpl. by rewrite H.
Qed.
