(* ===== verification/PyInt.v ===== *)
(** Python integers as strings: [str(n)] for an [int], and the coercion
    of a [str] into an [int] field that pydantic applies to the response
    models' identifiers; reading back what [str] writes gives the integer
    back. *)

From S2P Require Import Prelude.
From stdpp Require Import pretty.
From Stdlib Require Import Ascii.

(** ** Integers as strings *)

(** [str(n)] for a Python [int]: its decimal digits, with [-] when negative. *)
Definition py_str_int (n : Z) : string := pretty n.

Definition digit_value (c : ascii) : option Z :=
  let n := nat_of_ascii c in
  if (48 <=? n)%nat && (n <=? 57)%nat then Some (Z.of_nat n - 48)%Z else None.

Fixpoint parse_digits (s : string) (acc : Z) : option Z :=
  match s with
  | EmptyString => Some acc
  | String c s' =>
      match digit_value c with
      | Some d => parse_digits s' (10 * acc + d)%Z
      | None => None
      end
  end.

(** pydantic's coercion of a [str] into an [int] field: an optional sign
    and one or more decimal digits (surrounding whitespace and digit
    separators, which [str(int)] never produces, are not modelled). *)
Definition int_of_str (s : string) : option Z :=
  match s with
  | EmptyString => None
  | String c rest =>
      if Ascii.eqb c "-" then
        (if String.eqb rest "" then None else option_map Z.opp (parse_digits rest 0))
      else if Ascii.eqb c "+" then
        (if String.eqb rest "" then None else parse_digits rest 0)
      else parse_digits s 0
  end.

(** ** [str(int)] and back *)

Lemma digit_value_pretty_N_char d : (d < 10)%N -> digit_value (pretty_N_char d) = Some (Z.of_N d).
Proof.
  intros Hd. assert (d = 0 \/ d = 1 \/ d = 2 \/ d = 3 \/ d = 4 \/ d = 5 \/ d = 6 \/ d = 7 \/ d = 8 \/ d = 9)%N
    as H by lia.
  repeat destruct H as [->|H]; [..|subst]; reflexivity.
Qed.

(** Reading back the digits [pretty_N_go] prepends. *)
Lemma parse_digits_pretty_N_go x s : parse_digits (pretty_N_go x s) 0 = parse_digits s (Z.of_N x).
Proof.
  revert s. induction (N.lt_wf_0 x) as [x _ IH]; intros s.
  destruct (decide (x = 0%N)) as [->|Hx]; [by rewrite pretty_N_go_0|].
  rewrite pretty_N_go_step by lia. rewrite IH by (apply N.div_lt; lia). simpl.
  rewrite digit_value_pretty_N_char by (apply N.mod_lt; lia). f_equal.
  rewrite (N.div_mod x 10) at 3 by lia. lia.
Qed.

(** For [x > 0], [pretty_N_go x s] starts with a digit. *)
Lemma pretty_N_go_head x s :
  x = 0%N \/ exists c s', pretty_N_go x s = String c s' /\ is_Some (digit_value c).
Proof.
  revert s. induction (N.lt_wf_0 x) as [x _ IH]; intros s.
  destruct (decide (x = 0%N)) as [->|Hx]; [by left|right].
  rewrite pretty_N_go_step by lia.
  destruct (IH (x `div` 10)%N ltac:(apply N.div_lt; lia) (String (pretty_N_char (x `mod` 10)) s))
    as [->|H]; [|done].
  rewrite pretty_N_go_0. eexists _, _. split; [done|].
  rewrite digit_value_pretty_N_char by (apply N.mod_lt; lia). done.
Qed.

Lemma digit_not_sign c : is_Some (digit_value c) -> Ascii.eqb c "-" = false /\ Ascii.eqb c "+" = false.
Proof.
  intros [d Hd]. split; apply Ascii.eqb_neq; intros ->; discriminate.
Qed.

Lemma pretty_pos_shape p : exists c s', pretty (Npos p) = String c s' /\ is_Some (digit_value c).
Proof.
  unfold pretty, pretty_N. rewrite decide_False by done.
  by destruct (pretty_N_go_head (Npos p) "") as [H|H].
Qed.

(** [int(str(n)) = n]: pydantic reads back every integer the service
    wrote with [str]. *)
Theorem int_of_str_py_str_int n : int_of_str (py_str_int n) = Some n.
Proof.
  unfold py_str_int. destruct n as [|p|p]; [done| |];
    destruct (pretty_pos_shape p) as (c & s' & Hs & Hd); unfold pretty at 1, pretty_Z.
  - change (pretty p) with (pretty (Npos p)). rewrite Hs. unfold int_of_str.
    destruct (digit_not_sign c Hd) as [-> ->]. rewrite <- Hs.
    unfold pretty, pretty_N. rewrite decide_False by done. by rewrite parse_digits_pretty_N_go.
  - change (int_of_str (String "-" (pretty (Npos p))) = Some (Z.neg p)).
    rewrite Hs. unfold int_of_str. rewrite Ascii.eqb_refl. cbn [String.eqb option_map]. rewrite <- Hs.
    unfold pretty, pretty_N. rewrite decide_False by done. by rewrite parse_digits_pretty_N_go.
Qed.

