(* ===== verification/TimeDisplay.v ===== *)
(** The time shown beside a post: [ForumManager._format_time_display]
    ([app/services/https/ForumManager.py]), [d.strftime("%m-%d %H:%M")].

    A [datetime] of the model is a wall-clock count of microseconds since
    1970-01-01 00:00 with an optional UTC offset ([Records]).  The fields
    [strftime] prints are the proleptic Gregorian calendar date and the
    time of day of the wall clock; the date is computed from the day count
    by [civil_from_days] (era/day-of-era arithmetic) and is proved to be
    the inverse of CPython's own [datetime._ymd2ord], the reference
    definition of the calendar, with every field in range. *)

From S2P Require Import Prelude Records.
From Stdlib Require Import Ascii.

Local Open Scope Z_scope.

(** ** The reference calendar: CPython's [datetime._ymd2ord] *)

(** [_is_leap(year)] *)
Definition is_leap (year : Z) : bool :=
  (year mod 4 =? 0) && (negb (year mod 100 =? 0) || (year mod 400 =? 0)).

(** [_DAYS_IN_MONTH] and [_days_in_month(year, month)] *)
Definition days_in_month (year month : Z) : Z :=
  if (month =? 2) && is_leap year then 29 else
  match month with
  | 1 | 3 | 5 | 7 | 8 | 10 | 12 => 31
  | 2 => 28
  | _ => 30
  end.

(** [_DAYS_BEFORE_MONTH[month]] for months 1 to 12. *)
Definition days_before_month_table (month : Z) : Z :=
  match month with
  | 1 => 0 | 2 => 31 | 3 => 59 | 4 => 90 | 5 => 120 | 6 => 151
  | 7 => 181 | 8 => 212 | 9 => 243 | 10 => 273 | 11 => 304 | _ => 334
  end.

(** [_days_before_year(year)] *)
Definition days_before_year (year : Z) : Z :=
  let y := year - 1 in y * 365 + y / 4 - y / 100 + y / 400.

(** [_days_before_month(year, month)] *)
Definition days_before_month (year month : Z) : Z :=
  days_before_month_table month + (if (2 <? month) && is_leap year then 1 else 0).

(** [_ymd2ord(year, month, day)]: 0001-01-01 is day 1. *)
Definition ymd2ord (year month day : Z) : Z :=
  days_before_year year + days_before_month year month + day.

(** The ordinal of 1970-01-01. *)
Definition epoch_ordinal : Z := 719163.

(** ** The date of a day count *)

(** Year of era, month and day of a day of a 400-year era that starts on
    a March 1st. *)
Definition civil_of_doe (doe : Z) : Z * Z * Z :=
  let yoe := (doe - doe / 1460 + doe / 36524 - doe / 146096) / 365 in
  let doy := doe - (365 * yoe + yoe / 4 - yoe / 100) in
  let mp := (5 * doy + 2) / 153 in
  let d := doy - (153 * mp + 2) / 5 + 1 in
  let m := if mp <? 10 then mp + 3 else mp - 9 in
  (yoe + (if m <=? 2 then 1 else 0), m, d).

(** The date [(year, month, day)] of day [z] counted from 1970-01-01. *)
Definition civil_from_days (z : Z) : Z * Z * Z :=
  let z := z + 719468 in
  let '(y, m, d) := civil_of_doe (z mod 146097) in
  (y + z / 146097 * 400, m, d).

(** ** [_format_time_display] *)

Definition us_per_day : Z := 86400000000.
Definition us_per_hour : Z := 3600000000.
Definition us_per_minute : Z := 60000000.

Definition wall_date (d : datetime) : Z * Z * Z := civil_from_days (dt_wall d / us_per_day).
Definition wall_hour (d : datetime) : Z := (dt_wall d mod us_per_day) / us_per_hour.
Definition wall_minute (d : datetime) : Z := (dt_wall d mod us_per_hour) / us_per_minute.

Definition digit_char (n : Z) : ascii := ascii_of_nat (48 + Z.to_nat n).

(** [%02d] *)
Definition pad2 (n : Z) : string :=
  String (digit_char (n / 10)) (String (digit_char (n mod 10)) EmptyString).

(** [strftime("%m-%d %H:%M")] *)
Definition strftime_md_hm (d : datetime) : string :=
  let '(_, month, day) := wall_date d in
  pad2 month +:+ "-" +:+ pad2 day +:+ " " +:+ pad2 (wall_hour d) +:+ ":" +:+ pad2 (wall_minute d).

(** [_format_time_display(dt)]: [""] for a falsy [dt] ([None]; a datetime
    is always truthy), otherwise the wall clock's [MM-DD HH:mm].  The
    string branch ([fromisoformat]) does not arise: [created_at] is a
    datetime or [None] in every cached entity. *)
Definition format_time_display (o : option datetime) : string :=
  match o with
  | None => ""
  | Some d => strftime_md_hm d
  end.

(** ** Checking a property of every day of an era *)

(** [f] holds at [k], [k + 1], ..., [k + n - 1]. *)
Fixpoint all_from (f : Z -> bool) (k : Z) (n : nat) : bool :=
  match n with
  | O => true
  | S n' => f k && all_from f (k + 1) n'
  end.

Lemma all_from_spec f n : forall k, all_from f k n = true ->
  forall j, k <= j < k + Z.of_nat n -> f j = true.
Proof.
  induction n as [|n IH]; intros k H j Hj; simpl in *; [lia|].
  apply andb_true_iff in H as [Hk Hn].
  destruct (decide (j = k)) as [->|]; [done|]. apply (IH (k + 1)); [done|lia].
Qed.

(** [f] holds at [k], ..., [k + n - 1], for a count [n] given as an integer. *)
Definition all_range (f : Z -> bool) (k n : Z) : bool := all_from f k (Z.to_nat n).

Lemma all_range_spec f k n : all_range f k n = true -> forall j, k <= j < k + n -> f j = true.
Proof.
  intros H j Hj. apply (all_from_spec f (Z.to_nat n) k H). rewrite Z2Nat.id; lia.
Qed.

(** ** The calendar repeats every 400 years (146097 days) *)

Lemma is_leap_period y e : is_leap (y + e * 400) = is_leap y.
Proof.
  unfold is_leap.
  replace (y + e * 400) with (y + (e * 100) * 4) at 1 by lia. rewrite Z_mod_plus_full.
  replace (y + e * 400) with (y + (e * 4) * 100) at 1 by lia. rewrite Z_mod_plus_full.
  by rewrite Z_mod_plus_full.
Qed.

Lemma days_in_month_period y e m : days_in_month (y + e * 400) m = days_in_month y m.
Proof. unfold days_in_month. by rewrite is_leap_period. Qed.

Lemma days_before_year_period y e :
  days_before_year (y + e * 400) = days_before_year y + e * 146097.
Proof.
  unfold days_before_year.
  replace (y + e * 400 - 1) with ((y - 1) + (e * 100) * 4) at 2 by lia.
  replace (y + e * 400 - 1) with ((y - 1) + (e * 4) * 100) at 2 by lia.
  replace (y + e * 400 - 1) with ((y - 1) + e * 400) at 2 by lia.
  rewrite !Z.div_add by lia. lia.
Qed.

Lemma ymd2ord_period y e m d : ymd2ord (y + e * 400) m d = ymd2ord y m d + e * 146097.
Proof.
  unfold ymd2ord, days_before_month. rewrite days_before_year_period, is_leap_period. lia.
Qed.

(** Splitting a day count into eras. *)
Lemma era_split z : z = z / 146097 * 146097 + z mod 146097 /\ 0 <= z mod 146097 < 146097.
Proof. split; [pose proof (Z.div_mod z 146097); lia|apply Z.mod_pos_bound; lia]. Qed.

(** What [civil_of_doe] must give on day [doe] of an era: a valid date
    whose CPython ordinal is [doe - 305] (an era starts on March 1st of a
    year that is a multiple of 400, ordinal [-305] for year 0). *)
Definition doe_ok (doe : Z) : bool :=
  let '(y, m, d) := civil_of_doe doe in
  (ymd2ord y m d =? doe - 305) && (1 <=? m) && (m <=? 12) && (1 <=? d) && (d <=? days_in_month y m).

Lemma doe_ok_all : all_range doe_ok 0 146097 = true.
Proof. vm_compute. reflexivity. Qed.

(** What [civil_from_days] must give on a valid date of the first 400
    years: that date back. *)
Definition ymd_ok (y m d : Z) : bool :=
  negb (d <=? days_in_month y m) ||
  bool_decide (civil_from_days (ymd2ord y m d - epoch_ordinal) = (y, m, d)).

Lemma ymd_ok_all :
  all_range (fun y => all_range (fun m => all_range (ymd_ok y m) 1 31) 1 12) 0 400 = true.
Proof. vm_compute. reflexivity. Qed.

Lemma days_in_month_le y m : days_in_month y m <= 31.
Proof. unfold days_in_month. repeat case_match; lia. Qed.

Lemma civil_from_days_period z e :
  civil_from_days (z + e * 146097) =
  let '(y, m, d) := civil_from_days z in (y + e * 400, m, d).
Proof.
  unfold civil_from_days.
  replace (z + e * 146097 + 719468) with ((z + 719468) + e * 146097) by lia.
  rewrite Z_mod_plus_full, Z.div_add by lia.
  destruct (civil_of_doe _) as [[y m] d]. f_equal. f_equal. lia.
Qed.

(** ** The calendar: [civil_from_days] inverts CPython's [_ymd2ord] *)

Lemma doe_ok_at doe : 0 <= doe < 146097 ->
  let '(y, m, d) := civil_of_doe doe in
  ymd2ord y m d = doe - 305 /\ 1 <= m <= 12 /\ 1 <= d <= days_in_month y m.
Proof.
  intros Hr. pose proof (all_range_spec _ _ _ doe_ok_all doe ltac:(lia)) as H.
  unfold doe_ok in H. destruct (civil_of_doe doe) as [[y m] d].
  repeat (apply andb_true_iff in H as [H ?]). rewrite ?Z.eqb_eq, ?Z.leb_le in *. lia.
Qed.

Lemma civil_from_days_valid z :
  let '(y, m, d) := civil_from_days z in
  ymd2ord y m d = z + epoch_ordinal /\ 1 <= m <= 12 /\ 1 <= d <= days_in_month y m.
Proof.
  destruct (era_split (z + 719468)) as [Hz Hr].
  pose proof (doe_ok_at _ Hr) as H. unfold civil_from_days.
  destruct (civil_of_doe ((z + 719468) mod 146097)) as [[y m] d].
  rewrite ymd2ord_period, days_in_month_period. unfold epoch_ordinal. lia.
Qed.

(** Every day count has a valid date ([1 <= month <= 12],
    [1 <= day <= _days_in_month(year, month)]) whose CPython ordinal is
    that day: [civil_from_days] is a right inverse of [_ymd2ord] shifted
    to the Unix epoch. *)
Theorem civil_from_days_spec z :
  let '(y, m, d) := civil_from_days z in
  ymd2ord y m d = z + epoch_ordinal /\ 1 <= m <= 12 /\ 1 <= d <= days_in_month y m.
Proof. apply civil_from_days_valid. Qed.

Lemma ymd_ok_at y m d : 0 <= y < 400 -> 1 <= m <= 12 -> 1 <= d <= days_in_month y m ->
  civil_from_days (ymd2ord y m d - epoch_ordinal) = (y, m, d).
Proof.
  intros Hy Hm Hd. pose proof (days_in_month_le y m) as Hle.
  pose proof (all_range_spec _ _ _ ymd_ok_all y ltac:(lia)) as H1.
  pose proof (all_range_spec _ _ _ H1 m ltac:(lia)) as H2.
  pose proof (all_range_spec _ _ _ H2 d ltac:(lia)) as H.
  unfold ymd_ok in H. apply orb_true_iff in H as [H|H].
  - apply negb_true_iff, Z.leb_gt in H. lia.
  - by apply bool_decide_eq_true in H.
Qed.

(** Conversely every valid date is the date of its own day count:
    [civil_from_days] is also a left inverse of [_ymd2ord], so the two
    are mutually inverse between day counts and valid dates. *)
Theorem civil_from_days_ymd2ord y m d :
  1 <= m <= 12 -> 1 <= d <= days_in_month y m ->
  civil_from_days (ymd2ord y m d - epoch_ordinal) = (y, m, d).
Proof.
  intros Hm Hd.
  pose proof (Z.div_mod y 400 ltac:(lia)). pose proof (Z.mod_pos_bound y 400 ltac:(lia)).
  set (r := y mod 400) in *. set (e := y / 400) in *. clearbody r e.
  assert (y = r + e * 400) as -> by lia.
  rewrite days_in_month_period in Hd. rewrite ymd2ord_period.
  replace (ymd2ord r m d + e * 146097 - epoch_ordinal)
    with (ymd2ord r m d - epoch_ordinal + e * 146097) by lia.
  rewrite civil_from_days_period, ymd_ok_at by lia. done.
Qed.

Lemma civil_from_days_ymd2ord_witness :
  (1 <= 2 <= 12 /\ 1 <= 29 <= days_in_month 2024 2) /\
  civil_from_days (ymd2ord 2024 2 29 - epoch_ordinal) = (2024, 2, 29).
Proof.
  assert (Hm : 1 <= 2 <= 12) by lia.
  assert (Hd : 1 <= 29 <= days_in_month 2024 2) by (vm_compute; split; discriminate).
  split; [split; [exact Hm|exact Hd]|exact (civil_from_days_ymd2ord 2024 2 29 Hm Hd)].
Defined.

(** ** The time of day *)

(** A wall-clock count splits into a day, an hour, a minute and the rest. *)
Lemma wall_split w :
  w = w / us_per_day * us_per_day + (w mod us_per_day) / us_per_hour * us_per_hour
      + (w mod us_per_hour) / us_per_minute * us_per_minute + (w mod us_per_hour) mod us_per_minute /\
  0 <= (w mod us_per_day) / us_per_hour < 24 /\ 0 <= (w mod us_per_hour) / us_per_minute < 60 /\
  0 <= (w mod us_per_hour) mod us_per_minute < us_per_minute.
Proof.
  unfold us_per_day, us_per_hour, us_per_minute.
  pose proof (Z.div_mod w 86400000000 ltac:(lia)).
  pose proof (Z.div_mod (w mod 86400000000) 3600000000 ltac:(lia)).
  pose proof (Z.div_mod (w mod 3600000000) 60000000 ltac:(lia)).
  rewrite Z.mod_mod_divide in * by (exists 24; lia).
  pose proof (Z.mod_pos_bound w 86400000000 ltac:(lia)).
  pose proof (Z.mod_pos_bound w 3600000000 ltac:(lia)).
  pose proof (Z.mod_pos_bound (w mod 3600000000) 60000000 ltac:(lia)).
  split_and!; try lia; (apply Z.div_pos; lia) || (apply Z.div_lt_upper_bound; lia).
Qed.

(** Reading the printed string back: a decimal digit, and the two-digit
    number at position [i]. *)
Definition char_digit (c : ascii) : option Z :=
  let n := nat_of_ascii c in
  if (48 <=? n)%nat && (n <? 58)%nat then Some (Z.of_nat n - 48) else None.

Definition read2 (s : string) (i : nat) : option Z :=
  match String.get i s, String.get (S i) s with
  | Some a, Some b =>
      match char_digit a, char_digit b with
      | Some x, Some y => Some (10 * x + y)
      | _, _ => None
      end
  | _, _ => None
  end.

Lemma char_digit_digit_char k : 0 <= k < 10 -> char_digit (digit_char k) = Some k.
Proof.
  intros Hk. unfold char_digit, digit_char.
  rewrite nat_ascii_embedding by lia.
  replace ((48 <=? 48 + Z.to_nat k)%nat && (48 + Z.to_nat k <? 58)%nat) with true
    by (symmetry; apply andb_true_iff; split; [apply Nat.leb_le|apply Nat.ltb_lt]; lia).
  f_equal. lia.
Qed.

Lemma read2_pad2 n : 0 <= n < 100 -> read2 (pad2 n) 0 = Some n.
Proof.
  intros Hn. unfold read2, pad2. cbn [String.get].
  assert (0 <= n / 10 < 10) by (split; [apply Z.div_pos|apply Z.div_lt_upper_bound]; lia).
  assert (0 <= n mod 10 < 10) by (apply Z.mod_pos_bound; lia).
  rewrite !char_digit_digit_char by done.
  f_equal. pose proof (Z.div_mod n 10). lia.
Qed.

(** A wall-clock count is a day count, an hour, a minute and the rest in
    exactly one way. *)
Lemma wall_fields d y m dd h mi r :
  0 <= h < 24 -> 0 <= mi < 60 -> 0 <= r < us_per_minute ->
  dt_wall d = (ymd2ord y m dd - epoch_ordinal) * us_per_day + h * us_per_hour + mi * us_per_minute + r ->
  dt_wall d / us_per_day = ymd2ord y m dd - epoch_ordinal /\ wall_hour d = h /\ wall_minute d = mi.
Proof.
  intros Hh Hm Hr Hw. unfold wall_hour, wall_minute. rewrite Hw. unfold us_per_day, us_per_hour, us_per_minute in *.
  split_and!.
  - symmetry. apply (Z.div_unique _ _ _ (h * 3600000000 + mi * 60000000 + r)); lia.
  - rewrite <- (Z.mod_unique _ 86400000000 (ymd2ord y m dd - epoch_ordinal) (h * 3600000000 + mi * 60000000 + r))
      by lia.
    symmetry. apply (Z.div_unique _ _ _ (mi * 60000000 + r)); lia.
  - rewrite <- (Z.mod_unique _ 3600000000 ((ymd2ord y m dd - epoch_ordinal) * 24 + h) (mi * 60000000 + r))
      by lia.
    symmetry. apply (Z.div_unique _ _ _ r); lia.
Qed.

(** C31: [_format_time_display] of a datetime whose wall clock is the date
    [y-m-dd] of CPython's calendar, hour [h] and minute [mi] (and fewer
    than 60 seconds) prints exactly [MM-DD HH:mm]: eleven characters, the
    month at 0, the day at 3, the hour at 6, the minute at 9, each as two
    decimal digits, with ["-"], [" "] and [":"] between them. *)
Theorem format_time_display_spec d y m dd h mi r :
  1 <= m <= 12 -> 1 <= dd <= days_in_month y m -> 0 <= h < 24 -> 0 <= mi < 60 -> 0 <= r < us_per_minute ->
  dt_wall d = (ymd2ord y m dd - epoch_ordinal) * us_per_day + h * us_per_hour + mi * us_per_minute + r ->
  let s := format_time_display (Some d) in
  String.length s = 11%nat /\ String.get 2 s = Some "-"%char /\ String.get 5 s = Some " "%char /\
  String.get 8 s = Some ":"%char /\
  read2 s 0 = Some m /\ read2 s 3 = Some dd /\ read2 s 6 = Some h /\ read2 s 9 = Some mi.
Proof.
  intros Hm Hd Hh Hmi Hr Hw s. pose proof (days_in_month_le y m).
  destruct (wall_fields d y m dd h mi r Hh Hmi Hr Hw) as (Hday & Hhour & Hmin).
  unfold s, format_time_display, strftime_md_hm, wall_date. rewrite Hday, Hhour, Hmin.
  rewrite civil_from_days_ymd2ord by done.
  split_and!; try reflexivity;
    [apply (read2_pad2 m)|apply (read2_pad2 dd)|apply (read2_pad2 h)|apply (read2_pad2 mi)]; lia.
Qed.

(** 2024-03-05 14:07:30 prints as [03-05 14:07]. *)
Lemma format_time_display_spec_witness :
  let d := mk_datetime ((ymd2ord 2024 3 5 - epoch_ordinal) * us_per_day + 14 * us_per_hour
                        + 7 * us_per_minute + 30000000) None in
  format_time_display (Some d) = "03-05 14:07"%string /\
  read2 (format_time_display (Some d)) 0 = Some 3 /\ read2 (format_time_display (Some d)) 6 = Some 14.
Proof.
  intros d. split; [vm_compute; reflexivity|].
  assert (Hd : 1 <= 5 <= days_in_month 2024 3) by (vm_compute; split; discriminate).
  assert (Hr : 0 <= 30000000 < us_per_minute) by (unfold us_per_minute; lia).
  destruct (format_time_display_spec d 2024 3 5 14 7 30000000 ltac:(lia) Hd ltac:(lia) ltac:(lia) Hr eq_refl)
    as (_ & _ & _ & _ & H1 & _ & H3 & _).
  split; [exact H1|exact H3].
Defined.
