(* ===== verification/Exec.v ===== *)
(** The effect model: a state monad with Python exceptions.

    [M S A] runs on a state [S] and ends either normally with a value or
    by raising an exception; in both cases the state reached is returned:
    a Python exception does not undo the mutations made before it.
    [py_try c h] is [try: c except Exception as e: h(e)].  [for_fold] is
    a [for] loop carrying an accumulator.  The bind and return are stdpp's
    [MBind]/[MRet] instances, so [x ← c; k] and [c ;; k] are available.

    [preserves P c] says that [c] keeps the state predicate [P] whatever
    happens; the lemmas below compose it through binds, branches, [try]
    and loops, so that an invariant of the whole program is proved from
    the invariant of each primitive step. *)

From S2P Require Import Prelude.

(** The exceptions the code raises or can receive. *)
Inductive exc :=
  | RuntimeError (msg : string)   (** constructor before [initialize_counter] *)
  | StorageError                  (** any failing [Database] call *)
  | TypeError (msg : string)      (** comparing [None] or naive/aware datetimes *)
  | ValidationError (msg : string). (** a pydantic model refusing its data *)

(** [str(e)] *)
Definition exc_message (e : exc) : string :=
  match e with
  | RuntimeError m => m
  | StorageError => "database error"
  | TypeError m => m
  | ValidationError m => m
  end.

Inductive res (A : Type) :=
  | Ok (a : A)
  | Raise (e : exc).
Arguments Ok {A} a.
Arguments Raise {A} e.

Definition M (S A : Type) : Type := S -> res A * S.

Section Monad.
Context {S : Type}.

#[export] Instance M_ret : MRet (M S) := fun A a s => (Ok a, s).
#[export] Instance M_bind : MBind (M S) := fun A B k c s =>
    match c s with
    | (Ok a, s') => k a s'
    | (Raise e, s') => (Raise e, s')
    end.

Definition raise {A} (e : exc) : M S A := fun s => (Raise e, s).
Definition get_state : M S S := fun s => (Ok s, s).
Definition modify (f : S -> S) : M S unit := fun s => (Ok tt, f s).
Definition gets {A} (f : S -> A) : M S A := fun s => (Ok (f s), s).

  (** [try: c except Exception as e: h(e)] *)
Definition py_try {A} (c : M S A) (h : exc -> M S A) : M S A := fun s =>
    match c s with
    | (Ok a, s') => (Ok a, s')
    | (Raise e, s') => h e s'
    end.

  (** [for b in l: acc = f(acc, b)] *)
Fixpoint for_fold {A B} (f : A -> B -> M S A) (l : list B) (a : A) : M S A :=
    match l with
    | [] => mret a
    | b :: l' => a' ← f a b; for_fold f l' a'
    end.

  (** [c] keeps [P], whether it returns or raises. *)
Definition preserves (P : S -> Prop) {A} (c : M S A) : Prop :=
    forall s, P s -> P (c s).2.
End Monad.

Arguments raise {S A} e _.

(** ** Evaluation lemmas *)

Section MonadLemmas.
Context {S : Type}.

Lemma bind_run {A B} (c : M S A) (k : A -> M S B) s :
    (c ≫= k) s = match c s with (Ok a, s') => k a s' | (Raise e, s') => (Raise e, s') end.
  Proof. done. Qed.

Lemma ret_run {A} (a : A) (s : S) : (mret a : M S A) s = (Ok a, s).
  Proof. done. Qed.

Lemma bind_ret_l {A B} (a : A) (k : A -> M S B) : (mret a ≫= k) = k a.
  Proof. done. Qed.

Lemma bind_ret_r {A} (c : M S A) s : (c ≫= mret) s = c s.
  Proof. rewrite bind_run. by destruct (c s) as [[] ?]. Qed.

Lemma bind_assoc {A B C} (c : M S A) (k : A -> M S B) (k' : B -> M S C) s :
    ((c ≫= k) ≫= k') s = (c ≫= fun a => k a ≫= k') s.
  Proof. rewrite !bind_run. destruct (c s) as [[a|e] s']; done. Qed.

  (** [try] around code that cannot raise is the code itself. *)
Lemma py_try_ok {A} (c : M S A) h s a s' :
    c s = (Ok a, s') -> py_try c h s = (Ok a, s').
  Proof. unfold py_try. by intros ->. Qed.

Lemma py_try_raise {A} (c : M S A) h s e s' :
    c s = (Raise e, s') -> py_try c h s = h e s'.
  Proof. unfold py_try. by intros ->. Qed.
End MonadLemmas.

(** ** Preservation of state invariants *)

Section Preserves.
Context {S : Type} (P : S -> Prop).

Lemma preserves_ret {A} (a : A) : preserves P (mret a : M S A).
  Proof. by intros s Hs. Qed.

Lemma preserves_raise {A} e : preserves P (raise e : M S A).
  Proof. by intros s Hs. Qed.

Lemma preserves_gets {A} (f : S -> A) : preserves P (gets f).
  Proof. by intros s Hs. Qed.

Lemma preserves_modify f : (forall s, P s -> P (f s)) -> preserves P (modify f).
  Proof. intros Hf s Hs. by apply Hf. Qed.

Lemma preserves_bind {A B} (c : M S A) (k : A -> M S B) :
    preserves P c -> (forall a, preserves P (k a)) -> preserves P (c ≫= k).
  Proof.
    intros Hc Hk s Hs. rewrite bind_run.
    specialize (Hc s Hs). unfold preserves in *. destruct (c s) as [[a|e] s']; simpl in *; auto.
  Qed.

Lemma preserves_try {A} (c : M S A) h :
    preserves P c -> (forall e, preserves P (h e)) -> preserves P (py_try c h).
  Proof.
    intros Hc Hh s Hs. unfold py_try.
    specialize (Hc s Hs). unfold preserves in *. destruct (c s) as [[a|e] s']; simpl in *; auto.
  Qed.

Lemma preserves_for_fold {A B} (f : A -> B -> M S A) l a :
    (forall a b, preserves P (f a b)) -> preserves P (for_fold f l a).
  Proof.
    intros Hf. revert a. induction l as [|b l IH]; intros a; simpl.
    - apply preserves_ret.
    - apply preserves_bind; auto.
  Qed.

Lemma preserves_if {A} (b : bool) (c1 c2 : M S A) :
    preserves P c1 -> preserves P c2 -> preserves P (if b then c1 else c2).
  Proof. by destruct b. Qed.

Lemma preserves_match_option {A B} (o : option B) (c1 : B -> M S A) (c2 : M S A) :
    (forall b, preserves P (c1 b)) -> preserves P c2 ->
    preserves P (match o with Some b => c1 b | None => c2 end).
  Proof. destruct o; auto. Qed.
End Preserves.

#[export] Hint Resolve preserves_ret preserves_raise preserves_gets
  preserves_bind preserves_try preserves_for_fold preserves_if
  preserves_match_option : forum.

(** ** Postconditions

    [always Q c]: every run of [c] ends in a result and a state related
    by [Q].  A raise anywhere in a sequence ends the sequence, so [Q] must
    accept raises to pass through [bind]. *)

Definition always {S A} (Q : res A -> S -> Prop) (c : M S A) : Prop :=
  forall s, Q (c s).1 (c s).2.

Section Always.
Context {S : Type}.

Lemma always_bind {A B} (Q : res B -> S -> Prop) (c : M S A) (k : A -> M S B) :
    (forall e s, Q (Raise e) s) -> (forall a, always Q (k a)) -> always Q (c ≫= k).
  Proof.
    intros Hr Hk s. rewrite bind_run. destruct (c s) as [[a|e] s']; simpl; auto. apply Hk.
  Qed.
End Always.

(** ** Hoare triples

    [triple P c Q R]: from a state satisfying [P], [c] either returns [a]
    in a state satisfying [Q a], or raises in a state satisfying [R]. *)

Definition triple {S A} (P : S -> Prop) (c : M S A) (Q : A -> S -> Prop) (R : S -> Prop) : Prop :=
  forall s, P s ->
    match c s with
    | (Ok a, s') => Q a s'
    | (Raise _, s') => R s'
    end.

Section Triple.
Context {S : Type}.
Implicit Types (P R : S -> Prop).

Lemma triple_ret {A} P (Q : A -> S -> Prop) R a :
    (forall s, P s -> Q a s) -> triple P (mret a) Q R.
  Proof. intros H s Hs. by apply H. Qed.

Lemma triple_raise {A} P (Q : A -> S -> Prop) R e :
    (forall s, P s -> R s) -> triple P (raise e) Q R.
  Proof. intros H s Hs. by apply H. Qed.

Lemma triple_gets {A} P (Q : A -> S -> Prop) R (f : S -> A) :
    (forall s, P s -> Q (f s) s) -> triple P (gets f) Q R.
  Proof. intros H s Hs. by apply H. Qed.

Lemma triple_modify P (Q : unit -> S -> Prop) R f :
    (forall s, P s -> Q tt (f s)) -> triple P (modify f) Q R.
  Proof. intros H s Hs. by apply H. Qed.

Lemma triple_bind {A B} P (Q1 : A -> S -> Prop) (Q : B -> S -> Prop) R
      (c : M S A) (k : A -> M S B) :
    triple P c Q1 R -> (forall a, triple (Q1 a) (k a) Q R) -> triple P (c ≫= k) Q R.
  Proof.
    intros Hc Hk s Hs. rewrite bind_run. specialize (Hc s Hs).
    destruct (c s) as [[a|e] s']; [by apply Hk|done].
  Qed.

Lemma triple_try {A} P (Q : A -> S -> Prop) R1 R (c : M S A) h :
    triple P c Q R1 -> (forall e, triple R1 (h e) Q R) -> triple P (py_try c h) Q R.
  Proof.
    intros Hc Hh s Hs. unfold py_try. specialize (Hc s Hs).
    destruct (c s) as [[a|e] s']; [done|by apply Hh].
  Qed.

Lemma triple_weaken {A} P P' (Q Q' : A -> S -> Prop) R R' c :
    triple P c Q R -> (forall s, P' s -> P s) -> (forall a s, Q a s -> Q' a s) ->
    (forall s, R s -> R' s) -> triple P' c Q' R'.
  Proof.
    intros H HP HQ HR s Hs. specialize (H s (HP s Hs)).
    destruct (c s) as [[a|e] s']; auto.
  Qed.

Lemma triple_pre {A} P (Q : A -> S -> Prop) R c :
    (forall s0, P s0 -> triple (fun s => s = s0) c Q R) -> triple P c Q R.
  Proof. intros H s Hs. by apply (H s Hs). Qed.

Lemma triple_if {A} P (Q : A -> S -> Prop) R (b : bool) c1 c2 :
    (b = true -> triple P c1 Q R) -> (b = false -> triple P c2 Q R) ->
    triple P (if b then c1 else c2) Q R.
  Proof. destruct b; auto. Qed.

Lemma triple_match_option {A B} P (Q : A -> S -> Prop) R (o : option B) c1 c2 :
    (forall b, o = Some b -> triple P (c1 b) Q R) -> (o = None -> triple P c2 Q R) ->
    triple P (match o with Some b => c1 b | None => c2 end) Q R.
  Proof. destruct o; auto. Qed.

  (** A [for] loop with a loop invariant [I] over the accumulator. *)
Lemma triple_for_fold {A B} (I : A -> S -> Prop) R (f : A -> B -> M S A) l a :
    (forall a b, triple (I a) (f a b) I R) -> triple (I a) (for_fold f l a) I R.
  Proof.
    intros Hf. revert a. induction l as [|b l IH]; intros a; simpl.
    - by apply triple_ret.
    - eapply triple_bind; [apply Hf|]. intros a'. apply IH.
  Qed.

  (** Forward rules: after a read or a write the next state is known. *)
Lemma triple_bind_assoc {A B C} P (c : M S A) (k1 : A -> M S B) (k2 : B -> M S C) Q R :
    triple P (c ≫= fun a => k1 a ≫= k2) Q R -> triple P ((c ≫= k1) ≫= k2) Q R.
  Proof. intros H s Hs. rewrite bind_assoc. by apply H. Qed.

Lemma triple_ret_bind {A B} P (a : A) (k : A -> M S B) Q R :
    triple P (k a) Q R -> triple P (mret a ≫= k) Q R.
  Proof. done. Qed.

Lemma triple_raise_bind {A B} P e (k : A -> M S B) Q R :
    (forall s, P s -> R s) -> triple P (raise e ≫= k) Q R.
  Proof. intros H s Hs. by apply H. Qed.

Lemma triple_gets_bind {A B} P (f : S -> A) (k : A -> M S B) Q R :
    (forall s, P s -> triple (fun s' => s' = s) (k (f s)) Q R) -> triple P (gets f ≫= k) Q R.
  Proof. intros H s Hs. rewrite bind_run. by apply (H s Hs). Qed.

Lemma triple_get_state_bind {B} P (k : S -> M S B) Q R :
    (forall s, P s -> triple (fun s' => s' = s) (k s) Q R) -> triple P (get_state ≫= k) Q R.
  Proof. intros H s Hs. rewrite bind_run. by apply (H s Hs). Qed.

Lemma triple_modify_bind {B} P f (k : unit -> M S B) Q R :
    (forall s, P s -> triple (fun s' => s' = f s) (k tt) Q R) -> triple P (modify f ≫= k) Q R.
  Proof. intros H s Hs. rewrite bind_run. by apply (H s Hs). Qed.

  (** A loop whose body may use that the element is in the list. *)
Lemma triple_for_fold_in {A B} (I : A -> S -> Prop) R (f : A -> B -> M S A) l a :
    (forall a b, b ∈ l -> triple (I a) (f a b) I R) -> triple (I a) (for_fold f l a) I R.
  Proof.
    intros Hf. revert a. induction l as [|b l IH]; intros a; simpl.
    - by apply triple_ret.
    - eapply triple_bind; [apply Hf; set_solver|]. intros a'.
      apply IH. intros a'' b' Hb'. apply Hf. set_solver.
  Qed.

  (** A predicate kept by [c] gives a triple. *)
Lemma triple_preserves {A} P (c : M S A) : preserves P c -> triple P c (fun _ => P) P.
  Proof.
    intros H s Hs. specialize (H s Hs). destruct (c s) as [[a|e] s']; done.
  Qed.
End Triple.

(** The end state of a run from a state satisfying a kept predicate. *)
Lemma triple_final {S A} (P : S -> Prop) (c : M S A) s :
  triple P c (fun _ => P) P -> P s -> P (c s).2.
Proof. intros H Hs. specialize (H s Hs). by destruct (c s) as [[]]. Qed.

(** One step of a triple proof: decompose the head of the computation. *)
Ltac triple_step :=
  first
    [ eapply triple_bind; [|intro]
    | eapply triple_try; [|intro]
    | apply triple_if; intro
    | apply triple_match_option; [intro; intro|intro]
    | apply triple_ret
    | apply triple_raise
    | apply triple_gets
    | apply triple_modify ].

(** Prove [preserves P c] by decomposing [c] with the lemmas above. *)
Ltac solve_preserves :=
  repeat first
    [ apply preserves_bind; [|intro]
    | apply preserves_try; [|intro]
    | apply preserves_for_fold; intros ? ?
    | apply preserves_if
    | apply preserves_match_option; [intro|]
    | apply preserves_ret
    | apply preserves_raise
    | apply preserves_gets ].

(** ** Relational footprints

    [evolves Rel c]: every run of [c], normal or not, ends in a state
    related to the one it started from.  With [Rel] a preorder this
    composes through every combinator, so a monotonicity property
    (a counter never decreases) is proved once per primitive. *)

Definition evolves {S A} (Rel : relation S) (c : M S A) : Prop :=
  forall s, Rel s (c s).2.

Section Evolves.
Context {S : Type} (Rel : relation S) `{!PreOrder Rel}.

Lemma evolves_ret {A} (a : A) : evolves Rel (mret a).
Proof. intros s. simpl. reflexivity. Qed.

Lemma evolves_raise {A} e : evolves Rel (raise (A := A) e).
Proof. intros s. simpl. reflexivity. Qed.

Lemma evolves_gets {A} (f : S -> A) : evolves Rel (gets f).
Proof. intros s. simpl. reflexivity. Qed.

Lemma evolves_get_state : evolves Rel get_state.
Proof. intros s. simpl. reflexivity. Qed.

Lemma evolves_modify f : (forall s, Rel s (f s)) -> evolves Rel (modify f).
Proof. intros H s. apply H. Qed.

Lemma evolves_bind {A B} (c : M S A) (k : A -> M S B) :
  evolves Rel c -> (forall a, evolves Rel (k a)) -> evolves Rel (c ≫= k).
Proof.
  intros Hc Hk s. rewrite bind_run. specialize (Hc s).
  destruct (c s) as [[a|e] s']; simpl in *; [|done]. etrans; [exact Hc|apply Hk].
Qed.

Lemma evolves_try {A} (c : M S A) h :
  evolves Rel c -> (forall e, evolves Rel (h e)) -> evolves Rel (py_try c h).
Proof.
  intros Hc Hh s. unfold py_try. specialize (Hc s).
  destruct (c s) as [[a|e] s']; simpl in *; [done|]. etrans; [exact Hc|apply Hh].
Qed.

Lemma evolves_for_fold {A B} (f : A -> B -> M S A) l a :
  (forall a b, evolves Rel (f a b)) -> evolves Rel (for_fold f l a).
Proof.
  intros Hf. revert a. induction l as [|b l IH]; intros a; simpl;
    [apply evolves_ret|by apply evolves_bind].
Qed.

Lemma evolves_if {A} (b : bool) (c1 c2 : M S A) :
  evolves Rel c1 -> evolves Rel c2 -> evolves Rel (if b then c1 else c2).
Proof. by destruct b. Qed.

Lemma evolves_match_option {A B} (o : option B) (c1 : B -> M S A) c2 :
  (forall b, evolves Rel (c1 b)) -> evolves Rel c2 ->
  evolves Rel (match o with Some b => c1 b | None => c2 end).
Proof. by destruct o. Qed.

(** A footprint read as a triple from a fixed start state. *)
Lemma triple_evolves {A} (c : M S A) s0 :
  evolves Rel c -> triple (fun s => Rel s0 s) c (fun _ s => Rel s0 s) (fun s => Rel s0 s).
Proof.
  intros Hc s Hs. specialize (Hc s).
  destruct (c s) as [[a|e] s']; simpl in *; etrans; eauto.
Qed.
End Evolves.

(** Decompose a computation into primitives for [evolves], by its head. *)
Ltac evolves_step :=
  lazymatch goal with
  | |- forall _, _ => intro
  | |- evolves _ (_ ≫= _) => apply evolves_bind; try exact _
  | |- evolves _ (py_try _ _) => apply evolves_try; try exact _
  | |- evolves _ (for_fold _ _ _) => apply evolves_for_fold; try exact _
  | |- evolves _ (match _ with Some _ => _ | None => _ end) => apply evolves_match_option; try exact _
  | |- evolves _ (if _ then _ else _) => apply evolves_if; try exact _
  | |- evolves _ (mret _) => apply evolves_ret; try exact _
  | |- evolves _ (raise _) => apply evolves_raise; try exact _
  | |- evolves _ (gets _) => apply evolves_gets; try exact _
  | |- evolves _ get_state => apply evolves_get_state; try exact _
  end.
Ltac solve_evolves := repeat evolves_step.

(** Evaluate the monad's plumbing on a concrete run. *)
Ltac run_monad := unfold mbind, M_bind, mret, M_ret, gets, modify, get_state, raise in *; simpl in *.
