(* ===== verification/World.v ===== *)
(** The state of the process and of storage, and the primitive effects.

    [World] gathers what the Python code keeps in class attributes and
    singletons: the two identifier sequencers ([Post._post_counter] /
    [Post._initialized] and the same for [Comment]), the [ForumManager]
    flag and dictionaries, the [UserManagement] registry of user objects,
    the storage collections, and the clock read by [datetime.now] and
    [time.time].

    Storage ([app.core.database.Database], not among the given sources) is
    modelled from the specification: the [posts], [comments] and [users]
    collections keyed by [_id], and a fault oracle [db_faults]: each call
    consumes one entry and raises when it is [true] (an exhausted oracle
    never fails).  This lets a theorem quantify over every pattern of
    storage failures. *)

From S2P Require Import Prelude PyDict Records Exec.

(** A class-level identifier counter with its [_initialized] flag. *)
Record Seq := mk_seq { counter : Z; initialized : bool }.

Record Database := mk_db {
  db_posts : pydict Z PostDoc.t;
  db_comments : pydict Z CommentDoc.t;
  db_users : pydict string UserDoc.t;
  db_faults : list bool
}.

Record World := mk_world {
  post_seq : Seq;
  comment_seq : Seq;
  fm_initialized : bool;
  posts_dict : pydict Z Post.t;
  comments_dict : pydict Z Comment.t;
  users : pydict string User.t;
  db : Database;
  clock : Z
}.

Notation FM := (M World).

(** ** Field updates *)

Definition set_post_seq (s : Seq) (w : World) : World :=
  mk_world s w.(comment_seq) w.(fm_initialized) w.(posts_dict) w.(comments_dict) w.(users) w.(db) w.(clock).
Definition set_comment_seq (s : Seq) (w : World) : World :=
  mk_world w.(post_seq) s w.(fm_initialized) w.(posts_dict) w.(comments_dict) w.(users) w.(db) w.(clock).
Definition set_fm_initialized (b : bool) (w : World) : World :=
  mk_world w.(post_seq) w.(comment_seq) b w.(posts_dict) w.(comments_dict) w.(users) w.(db) w.(clock).
Definition set_posts_dict (d : pydict Z Post.t) (w : World) : World :=
  mk_world w.(post_seq) w.(comment_seq) w.(fm_initialized) d w.(comments_dict) w.(users) w.(db) w.(clock).
Definition set_comments_dict (d : pydict Z Comment.t) (w : World) : World :=
  mk_world w.(post_seq) w.(comment_seq) w.(fm_initialized) w.(posts_dict) d w.(users) w.(db) w.(clock).
Definition set_users (d : pydict string User.t) (w : World) : World :=
  mk_world w.(post_seq) w.(comment_seq) w.(fm_initialized) w.(posts_dict) w.(comments_dict) d w.(db) w.(clock).
Definition set_db (d : Database) (w : World) : World :=
  mk_world w.(post_seq) w.(comment_seq) w.(fm_initialized) w.(posts_dict) w.(comments_dict) w.(users) d w.(clock).

Definition db_set_posts (c : pydict Z PostDoc.t) (d : Database) : Database :=
  mk_db c d.(db_comments) d.(db_users) d.(db_faults).
Definition db_set_comments (c : pydict Z CommentDoc.t) (d : Database) : Database :=
  mk_db d.(db_posts) c d.(db_users) d.(db_faults).
Definition db_set_users (c : pydict string UserDoc.t) (d : Database) : Database :=
  mk_db d.(db_posts) d.(db_comments) c d.(db_faults).
Definition db_set_faults (f : list bool) (d : Database) : Database :=
  mk_db d.(db_posts) d.(db_comments) d.(db_users) f.

(** ** Clock *)

(** [datetime.now(timezone.utc)] *)
Definition now : FM datetime := gets (fun w => utc_now w.(clock)).

(** [int(time.time() * 1000)] *)
Definition now_ms : FM Z := gets (fun w => (w.(clock) / 1000)%Z).

(** ** Memory *)

Definition posts_get (k : Z) : FM (option Post.t) := gets (fun w => dict_get k w.(posts_dict)).
Definition posts_set (k : Z) (p : Post.t) : FM unit :=
  modify (fun w => set_posts_dict (dict_set k p w.(posts_dict)) w).
Definition comments_get (k : Z) : FM (option Comment.t) :=
  gets (fun w => dict_get k w.(comments_dict)).
Definition comments_set (k : Z) (c : Comment.t) : FM unit :=
  modify (fun w => set_comments_dict (dict_set k c w.(comments_dict)) w).

(** [UserManagement().get_user_instance(uid)]: the user object held in
    memory under [uid] (modelled from the specification). *)
Definition get_user_instance (uid : string) : FM (option User.t) :=
  gets (fun w => dict_get uid w.(users)).

(** A method call on the user object held under [uid]: the registry holds
    the object itself, so the mutation is seen by every later lookup. *)
Definition user_update (uid : string) (f : User.t -> User.t) : FM unit :=
  modify (fun w =>
    match dict_get uid w.(users) with
    | Some u => set_users (dict_set uid (f u) w.(users)) w
    | None => w
    end).

(** ** Storage *)

(** One round trip to storage: consumes one entry of the fault oracle. *)
Definition db_call : FM unit := fun w =>
  match w.(db).(db_faults) with
  | true :: f => (Raise StorageError, set_db (db_set_faults f w.(db)) w)
  | false :: f => (Ok tt, set_db (db_set_faults f w.(db)) w)
  | [] => (Ok tt, w)
  end.

Definition max_key (ks : list Z) : option Z :=
  foldr (fun k acc => match acc with Some m => Some (Z.max k m) | None => Some k end) None ks.

(** [Database.find(coll, sort=[("_id", -1)], limit=1)]: the largest [_id]. *)
Definition db_find_max_post_id : FM (option Z) :=
  db_call;; gets (fun w => max_key (dict_keys w.(db).(db_posts))).
Definition db_find_max_comment_id : FM (option Z) :=
  db_call;; gets (fun w => max_key (dict_keys w.(db).(db_comments))).

(** [Database.find(coll, {})]: every document, in natural order. *)
Definition db_find_posts : FM (list PostDoc.t) :=
  db_call;; gets (fun w => dict_values w.(db).(db_posts)).
Definition db_find_comments : FM (list CommentDoc.t) :=
  db_call;; gets (fun w => dict_values w.(db).(db_comments)).

(** [Database.find_one(coll, {"_id": k})] *)
Definition db_find_one_post (k : Z) : FM (option PostDoc.t) :=
  db_call;; gets (fun w => dict_get k w.(db).(db_posts)).
Definition db_find_one_comment (k : Z) : FM (option CommentDoc.t) :=
  db_call;; gets (fun w => dict_get k w.(db).(db_comments)).
Definition db_find_one_user (uid : string) : FM (option UserDoc.t) :=
  db_call;; gets (fun w => dict_get uid w.(db).(db_users)).

Definition modify_db (f : Database -> Database) : FM unit :=
  modify (fun w => set_db (f w.(db)) w).

(** [Database.update_one(coll, {"_id": k}, {"$set": doc})] *)
Definition db_update_post_set (k : Z) (doc : PostDoc.t) : FM unit :=
  db_call;;
  modify_db (fun d =>
    match dict_get k d.(db_posts) with
    | Some old => db_set_posts (dict_set k (post_doc_set old doc) d.(db_posts)) d
    | None => d
    end).
Definition db_update_comment_set (k : Z) (doc : CommentDoc.t) : FM unit :=
  db_call;;
  modify_db (fun d =>
    match dict_get k d.(db_comments) with
    | Some old => db_set_comments (dict_set k (comment_doc_set old doc) d.(db_comments)) d
    | None => d
    end).

(** [Database.insert_one(coll, doc)]; a duplicate [_id] raises. *)
Definition db_insert_post (doc : PostDoc.t) : FM unit :=
  db_call;;
  w ← get_state;
  match dict_get doc.(PostDoc._id) w.(db).(db_posts) with
  | Some _ => raise StorageError
  | None => modify_db (fun d => db_set_posts (dict_set doc.(PostDoc._id) doc d.(db_posts)) d)
  end.
Definition db_insert_comment (doc : CommentDoc.t) : FM unit :=
  db_call;;
  w ← get_state;
  match dict_get doc.(CommentDoc._id) w.(db).(db_comments) with
  | Some _ => raise StorageError
  | None => modify_db (fun d => db_set_comments (dict_set doc.(CommentDoc._id) doc d.(db_comments)) d)
  end.

(** [update_one("users", {"_id": uid}, {"$addToSet": {field: v}})] and
    [{"$pull": {field: v}}], returning the modified count: 0 when there is
    no such user document or when the array is unchanged. *)
Inductive user_field := F_post_ids | F_liked_post_ids.

Definition user_doc_field (f : user_field) (d : UserDoc.t) : list Z :=
  default [] (match f with F_post_ids => d.(UserDoc.post_ids) | F_liked_post_ids => d.(UserDoc.liked_post_ids) end).

Definition user_doc_put (f : user_field) (l : list Z) (d : UserDoc.t) : UserDoc.t :=
  match f with
  | F_post_ids => UserDoc.mk (Some l) d.(UserDoc.liked_post_ids)
  | F_liked_post_ids => UserDoc.mk d.(UserDoc.post_ids) (Some l)
  end.

Definition db_user_add_to_set (uid : string) (f : user_field) (v : Z) : FM Z :=
  db_call;;
  w ← get_state;
  match dict_get uid w.(db).(db_users) with
  | Some d =>
      if py_in v (user_doc_field f d) then mret 0%Z
      else modify_db (fun db => db_set_users
             (dict_set uid (user_doc_put f (user_doc_field f d ++ [v]) d) db.(db_users)) db);;
           mret 1%Z
  | None => mret 0%Z
  end.

Definition db_user_pull (uid : string) (f : user_field) (v : Z) : FM Z :=
  db_call;;
  w ← get_state;
  match dict_get uid w.(db).(db_users) with
  | Some d =>
      if py_in v (user_doc_field f d)
      then modify_db (fun db => db_set_users
             (dict_set uid (user_doc_put f (filter (fun x => x <> v) (user_doc_field f d)) d)
                db.(db_users)) db);;
           mret 1%Z
      else mret 0%Z
  | None => mret 0%Z
  end.

(** A process that has just started: the class attributes at their
    initial values ([Post._post_counter = 0], [Post._initialized = False],
    the same for [Comment], [ForumManager._initialized = False], empty
    dictionaries). *)
Definition process_start (us : pydict string User.t) (d : Database) (t : Z) : World :=
  mk_world (mk_seq 0 false) (mk_seq 0 false) false [] [] us d t.

(** ** A concrete process state, used by the witnesses

    Storage holds three posts (identifiers 1 to 3, the third with four
    tags) and one comment on post 1; two users are registered; the
    process has just started (nothing seeded, nothing cached). *)

Definition demo_post_doc (i : Z) (creator : string) (tags : list string) : PostDoc.t :=
  PostDoc.mk i (Some "hello campus") (Some "text") (Some creator) (Some creator) (Some [])
    (Some 0%Z) (Some 0%Z) (Some 0%Z) (Some []) (Some []) (Some "") (Some tags)
    (Some "published") (Some (mk_datetime (1000 * i) None)) (Some (mk_datetime (1000 * i) None)).

Definition demo_comment_doc : CommentDoc.t :=
  CommentDoc.mk 1 (Some 1%Z) (Some "nice") (Some "u2") (Some "bob") (Some 0%Z) (Some [])
    (Some "published") (Some (mk_datetime 5000 None)).

Definition demo_db : Database :=
  mk_db [(1%Z, demo_post_doc 1 "u1" ["a"]); (2%Z, demo_post_doc 2 "u1" []);
         (3%Z, demo_post_doc 3 "u2" ["a"; "b"; "c"; "d"])]
        [(1%Z, demo_comment_doc)]
        [("u1", UserDoc.mk (Some [1%Z; 2%Z]) (Some [])); ("u2", UserDoc.mk (Some [3%Z]) (Some []))]
        [].

Definition demo_world : World :=
  mk_world (mk_seq 0 false) (mk_seq 0 false) false [] []
    [("u1", User.new (Some "alice") None "u1"); ("u2", User.new (Some "bob") None "u2")]
    demo_db 10000000.

(** ** Symbolic execution of storage calls *)

(** The state after one storage call: one oracle entry consumed. *)
Definition db_after (w : World) : World :=
  match w.(db).(db_faults) with
  | [] => w
  | _ :: f => set_db (db_set_faults f w.(db)) w
  end.

Lemma db_call_state w : (db_call w).2 = db_after w.
Proof. unfold db_call, db_after. by destruct (db_faults (db w)) as [|[] f]. Qed.

Lemma triple_db_call_bind {B} P (k : unit -> FM B) Q R :
  (forall s, P s -> R (db_after s) /\ triple (fun s' => s' = db_after s) (k tt) Q R) ->
  triple P (db_call ≫= k) Q R.
Proof.
  intros H s Hs. rewrite bind_run. destruct (H s Hs) as [HR Hk].
  pose proof (db_call_state s) as Hst.
  destruct (db_call s) as [[[]|e] s'] eqn:E; simpl in Hst; subst; [by apply Hk|done].
Qed.

(** Run a computation forward from a known state, one primitive at a
    time; the side goals left are facts about the states reached. *)
Ltac symex_step :=
  lazymatch goal with
  | |- triple _ ((_ ≫= _) ≫= _) _ _ => apply triple_bind_assoc
  | |- triple _ (mret _ ≫= _) _ _ => apply triple_ret_bind
  | |- triple _ (raise _ ≫= _) _ _ => apply triple_raise_bind; intros ?s ?Hs
  | |- triple _ (gets _ ≫= _) _ _ => apply triple_gets_bind; intros ?s ?Hs
  | |- triple _ (get_state ≫= _) _ _ => apply triple_get_state_bind; intros ?s ?Hs
  | |- triple _ (modify _ ≫= _) _ _ => apply triple_modify_bind; intros ?s ?Hs
  | |- triple _ (db_call ≫= _) _ _ => apply triple_db_call_bind; intros ?s ?Hs; split
  | |- triple _ ((if ?b then _ else _) ≫= _) _ _ => destruct b eqn:?Hif
  | |- triple _ ((match ?o with Some _ => _ | None => _ end) ≫= _) _ _ => destruct o eqn:?Hmatch
  | |- triple _ (if ?b then _ else _) _ _ => destruct b eqn:?Hif
  | |- triple _ (match ?o with Some _ => _ | None => _ end) _ _ => destruct o eqn:?Hmatch
  | |- triple _ (mret _) _ _ => apply triple_ret; intros ?s ?Hs
  | |- triple _ (raise _) _ _ => apply triple_raise; intros ?s ?Hs
  | |- triple _ (gets _) _ _ => apply triple_gets; intros ?s ?Hs
  | |- triple _ (modify _) _ _ => apply triple_modify; intros ?s ?Hs
  end.
