(* ===== verification/Sequencer.v ===== *)
(** The identifier sequencers: [Post.initialize_counter],
    [Comment.initialize_counter] and the two constructors
    [Post.__init__], [Comment.__init__].

    The two classes repeat the same code on their own class attributes;
    [seq_initialize_counter] is that code, parameterized by the
    collection it reads and the attribute pair it writes. *)

From S2P Require Import Prelude PyDict Records Exec World.

(** [initialize_counter]: no-op when already initialized; otherwise
    [seq_seed], the [try] block after that check: the largest stored
    [_id] (0 for an empty collection), or a millisecond timestamp when
    storage fails; the flag is set in every case. *)
Definition seq_seed (find_max : FM (option Z)) (put : Seq -> World -> World) : FM unit :=
  py_try
    (m ← find_max;
     modify (put (mk_seq (default 0%Z m) true)))
    (fun _ => t ← now_ms; modify (put (mk_seq t true))).

Definition seq_initialize_counter (find_max : FM (option Z))
    (get : World -> Seq) (put : Seq -> World -> World) : FM unit :=
  s ← gets get;
  if initialized s then mret tt else seq_seed find_max put.

Definition post_initialize_counter : FM unit :=
  seq_initialize_counter db_find_max_post_id post_seq set_post_seq.

Definition comment_initialize_counter : FM unit :=
  seq_initialize_counter db_find_max_comment_id comment_seq set_comment_seq.

(** [Post.__init__]: raises when the counter is not initialized;
    otherwise takes the next identifier.  [tags] are truncated to three. *)
Definition post_new (creator_user_id creator_user_name post_content post_type post_category : string)
    (tags : list string) (media_files : list Media) : FM Post.t :=
  s ← gets post_seq;
  if negb (initialized s)
  then raise (RuntimeError "Post counter not initialized. Call Post.initialize_counter() first.")
  else
    let pid := (counter s + 1)%Z in
    modify (set_post_seq (mk_seq pid (initialized s)));;
    t ← now;
    mret (Post.mk pid post_content post_type creator_user_id creator_user_name media_files
            post_category (take 3 tags) 0 0 0 [] [] "published" (Some t) (Some t)).

(** [Comment.__init__] *)
Definition comment_new (commenter_user_id commenter_user_name : string) (post_id : option Z)
    (comment_content : string) : FM Comment.t :=
  s ← gets comment_seq;
  if negb (initialized s)
  then raise (RuntimeError "Comment counter not initialized. Call Comment.initialize_counter() first.")
  else
    let cid := (counter s + 1)%Z in
    modify (set_comment_seq (mk_seq cid (initialized s)));;
    t ← now;
    mret (Comment.mk cid post_id comment_content commenter_user_id commenter_user_name
            0 [] "published" (Some t)).

(** ** Theorems *)

Lemma max_key_None ks : max_key ks = None <-> ks = [].
Proof. destruct ks; simpl; [done|]. destruct (max_key ks); done. Qed.

(** The seed is the largest stored identifier. *)
Lemma max_key_spec ks m :
  max_key ks = Some m -> m ∈ ks /\ Forall (fun k => (k <= m)%Z) ks.
Proof.
  revert m. induction ks as [|k ks IH]; simpl; intros m Hm; [done|].
  destruct (max_key ks) as [m'|] eqn:E; injection Hm as <-.
  - destruct (IH m' eq_refl) as [Hin Hall].
    split.
    + destruct (Z.max_spec k m') as [[_ ->]|[_ ->]]; set_solver.
    + constructor; [lia|]. eapply Forall_impl; [exact Hall|]. simpl. lia.
  - apply max_key_None in E as ->. split; [set_solver|]. repeat constructor. lia.
Qed.

Section SeqLemmas.
Context (find_max : FM (option Z)) (get : World -> Seq) (put : Seq -> World -> World).
Hypothesis get_put : forall s w, get (put s w) = s.

Lemma seq_initialize_counter_initialized w :
    initialized (get (seq_initialize_counter find_max get put w).2) = true.
  Proof.
    unfold seq_initialize_counter, seq_seed. rewrite bind_run. simpl.
    destruct (initialized (get w)) eqn:E; simpl; [done|].
    unfold py_try. rewrite bind_run.
    destruct (find_max w) as [[m|e] w']; simpl; by rewrite get_put.
  Qed.

Lemma seq_initialize_counter_noop w :
    initialized (get w) = true -> seq_initialize_counter find_max get put w = (Ok tt, w).
  Proof. intros H. unfold seq_initialize_counter, seq_seed. rewrite bind_run. simpl. by rewrite H. Qed.
End SeqLemmas.

(** seeding never leaves the counter unset: after
    [Post.initialize_counter] the flag is up, whatever storage does. *)
Lemma post_initialize_counter_initialized w :
  initialized (post_seq (post_initialize_counter w).2) = true.
Proof. by apply seq_initialize_counter_initialized. Qed.

Lemma comment_initialize_counter_initialized w :
  initialized (comment_seq (comment_initialize_counter w).2) = true.
Proof. by apply seq_initialize_counter_initialized. Qed.

Lemma post_initialize_counter_noop w :
  initialized (post_seq w) = true -> post_initialize_counter w = (Ok tt, w).
Proof. apply seq_initialize_counter_noop. Qed.

Lemma comment_initialize_counter_noop w :
  initialized (comment_seq w) = true -> comment_initialize_counter w = (Ok tt, w).
Proof. apply seq_initialize_counter_noop. Qed.

(** The seed: the largest stored [_id] (0 when there is none) when
    storage answers, the millisecond clock when it fails. *)
Lemma post_initialize_counter_seed w :
  initialized (post_seq w) = false ->
  post_initialize_counter w =
    match w.(db).(db_faults) with
    | true :: f => (Ok tt, set_post_seq (mk_seq (w.(clock) / 1000) true) (set_db (db_set_faults f w.(db)) w))
    | false :: f => (Ok tt, set_post_seq (mk_seq (default 0%Z (max_key (dict_keys w.(db).(db_posts)))) true)
                              (set_db (db_set_faults f w.(db)) w))
    | [] => (Ok tt, set_post_seq (mk_seq (default 0%Z (max_key (dict_keys w.(db).(db_posts)))) true) w)
    end.
Proof.
  intros H. unfold post_initialize_counter, seq_initialize_counter, seq_seed.
  rewrite bind_run. simpl. rewrite H. unfold py_try, db_find_max_post_id, db_call.
  destruct w as [ps cs fi pd cd us [dp dc du [|[] f]] ck]; reflexivity.
Qed.

Lemma post_initialize_counter_seed_witness :
  initialized (post_seq demo_world) = false /\
  post_initialize_counter demo_world =
    (Ok tt, set_post_seq (mk_seq (default 0%Z (max_key (dict_keys demo_world.(db).(db_posts)))) true)
              demo_world).
Proof. split; [reflexivity|]. by rewrite (post_initialize_counter_seed demo_world eq_refl). Defined.

Lemma comment_initialize_counter_seed w :
  initialized (comment_seq w) = false ->
  comment_initialize_counter w =
    match w.(db).(db_faults) with
    | true :: f => (Ok tt, set_comment_seq (mk_seq (w.(clock) / 1000) true) (set_db (db_set_faults f w.(db)) w))
    | false :: f => (Ok tt, set_comment_seq (mk_seq (default 0%Z (max_key (dict_keys w.(db).(db_comments)))) true)
                              (set_db (db_set_faults f w.(db)) w))
    | [] => (Ok tt, set_comment_seq (mk_seq (default 0%Z (max_key (dict_keys w.(db).(db_comments)))) true) w)
    end.
Proof.
  intros H. unfold comment_initialize_counter, seq_initialize_counter, seq_seed.
  rewrite bind_run. simpl. rewrite H. unfold py_try, db_find_max_comment_id, db_call.
  destruct w as [ps cs fi pd cd us [dp dc du [|[] f]] ck]; reflexivity.
Qed.

Lemma post_new_run cu cn ct ty cat tags media w :
  post_new cu cn ct ty cat tags media w =
    if initialized (post_seq w)
    then let pid := (counter (post_seq w) + 1)%Z in
         (Ok (Post.mk pid ct ty cu cn media cat (take 3 tags) 0 0 0 [] [] "published"
                (Some (utc_now w.(clock))) (Some (utc_now w.(clock)))),
          set_post_seq (mk_seq pid true) w)
    else (Raise (RuntimeError "Post counter not initialized. Call Post.initialize_counter() first."), w).
Proof. unfold post_new. rewrite bind_run. simpl. by destruct (initialized (post_seq w)). Qed.

(** The constructor on an initialized counter takes the next identifier
    and builds a published post with no interactions; on an
    uninitialized counter it raises and changes nothing. *)
Lemma post_new_spec cu cn ct ty cat tags media w :
  post_new cu cn ct ty cat tags media w =
    if initialized (post_seq w)
    then let pid := (counter (post_seq w) + 1)%Z in
         (Ok (Post.mk pid ct ty cu cn media cat (take 3 tags) 0 0 0 [] [] "published"
                (Some (utc_now w.(clock))) (Some (utc_now w.(clock)))),
          set_post_seq (mk_seq pid true) w)
    else (Raise (RuntimeError "Post counter not initialized. Call Post.initialize_counter() first."), w).
Proof. apply post_new_run. Qed.

Lemma comment_new_spec cu cn pid ct w :
  comment_new cu cn pid ct w =
    if initialized (comment_seq w)
    then let cid := (counter (comment_seq w) + 1)%Z in
         (Ok (Comment.mk cid pid ct cu cn 0 [] "published" (Some (utc_now w.(clock)))),
          set_comment_seq (mk_seq cid true) w)
    else (Raise (RuntimeError "Comment counter not initialized. Call Comment.initialize_counter() first."), w).
Proof. unfold comment_new. rewrite bind_run. simpl. by destruct (initialized (comment_seq w)). Qed.
