(* ===== verification/Cache.v ===== *)
(** The cache store: [ForumManager.initialize], the two loaders, the
    reconciler, [force_reinitialize] and [get_memory_status]
    ([app/services/https/ForumManager.py]).

    A loader rebuilds each stored document through the entity's
    constructor (which takes, and so consumes, a fresh identifier), then
    advances the counter to at least the stored [_id] and overwrites the
    identifier and the interaction fields from the document. *)

From S2P Require Import Prelude PyDict Records Exec World Sequencer.

(** [str(x)] for an optional string: [str(None)] is ["None"]. *)
Definition py_str (o : option string) : string :=
  match o with Some s => s | None => "None" end.

(** The assignments after the constructor in [_load_posts_from_database]. *)
Definition post_restore (p : Post.t) (pid : Z) (d : PostDoc.t) : Post.t :=
  Post.mk pid p.(Post.post_content) p.(Post.post_type) p.(Post.creator_user_id)
    p.(Post.creator_user_name) p.(Post.media_files) p.(Post.post_category) p.(Post.tags)
    (default 0%Z d.(PostDoc.like_count)) (default 0%Z d.(PostDoc.comment_count))
    (default 0%Z d.(PostDoc.view_count)) (default [] d.(PostDoc.liked_user_ids))
    (default [] d.(PostDoc.comment_ids)) (default "published" d.(PostDoc.post_status))
    (ensure_aware d.(PostDoc.created_at)) (ensure_aware d.(PostDoc.updated_at)).

(** [Post._post_counter = max(Post._post_counter, int(post_id))] *)
Definition advance_post_counter (k : Z) : FM unit :=
  modify (fun w => set_post_seq (mk_seq (Z.max (counter (post_seq w)) k) (initialized (post_seq w))) w).

Definition advance_comment_counter (k : Z) : FM unit :=
  modify (fun w => set_comment_seq (mk_seq (Z.max (counter (comment_seq w)) k) (initialized (comment_seq w))) w).

(** One iteration of the loop of [_load_posts_from_database]. *)
Definition load_post (loaded : Z) (d : PostDoc.t) : FM Z :=
  py_try
    (let post_id := d.(PostDoc._id) in
     if bool_decide (post_id = 0%Z) then mret loaded else
     (post ← post_new (py_str d.(PostDoc.creator_user_id)) (default "" d.(PostDoc.creator_user_name))
              (default "" d.(PostDoc.post_content)) (default "text" d.(PostDoc.post_type))
              (default "" d.(PostDoc.post_category)) (default [] d.(PostDoc.tags))
              (default [] d.(PostDoc.media_files));
     advance_post_counter post_id;;
     let post := post_restore post post_id d in
     posts_set post.(Post.post_id) post;;
     mret (loaded + 1)%Z))
    (fun _ => mret loaded).

Definition load_posts_from_database : FM Z :=
  posts_data ← db_find_posts;
  for_fold load_post posts_data 0%Z.

Definition comment_restore (c : Comment.t) (cid : Z) (d : CommentDoc.t) : Comment.t :=
  Comment.mk cid c.(Comment.post_id) c.(Comment.comment_content) c.(Comment.commenter_user_id)
    c.(Comment.commenter_user_name) (default 0%Z d.(CommentDoc.like_count))
    (default [] d.(CommentDoc.liked_user_ids)) (default "published" d.(CommentDoc.comment_status))
    (ensure_aware d.(CommentDoc.created_at)).

(** One iteration of the loop of [_load_comments_from_database]. *)
Definition load_comment (loaded : Z) (d : CommentDoc.t) : FM Z :=
  py_try
    (let comment_id := d.(CommentDoc._id) in
     if bool_decide (comment_id = 0%Z) then mret loaded else
     (comment ← comment_new (py_str d.(CommentDoc.commenter_user_id))
                 (default "" d.(CommentDoc.commenter_user_name)) d.(CommentDoc.post_id)
                 (default "" d.(CommentDoc.comment_content));
     advance_comment_counter comment_id;;
     let comment := comment_restore comment comment_id d in
     comments_set comment.(Comment.comment_id) comment;;
     mret (loaded + 1)%Z))
    (fun _ => mret loaded).

Definition load_comments_from_database : FM Z :=
  comments_data ← db_find_comments;
  for_fold load_comment comments_data 0%Z.

(** [_reconcile_user_post_relationships]: memory only. *)
Definition reconcile_post (_ : unit) (post : Post.t) : FM unit :=
  u ← get_user_instance post.(Post.creator_user_id);
  match u with
  | None => mret tt
  | Some user =>
      if py_in post.(Post.post_id) user.(User.post_ids) then mret tt
      else user_update post.(Post.creator_user_id) (fun u => User.add_post u post.(Post.post_id))
  end.

Definition reconcile_user_post_relationships : FM unit :=
  ps ← gets (fun w => dict_values w.(posts_dict));
  for_fold reconcile_post ps tt.

(** The body of [initialize] run when the flag is down: seed
    ([initialize_load]), then the rest ([initialize_rest]): clear, load,
    reconcile, raise the flag. *)
Definition initialize_rest : FM bool :=
  comment_initialize_counter;;
  modify (set_posts_dict []);;
  modify (set_comments_dict []);;
  _ ← load_posts_from_database;
  _ ← load_comments_from_database;
  py_try reconcile_user_post_relationships (fun _ => mret tt);;
  modify (set_fm_initialized true);;
  mret true.

Definition initialize_load : FM bool := post_initialize_counter;; initialize_rest.

(** The [except] clause of [initialize]. *)
Definition initialize_except (e : exc) : FM bool := modify (set_fm_initialized false);; mret false.

(** [ForumManager.initialize]: any exception resets the flag and the
    result is [False]. *)
Definition initialize : FM bool :=
  py_try
    (init ← gets fm_initialized;
     if (init : bool) then mret true else initialize_load)
    initialize_except.

(** [if not ForumManager._initialized: await self.initialize()], the
    guard every API operation but [get_post_comments] starts with; the
    result of [initialize] is ignored. *)
Definition ensure_initialized : FM unit :=
  init ← gets fm_initialized;
  if (init : bool) then mret tt else (_ ← initialize; mret tt).

(** [ForumManager.force_reinitialize] *)
Definition force_reinitialize : FM bool :=
  py_try (modify (set_fm_initialized false);; initialize) (fun _ => mret false).

Record MemoryStatus := mk_status {
  st_initialized : bool;
  st_posts_count : nat;
  st_comments_count : nat;
  st_post_ids : list Z;
  st_comment_ids : list Z
}.

(** [ForumManager.get_memory_status] *)
Definition get_memory_status (w : World) : MemoryStatus :=
  mk_status w.(fm_initialized) (dict_len w.(posts_dict)) (dict_len w.(comments_dict))
    (dict_keys w.(posts_dict)) (dict_keys w.(comments_dict)).

Lemma ensure_initialized_noop w : fm_initialized w = true -> ensure_initialized w = (Ok tt, w).
Proof. intros H. unfold ensure_initialized. rewrite bind_run. simpl. by rewrite H. Qed.

(** Run the guard away on an initialized cache. *)
Lemma guarded_run {A} (body : FM A) h w :
  fm_initialized w = true -> py_try (ensure_initialized;; body) h w = py_try body h w.
Proof. intros H. unfold py_try. rewrite bind_run, ensure_initialized_noop by done. done. Qed.

(** ** Theorems: the initialization flag *)

Definition flag_raised (r : res bool) (w : World) : Prop :=
  (r = Ok true /\ fm_initialized w = true) \/ exists e, r = Raise e.

Lemma initialize_load_result : always flag_raised initialize_load.
Proof.
  unfold initialize_load, initialize_rest.
  do 7 (apply always_bind; [intros; right; eauto|intros]).
  intros w. left. done.
Qed.

Lemma initialize_outcome w :
  (initialize w).1 = Ok (fm_initialized (initialize w).2).
Proof.
  unfold initialize, initialize_except, py_try. rewrite bind_run. simpl.
  destruct (fm_initialized w) eqn:E; simpl; [by rewrite E|].
  pose proof (initialize_load_result w) as H. unfold flag_raised in H.
  destruct (initialize_load w) as [r w']; simpl in *.
  destruct H as [[-> Hf]|[e ->]]; simpl; [by rewrite Hf|done].
Qed.

(** C30: [initialize] never raises, and its result is the flag it leaves. *)
Lemma initialize_result w :
  (initialize w).1 = Ok (fm_initialized (initialize w).2).
Proof. apply initialize_outcome. Qed.

(** An initialized cache is left as it is. *)
Lemma initialize_noop w :
  fm_initialized w = true -> initialize w = (Ok true, w).
Proof. intros H. unfold initialize, initialize_except, py_try. rewrite bind_run. simpl. by rewrite H. Qed.

(** C14: [initialize] is idempotent: once it has succeeded, running it again
    changes nothing and succeeds again. *)
Theorem initialize_idempotent w :
  (initialize w).1 = Ok true -> initialize (initialize w).2 = initialize w.
Proof.
  intros H. pose proof (initialize_outcome w) as Hr.
  rewrite H in Hr. injection Hr as Hf.
  rewrite (initialize_noop _ (eq_sym Hf)).
  destruct (initialize w) as [r w']. simpl in *. by subst.
Qed.

Lemma initialize_idempotent_witness :
  (initialize demo_world).1 = Ok true /\
  initialize (initialize demo_world).2 = initialize demo_world.
Proof.
  split; [vm_compute; reflexivity|].
  apply initialize_idempotent. vm_compute. reflexivity.
Defined.
