(* ===== verification/SeqSpec.v ===== *)
(** The identifier sequencer of the specification as an interface, and
    the two sequencers of the code as its instances.

    [SeqContract get seed next advance] is the contract the specification
    gives a sequencer ("Identifier Sequencer": [seed()], [next()],
    [advance_to_at_least(n)]), stated over the part [get] of the process
    state that holds the counter and its flag.  The class's laws are the
    abstract specification; the instances for [Post] and [Comment]
    ([Post.initialize_counter], [Post.__init__] taking its identifier,
    the loader's [max(counter, _id)]) prove that the code implements it;
    the client lemmas of Section [Client] are proved once, against the
    interface only. *)

From S2P Require Import Prelude PyDict Records Exec World Sequencer Cache.

Class SeqContract (get : World -> Seq) (seed : FM unit) (next : FM Z) (advance : Z -> FM unit) : Prop := {
  (** [seed()] always completes (a failed read falls back to the clock)
      and leaves the sequencer seeded *)
  contract_seed w : (seed w).1 = Ok tt /\ initialized (get (seed w).2) = true;
  (** [seed()] on a seeded sequencer does nothing *)
  contract_seed_idem w : initialized (get w) = true -> seed w = (Ok tt, w);
  (** [next()] before seeding fails loudly and changes nothing *)
  contract_next_unseeded w : initialized (get w) = false -> exists e, next w = (Raise e, w);
  (** [next()] increments the counter and returns it *)
  contract_next w : initialized (get w) = true ->
    (next w).1 = Ok (counter (get w) + 1)%Z /\ get (next w).2 = mk_seq (counter (get w) + 1) true;
  (** [advance_to_at_least(n)] raises the counter to [n] at least, never lowers it *)
  contract_advance n w : (advance n w).1 = Ok tt /\
    get (advance n w).2 = mk_seq (Z.max (counter (get w)) n) (initialized (get w))
}.

(** The identifier [Post.__init__] takes, for any constructor arguments. *)
Definition post_next_id cu cn ct ty cat tags media : FM Z :=
  p ← post_new cu cn ct ty cat tags media; mret (Post.post_id p).

Definition comment_next_id cu cn pid ct : FM Z :=
  c ← comment_new cu cn pid ct; mret (Comment.comment_id c).

Lemma seq_initialize_counter_total find_max get put w :
  (seq_initialize_counter find_max get put w).1 = Ok tt.
Proof.
  unfold seq_initialize_counter, seq_seed. rewrite bind_run. simpl.
  destruct (initialized (get w)); [done|]. unfold py_try. rewrite bind_run.
  by destruct (find_max w) as [[m|e] w'].
Qed.

#[export] Instance post_seq_contract cu cn ct ty cat tags media :
  SeqContract post_seq post_initialize_counter (post_next_id cu cn ct ty cat tags media) advance_post_counter.
Proof.
  split.
  - intros w. split; [apply seq_initialize_counter_total|apply post_initialize_counter_initialized].
  - apply post_initialize_counter_noop.
  - intros w H. eexists. unfold post_next_id. rewrite bind_run, post_new_run, H. done.
  - intros w H. unfold post_next_id. rewrite bind_run, post_new_run, H. done.
  - intros n w. done.
Qed.

#[export] Instance comment_seq_contract cu cn pid ct :
  SeqContract comment_seq comment_initialize_counter (comment_next_id cu cn pid ct) advance_comment_counter.
Proof.
  split.
  - intros w. split; [apply seq_initialize_counter_total|apply comment_initialize_counter_initialized].
  - apply comment_initialize_counter_noop.
  - intros w H. eexists. unfold comment_next_id. rewrite bind_run, comment_new_spec, H. done.
  - intros w H. unfold comment_next_id. rewrite bind_run, comment_new_spec, H. done.
  - intros n w. done.
Qed.

(** ** What a client of any sequencer may rely on *)

Section Client.
Context `{SeqContract get seed next advance}.

(** Seeding first, [next()] never fails. *)
Lemma seed_next_ok w : exists i, ((seed;; next) w).1 = Ok i.
Proof.
  rewrite bind_run. destruct (contract_seed w) as [Hr Hi].
  destruct (seed w) as [r w1]. simpl in Hr, Hi. subst r.
  destruct (contract_next w1 Hi) as [Hn _]. by eexists.
Qed.

(** Two successive [next()] give strictly increasing identifiers. *)
Lemma next_next_lt w i j :
  (next w).1 = Ok i -> (next (next w).2).1 = Ok j -> (i < j)%Z.
Proof.
  intros Hi Hj. destruct (initialized (get w)) eqn:E.
  - destruct (contract_next w E) as [Hn Hg]. rewrite Hn in Hi. injection Hi as <-.
    assert (E' : initialized (get (next w).2) = true) by by rewrite Hg.
    destruct (contract_next _ E') as [Hn' _]. rewrite Hn', Hg in Hj. injection Hj as <-. simpl. lia.
  - destruct (contract_next_unseeded w E) as [e He]. by rewrite He in Hi.
Qed.

(** An identifier absorbed with [advance_to_at_least(n)] is never handed
    out again: the next one is above [n]. *)
Lemma advance_next_above n w i : ((advance n;; next) w).1 = Ok i -> (n < i)%Z.
Proof.
  rewrite bind_run. destruct (contract_advance n w) as [Hr Hg].
  destruct (advance n w) as [r w1]. simpl in Hr, Hg. subst r. intros Hi.
  destruct (initialized (get w1)) eqn:E.
  - destruct (contract_next w1 E) as [Hn _]. rewrite Hn in Hi. injection Hi as <-. rewrite Hg. simpl. lia.
  - destruct (contract_next_unseeded w1 E) as [e He]. by rewrite He in Hi.
Qed.
End Client.

(** C15: Both sequencers of the code implement the specification's
    sequencer contract: [initialize_counter] is an idempotent, total
    [seed()]; the constructor's identifier is [next()], failing before
    seeding; the loader's [max(counter, _id)] is [advance_to_at_least]. *)
Theorem sequencers_implement_contract :
  (forall cu cn ct ty cat tags media,
     SeqContract post_seq post_initialize_counter (post_next_id cu cn ct ty cat tags media) advance_post_counter) /\
  (forall cu cn pid ct,
     SeqContract comment_seq comment_initialize_counter (comment_next_id cu cn pid ct) advance_comment_counter).
Proof. split; intros; apply _. Qed.

(** C17: A post identifier absorbed from storage is never handed out again:
    after the loader's [Post._post_counter = max(Post._post_counter, n)],
    the next post built gets an identifier above [n]. *)
Theorem post_id_after_advance n cu cn ct ty cat tags media w i :
  ((advance_post_counter n;; post_next_id cu cn ct ty cat tags media) w).1 = Ok i -> (n < i)%Z.
Proof. apply advance_next_above. Qed.

Lemma post_id_after_advance_witness :
  let w := (post_initialize_counter demo_world).2 in
  ((advance_post_counter 41;; post_next_id "u1" "alice" "hi" "text" "" [] []) w).1 = Ok 42%Z /\ (41 < 42)%Z.
Proof.
  intros w. assert (H : ((advance_post_counter 41;; post_next_id "u1" "alice" "hi" "text" "" [] []) w).1 = Ok 42%Z)
    by (vm_compute; reflexivity).
  split; [exact H|exact (post_id_after_advance _ _ _ _ _ _ _ _ _ _ H)].
Defined.
