(* ===== verification/Api.v ===== *)
(** The forum operations of [ForumManager]: [create_post],
    [get_posts_list], [toggle_post_like], [search_posts],
    [get_post_detail], [create_comment], [get_post_comments] and
    [toggle_comment_like].

    Each operation is the whole method: the lazy-initialization guard,
    the reads and writes of the dictionaries, the storage calls, and the
    [try/except] that turns any exception into a failure result.  A
    result dict is a record with one field per key ([None] for a key the
    dict does not have); an item's [time_display] is
    [TimeDisplay.format_time_display] of its [created_at]. *)

From S2P Require Import Prelude PyDict PySort Records TimeDisplay Exec World Sequencer Cache.

(** ** Result records *)

Record PostItem := mk_post_item {
  item_post_id : Z;
  item_post_content : string;
  item_post_type : string;
  item_creator_user_id : string;
  item_creator_user_name : string;
  item_media_files : list Media;
  item_like_count : Z;
  item_comment_count : Z;
  item_view_count : Z;
  item_is_liked : bool;
  item_post_category : string;
  item_tags : list string;
  item_created_at : option datetime;
  item_time_display : string
}.

Record ListResponse := mk_list_response {
  lr_success : bool;
  lr_posts : list PostItem;
  lr_has_more : bool
}.

Record ToggleResponse := mk_toggle_response {
  tr_success : bool;
  tr_action : option string;
  tr_new_like_count : option Z;
  tr_is_liked : option bool;
  tr_message : option string
}.

Definition toggle_fail (msg : string) : ToggleResponse :=
  mk_toggle_response false None None None (Some msg).
Definition toggle_ok (action : string) (n : Z) (liked : bool) : ToggleResponse :=
  mk_toggle_response true (Some action) (Some n) (Some liked) None.

(** ** Helpers shared by the listings *)

(** [[p for p in posts_dict.values() if p.post_status == "published"]] *)
Definition published (ps : list Post.t) : list Post.t :=
  filter (fun p => p.(Post.post_status) = "published") ps.

(** [skip = max(0, (page - 1) * page_size)], [end_index = skip + page_size] *)
Definition page_bounds (page page_size : Z) : Z * Z :=
  let skip := Z.max 0 ((page - 1) * page_size) in (skip, (skip + page_size)%Z).

(** The "hot" key [(like_count, comment_count, created_at)]. *)
Definition hot_key (p : Post.t) : Z * Z * Z :=
  (p.(Post.like_count), p.(Post.comment_count), time_key p.(Post.created_at)).

Definition latest_key (p : Post.t) : Z := time_key p.(Post.created_at).

(** [set(user_doc.get("liked_post_ids", [])) if user_doc else set()] *)
Definition liked_post_ids_of (doc : option UserDoc.t) : list Z :=
  match doc with Some d => default [] d.(UserDoc.liked_post_ids) | None => [] end.

(** The item dict built for each post of a page. *)
Definition post_item (liked : list Z) (p : Post.t) : PostItem :=
  mk_post_item p.(Post.post_id) p.(Post.post_content) p.(Post.post_type)
    p.(Post.creator_user_id) p.(Post.creator_user_name) p.(Post.media_files)
    p.(Post.like_count) p.(Post.comment_count) p.(Post.view_count)
    (py_in p.(Post.post_id) liked) p.(Post.post_category) p.(Post.tags) p.(Post.created_at)
    (format_time_display p.(Post.created_at)).

Definition published_posts : FM (list Post.t) :=
  gets (fun w => published (dict_values w.(posts_dict))).

(** ** [create_post] *)

(** What [create_post] runs after the guard. *)
Definition create_post_body (creator_user_id post_content post_type post_category : string)
    (tags : list string) (media_files : list Media) : FM (option Z) :=
     u ← get_user_instance creator_user_id;
     match u with
     | None => mret None
     | Some user =>
         post ← post_new user.(User.user_id)
                  (py_or_str user.(User.telegram_user_name) user.(User.user_id))
                  post_content (py_or_str (Some post_type) "text")
                  (py_or_str (Some post_category) "") tags media_files;
         posts_set post.(Post.post_id) post;;
         py_try
           (user_update creator_user_id (fun u => User.add_post u post.(Post.post_id));;
            _ ← db_user_add_to_set user.(User.user_id) F_post_ids post.(Post.post_id);
            mret tt)
           (fun _ => mret tt);;
         mret (Some post.(Post.post_id))
     end.

Definition create_post (creator_user_id post_content post_type post_category : string)
    (tags : list string) (media_files : list Media) : FM (option Z) :=
  py_try
    (ensure_initialized;;
     create_post_body creator_user_id post_content post_type post_category tags media_files)
    (fun _ => mret None).

(** ** [get_posts_list] *)

Definition sort_posts (sort_type : string) (ps : list Post.t) : list Post.t :=
  if String.eqb sort_type "hot" then py_sort_reverse hot_key ps
  else py_sort_reverse latest_key ps.

(** The part after the posts are chosen: sort, slice, annotate. *)
Definition list_page (user_id : string) (sorted : list Post.t) (page page_size : Z) : FM ListResponse :=
  let '(skip, end_index) := page_bounds page page_size in
  let page_posts := py_slice sorted skip end_index in
  user_doc ← db_find_one_user user_id;
  let liked := liked_post_ids_of user_doc in
  mret (mk_list_response true (map (post_item liked) page_posts)
          (end_index <? Z.of_nat (length sorted))%Z).

Definition get_posts_list (user_id sort_type : string) (page page_size : Z) : FM ListResponse :=
  py_try
    (ensure_initialized;;
     ps ← published_posts;
     ps ← (if bool_decide (ps = []) then force_reinitialize;; published_posts else mret ps);
     list_page user_id (sort_posts sort_type ps) page page_size)
    (fun _ => mret (mk_list_response false [] false)).

(** ** [toggle_post_like] *)

(** The in-memory part of a like: append the user once, count it. *)
Definition post_like_mem (uid : string) (post : Post.t) (t : datetime) : Post.t :=
  if py_in uid post.(Post.liked_user_ids) then post
  else Post.set_likes post (post.(Post.liked_user_ids) ++ [uid]) (post.(Post.like_count) + 1) (Some t).

(** The in-memory part of an unlike: remove the user, [max(0, n - 1)]. *)
Definition post_unlike_mem (uid : string) (post : Post.t) (t : datetime) : Post.t :=
  if py_in uid post.(Post.liked_user_ids)
  then Post.set_likes post (py_remove uid post.(Post.liked_user_ids))
         (Z.max 0 (post.(Post.like_count) - 1)) (Some t)
  else post.

(** The part of [toggle_post_like] before its storage [await]: the
    in-memory read-modify-write of the post; [None] when there is no
    such post. *)
Definition toggle_post_like_memory (user_id : string) (post_id : Z) (action : string) : FM (option Post.t) :=
  p ← posts_get post_id;
  match p with
  | None => mret None
  | Some post =>
      t ← now;
      let is_like := String.eqb action "like" in
      let post' := if is_like then post_like_mem user_id post t else post_unlike_mem user_id post t in
      posts_set post_id post';;
      mret (Some post')
  end.

(** The part from the [await Database.update_one("users", ...)] on. *)
Definition toggle_post_like_sync (user_id : string) (post_id : Z) (action : string) (post' : Post.t) :
    FM ToggleResponse :=
  let is_like := String.eqb action "like" in
  modified ← (if is_like then db_user_add_to_set user_id F_liked_post_ids post_id
              else db_user_pull user_id F_liked_post_ids post_id);
  (if (0 <? modified)%Z then
     u ← get_user_instance user_id;
     match u with
     | Some _ => user_update user_id (fun u => if is_like then User.add_liked_post u post_id
                                               else User.remove_liked_post u post_id)
     | None => mret tt
     end
   else mret tt);;
  mret (toggle_ok action post'.(Post.like_count) is_like).

Definition toggle_post_like_handler (e : exc) : FM ToggleResponse := mret (toggle_fail (exc_message e)).

Definition toggle_post_like (user_id : string) (post_id : Z) (action : string) : FM ToggleResponse :=
  py_try
    (ensure_initialized;;
     r ← toggle_post_like_memory user_id post_id action;
     match r with
     | None => mret (toggle_fail "post not found")
     | Some post' => toggle_post_like_sync user_id post_id action post'
     end)
    toggle_post_like_handler.

(** ** [search_posts] *)

(** [str.lower()] on ASCII letters.  Strings are byte strings here: a
    non-ASCII letter with a lower-case form is not folded, which Python's
    Unicode [lower] would do. *)
Definition ascii_lower (c : Ascii.ascii) : Ascii.ascii :=
  let n := Ascii.nat_of_ascii c in
  if (65 <=? n)%nat && (n <=? 90)%nat then Ascii.ascii_of_nat (n + 32) else c.

Fixpoint str_lower (s : string) : string :=
  match s with
  | EmptyString => EmptyString
  | String c s' => String (ascii_lower c) (str_lower s')
  end.

(** [needle in haystack] for strings: some suffix starts with [needle]. *)
Fixpoint str_contains (needle hay : string) : bool :=
  String.prefix needle hay ||
  match hay with
  | EmptyString => false
  | String _ hay' => str_contains needle hay'
  end.

(** [q in post.post_content.lower() or any(q in tag.lower() for tag in post.tags)] *)
Definition post_matches (q : string) (p : Post.t) : bool :=
  str_contains q (str_lower p.(Post.post_content)) ||
  existsb (fun tag => str_contains q (str_lower tag)) p.(Post.tags).

Definition search_posts (user_id search_query : string) (page page_size : Z) : FM ListResponse :=
  py_try
    (ensure_initialized;;
     ps ← published_posts;
     let matched := filter (fun p => post_matches (str_lower search_query) p = true) ps in
     list_page user_id (py_sort_reverse latest_key matched) page page_size)
    (fun _ => mret (mk_list_response false [] false)).

(** ** [get_post_detail] *)

Record DetailResponse := mk_detail_response {
  dr_success : bool;
  dr_post : option PostItem;
  dr_message : option string
}.

Definition get_post_detail (user_id : string) (post_id : Z) : FM DetailResponse :=
  py_try
    (ensure_initialized;;
     p ← posts_get post_id;
     match p with
     | None => mret (mk_detail_response false None (Some "post not found"))
     | Some post =>
         user_doc ← db_find_one_user user_id;
         mret (mk_detail_response true (Some (post_item (liked_post_ids_of user_doc) post)) None)
     end)
    (fun _ => mret (mk_detail_response false None (Some "internal error"))).

(** ** [create_comment] *)

Record CommentResponse := mk_comment_response {
  cr_success : bool;
  cr_comment_id : option Z;
  cr_message : option string
}.

Definition comment_created_message : string := "评论发布成功".

Definition create_comment (user_id : string) (post_id : Z) (comment_content : string) : FM CommentResponse :=
  py_try
    (ensure_initialized;;
     u ← get_user_instance user_id;
     match u with
     | None => mret (mk_comment_response false None (Some "user not found"))
     | Some user =>
         p ← posts_get post_id;
         match p with
         | None => mret (mk_comment_response false None (Some "post not found"))
         | Some post =>
             comment ← comment_new user.(User.user_id)
                         (py_or_str user.(User.telegram_user_name) user.(User.user_id))
                         (Some post_id) comment_content;
             comments_set comment.(Comment.comment_id) comment;;
             t ← now;
             posts_set post_id (Post.set_comments post
                                  (post.(Post.comment_ids) ++ [comment.(Comment.comment_id)])
                                  (post.(Post.comment_count) + 1) (Some t));;
             mret (mk_comment_response true (Some comment.(Comment.comment_id))
                     (Some comment_created_message))
         end
     end)
    (fun e => mret (mk_comment_response false None (Some (exc_message e)))).

(** ** [get_post_comments] *)

Record CommentItem := mk_comment_item {
  ci_comment_id : Z;
  ci_comment_content : string;
  ci_commenter_user_id : string;
  ci_commenter_user_name : string;
  ci_like_count : Z;
  ci_is_liked : bool;
  ci_created_at : option datetime
}.

Record CommentsResponse := mk_comments_response {
  gr_success : bool;
  gr_comments : list CommentItem;
  gr_has_more : bool
}.

Definition is_naive (o : option datetime) : bool :=
  match o with Some d => bool_decide (dt_tz d = None) | None => false end.

(** [list.sort(key=lambda x: x.created_at)] raises [TypeError] as soon as
    it compares [None] with anything, or a naive with an aware datetime.
    With two or more elements every element takes part in a comparison,
    and a sorted order of mixed naive and aware values would have a mixed
    adjacent pair, which must have been compared: so the sort raises
    exactly when there are two or more elements and they are not all
    aware or all naive. *)
Definition created_sort_raises (cs : list Comment.t) : bool :=
  (2 <=? length cs)%nat &&
  negb (forallb (fun c => is_aware c.(Comment.created_at)) cs ||
        forallb (fun c => is_naive c.(Comment.created_at)) cs).

Definition created_key (c : Comment.t) : Z :=
  match c.(Comment.created_at) with Some d => dt_instant d | None => 0%Z end.

Definition comment_item (user_id : string) (c : Comment.t) : CommentItem :=
  mk_comment_item c.(Comment.comment_id) c.(Comment.comment_content)
    c.(Comment.commenter_user_id) c.(Comment.commenter_user_name) c.(Comment.like_count)
    (py_in user_id c.(Comment.liked_user_ids)) c.(Comment.created_at).

Definition comments_of_post (post_id : Z) (cs : list Comment.t) : list Comment.t :=
  filter (fun c => c.(Comment.post_id) = Some post_id /\ c.(Comment.comment_status) = "published") cs.

Definition get_post_comments (post_id : Z) (user_id : string) (page page_size : Z) : FM CommentsResponse :=
  py_try
    (let '(skip, end_index) := page_bounds page page_size in
     cs ← gets (fun w => comments_of_post post_id (dict_values w.(comments_dict)));
     sorted ← (if created_sort_raises cs
               then raise (TypeError "'<' not supported between instances of 'datetime' and 'NoneType'")
               else mret (py_sort created_key cs));
     let page_comments := py_slice sorted skip end_index in
     mret (mk_comments_response true (map (comment_item user_id) page_comments)
             (end_index <? Z.of_nat (length sorted))%Z))
    (fun _ => mret (mk_comments_response false [] false)).

(** ** [toggle_comment_like]: memory only. *)

Definition comment_like_mem (uid : string) (c : Comment.t) : Comment.t :=
  if py_in uid c.(Comment.liked_user_ids) then c
  else Comment.set_likes c (c.(Comment.liked_user_ids) ++ [uid]) (c.(Comment.like_count) + 1).

Definition comment_unlike_mem (uid : string) (c : Comment.t) : Comment.t :=
  if py_in uid c.(Comment.liked_user_ids)
  then Comment.set_likes c (py_remove uid c.(Comment.liked_user_ids)) (Z.max 0 (c.(Comment.like_count) - 1))
  else c.

Definition toggle_comment_like (user_id : string) (comment_id : Z) (action : string) : FM ToggleResponse :=
  py_try
    (ensure_initialized;;
     c ← comments_get comment_id;
     match c with
     | None => mret (toggle_fail "comment not found")
     | Some comment =>
         let is_like := String.eqb action "like" in
         let comment' := if is_like then comment_like_mem user_id comment
                         else comment_unlike_mem user_id comment in
         comments_set comment_id comment';;
         mret (toggle_ok action comment'.(Comment.like_count) is_like)
     end)
    (fun e => mret (toggle_fail (exc_message e))).

(** ** Object-level lemmas *)

Section LikeLemmas.
Context (uid : string) (t : datetime).

Lemma post_like_mem_parity p : post_parity p -> post_parity (post_like_mem uid p t).
Proof.
  unfold post_like_mem, post_parity. py_in_case uid (Post.liked_user_ids p); [done|].
  simpl. intros (Hc & Hnd & Hcc). rewrite length_app. split_and!; [simpl; lia| |done].
  apply NoDup_app. split_and!; [done|set_solver|apply NoDup_singleton].
Qed.

Lemma post_unlike_mem_parity p : post_parity p -> post_parity (post_unlike_mem uid p t).
Proof.
  unfold post_unlike_mem, post_parity. py_in_case uid (Post.liked_user_ids p); [|done].
  simpl. intros (Hc & Hnd & Hcc).
  rewrite py_remove_length by done. split_and!; [|by apply NoDup_py_remove|done].
  destruct (Post.liked_user_ids p) as [|x l]; [set_solver|]. simpl in *. lia.
Qed.

Lemma post_like_mem_id p : (post_like_mem uid p t).(Post.post_id) = p.(Post.post_id).
Proof. unfold post_like_mem. by destruct (py_in _ _). Qed.

Lemma post_unlike_mem_id p : (post_unlike_mem uid p t).(Post.post_id) = p.(Post.post_id).
Proof. unfold post_unlike_mem. by destruct (py_in _ _). Qed.

Lemma comment_like_mem_parity c : comment_parity c -> comment_parity (comment_like_mem uid c).
Proof.
  unfold comment_like_mem, comment_parity. py_in_case uid (Comment.liked_user_ids c); [done|].
  simpl. intros (Hc & Hnd). rewrite length_app. split; [simpl; lia|].
  apply NoDup_app. split_and!; [done|set_solver|apply NoDup_singleton].
Qed.

Lemma comment_unlike_mem_parity c : comment_parity c -> comment_parity (comment_unlike_mem uid c).
Proof.
  unfold comment_unlike_mem, comment_parity. py_in_case uid (Comment.liked_user_ids c); [|done].
  simpl. intros (Hc & Hnd).
  rewrite py_remove_length by done. split; [|by apply NoDup_py_remove].
  destruct (Comment.liked_user_ids c) as [|x l]; [set_solver|]. simpl in *. lia.
Qed.

Lemma comment_like_mem_id c : (comment_like_mem uid c).(Comment.comment_id) = c.(Comment.comment_id).
Proof. unfold comment_like_mem. by destruct (py_in _ _). Qed.

Lemma comment_unlike_mem_id c : (comment_unlike_mem uid c).(Comment.comment_id) = c.(Comment.comment_id).
Proof. unfold comment_unlike_mem. by destruct (py_in _ _). Qed.
End LikeLemmas.

#[export] Hint Resolve post_like_mem_parity post_unlike_mem_parity
  comment_like_mem_parity comment_unlike_mem_parity : forum.

(** ** Post detail *)

(** C29: [get_post_detail] on an initialized cache returns any cached post,
    whatever its status (a deleted post is shown, while the listings hide
    it); an uncached post is "post not found"; a failing read of the
    user's document makes the whole request an "internal error". *)
Theorem get_post_detail_spec uid pid w :
  fm_initialized w = true ->
  (get_post_detail uid pid w).1 =
    Ok (match dict_get pid (posts_dict w) with
        | None => mk_detail_response false None (Some "post not found")
        | Some post =>
            match db_faults (db w) with
            | true :: _ => mk_detail_response false None (Some "internal error")
            | _ => mk_detail_response true
                     (Some (post_item (liked_post_ids_of (dict_get uid (db_users (db w)))) post)) None
            end
        end).
Proof.
  intros Hf. unfold get_post_detail. rewrite guarded_run by done.
  unfold py_try, posts_get, db_find_one_user, db_call. run_monad.
  destruct (dict_get pid (posts_dict w)); [|done].
  destruct (db_faults (db w)) as [|[] f]; done.
Qed.

Lemma get_post_detail_spec_witness :
  let w := (initialize demo_world).2 in
  fm_initialized w = true /\
  (get_post_detail "u1" 3 w).1 =
    Ok (match dict_get 3%Z (posts_dict w) with
        | None => mk_detail_response false None (Some "post not found")
        | Some post =>
            match db_faults (db w) with
            | true :: _ => mk_detail_response false None (Some "internal error")
            | _ => mk_detail_response true
                     (Some (post_item (liked_post_ids_of (dict_get "u1" (db_users (db w)))) post)) None
            end
        end).
Proof.
  intros w. assert (Hf : fm_initialized w = true) by (vm_compute; reflexivity).
  split; [exact Hf|]. exact (get_post_detail_spec "u1" 3 w Hf).
Defined.

(** ** Likes: specification *)

Section LikeSpec.
Context (uid : string).

(** Liking is idempotent: liking an already-liked post again changes
    nothing, and the second toggle leaves the post as the first did. *)
Theorem post_like_mem_idem p t t' :
  post_like_mem uid (post_like_mem uid p t) t' = post_like_mem uid p t.
Proof.
  unfold post_like_mem. destruct (py_in uid (Post.liked_user_ids p)) eqn:E; [by rewrite E|].
  simpl. rewrite (proj2 (py_in_true _ _)); [done|]. set_solver.
Qed.

(** C33: Unliking after a like restores the likers and the count of a post
    the user had not liked (with count/list parity). *)
Theorem post_unlike_like p t t' :
  post_parity p -> uid ∉ Post.liked_user_ids p ->
  Post.liked_user_ids (post_unlike_mem uid (post_like_mem uid p t) t') = Post.liked_user_ids p /\
  Post.like_count (post_unlike_mem uid (post_like_mem uid p t) t') = Post.like_count p.
Proof.
  intros [Hc _] Hn. unfold post_like_mem. rewrite (proj2 (py_in_false _ _) Hn). simpl.
  unfold post_unlike_mem. simpl. rewrite (proj2 (py_in_true _ _)) by set_solver. simpl.
  rewrite py_remove_app_not_in by done. split; [done|]. lia.
Qed.



End LikeSpec.

Lemma post_unlike_like_witness :
  let p := Post.mk 1 "c" "text" "u1" "alice" [] "" [] 1 0 0 ["u3"] [] "published" None None in
  post_parity p /\ ("u2" ∉ Post.liked_user_ids p) /\
  Post.liked_user_ids (post_unlike_mem "u2" (post_like_mem "u2" p (utc_now 0)) (utc_now 1)) =
    Post.liked_user_ids p /\
  Post.like_count (post_unlike_mem "u2" (post_like_mem "u2" p (utc_now 0)) (utc_now 1)) = Post.like_count p.
Proof.
  intros p. assert (Hp : post_parity p) by (split_and!; [done|repeat constructor; set_solver|done]).
  assert (Hn : "u2" ∉ Post.liked_user_ids p) by (simpl; set_solver).
  split_and!; [exact Hp|exact Hn|..]; apply (post_unlike_like "u2" p _ _ Hp Hn).
Defined.

(** ** Substring search *)

Lemma prefix_spec (s1 s2 : string) : String.prefix s1 s2 = true <-> exists suf, s2 = (s1 ++ suf)%string.
Proof.
  revert s2. induction s1 as [|a s1 IH]; intros [|b s2]; simpl.
  - split; [by exists EmptyString|done].
  - split; [by exists (String b s2)|done].
  - split; [done|by intros [? ?]].
  - destruct (Ascii.ascii_dec a b) as [->|Hne].
    + rewrite IH. split; intros [suf Hs]; exists suf; [by rewrite Hs|by injection Hs].
    + split; [done|]. intros [suf Hs]. by injection Hs.
Qed.

(** The substring test of [search_posts] is Python's [in] on strings:
    [str_contains q s] holds exactly when [s] is some [pre ++ q ++ suf]. *)
Theorem str_contains_spec (q s : string) :
  str_contains q s = true <-> exists pre suf, s = (pre ++ q ++ suf)%string.
Proof.
  induction s as [|c s IH].
  - destruct q; simpl; split.
    + intros _. by exists EmptyString, EmptyString.
    + done.
    + done.
    + intros [[|? ?] [suf Hs]]; discriminate.
  - change (str_contains q (String c s)) with (String.prefix q (String c s) || str_contains q s).
    rewrite orb_true_iff, prefix_spec, IH. split.
    + intros [[suf ->]|[pre [suf ->]]]; [by exists EmptyString, suf|by exists (String c pre), suf].
    + intros [[|c' pre] [suf Hs]]; [left; by exists suf|right].
      injection Hs as -> ->. by exists pre, suf.
Qed.

(** ** The self-healing reload of [get_posts_list] *)

(** [force_reinitialize] is [initialize] with the flag lowered first. *)
Lemma force_reinitialize_run w :
  force_reinitialize w = initialize (set_fm_initialized false w).
Proof.
  unfold force_reinitialize, py_try. rewrite bind_run. simpl.
  pose proof (initialize_outcome (set_fm_initialized false w)) as H.
  by destruct (initialize (set_fm_initialized false w)) as [[]]; simpl in *.
Qed.

(** C27: When the cache holds no published post, [get_posts_list] reloads
    the whole cache from storage: the comments it leaves cached are
    exactly those a fresh [initialize] loads, so any comment created since
    the last flush is dropped (and its post's count with it). *)
Theorem get_posts_list_self_heal uid st page ps w :
  fm_initialized w = true -> published (dict_values (posts_dict w)) = [] ->
  comments_dict (get_posts_list uid st page ps w).2 =
    comments_dict (initialize (set_fm_initialized false w)).2.
Proof.
  intros Hf Hp. unfold get_posts_list. rewrite guarded_run by done.
  unfold py_try, published_posts. rewrite bind_run. run_monad. rewrite Hp. simpl.
  rewrite force_reinitialize_run.
  destruct (initialize (set_fm_initialized false w)) as [[] w'] eqn:E; simpl;
    unfold list_page; destruct (page_bounds page ps);
    unfold db_find_one_user, db_call; run_monad; by destruct (db_faults (db w')) as [|[] ?].
Qed.

(** Storage holding one post, already deleted. *)
Definition deleted_post_doc : PostDoc.t :=
  PostDoc.mk 1 (Some "old") (Some "text") (Some "u1") (Some "alice") (Some []) (Some 0%Z) (Some 0%Z)
    (Some 0%Z) (Some []) (Some []) (Some "") (Some []) (Some "deleted")
    (Some (mk_datetime 1000 None)) (Some (mk_datetime 1000 None)).

Definition deleted_world : World := set_db (mk_db [(1%Z, deleted_post_doc)] [] [] []) demo_world.

(** A comment on the deleted post, then a listing: the comment is gone. *)
Lemma get_posts_list_self_heal_witness :
  let w0 := (initialize deleted_world).2 in
  let w1 := (create_comment "u2" 1 "unsaved" w0).2 in
  fm_initialized w1 = true /\ published (dict_values (posts_dict w1)) = [] /\
  dict_get 1%Z (comments_dict w1) <> None /\
  dict_get 1%Z (comments_dict (get_posts_list "u1" "latest" 1 10 w1).2) = None.
Proof.
  intros w0 w1. assert (Hf : fm_initialized w1 = true) by (vm_compute; reflexivity).
  assert (Hp : published (dict_values (posts_dict w1)) = []) by (vm_compute; reflexivity).
  split_and!; [exact Hf|exact Hp|vm_compute; discriminate|].
  rewrite (get_posts_list_self_heal "u1" "latest" 1 10 w1 Hf Hp). vm_compute. reflexivity.
Defined.

