(* ===== verification/Flush.v ===== *)
(** Persistence: the bulk flush [ForumManager.save_to_database], the
    entities' own [save_to_database], [add_like], [remove_like] and
    [add_comment] ([app/objects/Post.py], [app/objects/Comment.py]), and
    the maintenance scripts [force_reset_memory.py] and
    [fix_memory_direct.py].

    The entity methods mutate [self]; no code path of the forum calls
    them (the API inlines its own memory-only version), so they are
    modelled on a post value: the method returns the updated object with
    its boolean result. *)

From S2P Require Import Prelude PyDict PySort Records Exec World Sequencer Cache.

(** The upsert of one post: [find_one], then [update_one($set)] or
    [insert_one]. *)
Definition upsert_post (post : Post.t) : FM unit :=
  let doc := post_to_dict post in
  existing ← db_find_one_post post.(Post.post_id);
  match existing with
  | Some _ => db_update_post_set post.(Post.post_id) doc
  | None => db_insert_post doc
  end.

Definition upsert_comment (comment : Comment.t) : FM unit :=
  let doc := comment_to_dict comment in
  existing ← db_find_one_comment comment.(Comment.comment_id);
  match existing with
  | Some _ => db_update_comment_set comment.(Comment.comment_id) doc
  | None => db_insert_comment doc
  end.

(** One iteration of each loop of the flush: a failure is counted out
    and the loop goes on. *)
Definition flush_post (n : Z) (post : Post.t) : FM Z :=
  py_try (upsert_post post;; mret (n + 1)%Z) (fun _ => mret n).

Definition flush_comment (n : Z) (comment : Comment.t) : FM Z :=
  py_try (upsert_comment comment;; mret (n + 1)%Z) (fun _ => mret n).

(** [ForumManager.save_to_database]: reconcile, upsert every post and
    every comment, succeed when all of them were saved. *)
Definition save_to_database : FM bool :=
  py_try
    (py_try reconcile_user_post_relationships (fun _ => mret tt);;
     total ← gets (fun w => Z.of_nat (dict_len w.(posts_dict) + dict_len w.(comments_dict)));
     ps ← gets (fun w => dict_values w.(posts_dict));
     n ← for_fold flush_post ps 0%Z;
     cs ← gets (fun w => dict_values w.(comments_dict));
     n ← for_fold flush_comment cs n;
     mret (bool_decide (n = total)))
    (fun _ => mret false).

(** ** Entity methods *)

(** [Post.save_to_database] *)
Definition post_save_to_database (post : Post.t) : FM bool :=
  py_try (upsert_post post;; mret true) (fun _ => mret false).

Definition comment_save_to_database (comment : Comment.t) : FM bool :=
  py_try (upsert_comment comment;; mret true) (fun _ => mret false).

(** [Post.add_like]: like in memory and save; already liked: [True]. *)
Definition post_add_like (post : Post.t) (uid : string) : FM (Post.t * bool) :=
  if py_in uid post.(Post.liked_user_ids) then mret (post, true) else
  (t ← now;
   let post' := Post.set_likes post (post.(Post.liked_user_ids) ++ [uid])
                  (post.(Post.like_count) + 1) (Some t) in
   ok ← post_save_to_database post';
   mret (post', ok)).

(** [Post.remove_like] *)
Definition post_remove_like (post : Post.t) (uid : string) : FM (Post.t * bool) :=
  if py_in uid post.(Post.liked_user_ids) then
  (t ← now;
   let post' := Post.set_likes post (py_remove uid post.(Post.liked_user_ids))
                  (Z.max 0 (post.(Post.like_count) - 1)) (Some t) in
   ok ← post_save_to_database post';
   mret (post', ok))
  else mret (post, true).

(** [Post.add_comment] *)
Definition post_add_comment (post : Post.t) (cid : Z) : FM (Post.t * bool) :=
  if py_in cid post.(Post.comment_ids) then mret (post, true) else
  (t ← now;
   let post' := Post.set_comments post (post.(Post.comment_ids) ++ [cid])
                  (post.(Post.comment_count) + 1) (Some t) in
   ok ← post_save_to_database post';
   mret (post', ok)).

(** [Comment.add_like] *)
Definition comment_add_like (c : Comment.t) (uid : string) : FM (Comment.t * bool) :=
  if py_in uid c.(Comment.liked_user_ids) then mret (c, true) else
  (let c' := Comment.set_likes c (c.(Comment.liked_user_ids) ++ [uid]) (c.(Comment.like_count) + 1) in
   ok ← comment_save_to_database c';
   mret (c', ok)).

(** [Comment.remove_like] *)
Definition comment_remove_like (c : Comment.t) (uid : string) : FM (Comment.t * bool) :=
  if py_in uid c.(Comment.liked_user_ids) then
  (let c' := Comment.set_likes c (py_remove uid c.(Comment.liked_user_ids))
               (Z.max 0 (c.(Comment.like_count) - 1)) in
   ok ← comment_save_to_database c';
   mret (c', ok))
  else mret (c, true).

(** ** [force_reset_memory.py] *)

(** [safe_reset_forum_manager]: clear both dictionaries, lower the flag. *)
Definition safe_reset_forum_manager (w : World) : World :=
  set_fm_initialized false (set_comments_dict [] (set_posts_dict [] w)).

(** [safe_reset_user_management]: empty the in-memory user registry. *)
Definition safe_reset_user_management (w : World) : World := set_users [] w.

(** [safe_reset_post_comment_counters] *)
Definition safe_reset_post_comment_counters (w : World) : World :=
  set_comment_seq (mk_seq 0 false) (set_post_seq (mk_seq 0 false) w).

(** [main] *)
Definition force_reset_memory (w : World) : World :=
  safe_reset_post_comment_counters (safe_reset_user_management (safe_reset_forum_manager w)).

(** ** [fix_memory_direct.py] *)

(** [s == n] for a string [s] and an integer [n]: Python's [==] between a
    [str] and an [int] is [False]. *)
Definition py_eq_str_int (s : string) (n : Z) : bool := false.

(** [user_posts]: the identifiers of the posts whose creator is [uid],
    sorted. *)
Definition user_posts_of (uid : Z) (ps : list Post.t) : list Z :=
  py_sort (fun x => x) (map Post.post_id (filter (fun p => py_eq_str_int p.(Post.creator_user_id) uid = true) ps)).

(** One iteration of the repair loop: give a nameless post of [uid] a name. *)
Definition repair_post_name (uid : Z) (_ : unit) (post : Post.t) : FM unit :=
  if py_eq_str_int post.(Post.creator_user_id) uid then
    (if String.eqb post.(Post.creator_user_name) "" then
       posts_set post.(Post.post_id)
         (Post.mk post.(Post.post_id) post.(Post.post_content) post.(Post.post_type)
            post.(Post.creator_user_id) "test_user_123456" post.(Post.media_files)
            post.(Post.post_category) post.(Post.tags) post.(Post.like_count) post.(Post.comment_count)
            post.(Post.view_count) post.(Post.liked_user_ids) post.(Post.comment_ids)
            post.(Post.post_status) post.(Post.created_at) post.(Post.updated_at))
     else mret tt)
  else mret tt.

(** [fix_memory_direct]: initialize if needed, collect and repair the
    posts of user [123456], flush.  The printing and the final direct
    read of MongoDB are not modelled; the result is the flush's. *)
Definition fix_memory_direct : FM bool :=
  py_try
    (ensure_initialized;;
     _ ← gets (fun w => user_posts_of 123456 (dict_values w.(posts_dict)));
     ps ← gets (fun w => dict_values w.(posts_dict));
     for_fold (repair_post_name 123456) ps tt;;
     save_to_database)
    (fun _ => mret false).

(** ** Theorems *)

(** The flush catches every exception: it always returns a boolean. *)
Lemma save_to_database_total w : exists b, (save_to_database w).1 = Ok b.
Proof.
  unfold save_to_database, py_try.
  match goal with |- context [match ?c w with _ => _ end] => destruct (c w) as [[b|e] w'] end; eauto.
Qed.

Lemma repair_loop_noop uid ps : for_fold (repair_post_name uid) ps tt = mret tt.
Proof. induction ps as [|p ps IH]; [done|]. simpl. unfold repair_post_name, py_eq_str_int. exact IH. Qed.

(** C34: [fix_memory_direct.py] repairs nothing: its selection of the posts
    of user [123456] compares string identifiers with an integer, so it
    is always empty, and the script amounts to the lazy initialization
    followed by the flush. *)
Theorem fix_memory_direct_spec w :
  user_posts_of 123456 (dict_values (posts_dict w)) = [] /\
  fix_memory_direct w = (ensure_initialized;; save_to_database) w.
Proof.
  split.
  - unfold user_posts_of, py_eq_str_int. induction (dict_values (posts_dict w)) as [|p ps IH]; [done|].
    rewrite filter_cons_False by done. exact IH.
  - assert (He : (ensure_initialized w).1 = Ok tt).
    { unfold ensure_initialized. rewrite bind_run. simpl. destruct (fm_initialized w); [done|].
      rewrite bind_run. pose proof (initialize_outcome w) as Hi.
      by destruct (initialize w) as [r w']; simpl in *; subst r. }
    unfold fix_memory_direct, py_try. rewrite !bind_run.
    destruct (ensure_initialized w) as [r1 w1]; simpl in He; subst r1. run_monad.
    rewrite repair_loop_noop. run_monad.
    destruct (save_to_database_total w1) as [b Hb].
    by destruct (save_to_database w1) as [[]]; simpl in Hb.
Qed.
