(* ===== verification/Invariant.v ===== *)
(** The invariant of the whole process state and its preservation by
    every operation of the cache, the API and the flush.

    [Inv] says: each dictionary is keyed by the identifier of its value
    and has no duplicate key; every cached entity has count/list parity
    and an identifier not above its sequencer's counter (so the next
    identifier is fresh); the cache flag implies both sequencers are
    seeded; an unseeded sequencer has an empty dictionary; every stored
    document is keyed by its [_id] and has parity.

    Proofs run each operation forward from a known state ([symex_step])
    and close the side goals with the footprint lemmas of the setters. *)

From S2P Require Import Prelude PyDict PySort Records Exec World Sequencer Cache Api Flush.

Definition post_ok (s : Seq) (k : Z) (p : Post.t) : Prop :=
  p.(Post.post_id) = k /\ post_parity p /\ (k <= counter s)%Z.

Definition comment_ok (s : Seq) (k : Z) (c : Comment.t) : Prop :=
  c.(Comment.comment_id) = k /\ comment_parity c /\ (k <= counter s)%Z.

Definition post_doc_ok (k : Z) (d : PostDoc.t) : Prop :=
  d.(PostDoc._id) = k /\ post_doc_parity d.

Definition comment_doc_ok (k : Z) (d : CommentDoc.t) : Prop :=
  d.(CommentDoc._id) = k /\ comment_doc_parity d.

Record Inv (w : World) : Prop := mk_inv {
  inv_posts_wf : dict_wf w.(posts_dict);
  inv_posts : dict_Forall (post_ok w.(post_seq)) w.(posts_dict);
  inv_comments_wf : dict_wf w.(comments_dict);
  inv_comments : dict_Forall (comment_ok w.(comment_seq)) w.(comments_dict);
  inv_flag : w.(fm_initialized) = true ->
             initialized w.(post_seq) = true /\ initialized w.(comment_seq) = true;
  inv_posts_seeded : initialized w.(post_seq) = false -> w.(posts_dict) = [];
  inv_comments_seeded : initialized w.(comment_seq) = false -> w.(comments_dict) = [];
  inv_db_posts : dict_Forall post_doc_ok w.(db).(db_posts);
  inv_db_comments : dict_Forall comment_doc_ok w.(db).(db_comments)
}.

(** ** Footprint lemmas *)

Section Footprint.
Implicit Types (w : World).

Lemma db_after_proj w :
  post_seq (db_after w) = post_seq w /\ comment_seq (db_after w) = comment_seq w /\
  fm_initialized (db_after w) = fm_initialized w /\ posts_dict (db_after w) = posts_dict w /\
  comments_dict (db_after w) = comments_dict w /\ users (db_after w) = users w /\
  db_posts (db (db_after w)) = db_posts (db w) /\ db_comments (db (db_after w)) = db_comments (db w) /\
  db_users (db (db_after w)) = db_users (db w) /\ clock (db_after w) = clock w.
Proof. unfold db_after. by destruct (db_faults (db w)). Qed.

Lemma Inv_db_after w : Inv w -> Inv (db_after w).
Proof.
  destruct (db_after_proj w) as (H1 & H2 & H3 & H4 & H5 & _ & H7 & H8 & _).
  intros []; constructor; rewrite ?H1, ?H2, ?H3, ?H4, ?H5, ?H7, ?H8; auto.
Qed.

Lemma Inv_set_users w u : Inv w -> Inv (set_users u w).
Proof. intros []; by constructor. Qed.

Lemma Inv_set_db_users w u : Inv w -> Inv (set_db (db_set_users u (db w)) w).
Proof. intros []; by constructor. Qed.

Lemma Inv_posts_set w k p :
  Inv w -> initialized (post_seq w) = true -> post_ok (post_seq w) k p ->
  Inv (set_posts_dict (dict_set k p (posts_dict w)) w).
Proof.
  intros [] Hi Hp; constructor; simpl; auto with forum. congruence.
Qed.

Lemma Inv_comments_set w k c :
  Inv w -> initialized (comment_seq w) = true -> comment_ok (comment_seq w) k c ->
  Inv (set_comments_dict (dict_set k c (comments_dict w)) w).
Proof.
  intros [] Hi Hc; constructor; simpl; auto with forum. congruence.
Qed.

Lemma Inv_post_counter_up w c :
  Inv w -> (counter (post_seq w) <= c)%Z ->
  Inv (set_post_seq (mk_seq c (initialized (post_seq w))) w).
Proof.
  intros [] Hc; constructor; simpl; auto.
  eapply dict_Forall_impl; [done|]. intros k p (? & ? & ?). unfold post_ok. simpl. split_and!; auto; lia.
Qed.

Lemma Inv_comment_counter_up w c :
  Inv w -> (counter (comment_seq w) <= c)%Z ->
  Inv (set_comment_seq (mk_seq c (initialized (comment_seq w))) w).
Proof.
  intros [] Hc; constructor; simpl; auto.
  eapply dict_Forall_impl; [done|]. intros k p (? & ? & ?). unfold comment_ok. simpl. split_and!; auto; lia.
Qed.

Lemma Inv_post_seed w c :
  Inv w -> initialized (post_seq w) = false -> Inv (set_post_seq (mk_seq c true) w).
Proof.
  intros [] Hi; constructor; simpl; auto.
  - rewrite inv_posts_seeded0 by done. apply dict_Forall_nil.
  - intros Hf. destruct (inv_flag0 Hf). congruence.
Qed.

(** Seeding the post counter over an empty post cache, whatever the
    counter held. *)
Lemma Inv_post_seed_empty w c :
  Inv w -> posts_dict w = [] -> Inv (set_post_seq (mk_seq c true) w).
Proof.
  intros [] Hp; constructor; simpl; auto.
  - rewrite Hp. apply dict_Forall_nil.
  - intros Hf. by destruct (inv_flag0 Hf).
Qed.

Lemma Inv_comment_seed w c :
  Inv w -> initialized (comment_seq w) = false -> Inv (set_comment_seq (mk_seq c true) w).
Proof.
  intros [] Hi; constructor; simpl; auto.
  - rewrite inv_comments_seeded0 by done. apply dict_Forall_nil.
  - intros Hf. destruct (inv_flag0 Hf). congruence.
Qed.

Lemma Inv_set_fm_false w : Inv w -> Inv (set_fm_initialized false w).
Proof. intros []; constructor; simpl; auto. done. Qed.

Lemma Inv_set_fm_true w :
  Inv w -> initialized (post_seq w) = true -> initialized (comment_seq w) = true ->
  Inv (set_fm_initialized true w).
Proof. intros [] H1 H2; constructor; simpl; auto. Qed.

Lemma Inv_clear_posts w : Inv w -> Inv (set_posts_dict [] w).
Proof. intros []; constructor; simpl; auto using dict_Forall_nil. constructor. Qed.

Lemma Inv_clear_comments w : Inv w -> Inv (set_comments_dict [] w).
Proof. intros []; constructor; simpl; auto using dict_Forall_nil. constructor. Qed.

Lemma Inv_db_posts_set w ps :
  Inv w -> dict_Forall post_doc_ok ps -> Inv (set_db (db_set_posts ps (db w)) w).
Proof. intros [] Hd; by constructor. Qed.

Lemma Inv_db_comments_set w cs :
  Inv w -> dict_Forall comment_doc_ok cs -> Inv (set_db (db_set_comments cs (db w)) w).
Proof. intros [] Hd; by constructor. Qed.
End Footprint.

Lemma db_after_post_seq w : post_seq (db_after w) = post_seq w.
Proof. apply db_after_proj. Qed.
Lemma db_after_comment_seq w : comment_seq (db_after w) = comment_seq w.
Proof. apply db_after_proj. Qed.
Lemma db_after_fm w : fm_initialized (db_after w) = fm_initialized w.
Proof. apply db_after_proj. Qed.
Lemma db_after_posts w : posts_dict (db_after w) = posts_dict w.
Proof. apply db_after_proj. Qed.
Lemma db_after_comments w : comments_dict (db_after w) = comments_dict w.
Proof. apply db_after_proj. Qed.
Lemma db_after_users w : users (db_after w) = users w.
Proof. apply db_after_proj. Qed.
Lemma db_after_db_posts w : db_posts (db (db_after w)) = db_posts (db w).
Proof. apply db_after_proj. Qed.
Lemma db_after_db_comments w : db_comments (db (db_after w)) = db_comments (db w).
Proof. apply db_after_proj. Qed.
Lemma db_after_db_users w : db_users (db (db_after w)) = db_users (db w).
Proof. apply db_after_proj. Qed.
Lemma db_after_clock w : clock (db_after w) = clock w.
Proof. apply db_after_proj. Qed.

Create Rewrite HintDb world.
#[export] Hint Rewrite db_after_post_seq db_after_comment_seq db_after_fm db_after_posts
  db_after_comments db_after_users db_after_db_posts db_after_db_comments db_after_db_users
  db_after_clock : world.
#[export] Hint Resolve inv_db_posts inv_db_comments : forum.
#[export] Hint Resolve Inv_db_after Inv_set_users Inv_set_db_users Inv_set_fm_false
  Inv_clear_posts Inv_clear_comments : forum.

(** Run forward, substituting the known states. *)
Ltac symex := repeat (symex_step; try subst).

(** Both sequencers seeded and the invariant. *)
Definition SI (w : World) : Prop :=
  Inv w /\ initialized (post_seq w) = true /\ initialized (comment_seq w) = true.

Lemma SI_Inv w : SI w -> Inv w.
Proof. by intros []. Qed.
#[export] Hint Resolve SI_Inv : forum.

Lemma Inv_demo_world : Inv demo_world.
Proof. constructor; simpl; try done; repeat constructor. Qed.

(** ** The sequencer and the cache *)

(** Close a goal about the invariant of a state built by setters. *)
Ltac inv_step :=
  first
    [ match goal with |- _ /\ _ => split end
    | match goal with
      | |- Inv _ =>
          first [ apply Inv_post_seed | apply Inv_comment_seed | apply Inv_db_after
                | apply Inv_set_users | apply Inv_set_db_users | apply Inv_set_fm_false
                | apply Inv_clear_posts | apply Inv_clear_comments
                | apply Inv_posts_set | apply Inv_comments_set
                | apply Inv_post_counter_up | apply Inv_comment_counter_up
                | apply Inv_db_posts_set | apply Inv_db_comments_set | apply Inv_set_fm_true ]
      | |- post_ok _ _ _ => unfold post_ok; simpl; split_and!
      | |- comment_ok _ _ _ => unfold comment_ok; simpl; split_and!
      end
    | progress (autorewrite with world in * )
    | progress case_match
    | match goal with |- _ = _ => simpl; autorewrite with world; (reflexivity || assumption) end
    | match goal with |- (_ <= _)%Z => simpl; autorewrite with world; lia end
    | assumption
    | solve [auto with forum] ].
Ltac solve_inv := repeat inv_step.

Lemma post_initialize_counter_inv :
  triple Inv post_initialize_counter (fun _ w => Inv w /\ initialized (post_seq w) = true) Inv.
Proof.
  unfold post_initialize_counter, seq_initialize_counter, seq_seed, db_find_max_post_id, now_ms.
  symex; auto with forum.
  eapply triple_try with (R1 := fun w => Inv w /\ initialized (post_seq w) = false);
    [|intros]; symex; destruct_and?; solve_inv.
Qed.

Lemma comment_initialize_counter_inv :
  triple (fun w => Inv w /\ initialized (post_seq w) = true) comment_initialize_counter
    (fun _ => SI) Inv.
Proof.
  unfold comment_initialize_counter, seq_initialize_counter, seq_seed, db_find_max_comment_id, now_ms, SI.
  symex; [naive_solver|].
  eapply triple_try with (R1 := fun w => Inv w /\ initialized (post_seq w) = true /\ initialized (comment_seq w) = false);
    [|intros]; symex; destruct_and?; solve_inv.
Qed.

Lemma post_restore_parity p k d : post_doc_parity d -> post_parity (post_restore p k d).
Proof. done. Qed.

Lemma comment_restore_parity c k d : comment_doc_parity d -> comment_parity (comment_restore c k d).
Proof. done. Qed.

#[export] Hint Resolve post_restore_parity comment_restore_parity : forum.

Lemma load_post_inv a d :
  post_doc_parity d -> triple SI (load_post a d) (fun _ => SI) SI.
Proof.
  intros Hd. unfold load_post, post_new, advance_post_counter, posts_set, now, SI.
  eapply triple_try with (R1 := SI); [|intros]; unfold SI; symex; destruct_and?; solve_inv.
Qed.

(** A loop started from a known state satisfying its invariant. *)
Lemma triple_for_fold_from {A B} (I : A -> World -> Prop) R (f : A -> B -> FM A) l a s0 :
  I a s0 -> (forall a b, b ∈ l -> triple (I a) (f a b) I R) ->
  triple (fun s => s = s0) (for_fold f l a) I R.
Proof.
  intros H0 Hf. eapply triple_weaken; [by apply triple_for_fold_in| |done|done].
  intros s ->. done.
Qed.

Lemma load_posts_inv : triple SI load_posts_from_database (fun _ => SI) SI.
Proof.
  unfold load_posts_from_database, db_find_posts, SI. symex; destruct_and?; [solve_inv|].
  apply triple_for_fold_from; [solve_inv|]. intros a d Hd.
  autorewrite with world in Hd.
  destruct (dict_Forall_values_elem _ _ _ (inv_db_posts _ H) Hd) as [k [_ Hp]].
  by apply load_post_inv.
Qed.

Lemma load_comment_inv a d :
  comment_doc_parity d -> triple SI (load_comment a d) (fun _ => SI) SI.
Proof.
  intros Hd. unfold load_comment, comment_new, advance_comment_counter, comments_set, now, SI.
  eapply triple_try with (R1 := SI); [|intros]; unfold SI; symex; destruct_and?; solve_inv.
Qed.

Lemma load_comments_inv : triple SI load_comments_from_database (fun _ => SI) SI.
Proof.
  unfold load_comments_from_database, db_find_comments, SI. symex; destruct_and?; [solve_inv|].
  apply triple_for_fold_from; [solve_inv|]. intros a d Hd.
  autorewrite with world in Hd.
  destruct (dict_Forall_values_elem _ _ _ (inv_db_comments _ H) Hd) as [k [_ Hp]].
  by apply load_comment_inv.
Qed.

(** Continue after a sub-computation with a known triple, from a known state. *)
Lemma triple_bind_spec {A B} (P : World -> Prop) (Q1 : A -> World -> Prop) (Q : B -> World -> Prop)
    (R R' : World -> Prop) (c : FM A) (k : A -> FM B) s0 :
  triple P c Q1 R' -> P s0 -> (forall s, R' s -> R s) ->
  (forall a, triple (Q1 a) (k a) Q R) -> triple (fun s => s = s0) (c ≫= k) Q R.
Proof.
  intros Hc H0 HR Hk. eapply triple_bind; [|exact Hk].
  eapply triple_weaken; [exact Hc|intros ? ->; done|done|done].
Qed.


(** The reconciler only rewrites the user registry. *)
Section Reconcile.
Context (P : World -> Prop) (HP : forall w u, P w -> P (set_users u w)).

Lemma reconcile_keeps : triple P reconcile_user_post_relationships (fun _ => P) P.
Proof.
  unfold reconcile_user_post_relationships. symex.
  apply triple_for_fold_from; [done|]. intros [] p _.
  unfold reconcile_post, get_user_instance, user_update. symex; try case_match; auto.
Qed.
End Reconcile.

Lemma reconcile_inv : triple SI reconcile_user_post_relationships (fun _ => SI) SI.
Proof. apply reconcile_keeps. unfold SI. intros w u (? & ? & ?). split_and!; auto with forum. Qed.

(** Everything [initialize] does after the post seeding. *)
Lemma initialize_rest_inv :
  triple (fun w => Inv w /\ initialized (post_seq w) = true) initialize_rest (fun _ => Inv) Inv.
Proof.
  unfold initialize_rest.
  eapply triple_bind; [eapply triple_weaken; [apply comment_initialize_counter_inv|done|done|done]|].
  intros []. symex.
  eapply triple_bind_spec; [apply load_posts_inv|unfold SI in *; destruct_and?; solve_inv|apply SI_Inv|].
  intros ?. eapply triple_bind; [eapply triple_weaken; [apply load_comments_inv|done|done|apply SI_Inv]|].
  intros ?. eapply triple_bind.
  { eapply triple_try with (R1 := SI); [apply reconcile_inv|intros; symex; done]. }
  intros []. unfold SI. symex; destruct_and?; solve_inv.
Qed.

Lemma initialize_load_inv : triple Inv initialize_load (fun _ => Inv) Inv.
Proof.
  unfold initialize_load.
  eapply triple_bind; [apply post_initialize_counter_inv|intros []; apply initialize_rest_inv].
Qed.


(** [initialize] keeps the invariant, whether it succeeds or not. *)
Lemma initialize_inv : triple Inv initialize (fun _ => Inv) Inv.
Proof.
  unfold initialize, initialize_except. eapply triple_try with (R1 := Inv); [|intros; symex; solve_inv].
  symex; [done|]. eapply triple_weaken; [apply initialize_load_inv|intros ? ->|done|done]. done.
Qed.

Lemma ensure_initialized_inv : triple Inv ensure_initialized (fun _ => Inv) Inv.
Proof.
  unfold ensure_initialized. symex; [done|].
  eapply triple_bind_spec; [apply initialize_inv|done|done|]. intros ?. symex. done.
Qed.

Lemma force_reinitialize_inv : triple Inv force_reinitialize (fun _ => Inv) Inv.
Proof.
  unfold force_reinitialize. eapply triple_try with (R1 := Inv); [|intros; symex; done].
  symex. eapply triple_weaken; [apply initialize_inv|intros ? ->|done|done]. solve_inv.
Qed.

(** ** The forum operations *)

(** A cached post is keyed by its identifier, has parity, and its
    sequencer is seeded. *)
Lemma Inv_posts_get w k p :
  Inv w -> dict_get k (posts_dict w) = Some p ->
  initialized (post_seq w) = true /\ post_ok (post_seq w) k p.
Proof.
  intros HI Hg. split; [|exact (dict_Forall_get _ _ _ _ (inv_posts _ HI) Hg)].
  destruct (initialized _) eqn:E; [done|]. by rewrite (inv_posts_seeded _ HI E) in Hg.
Qed.

Lemma Inv_comments_get w k c :
  Inv w -> dict_get k (comments_dict w) = Some c ->
  initialized (comment_seq w) = true /\ comment_ok (comment_seq w) k c.
Proof.
  intros HI Hg. split; [|exact (dict_Forall_get _ _ _ _ (inv_comments _ HI) Hg)].
  destruct (initialized _) eqn:E; [done|]. by rewrite (inv_comments_seeded _ HI E) in Hg.
Qed.

Lemma post_parity_new pid ct ty cu cn m cat tags v st ca ua :
  post_parity (Post.mk pid ct ty cu cn m cat tags 0 0 v [] [] st ca ua).
Proof. split_and!; [done|constructor|done]. Qed.

Lemma comment_parity_new cid pid ct cu cn st ca :
  comment_parity (Comment.mk cid pid ct cu cn 0 [] st ca).
Proof. split; [done|constructor]. Qed.

Lemma post_parity_add_comment p t c :
  post_parity p -> post_parity (Post.set_comments p (Post.comment_ids p ++ [c]) (Post.comment_count p + 1) t).
Proof.
  intros (H1 & H2 & H3). split_and!; [done|done|]. simpl. rewrite length_app. simpl. lia.
Qed.

#[export] Hint Resolve post_parity_new comment_parity_new post_parity_add_comment : forum.
#[export] Hint Rewrite post_like_mem_id post_unlike_mem_id comment_like_mem_id
  comment_unlike_mem_id : world.

(** Turn the facts the forward run leaves into usable hypotheses. *)
Ltac inv_facts :=
  repeat match goal with
  | H : negb _ = false |- _ => apply negb_false_iff in H
  | H : negb _ = true |- _ => apply negb_true_iff in H
  | H : dict_get _ (posts_dict _) = Some _, HI : Inv _ |- _ =>
      destruct (Inv_posts_get _ _ _ HI H) as [? [? [? ?]]]; clear H
  | H : dict_get _ (comments_dict _) = Some _, HI : Inv _ |- _ =>
      destruct (Inv_comments_get _ _ _ HI H) as [? [? [? ?]]]; clear H
  end.

(** Every operation that starts with the lazy-initialization guard. *)
Lemma triple_guarded {A} (body : FM A) h :
  triple Inv body (fun _ => Inv) Inv -> (forall e, triple Inv (h e) (fun _ => Inv) Inv) ->
  triple Inv (py_try (ensure_initialized;; body) h) (fun _ => Inv) Inv.
Proof.
  intros Hb Hh. eapply triple_try; [|exact Hh].
  eapply triple_bind; [apply ensure_initialized_inv|intros ?; exact Hb].
Qed.

Lemma create_post_body_inv cu ct ty cat tags media :
  triple Inv (create_post_body cu ct ty cat tags media) (fun _ => Inv) Inv.
Proof.
  unfold create_post_body, get_user_instance, post_new, now, posts_set. symex; inv_facts; try solve_inv.
  eapply (triple_bind _ (fun _ => Inv)); [|intros; symex; done].
  eapply triple_try with (R1 := Inv); [|intros; symex; done].
  unfold user_update, db_user_add_to_set, modify_db. symex; inv_facts; solve_inv.
Qed.

Lemma create_post_inv cu ct ty cat tags media :
  triple Inv (create_post cu ct ty cat tags media) (fun _ => Inv) Inv.
Proof. unfold create_post. apply triple_guarded; [apply create_post_body_inv|intros; symex; done]. Qed.

(** Step over a sub-computation whose triple is already proved. *)
Ltac use_spec L :=
  first [ eapply triple_bind_spec; [apply L|done|done|intros ?]
        | eapply triple_weaken; [apply L|intros ? ->; done|done|done] ].

Lemma list_page_inv uid sorted page page_size :
  triple Inv (list_page uid sorted page page_size) (fun _ => Inv) Inv.
Proof.
  unfold list_page. destruct (page_bounds page page_size) as [skip e].
  unfold db_find_one_user. symex; solve_inv.
Qed.

Lemma get_posts_list_inv uid sort_type page page_size :
  triple Inv (get_posts_list uid sort_type page page_size) (fun _ => Inv) Inv.
Proof.
  unfold get_posts_list. apply triple_guarded; [|intros; symex; done].
  unfold published_posts. symex; [use_spec force_reinitialize_inv; symex|]; use_spec list_page_inv.
Qed.

Lemma search_posts_inv uid q page page_size :
  triple Inv (search_posts uid q page page_size) (fun _ => Inv) Inv.
Proof.
  unfold search_posts. apply triple_guarded; [|intros; symex; done].
  unfold published_posts. symex. use_spec list_page_inv.
Qed.

Lemma get_post_detail_inv uid pid :
  triple Inv (get_post_detail uid pid) (fun _ => Inv) Inv.
Proof.
  unfold get_post_detail. apply triple_guarded; [|intros; symex; done].
  unfold posts_get, db_find_one_user. symex; solve_inv.
Qed.

(** The two halves of [toggle_post_like], on either side of its storage
    call, each keep the invariant. *)
Lemma toggle_post_like_memory_inv uid pid action :
  triple Inv (toggle_post_like_memory uid pid action) (fun _ => Inv) Inv.
Proof. unfold toggle_post_like_memory, posts_get, now, posts_set. symex; inv_facts; solve_inv. Qed.

Lemma toggle_post_like_sync_inv uid pid action post' :
  triple Inv (toggle_post_like_sync uid pid action post') (fun _ => Inv) Inv.
Proof.
  unfold toggle_post_like_sync, get_user_instance, user_update, db_user_add_to_set, db_user_pull, modify_db.
  symex; solve_inv.
Qed.

Lemma toggle_post_like_inv uid pid action :
  triple Inv (toggle_post_like uid pid action) (fun _ => Inv) Inv.
Proof.
  unfold toggle_post_like, toggle_post_like_handler. apply triple_guarded; [|intros; symex; done].
  eapply triple_bind; [apply toggle_post_like_memory_inv|intros [post'|]];
    [apply toggle_post_like_sync_inv|symex; done].
Qed.

Lemma create_comment_inv uid pid content :
  triple Inv (create_comment uid pid content) (fun _ => Inv) Inv.
Proof.
  unfold create_comment. apply triple_guarded; [|intros; symex; done].
  unfold get_user_instance, posts_get, comment_new, comments_set, now, posts_set.
  symex; inv_facts; solve_inv.
Qed.

Lemma get_post_comments_inv pid uid page page_size :
  triple Inv (get_post_comments pid uid page page_size) (fun _ => Inv) Inv.
Proof.
  unfold get_post_comments. eapply triple_try with (R1 := Inv); [|intros; symex; done].
  destruct (page_bounds page page_size) as [skip e]. symex; done.
Qed.

Lemma toggle_comment_like_inv uid cid action :
  triple Inv (toggle_comment_like uid cid action) (fun _ => Inv) Inv.
Proof.
  unfold toggle_comment_like. apply triple_guarded; [|intros; symex; done].
  unfold comments_get, comments_set. symex; inv_facts; solve_inv.
Qed.

(** ** The flush *)

Lemma post_doc_set_ok k old p :
  post_doc_ok k old -> post_parity p -> post_doc_ok k (post_doc_set old (post_to_dict p)).
Proof. intros [Hk _] Hp. by split. Qed.

Lemma comment_doc_set_ok k old c :
  comment_doc_ok k old -> comment_parity c -> comment_doc_ok k (comment_doc_set old (comment_to_dict c)).
Proof. intros [Hk _] Hc. by split. Qed.

Lemma post_doc_new_ok p : post_parity p -> post_doc_ok (PostDoc._id (post_to_dict p)) (post_to_dict p).
Proof. by split. Qed.

Lemma comment_doc_new_ok c :
  comment_parity c -> comment_doc_ok (CommentDoc._id (comment_to_dict c)) (comment_to_dict c).
Proof. by split. Qed.

#[export] Hint Resolve post_doc_new_ok comment_doc_new_ok : forum.

Ltac db_facts :=
  repeat match goal with
  | H : dict_get ?k (db_posts (db ?w)) = Some ?d, HI : Inv ?w |- _ =>
      pose proof (dict_Forall_get _ _ _ _ (inv_db_posts _ HI) H); clear H
  | H : dict_get ?k (db_comments (db ?w)) = Some ?d, HI : Inv ?w |- _ =>
      pose proof (dict_Forall_get _ _ _ _ (inv_db_comments _ HI) H); clear H
  end.

Lemma upsert_post_inv p :
  post_parity p -> triple Inv (upsert_post p) (fun _ => Inv) Inv.
Proof.
  intros Hp. unfold upsert_post, db_find_one_post, db_update_post_set, db_insert_post, modify_db.
  symex; autorewrite with world in *; try case_match; db_facts; solve_inv;
    auto using post_doc_set_ok with forum.
Qed.

Lemma upsert_comment_inv c :
  comment_parity c -> triple Inv (upsert_comment c) (fun _ => Inv) Inv.
Proof.
  intros Hc. unfold upsert_comment, db_find_one_comment, db_update_comment_set, db_insert_comment,
    modify_db.
  symex; autorewrite with world in *; try case_match; db_facts; solve_inv;
    auto using comment_doc_set_ok with forum.
Qed.

Lemma flush_post_inv n p : post_parity p -> triple Inv (flush_post n p) (fun _ => Inv) Inv.
Proof.
  intros Hp. unfold flush_post. eapply triple_try with (R1 := Inv); [|intros; symex; done].
  eapply triple_bind; [by apply upsert_post_inv|intros ?]. symex; done.
Qed.

Lemma flush_comment_inv n c : comment_parity c -> triple Inv (flush_comment n c) (fun _ => Inv) Inv.
Proof.
  intros Hc. unfold flush_comment. eapply triple_try with (R1 := Inv); [|intros; symex; done].
  eapply triple_bind; [by apply upsert_comment_inv|intros ?]. symex; done.
Qed.

Lemma flush_posts_inv l n :
  (forall p, p ∈ l -> post_parity p) -> triple Inv (for_fold flush_post l n) (fun _ => Inv) Inv.
Proof. intros Hl. apply (triple_for_fold_in (fun _ => Inv)). intros m p Hp. auto using flush_post_inv. Qed.

Lemma flush_comments_inv l n :
  (forall c, c ∈ l -> comment_parity c) -> triple Inv (for_fold flush_comment l n) (fun _ => Inv) Inv.
Proof.
  intros Hl. apply (triple_for_fold_in (fun _ => Inv)). intros m c Hc. auto using flush_comment_inv.
Qed.

Lemma Inv_posts_values w p : Inv w -> p ∈ dict_values (posts_dict w) -> post_parity p.
Proof. intros HI Hp. by destruct (dict_Forall_values_elem _ _ _ (inv_posts _ HI) Hp) as [k (_ & ? & _)]. Qed.

Lemma Inv_comments_values w c : Inv w -> c ∈ dict_values (comments_dict w) -> comment_parity c.
Proof. intros HI Hc. by destruct (dict_Forall_values_elem _ _ _ (inv_comments _ HI) Hc) as [k (_ & ? & _)]. Qed.

Lemma save_to_database_inv : triple Inv save_to_database (fun _ => Inv) Inv.
Proof.
  unfold save_to_database. eapply triple_try with (R1 := Inv); [|intros; symex; done].
  eapply (triple_bind _ (fun _ => Inv)).
  { eapply triple_try with (R1 := Inv); [apply reconcile_keeps; auto with forum|intros; symex; done]. }
  intros ?. symex.
  eapply triple_bind_spec; [apply flush_posts_inv; eauto using Inv_posts_values|done|done|intros ?].
  symex.
  eapply triple_bind_spec; [apply flush_comments_inv; eauto using Inv_comments_values|done|done|intros ?].
  symex; done.
Qed.

(** The maintenance script leaves an empty, unseeded process state. *)
Lemma force_reset_memory_inv w : Inv w -> Inv (force_reset_memory w).
Proof. intros []; constructor; simpl; auto using dict_Forall_nil; constructor. Qed.
