(* ===== verification/TypedIds.v ===== *)
(** The typing invariant of the user identifiers.

    The service keeps user identifiers as strings ([str(user_id)]), and
    the response models read them back as [int] ([CreatorInfo.user_id]).
    [Typed] says every identifier the caches and the stored documents
    hold reads as an integer: the creator of every cached post, the
    commenter of every cached comment, the [user_id] of every registered
    user, and the creator/commenter field of every stored document
    (present, and an integer string).

    Every operation keeps [Typed]: a post or comment gets its creator
    from a registered user ([create_post], [create_comment]) or from a
    stored document (the loaders, through [str(...)]); every update keeps
    the creator; the flush writes the cached creator. *)

From S2P Require Import Prelude PyDict PySort Records PyInt Exec World Sequencer Cache Api Flush Invariant.

(** A string that pydantic's [int] coercion accepts. *)
Definition int_str (s : string) : Prop := is_Some (int_of_str s).

Definition int_strb (s : string) : bool :=
  match int_of_str s with Some _ => true | None => false end.

(** A stored identifier field: present and an integer string. *)
Definition doc_int_str (o : option string) : Prop :=
  match o with Some s => int_str s | None => False end.

Record Typed (w : World) : Prop := mk_typed {
  typed_posts : dict_Forall (fun _ p => int_str p.(Post.creator_user_id)) w.(posts_dict);
  typed_comments : dict_Forall (fun _ c => int_str c.(Comment.commenter_user_id)) w.(comments_dict);
  typed_users : dict_Forall (fun _ u => int_str u.(User.user_id)) w.(users);
  typed_db_posts : dict_Forall (fun _ d => doc_int_str d.(PostDoc.creator_user_id)) w.(db).(db_posts);
  typed_db_comments :
    dict_Forall (fun _ d => doc_int_str d.(CommentDoc.commenter_user_id)) w.(db).(db_comments)
}.

Definition doc_int_strb (o : option string) : bool :=
  match o with Some s => int_strb s | None => false end.

Lemma int_strb_int_str s : int_strb s = true -> int_str s.
Proof. unfold int_strb, int_str. destruct (int_of_str s); [by eexists|done]. Qed.

Lemma doc_int_strb_doc_int_str o : doc_int_strb o = true -> doc_int_str o.
Proof. destruct o; [apply int_strb_int_str|done]. Qed.

(** ** Footprint lemmas *)

Section Footprint.
Implicit Types (w : World).

Lemma Typed_db_after w : Typed w -> Typed (db_after w).
Proof.
  destruct (db_after_proj w) as (_ & _ & _ & H4 & H5 & H6 & H7 & H8 & _).
  intros []; constructor; rewrite ?H4, ?H5, ?H6, ?H7, ?H8; auto.
Qed.

Lemma Typed_set_post_seq w s : Typed w -> Typed (set_post_seq s w).
Proof. by intros []; constructor. Qed.

Lemma Typed_set_comment_seq w s : Typed w -> Typed (set_comment_seq s w).
Proof. by intros []; constructor. Qed.

Lemma Typed_set_fm w b : Typed w -> Typed (set_fm_initialized b w).
Proof. by intros []; constructor. Qed.

Lemma Typed_set_db_users w u : Typed w -> Typed (set_db (db_set_users u (db w)) w).
Proof. by intros []; constructor. Qed.

Lemma Typed_set_db_faults w f : Typed w -> Typed (set_db (db_set_faults f (db w)) w).
Proof. by intros []; constructor. Qed.

Lemma Typed_clear_posts w : Typed w -> Typed (set_posts_dict [] w).
Proof. intros []; constructor; simpl; auto using dict_Forall_nil. Qed.

Lemma Typed_clear_comments w : Typed w -> Typed (set_comments_dict [] w).
Proof. intros []; constructor; simpl; auto using dict_Forall_nil. Qed.

Lemma Typed_set_users_nil w : Typed w -> Typed (set_users [] w).
Proof. intros []; constructor; simpl; auto using dict_Forall_nil. Qed.

Lemma Typed_posts_set w k p :
  Typed w -> int_str p.(Post.creator_user_id) -> Typed (set_posts_dict (dict_set k p (posts_dict w)) w).
Proof. intros [] Hp; constructor; simpl; auto using dict_Forall_set. Qed.

Lemma Typed_comments_set w k c :
  Typed w -> int_str c.(Comment.commenter_user_id) ->
  Typed (set_comments_dict (dict_set k c (comments_dict w)) w).
Proof. intros [] Hc; constructor; simpl; auto using dict_Forall_set. Qed.

Lemma Typed_set_users w us :
  Typed w -> dict_Forall (fun _ u => int_str u.(User.user_id)) us -> Typed (set_users us w).
Proof. intros [] Hu; by constructor. Qed.

Lemma Typed_db_posts_set w ps :
  Typed w -> dict_Forall (fun _ d => doc_int_str d.(PostDoc.creator_user_id)) ps ->
  Typed (set_db (db_set_posts ps (db w)) w).
Proof. intros [] Hd; by constructor. Qed.

Lemma Typed_db_comments_set w cs :
  Typed w -> dict_Forall (fun _ d => doc_int_str d.(CommentDoc.commenter_user_id)) cs ->
  Typed (set_db (db_set_comments cs (db w)) w).
Proof. intros [] Hd; by constructor. Qed.

(** What the caches hold is typed. *)
Lemma Typed_posts_get w k p :
  Typed w -> dict_get k (posts_dict w) = Some p -> int_str p.(Post.creator_user_id).
Proof. intros HT Hg. exact (dict_Forall_get _ _ _ _ (typed_posts _ HT) Hg). Qed.

Lemma Typed_comments_get w k c :
  Typed w -> dict_get k (comments_dict w) = Some c -> int_str c.(Comment.commenter_user_id).
Proof. intros HT Hg. exact (dict_Forall_get _ _ _ _ (typed_comments _ HT) Hg). Qed.

Lemma Typed_users_get w k u :
  Typed w -> dict_get k (users w) = Some u -> int_str u.(User.user_id).
Proof. intros HT Hg. exact (dict_Forall_get _ _ _ _ (typed_users _ HT) Hg). Qed.

Lemma Typed_posts_values w p :
  Typed w -> p ∈ dict_values (posts_dict w) -> int_str p.(Post.creator_user_id).
Proof. intros HT Hp. by destruct (dict_Forall_values_elem _ _ _ (typed_posts _ HT) Hp). Qed.

Lemma Typed_comments_values w c :
  Typed w -> c ∈ dict_values (comments_dict w) -> int_str c.(Comment.commenter_user_id).
Proof. intros HT Hc. by destruct (dict_Forall_values_elem _ _ _ (typed_comments _ HT) Hc). Qed.
End Footprint.

(** [str(x)] of a stored integer string is that string. *)
Lemma doc_int_str_py_str o : doc_int_str o -> int_str (py_str o).
Proof. by destruct o. Qed.

Create HintDb typed.
#[export] Hint Resolve Typed_db_after Typed_set_post_seq Typed_set_comment_seq Typed_set_fm
  Typed_set_db_users Typed_set_db_faults Typed_clear_posts Typed_clear_comments
  Typed_set_users_nil : typed.

(** The in-memory updates keep the creator. *)
Lemma post_like_mem_creator uid p t :
  Post.creator_user_id (post_like_mem uid p t) = Post.creator_user_id p.
Proof. unfold post_like_mem. by case_match. Qed.
Lemma post_unlike_mem_creator uid p t :
  Post.creator_user_id (post_unlike_mem uid p t) = Post.creator_user_id p.
Proof. unfold post_unlike_mem. by case_match. Qed.
Lemma comment_like_mem_commenter uid c :
  Comment.commenter_user_id (comment_like_mem uid c) = Comment.commenter_user_id c.
Proof. unfold comment_like_mem. by case_match. Qed.
Lemma comment_unlike_mem_commenter uid c :
  Comment.commenter_user_id (comment_unlike_mem uid c) = Comment.commenter_user_id c.
Proof. unfold comment_unlike_mem. by case_match. Qed.

Create Rewrite HintDb ids.
#[export] Hint Rewrite post_like_mem_creator post_unlike_mem_creator comment_like_mem_commenter
  comment_unlike_mem_commenter : ids.

(** Turn the lookups a forward run leaves into typing facts. *)
Ltac typed_facts :=
  repeat match goal with
  | H : dict_get _ (?proj (?set _ _)) = Some _ |- _ =>
      progress cbn [posts_dict comments_dict users set_posts_dict set_comments_dict set_users
        set_post_seq set_comment_seq set_fm_initialized set_db] in H
  | H : dict_get ?k (posts_dict _) = Some ?p, HT : Typed ?w |- _ =>
      pose proof (Typed_posts_get w k p HT H); clear H
  | H : dict_get ?k (comments_dict _) = Some ?c, HT : Typed ?w |- _ =>
      pose proof (Typed_comments_get w k c HT H); clear H
  | H : dict_get ?k (users _) = Some ?u, HT : Typed ?w |- _ =>
      pose proof (Typed_users_get w k u HT H); clear H
  end.

(** Close a goal about the typing of a state built by setters. *)
Ltac typed_step :=
  first
    [ match goal with |- _ /\ _ => split end
    | match goal with
      | |- Typed _ =>
          first [ apply Typed_posts_set | apply Typed_comments_set | apply Typed_set_users
                | apply Typed_db_posts_set | apply Typed_db_comments_set
                | apply Typed_db_after | apply Typed_set_post_seq | apply Typed_set_comment_seq
                | apply Typed_set_fm | apply Typed_set_db_users | apply Typed_set_db_faults
                | apply Typed_clear_posts | apply Typed_clear_comments ]
      | |- dict_Forall _ (dict_set _ _ _) => apply dict_Forall_set
      | |- dict_Forall _ [] => apply dict_Forall_nil
      | |- dict_Forall _ (users _) => apply typed_users
      | |- dict_Forall _ (db_posts (db _)) => apply typed_db_posts
      | |- dict_Forall _ (db_comments (db _)) => apply typed_db_comments
      | |- doc_int_str _ => progress simpl
      end
    | progress (autorewrite with world in * )
    | progress typed_facts
    | progress case_match
    | assumption
    | match goal with |- int_str _ => progress (simpl; autorewrite with ids) end
    | solve [eauto with typed] ].
Ltac solve_typed := repeat typed_step.

(** ** The sequencers and the cache *)

Lemma post_initialize_counter_typed : triple Typed post_initialize_counter (fun _ => Typed) Typed.
Proof.
  unfold post_initialize_counter, seq_initialize_counter, seq_seed, db_find_max_post_id, now_ms.
  symex; [done|]. eapply triple_try with (R1 := Typed); [|intros]; symex; solve_typed.
Qed.

Lemma comment_initialize_counter_typed : triple Typed comment_initialize_counter (fun _ => Typed) Typed.
Proof.
  unfold comment_initialize_counter, seq_initialize_counter, seq_seed, db_find_max_comment_id, now_ms.
  symex; [done|]. eapply triple_try with (R1 := Typed); [|intros]; symex; solve_typed.
Qed.

Lemma load_post_typed a d :
  doc_int_str d.(PostDoc.creator_user_id) -> triple Typed (load_post a d) (fun _ => Typed) Typed.
Proof.
  intros Hd. unfold load_post, post_new, advance_post_counter, posts_set, now.
  eapply triple_try with (R1 := Typed); [|intros]; symex; solve_typed.
  by apply doc_int_str_py_str.
Qed.

Lemma load_comment_typed a d :
  doc_int_str d.(CommentDoc.commenter_user_id) -> triple Typed (load_comment a d) (fun _ => Typed) Typed.
Proof.
  intros Hd. unfold load_comment, comment_new, advance_comment_counter, comments_set, now.
  eapply triple_try with (R1 := Typed); [|intros]; symex; solve_typed.
  by apply doc_int_str_py_str.
Qed.

Lemma load_posts_typed : triple Typed load_posts_from_database (fun _ => Typed) Typed.
Proof.
  unfold load_posts_from_database, db_find_posts. symex; [solve_typed|].
  apply triple_for_fold_from; [solve_typed|]. intros a d Hd.
  autorewrite with world in Hd.
  destruct (dict_Forall_values_elem _ _ _ (typed_db_posts _ Hs) Hd) as [k Hk].
  by apply load_post_typed.
Qed.

Lemma load_comments_typed : triple Typed load_comments_from_database (fun _ => Typed) Typed.
Proof.
  unfold load_comments_from_database, db_find_comments. symex; [solve_typed|].
  apply triple_for_fold_from; [solve_typed|]. intros a d Hd.
  autorewrite with world in Hd.
  destruct (dict_Forall_values_elem _ _ _ (typed_db_comments _ Hs) Hd) as [k Hk].
  by apply load_comment_typed.
Qed.

(** The reconciler only adds post identifiers to registered users. *)
Lemma reconcile_typed : triple Typed reconcile_user_post_relationships (fun _ => Typed) Typed.
Proof.
  unfold reconcile_user_post_relationships. symex.
  apply triple_for_fold_from; [done|]. intros [] p _.
  unfold reconcile_post, get_user_instance, user_update. symex; solve_typed.
Qed.

Lemma initialize_typed : triple Typed initialize (fun _ => Typed) Typed.
Proof.
  unfold initialize, initialize_except, initialize_load, initialize_rest. eapply triple_try with (R1 := Typed); [|intros; symex; solve_typed].
  symex; [done|].
  eapply triple_bind_spec; [apply post_initialize_counter_typed|done|done|intros ?].
  eapply triple_bind; [apply comment_initialize_counter_typed|intros ?]. symex.
  eapply triple_bind_spec; [apply load_posts_typed|solve_typed|done|intros ?].
  eapply triple_bind; [apply load_comments_typed|intros ?].
  eapply triple_bind.
  { eapply triple_try with (R1 := Typed); [apply reconcile_typed|intros; symex; done]. }
  intros []. symex; solve_typed.
Qed.

Lemma ensure_initialized_typed : triple Typed ensure_initialized (fun _ => Typed) Typed.
Proof.
  unfold ensure_initialized. symex; [done|].
  eapply triple_bind_spec; [apply initialize_typed|done|done|]. intros ?. symex. done.
Qed.

Lemma force_reinitialize_typed : triple Typed force_reinitialize (fun _ => Typed) Typed.
Proof.
  unfold force_reinitialize. eapply triple_try with (R1 := Typed); [|intros; symex; done].
  symex. eapply triple_weaken; [apply initialize_typed|intros ? ->|done|done]. solve_typed.
Qed.

(** ** The forum operations *)

Lemma triple_guarded_typed {A} (body : FM A) h :
  triple Typed body (fun _ => Typed) Typed -> (forall e, triple Typed (h e) (fun _ => Typed) Typed) ->
  triple Typed (py_try (ensure_initialized;; body) h) (fun _ => Typed) Typed.
Proof.
  intros Hb Hh. eapply triple_try; [|exact Hh].
  eapply triple_bind; [apply ensure_initialized_typed|intros ?; exact Hb].
Qed.

Lemma create_post_typed cu ct ty cat tags media :
  triple Typed (create_post cu ct ty cat tags media) (fun _ => Typed) Typed.
Proof.
  unfold create_post, create_post_body. apply triple_guarded_typed; [|intros; symex; done].
  unfold get_user_instance, post_new, now, posts_set. symex; solve_typed.
  eapply (triple_bind _ (fun _ => Typed)); [|intros; symex; done].
  eapply triple_try with (R1 := Typed); [|intros; symex; done].
  unfold user_update, db_user_add_to_set, modify_db. symex; solve_typed.
Qed.

Lemma list_page_typed uid sorted page page_size :
  triple Typed (list_page uid sorted page page_size) (fun _ => Typed) Typed.
Proof.
  unfold list_page. destruct (page_bounds page page_size) as [skip e].
  unfold db_find_one_user. symex; solve_typed.
Qed.

Lemma get_posts_list_typed uid sort_type page page_size :
  triple Typed (get_posts_list uid sort_type page page_size) (fun _ => Typed) Typed.
Proof.
  unfold get_posts_list. apply triple_guarded_typed; [|intros; symex; done].
  unfold published_posts. symex; [use_spec force_reinitialize_typed; symex|]; use_spec list_page_typed.
Qed.

Lemma search_posts_typed uid q page page_size :
  triple Typed (search_posts uid q page page_size) (fun _ => Typed) Typed.
Proof.
  unfold search_posts. apply triple_guarded_typed; [|intros; symex; done].
  unfold published_posts. symex. use_spec list_page_typed.
Qed.

Lemma get_post_detail_typed uid pid : triple Typed (get_post_detail uid pid) (fun _ => Typed) Typed.
Proof.
  unfold get_post_detail. apply triple_guarded_typed; [|intros; symex; done].
  unfold posts_get, db_find_one_user. symex; solve_typed.
Qed.

Lemma toggle_post_like_typed uid pid action :
  triple Typed (toggle_post_like uid pid action) (fun _ => Typed) Typed.
Proof.
  unfold toggle_post_like, toggle_post_like_memory, toggle_post_like_sync, toggle_post_like_handler. apply triple_guarded_typed; [|intros; symex; done].
  unfold posts_get, now, posts_set, get_user_instance, user_update,
    db_user_add_to_set, db_user_pull, modify_db.
  symex; solve_typed.
Qed.

Lemma create_comment_typed uid pid content :
  triple Typed (create_comment uid pid content) (fun _ => Typed) Typed.
Proof.
  unfold create_comment. apply triple_guarded_typed; [|intros; symex; done].
  unfold get_user_instance, posts_get, comment_new, comments_set, now, posts_set.
  symex; solve_typed.
Qed.

Lemma get_post_comments_typed pid uid page page_size :
  triple Typed (get_post_comments pid uid page page_size) (fun _ => Typed) Typed.
Proof.
  unfold get_post_comments. eapply triple_try with (R1 := Typed); [|intros; symex; done].
  destruct (page_bounds page page_size) as [skip e]. symex; done.
Qed.

Lemma toggle_comment_like_typed uid cid action :
  triple Typed (toggle_comment_like uid cid action) (fun _ => Typed) Typed.
Proof.
  unfold toggle_comment_like. apply triple_guarded_typed; [|intros; symex; done].
  unfold comments_get, comments_set. symex; solve_typed.
Qed.

(** ** The flush and the maintenance scripts *)

Lemma upsert_post_typed p :
  int_str p.(Post.creator_user_id) -> triple Typed (upsert_post p) (fun _ => Typed) Typed.
Proof.
  intros Hp. unfold upsert_post, db_find_one_post, db_update_post_set, db_insert_post, modify_db.
  symex; solve_typed.
Qed.

Lemma upsert_comment_typed c :
  int_str c.(Comment.commenter_user_id) -> triple Typed (upsert_comment c) (fun _ => Typed) Typed.
Proof.
  intros Hc. unfold upsert_comment, db_find_one_comment, db_update_comment_set, db_insert_comment,
    modify_db.
  symex; solve_typed.
Qed.

Lemma save_to_database_typed : triple Typed save_to_database (fun _ => Typed) Typed.
Proof.
  unfold save_to_database. eapply triple_try with (R1 := Typed); [|intros; symex; done].
  eapply (triple_bind _ (fun _ => Typed)).
  { eapply triple_try with (R1 := Typed); [apply reconcile_typed|intros; symex; done]. }
  intros ?. symex.
  eapply triple_bind_spec; [apply (triple_for_fold_in (fun _ => Typed))|done|done|intros ?].
  { intros m p Hp. unfold flush_post. eapply triple_try with (R1 := Typed); [|intros; symex; done].
    eapply triple_bind; [apply upsert_post_typed; eauto using Typed_posts_values|intros ?]. symex; done. }
  symex.
  eapply triple_bind_spec; [apply (triple_for_fold_in (fun _ => Typed))|done|done|intros ?].
  { intros m c Hc. unfold flush_comment. eapply triple_try with (R1 := Typed); [|intros; symex; done].
    eapply triple_bind; [apply upsert_comment_typed; eauto using Typed_comments_values|intros ?].
    symex; done. }
  symex; done.
Qed.

Lemma force_reset_memory_typed w : Typed w -> Typed (force_reset_memory w).
Proof. intros HT. unfold force_reset_memory, safe_reset_post_comment_counters,
  safe_reset_user_management, safe_reset_forum_manager. solve_typed. Qed.

Lemma fix_memory_direct_typed : triple Typed fix_memory_direct (fun _ => Typed) Typed.
Proof.
  unfold fix_memory_direct. apply triple_guarded_typed; [|intros; symex; done].
  symex. eapply triple_bind_spec; [apply (triple_for_fold_in (fun _ => Typed))|done|done|intros ?].
  { intros [] p Hp. unfold repair_post_name, posts_set. symex; solve_typed.
    eauto using Typed_posts_values. }
  apply save_to_database_typed.
Qed.

(** ** What the listings return *)

(** Every item of a listing names its creator by an integer string. *)
Definition items_typed (r : ListResponse) : Prop :=
  Forall (fun i => int_str (item_creator_user_id i)) (lr_posts r).

Definition comment_items_typed (r : CommentsResponse) : Prop :=
  Forall (fun i => int_str (ci_commenter_user_id i)) (gr_comments r).

Definition detail_typed (r : DetailResponse) : Prop :=
  match dr_post r with Some i => int_str (item_creator_user_id i) | None => True end.

Lemma Forall_sort_key {A K} (P : A -> Prop) (key : A -> K) lt l :
  Forall P l -> Forall P (sort_key key lt l).
Proof. intros H. by rewrite sort_key_perm. Qed.

Lemma Typed_published w :
  Typed w -> Forall (fun p => int_str (Post.creator_user_id p)) (published (dict_values (posts_dict w))).
Proof.
  intros HT. apply Forall_list_filter, Forall_forall. intros p Hp. by eapply Typed_posts_values.
Qed.

Lemma ensure_initialized_typed_true :
  triple Typed ensure_initialized (fun _ => Typed) (fun _ => True).
Proof. eapply triple_weaken; [apply ensure_initialized_typed|done..]. Qed.

Lemma list_page_items uid sorted page page_size :
  Forall (fun p => int_str (Post.creator_user_id p)) sorted ->
  triple (fun _ => True) (list_page uid sorted page page_size) (fun r _ => items_typed r) (fun _ => True).
Proof.
  intros Hs. unfold list_page. destruct (page_bounds page page_size) as [skip e].
  unfold db_find_one_user, items_typed. symex; try done.
  apply Forall_map. eapply Forall_impl; [by apply Forall_py_slice|done].
Qed.

Lemma get_posts_list_items uid sort_type page page_size :
  triple Typed (get_posts_list uid sort_type page page_size) (fun r _ => items_typed r) (fun _ => True).
Proof.
  unfold get_posts_list. eapply triple_try with (R1 := fun _ => True); [|intros; symex; constructor].
  eapply triple_bind; [apply ensure_initialized_typed_true|intros ?].
  unfold published_posts. symex.
  - eapply triple_bind_spec; [apply force_reinitialize_typed|done|done|intros ?]. symex.
    eapply triple_weaken; [apply list_page_items|done|done|done].
    unfold sort_posts. case_match; apply Forall_sort_key, Typed_published; done.
  - eapply triple_weaken; [apply list_page_items|done|done|done].
    unfold sort_posts. case_match; apply Forall_sort_key, Typed_published; done.
Qed.

Lemma search_posts_items uid q page page_size :
  triple Typed (search_posts uid q page page_size) (fun r _ => items_typed r) (fun _ => True).
Proof.
  unfold search_posts. eapply triple_try with (R1 := fun _ => True); [|intros; symex; constructor].
  eapply triple_bind; [apply ensure_initialized_typed_true|intros ?].
  unfold published_posts. symex.
  eapply triple_weaken; [apply list_page_items|done|done|done].
  apply Forall_sort_key, Forall_list_filter, Typed_published. done.
Qed.

Lemma get_post_detail_items uid pid :
  triple Typed (get_post_detail uid pid) (fun r _ => detail_typed r) (fun _ => True).
Proof.
  unfold get_post_detail. eapply triple_try with (R1 := fun _ => True); [|intros; symex; done].
  eapply triple_bind; [apply ensure_initialized_typed_true|intros ?].
  unfold posts_get, db_find_one_user, detail_typed. symex; typed_facts; done.
Qed.

Lemma get_post_comments_items pid uid page page_size :
  triple Typed (get_post_comments pid uid page page_size) (fun r _ => comment_items_typed r) (fun _ => True).
Proof.
  unfold get_post_comments. eapply triple_try with (R1 := fun _ => True); [|intros; symex; constructor].
  destruct (page_bounds page page_size) as [skip e]. unfold comment_items_typed. symex; try done.
  apply Forall_map. apply Forall_py_slice, Forall_sort_key, Forall_list_filter, Forall_forall.
  intros c Hc. by eapply Typed_comments_values.
Qed.
