(* ===== verification/Counters.v ===== *)
(** The identifier sequencers only move forward.

    [counters_le w w']: each sequencer seeded in [w] is still seeded in
    [w'] with a counter at least as large.  Every operation of the forum
    relates its start and end states this way, whether it returns or
    raises; only the maintenance script ([force_reset_memory]) goes back.
    Together with [post_new] taking [counter + 1], this is why a process
    never hands out the same identifier twice. *)

From S2P Require Import Prelude PyDict PySort Records Exec World Sequencer Cache Api Flush Invariant.

Definition seq_le (a b : Seq) : Prop :=
  initialized a = true -> initialized b = true /\ (counter a <= counter b)%Z.

Definition counters_le (w w' : World) : Prop :=
  seq_le (post_seq w) (post_seq w') /\ seq_le (comment_seq w) (comment_seq w').

#[export] Instance seq_le_preorder : PreOrder seq_le.
Proof.
  split; [intros a Ha; split; [done|lia]|].
  intros a b c Hab Hbc Ha. destruct (Hab Ha) as [Hb ?]. destruct (Hbc Hb). split; [done|lia].
Qed.

#[export] Instance counters_le_preorder : PreOrder counters_le.
Proof.
  split; [intros w; split; reflexivity|].
  intros a b c [] []; split; etrans; eauto.
Qed.

(** Close a goal [counters_le s0 s'] where [s'] is built by setters. *)
Ltac solve_le :=
  repeat match goal with H : counters_le _ _ |- _ => destruct H end;
  unfold counters_le, seq_le in *; simpl in *; autorewrite with world in *;
  split; intros; destruct_and?; split_and?; simpl in *; try lia; try done;
  intuition (try lia; try done; try congruence).

Lemma evolves_triple {A} (c : FM A) :
  (forall s0, triple (fun s => s = s0) c (fun _ => counters_le s0) (counters_le s0)) ->
  evolves counters_le c.
Proof.
  intros H s. specialize (H s s eq_refl). destruct (c s) as [[a|e] s']; done.
Qed.

Lemma triple_le {A} (c : FM A) s0 :
  evolves counters_le c ->
  triple (counters_le s0) c (fun _ => counters_le s0) (counters_le s0).
Proof. apply triple_evolves. apply _. Qed.

Lemma post_initialize_counter_le : evolves counters_le post_initialize_counter.
Proof.
  apply evolves_triple. intros s0.
  unfold post_initialize_counter, seq_initialize_counter, seq_seed, db_find_max_post_id, now_ms.
  symex; try solve_le. eapply triple_try with (R1 := counters_le s0); [|intros]; symex; solve_le.
Qed.

Lemma comment_initialize_counter_le : evolves counters_le comment_initialize_counter.
Proof.
  apply evolves_triple. intros s0.
  unfold comment_initialize_counter, seq_initialize_counter, seq_seed, db_find_max_comment_id, now_ms.
  symex; try solve_le. eapply triple_try with (R1 := counters_le s0); [|intros]; symex; solve_le.
Qed.

(** Step over a sub-computation that evolves, keeping the start state. *)
Ltac le_spec L :=
  eapply triple_bind; [eapply triple_weaken; [apply (triple_le _ _ L)|
    intros ? ->; reflexivity|done|done]|intros ?].

Lemma load_posts_le : evolves counters_le load_posts_from_database.
Proof.
  apply evolves_triple. intros s0. unfold load_posts_from_database, db_find_posts.
  symex; try solve_le. apply triple_for_fold_from; [solve_le|]. intros n d _.
  unfold load_post, post_new, advance_post_counter, posts_set, now.
  eapply triple_try with (R1 := counters_le s0); [|intros]; symex; solve_le.
Qed.

Lemma load_comments_le : evolves counters_le load_comments_from_database.
Proof.
  apply evolves_triple. intros s0. unfold load_comments_from_database, db_find_comments.
  symex; try solve_le. apply triple_for_fold_from; [solve_le|]. intros n d _.
  unfold load_comment, comment_new, advance_comment_counter, comments_set, now.
  eapply triple_try with (R1 := counters_le s0); [|intros]; symex; solve_le.
Qed.

Lemma reconcile_le : evolves counters_le reconcile_user_post_relationships.
Proof.
  intros s. pose proof (reconcile_keeps (counters_le s)) as H.
  specialize (H ltac:(intros; solve_le) s ltac:(reflexivity)).
  by destruct (reconcile_user_post_relationships s) as [[]].
Qed.

Lemma initialize_le : evolves counters_le initialize.
Proof.
  unfold initialize, initialize_except, initialize_load, initialize_rest. solve_evolves;
    auto using post_initialize_counter_le, comment_initialize_counter_le, load_posts_le,
      load_comments_le, reconcile_le;
    apply evolves_modify; intros; solve_le.
Qed.

Lemma ensure_initialized_le : evolves counters_le ensure_initialized.
Proof. unfold ensure_initialized. solve_evolves. apply initialize_le. Qed.

Lemma force_reinitialize_le : evolves counters_le force_reinitialize.
Proof.
  unfold force_reinitialize. solve_evolves; [apply evolves_modify; intros; solve_le|apply initialize_le].
Qed.

Lemma db_call_le : evolves counters_le db_call.
Proof. intros s. rewrite db_call_state. solve_le. Qed.

Lemma post_new_le cu cn ct ty cat tags media : evolves counters_le (post_new cu cn ct ty cat tags media).
Proof.
  intros s. rewrite post_new_run. destruct (initialized (post_seq s)) eqn:E; simpl; solve_le.
Qed.

Lemma comment_new_le cu cn pid ct : evolves counters_le (comment_new cu cn pid ct).
Proof.
  intros s. rewrite comment_new_spec. destruct (initialized (comment_seq s)) eqn:E; simpl; solve_le.
Qed.

(** The primitives every operation is built from. *)
Ltac le_op :=
  solve_evolves;
  first [ apply ensure_initialized_le | apply force_reinitialize_le | apply db_call_le
        | apply post_new_le | apply comment_new_le | apply reconcile_le
        | apply evolves_modify; intros; try case_match; solve_le ].

Lemma create_post_le cu ct ty cat tags media : evolves counters_le (create_post cu ct ty cat tags media).
Proof.
  unfold create_post, create_post_body, get_user_instance, posts_set, user_update, db_user_add_to_set, modify_db.
  le_op.
Qed.

Lemma list_page_le uid sorted page page_size : evolves counters_le (list_page uid sorted page page_size).
Proof. unfold list_page. destruct (page_bounds page page_size). unfold db_find_one_user. le_op. Qed.

Lemma get_posts_list_le uid st page page_size : evolves counters_le (get_posts_list uid st page page_size).
Proof. unfold get_posts_list, published_posts. solve_evolves; first [apply list_page_le|le_op]. Qed.

Lemma search_posts_le uid q page page_size : evolves counters_le (search_posts uid q page page_size).
Proof. unfold search_posts, published_posts. solve_evolves; first [apply list_page_le|le_op]. Qed.

Lemma get_post_detail_le uid pid : evolves counters_le (get_post_detail uid pid).
Proof. unfold get_post_detail, posts_get, db_find_one_user. le_op. Qed.

Lemma toggle_post_like_le uid pid action : evolves counters_le (toggle_post_like uid pid action).
Proof.
  unfold toggle_post_like, toggle_post_like_memory, toggle_post_like_sync, toggle_post_like_handler, posts_get, now, posts_set, get_user_instance, user_update,
    db_user_add_to_set, db_user_pull, modify_db.
  le_op.
Qed.

Lemma create_comment_le uid pid content : evolves counters_le (create_comment uid pid content).
Proof.
  unfold create_comment, get_user_instance, posts_get, comments_set, now, posts_set. le_op.
Qed.

Lemma get_post_comments_le pid uid page page_size : evolves counters_le (get_post_comments pid uid page page_size).
Proof. unfold get_post_comments. destruct (page_bounds page page_size). le_op. Qed.

Lemma toggle_comment_like_le uid cid action : evolves counters_le (toggle_comment_like uid cid action).
Proof. unfold toggle_comment_like, comments_get, comments_set. le_op. Qed.

Lemma save_to_database_le : evolves counters_le save_to_database.
Proof.
  unfold save_to_database, flush_post, flush_comment, upsert_post, upsert_comment,
    db_find_one_post, db_find_one_comment, db_update_post_set, db_update_comment_set,
    db_insert_post, db_insert_comment, modify_db.
  le_op.
Qed.

(** The identifier [create_post] returns is above the counter it started
    from (when that was seeded) and is covered by the counter it leaves. *)
Lemma create_post_counter cu ct ty cat tags media w pid w' :
  create_post cu ct ty cat tags media w = (Ok (Some pid), w') ->
  initialized (post_seq w') = true /\ (pid <= counter (post_seq w'))%Z /\
  (initialized (post_seq w) = true -> (counter (post_seq w) < pid)%Z).
Proof.
  intros Hrun.
  cut (triple (fun s => s = w) (create_post cu ct ty cat tags media)
         (fun r s' => forall p, r = Some p -> initialized (post_seq s') = true /\
            (p <= counter (post_seq s'))%Z /\
            (initialized (post_seq w) = true -> (counter (post_seq w) < p)%Z)) (fun _ => True)).
  { intros H. specialize (H w eq_refl). rewrite Hrun in H. by apply H. }
  unfold create_post, create_post_body. eapply triple_try with (R1 := fun _ => True); [|intros; symex; done].
  eapply triple_bind; [eapply triple_weaken; [apply (triple_le _ w ensure_initialized_le)|
    intros ? ->; reflexivity|done|done]|intros ?].
  unfold get_user_instance, post_new, now, posts_set. symex; try done.
  eapply triple_bind; [eapply triple_weaken; [apply triple_le;
    unfold user_update, db_user_add_to_set, modify_db; le_op|intros ? ->; reflexivity|done|done]|intros ?].
  symex. intros p [= <-]. apply negb_false_iff in Hif. solve_le.
Qed.

(** ** The lazy-initialization guard seeds both sequencers *)

Definition seeded (w : World) : Prop :=
  initialized (post_seq w) = true /\ initialized (comment_seq w) = true.

Lemma triple_seeded {A} (c : FM A) :
  evolves counters_le c -> triple seeded c (fun _ => seeded) seeded.
Proof.
  intros Hc s Hs. specialize (Hc s). destruct Hs as [H1 H2], Hc as [Hp Hc].
  destruct (Hp H1), (Hc H2). by destruct (c s) as [[]].
Qed.

(** Seeding never raises: storage failures fall back to the clock. *)
Lemma seq_initialize_counter_ok find_max get put w :
  (seq_initialize_counter find_max get put w).1 = Ok tt.
Proof.
  unfold seq_initialize_counter, seq_seed. rewrite bind_run. simpl.
  destruct (initialized (get w)); [done|]. unfold py_try. rewrite bind_run.
  by destruct (find_max w) as [[]].
Qed.

Lemma seeding_seeded w :
  seeded (comment_initialize_counter (post_initialize_counter w).2).2.
Proof.
  split; [|apply comment_initialize_counter_initialized].
  destruct (comment_initialize_counter_le (post_initialize_counter w).2) as [H _].
  apply H, post_initialize_counter_initialized.
Qed.

Lemma initialize_load_seeded w : seeded (initialize_load w).2.
Proof.
  unfold initialize_load, initialize_rest. rewrite bind_run.
  pose proof (seq_initialize_counter_ok db_find_max_post_id post_seq set_post_seq w) as H1.
  fold post_initialize_counter in H1.
  destruct (post_initialize_counter w) as [r1 w1] eqn:E1; simpl in H1; subst r1; simpl.
  rewrite bind_run.
  pose proof (seq_initialize_counter_ok db_find_max_comment_id comment_seq set_comment_seq w1) as H2.
  fold comment_initialize_counter in H2. pose proof (seeding_seeded w) as Hs. rewrite E1 in Hs; simpl in Hs.
  destruct (comment_initialize_counter w1) as [r2 w2]; simpl in *; subst r2.
  eapply (triple_final seeded); [|exact Hs].
  apply triple_seeded. solve_evolves;
    first [apply load_posts_le|apply load_comments_le|apply reconcile_le|
           apply evolves_modify; intros; solve_le].
Qed.

(** C9: Whatever storage does, after the lazy-initialization guard both
    sequencers are seeded, so the constructors' "counter not
    initialized" [RuntimeError] cannot be reached from an operation that
    starts with the guard. *)
Theorem ensure_initialized_seeds w :
  Inv w -> seeded (ensure_initialized w).2.
Proof.
  intros HI. unfold ensure_initialized. rewrite bind_run. simpl.
  destruct (fm_initialized w) eqn:E; simpl; [by apply (inv_flag _ HI)|].
  rewrite bind_run. unfold initialize, initialize_except, py_try. rewrite bind_run. simpl. rewrite E.
  pose proof (initialize_load_seeded w) as Hs.
  destruct (initialize_load w) as [[r|e] w']; simpl in *; [done|].
  destruct Hs; by split.
Qed.

Lemma ensure_initialized_seeds_witness :
  Inv demo_world /\ seeded (ensure_initialized demo_world).2.
Proof. split; [exact Inv_demo_world|apply ensure_initialized_seeds, Inv_demo_world]. Defined.
