(* ===== verification/Hydration.v ===== *)
(** Hydration: what the loaders of [ForumManager.initialize] rebuild
    from storage.

    Each stored post goes through [Post.__init__], which takes an
    identifier from the sequencer, before its stored [_id] is put back;
    so loading [N] posts over a sequencer seeded with the largest stored
    identifier [M] leaves the counter at [M + N], not [M].  The
    constructor also truncates the tags to three, so a stored post with
    more tags is cached, and flushed back, without them.  A post written
    by [to_dict] with at most three tags and aware (or missing) datetimes
    is rebuilt exactly. *)

From S2P Require Import Prelude PyDict PySort Records Exec World Sequencer Cache Api Flush Invariant Counters.

(** The post [load_post] caches for a stored document, taking [pid]
    from the sequencer at clock [t]. *)
Definition hydrated_post (pid t : Z) (d : PostDoc.t) : Post.t :=
  post_restore
    (Post.mk pid (default "" d.(PostDoc.post_content)) (default "text" d.(PostDoc.post_type))
       (py_str d.(PostDoc.creator_user_id)) (default "" d.(PostDoc.creator_user_name))
       (default [] d.(PostDoc.media_files)) (default "" d.(PostDoc.post_category))
       (take 3 (default [] d.(PostDoc.tags))) 0 0 0 [] [] "published"
       (Some (utc_now t)) (Some (utc_now t)))
    d.(PostDoc._id) d.

Lemma load_post_zero n d w : PostDoc._id d = 0%Z -> load_post n d w = (Ok n, w).
Proof. intros H. unfold load_post, py_try. by rewrite bool_decide_true. Qed.

(** One iteration on a seeded sequencer: the constructor takes
    [counter + 1], then the counter is raised to the stored [_id]. *)
Lemma load_post_seeded n d w :
  initialized (post_seq w) = true -> PostDoc._id d <> 0%Z ->
  load_post n d w =
    (Ok (n + 1)%Z,
     set_posts_dict
       (dict_set (PostDoc._id d) (hydrated_post (counter (post_seq w) + 1) (clock w) d) (posts_dict w))
       (set_post_seq (mk_seq (Z.max (counter (post_seq w) + 1) (PostDoc._id d)) true) w)).
Proof.
  intros Hi Hd. unfold load_post, py_try. rewrite bool_decide_false by done.
  rewrite bind_run, post_new_run, Hi. reflexivity.
Qed.

(** The number of stored posts the loader does not skip. *)
Definition loadable (l : list PostDoc.t) : Z :=
  Z.of_nat (length (filter (fun d => PostDoc._id d <> 0%Z) l)).

(** Over documents whose identifiers are all below the counter, the loop
    loads each document with a nonzero [_id] and advances the counter by
    one per document. *)
Lemma load_posts_loop l n w :
  initialized (post_seq w) = true ->
  Forall (fun d => (PostDoc._id d <= counter (post_seq w))%Z) l ->
  (for_fold load_post l n w).1 = Ok (n + loadable l)%Z /\
  post_seq (for_fold load_post l n w).2 = mk_seq (counter (post_seq w) + loadable l) true.
Proof.
  unfold loadable. revert n w. induction l as [|d l IH]; intros n w Hi Hl; simpl.
  - rewrite !Z.add_0_r. split; [done|]. destruct (post_seq w); simpl in *; by subst.
  - rewrite bind_run. apply Forall_cons in Hl as [Hd Hl].
    destruct (decide (PostDoc._id d = 0%Z)) as [H0|H0].
    + rewrite load_post_zero by done. simpl. rewrite !filter_cons_False by tauto. by apply IH.
    + rewrite load_post_seeded by done. simpl. rewrite !filter_cons_True by done.
      rewrite Z.max_l by lia.
      destruct (IH (n + 1)%Z (set_posts_dict (dict_set (PostDoc._id d)
        (hydrated_post (counter (post_seq w) + 1) (clock w) d) (posts_dict w))
        (set_post_seq (mk_seq (counter (post_seq w) + 1) true) w))) as [H1 H2];
        [done|eapply Forall_impl; [exact Hl|]; simpl; lia|].
      rewrite H1, H2. simpl. rewrite Nat2Z.inj_succ. split; [f_equal; lia|f_equal; lia].
Qed.

(** The loader loop never raises (each iteration is under its own
    [try]), leaves the comments, storage and flag as they were, keeps
    every cached key and caches every document with a nonzero [_id]. *)
Lemma load_posts_fold l n w :
  initialized (post_seq w) = true ->
  (exists m, (for_fold load_post l n w).1 = Ok m) /\
  comments_dict (for_fold load_post l n w).2 = comments_dict w /\
  db (for_fold load_post l n w).2 = db w /\
  fm_initialized (for_fold load_post l n w).2 = fm_initialized w /\
  (forall k, is_Some (dict_get k (posts_dict w)) ->
     is_Some (dict_get k (posts_dict (for_fold load_post l n w).2))) /\
  (forall d, In d l -> PostDoc._id d <> 0%Z ->
     is_Some (dict_get (PostDoc._id d) (posts_dict (for_fold load_post l n w).2))).
Proof.
  revert n w. induction l as [|d l IH]; intros n w Hi; simpl.
  - split_and!; eauto. by intros ? [].
  - rewrite bind_run. destruct (decide (PostDoc._id d = 0%Z)) as [H0|H0].
    + rewrite load_post_zero by done.
      destruct (IH n w Hi) as (Hok & Hc & Hdb & Hf & Hk & Hin).
      split_and!; auto. intros d' [<-|Hd'] Hne; [contradiction|auto].
    + rewrite load_post_seeded by done.
      match goal with |- context [for_fold load_post l _ ?w1] =>
        destruct (IH (n + 1)%Z w1 eq_refl) as (Hok & Hc & Hdb & Hf & Hk & Hin) end.
      split_and!; auto.
      * intros k Hk0. apply Hk. simpl. rewrite dict_get_set. by case_decide.
      * intros d' [<-|Hd'] Hne; [|auto]. apply Hk. simpl. by rewrite dict_get_set_eq.
Qed.

(** ** From a fresh process *)

(** Everything [initialize] does after loading the posts leaves the post
    sequencer alone. *)
Definition same_post_seq (w w' : World) : Prop := post_seq w = post_seq w'.

#[export] Instance same_post_seq_preorder : PreOrder same_post_seq.
Proof. split; [intros ?; done|intros ? ? ? H1 H2; unfold same_post_seq in *; congruence]. Qed.

Lemma comment_new_same cu cn pid ct : evolves same_post_seq (comment_new cu cn pid ct).
Proof. intros s. rewrite comment_new_spec. by destruct (initialized (comment_seq s)). Qed.

Ltac same_op :=
  solve_evolves;
  first [ apply comment_new_same
        | intros ?; rewrite db_call_state; unfold same_post_seq; by autorewrite with world
        | apply evolves_modify; intros; unfold same_post_seq; try case_match; done ].

Lemma after_load_posts_same :
  evolves same_post_seq
    (_ ← load_comments_from_database;
     py_try reconcile_user_post_relationships (fun _ => mret tt);;
     modify (set_fm_initialized true);; mret true).
Proof.
  unfold load_comments_from_database, db_find_comments, load_comment, advance_comment_counter,
    comments_set, reconcile_user_post_relationships, reconcile_post, get_user_instance, user_update.
  same_op.
Qed.

Lemma stored_ids_le ps :
  dict_Forall post_doc_ok ps ->
  Forall (fun d => (PostDoc._id d <= default 0%Z (max_key (dict_keys ps)))%Z) (dict_values ps).
Proof.
  unfold dict_Forall, dict_values. rewrite Forall_map, !Forall_forall.
  intros Hok [k d] Hin. destruct (Hok _ Hin) as [Hk _]. simpl in *. rewrite Hk.
  assert (Hkey : k ∈ dict_keys ps) by (apply list_elem_of_fmap; by exists (k, d)).
  destruct (max_key (dict_keys ps)) as [m|] eqn:E.
  - destruct (max_key_spec _ _ E) as [_ Hall]. rewrite Forall_forall in Hall. by apply Hall.
  - apply max_key_None in E. rewrite E in Hkey. set_solver.
Qed.

(** C11: Hydration inflates the post sequencer: on a freshly started process
    whose storage answers, [initialize] seeds the post counter with the
    largest stored identifier [M] and then every loaded post consumes
    one more, so the counter ends at [M + N] for the [N] stored posts
    with a nonzero [_id] (not at [M]), and the next post gets
    [M + N + 1]. *)
Theorem initialize_post_counter us d t :
  dict_Forall post_doc_ok d.(db_posts) -> d.(db_faults) = [] ->
  post_seq (initialize (process_start us d t)).2 =
    mk_seq (default 0%Z (max_key (dict_keys d.(db_posts)))%Z + loadable (dict_values d.(db_posts)))
      true.
Proof.
  intros Hok Hf. unfold initialize, initialize_except, py_try. rewrite bind_run. simpl.
  unfold initialize_load, initialize_rest. rewrite bind_run, post_initialize_counter_seed by done. simpl. rewrite Hf.
  rewrite bind_run, comment_initialize_counter_seed by done. simpl. rewrite Hf. simpl.
  rewrite bind_run. simpl. rewrite bind_run. simpl. rewrite bind_run.
  unfold load_posts_from_database at 1, db_find_posts. rewrite !bind_run. unfold db_call at 1.
  simpl. rewrite Hf. simpl.
  match goal with |- context [for_fold load_post ?l 0%Z ?w] =>
    destruct (load_posts_loop l 0%Z w) as [Hr Hs]; [done|by apply stored_ids_le|];
    destruct (for_fold load_post l 0%Z w) as [r w'] end.
  simpl in *. subst r. simpl.
  pose proof (after_load_posts_same w') as Hsame. unfold same_post_seq in Hsame.
  destruct (_ ← load_comments_from_database; _) as [[]] eqn:E2 in *; simpl in *; congruence.
Qed.

(** Three stored posts with identifiers 1 to 3: the counter ends at 6. *)
Lemma initialize_post_counter_witness :
  dict_Forall post_doc_ok demo_db.(db_posts) /\ demo_db.(db_faults) = [] /\
  post_seq (initialize (process_start demo_world.(users) demo_db demo_world.(clock))).2 = mk_seq 6 true.
Proof.
  assert (Hok : dict_Forall post_doc_ok demo_db.(db_posts)) by repeat constructor.
  split_and!; [exact Hok|reflexivity|].
  rewrite (initialize_post_counter _ _ _ Hok eq_refl). vm_compute. reflexivity.
Defined.

(** ** Flush, then reload *)

(** C12: A post flushed by [to_dict] and loaded back is rebuilt exactly if and
    only if it has at most three tags (its datetimes being aware or
    missing, as the API creates them): the constructor truncates longer
    tag lists, which the specification says are stored verbatim. *)
Theorem load_post_roundtrip n p w :
  initialized (post_seq w) = true -> Post.post_id p <> 0%Z ->
  ensure_aware (Post.created_at p) = Post.created_at p ->
  ensure_aware (Post.updated_at p) = Post.updated_at p ->
  dict_get (Post.post_id p) (posts_dict (load_post n (post_to_dict p) w).2) =
    Some (hydrated_post (counter (post_seq w) + 1) (clock w) (post_to_dict p)) /\
  (hydrated_post (counter (post_seq w) + 1) (clock w) (post_to_dict p) = p <->
   length (Post.tags p) <= 3).
Proof.
  intros Hi Hid Hc Hu. rewrite load_post_seeded by done. simpl. rewrite dict_get_set_eq.
  split; [done|]. unfold hydrated_post, post_restore. simpl. rewrite Hc, Hu. split.
  - intros Ht. apply (f_equal Post.tags) in Ht. simpl in Ht. rewrite <- Ht, length_take. lia.
  - intros Ht. rewrite take_ge by done. destruct p; reflexivity.
Qed.

(** The post with four tags of the demo storage is not rebuilt. *)
Lemma load_post_roundtrip_witness :
  let p := Post.mk 9 "four tags" "text" "u1" "alice" [] "" ["a"; "b"; "c"; "d"] 0 0 0 [] []
             "published" (Some (utc_now 0)) (Some (utc_now 0)) in
  let w := (initialize demo_world).2 in
  initialized (post_seq w) = true /\
  dict_get (Post.post_id p) (posts_dict (load_post 0 (post_to_dict p) w).2) <> Some p.
Proof.
  intros p w. assert (Hi : initialized (post_seq w) = true) by (vm_compute; reflexivity).
  destruct (load_post_roundtrip 0 p w Hi ltac:(done) eq_refl eq_refl) as [-> Hiff].
  split; [exact Hi|]. intros Heq.
  assert (H4 : length (Post.tags p) <= 3) by (apply Hiff; congruence). simpl in H4. lia.
Defined.

