(* ===== verification/ApiSpec.v ===== *)
(** Functional specifications of the forum operations on a process whose
    cache is initialized: each operation's result and end state, on every
    branch of the code, and the properties the results have (order,
    pagination, the empty search as the latest listing), that no
    operation raises, and the half-loaded cache a failed [initialize]
    leaves.  The findings of the model are stated here as theorems about
    the code as written. *)

From S2P Require Import Prelude PyDict PySort Records Exec World Sequencer Cache Api Flush Invariant Counters Hydration.
From Stdlib Require Import Sorting.Sorted.

(** The comment [create_comment] builds, and the post it updates. *)
(** A call that returns normally: no exception escapes it. *)
Definition returns {A} (c : FM A) (w : World) : Prop := exists r, (c w).1 = Ok r.

Definition new_comment (w : World) (user : User.t) (post_id : Z) (content : string) : Comment.t :=
  Comment.mk (counter (comment_seq w) + 1) (Some post_id) content user.(User.user_id)
    (py_or_str user.(User.telegram_user_name) user.(User.user_id)) 0 [] "published"
    (Some (utc_now (clock w))).

Definition commented_post (w : World) (post : Post.t) (cid : Z) : Post.t :=
  Post.set_comments post (post.(Post.comment_ids) ++ [cid]) (post.(Post.comment_count) + 1)
    (Some (utc_now (clock w))).

(** C18: [create_comment] on an initialized cache: an unknown user or an
    uncached post is refused and nothing changes; otherwise the comment
    takes the next comment identifier, is cached, and its post records
    it and counts it, whatever the post's status (a deleted post accepts
    comments).  No storage call is made. *)
Theorem create_comment_spec uid pid content w :
  fm_initialized w = true -> initialized (comment_seq w) = true ->
  create_comment uid pid content w =
    match dict_get uid (users w) with
    | None => (Ok (mk_comment_response false None (Some "user not found")), w)
    | Some user =>
        match dict_get pid (posts_dict w) with
        | None => (Ok (mk_comment_response false None (Some "post not found")), w)
        | Some post =>
            let c := new_comment w user pid content in
            let cid := c.(Comment.comment_id) in
            (Ok (mk_comment_response true (Some cid) (Some comment_created_message)),
             set_posts_dict (dict_set pid (commented_post w post cid) (posts_dict w))
               (set_comments_dict (dict_set cid c (comments_dict w))
                  (set_comment_seq (mk_seq cid true) w)))
        end
    end.
Proof.
  intros Hf Hi. unfold create_comment. rewrite guarded_run by done.
  unfold py_try, get_user_instance, posts_get. rewrite bind_run. simpl.
  destruct (dict_get uid (users w)) as [user|]; [|done].
  rewrite bind_run. simpl. destruct (dict_get pid (posts_dict w)) as [post|]; [|done].
  rewrite bind_run, comment_new_spec, Hi. reflexivity.
Qed.

Lemma create_comment_spec_witness :
  let w := (initialize demo_world).2 in
  fm_initialized w = true /\ initialized (comment_seq w) = true /\
  (create_comment "u1" 1 "hi" w).1 = Ok (mk_comment_response true (Some 3%Z) (Some comment_created_message)).
Proof.
  intros w. assert (Hf : fm_initialized w = true) by (vm_compute; reflexivity).
  assert (Hi : initialized (comment_seq w) = true) by (vm_compute; reflexivity).
  split_and!; [exact Hf|exact Hi|]. rewrite (create_comment_spec _ _ _ _ Hf Hi). vm_compute. reflexivity.
Defined.

(** The post a toggle leaves in the cache. *)
Definition toggled_post (uid action : string) (post : Post.t) (t : datetime) : Post.t :=
  if String.eqb action "like" then post_like_mem uid post t else post_unlike_mem uid post t.

(** C13: [toggle_post_like] on an initialized cache: an uncached post is
    refused with nothing changed; otherwise the cached post is liked (for
    the action "like") or unliked (for any other action) in memory first,
    and then the user's storage document is updated.  If that storage
    call fails the response is a failure although the like has been
    applied in memory; otherwise it reports the new count. *)
Theorem toggle_post_like_spec uid pid action w :
  fm_initialized w = true ->
  match dict_get pid (posts_dict w) with
  | None => toggle_post_like uid pid action w = (Ok (toggle_fail "post not found"), w)
  | Some post =>
      let post' := toggled_post uid action post (utc_now (clock w)) in
      posts_dict (toggle_post_like uid pid action w).2 = dict_set pid post' (posts_dict w) /\
      (toggle_post_like uid pid action w).1 =
        Ok (match db_faults (db w) with
            | true :: _ => toggle_fail (exc_message StorageError)
            | _ => toggle_ok action post'.(Post.like_count) (String.eqb action "like")
            end)
  end.
Proof.
  intros Hf. unfold toggle_post_like, toggle_post_like_memory, toggle_post_like_sync, toggle_post_like_handler. rewrite guarded_run by done.
  unfold py_try, posts_get, posts_set, now. rewrite !bind_run. simpl.
  destruct (dict_get pid (posts_dict w)) as [post|]; simpl; [|done].
  unfold toggled_post, db_user_add_to_set, db_user_pull, db_call, modify_db, get_user_instance,
    user_update.
  run_monad.
  destruct (String.eqb action "like"); simpl;
    destruct (db_faults (db w)) as [|[] f]; simpl; repeat (case_match; simplify_eq/=); done.
Qed.

Lemma toggle_post_like_spec_witness :
  let w0 := (initialize demo_world).2 in
  let w := set_db (db_set_faults [true] (db w0)) w0 in
  fm_initialized w = true /\
  (toggle_post_like "u2" 1 "like" w).1 = Ok (toggle_fail "database error") /\
  posts_dict (toggle_post_like "u2" 1 "like" w).2 =
    dict_set 1%Z (toggled_post "u2" "like"
                  (default (Post.mk 0 "" "" "" "" [] "" [] 0 0 0 [] [] "" None None)
                     (dict_get 1%Z (posts_dict w))) (utc_now (clock w))) (posts_dict w).
Proof.
  intros w0 w. assert (Hf : fm_initialized w = true) by (vm_compute; reflexivity).
  pose proof (toggle_post_like_spec "u2" 1 "like" w Hf) as H.
  destruct (dict_get 1%Z (posts_dict w)) as [post|] eqn:E; [|vm_compute in E; discriminate].
  destruct H as [H1 H2]. split_and!; [exact Hf| |exact H1].
  rewrite H2. vm_compute. reflexivity.
Defined.

(** ** Pagination *)

(** [published_posts[skip:end_index]] for page [page] of size [page_size]. *)
Definition page_of {A} (l : list A) (page page_size : Z) : list A :=
  let '(skip, end_index) := page_bounds page page_size in py_slice l skip end_index.

Lemma page_of_spec {A} (l : list A) page ps :
  (1 <= page)%Z -> (0 <= ps)%Z ->
  page_of l page ps = take (Z.to_nat ps) (drop (Z.to_nat ((page - 1) * ps)) l).
Proof.
  intros Hp Hs. unfold page_of, page_bounds. rewrite Z.max_r by nia.
  rewrite py_slice_nonneg by nia. f_equal. rewrite Z2Nat.inj_add by nia. lia.
Qed.

(** C32: Consecutive pages tile the listing: pages [1..n] of size
    [page_size], concatenated, are exactly the first [n * page_size]
    items, with no item repeated or skipped. *)
Theorem pages_cover {A} (l : list A) ps n :
  (0 <= ps)%Z ->
  concat (map (fun i => page_of l (Z.of_nat i + 1) ps) (seq 0 n)) = take (n * Z.to_nat ps) l.
Proof.
  intros Hs. induction n as [|n IH]; [done|].
  rewrite seq_S, map_app, concat_app, IH. simpl. rewrite app_nil_r.
  rewrite page_of_spec by lia.
  replace (Z.to_nat ((Z.of_nat n + 1 - 1) * ps)) with (n * Z.to_nat ps) by nia.
  rewrite take_take_drop. f_equal. lia.
Qed.

Lemma pages_cover_witness :
  (0 <= 2)%Z /\
  concat (map (fun i => page_of [10; 20; 30; 40; 50] (Z.of_nat i + 1) 2) (seq 0 2)) = [10; 20; 30; 40].
Proof.
  split; [lia|]. rewrite (pages_cover [10; 20; 30; 40; 50] 2 2) by lia. reflexivity.
Defined.


(** [has_more]: there is a next page exactly when [end_index] is below
    the length. *)
Lemma has_more_spec {A} (l : list A) page ps :
  (1 <= page)%Z -> (0 < ps)%Z ->
  (snd (page_bounds page ps) <? Z.of_nat (length l))%Z = true <-> page_of l (page + 1) ps <> [].
Proof.
  intros Hp Hs. rewrite page_of_spec by lia. unfold page_bounds. simpl.
  rewrite Z.max_r by nia. rewrite Z.ltb_lt.
  replace (page + 1 - 1)%Z with page by lia.
  split.
  - intros Hlt Hnil. apply (f_equal length) in Hnil. rewrite length_take, length_drop in Hnil.
    simpl in Hnil. nia.
  - intros Hne. destruct (decide (Z.of_nat (length l) <= (page - 1) * ps + ps)%Z); [|lia].
    exfalso. apply Hne. rewrite drop_ge; [apply take_nil|]. nia.
Qed.

Lemma has_more_spec_witness :
  (1 <= 2)%Z /\ (0 < 2)%Z /\
  ((snd (page_bounds 2 2) <? Z.of_nat (length [1; 2; 3; 4; 5]))%Z = true <->
   page_of [1; 2; 3; 4; 5] 3 2 <> []).
Proof. split_and!; [lia|lia|]. apply (has_more_spec [1; 2; 3; 4; 5] 2 2); lia. Defined.


(** ** Listing comments *)

Lemma get_post_comments_run pid uid page ps w :
  get_post_comments pid uid page ps w =
    (Ok (let cs := comments_of_post pid (dict_values (comments_dict w)) in
         if created_sort_raises cs then mk_comments_response false [] false
         else mk_comments_response true (map (comment_item uid) (page_of (py_sort created_key cs) page ps))
                (snd (page_bounds page ps) <? Z.of_nat (length cs))%Z), w).
Proof.
  unfold get_post_comments, page_of, py_try. destruct (page_bounds page ps) as [skip e]. run_monad.
  destruct (created_sort_raises _); [done|]. simpl.
  by rewrite (Permutation_length (proj1 (py_sort_characterization created_key _ [] ))).
Qed.

(** [a.created_at < b.created_at] raises [TypeError]: [None] compared
    with anything, or a naive datetime with an aware one. *)
Definition created_lt_raises (a b : Comment.t) : bool :=
  negb ((is_aware a.(Comment.created_at) && is_aware b.(Comment.created_at)) ||
        (is_naive a.(Comment.created_at) && is_naive b.(Comment.created_at))).

Lemma forallb_false_lookup {A} (f : A -> bool) l :
  forallb f l = false -> exists i x, l !! i = Some x /\ f x = false.
Proof.
  induction l as [|x l IH]; simpl; [done|]. intros [Hx|Hl]%andb_false_iff.
  - by exists 0, x.
  - destruct (IH Hl) as (i & y & ? & ?). by exists (S i), y.
Qed.

(** A list of two or more has an entry at another position. *)
Lemma lookup_other {A} (l : list A) i :
  (2 <= length l)%nat -> exists k y, k <> i /\ l !! k = Some y.
Proof.
  intros Hl. destruct (lookup_lt_is_Some_2 l (if decide (i = 0) then 1 else 0)) as [y Hy];
    [case_decide; lia|]. eexists _, y. split; [|exact Hy]. case_decide; lia.
Qed.

Lemma lookup_elem {A} (l : list A) i x : l !! i = Some x -> In x l.
Proof. intros H. apply list_elem_of_In. by eapply list_elem_of_lookup_2. Qed.

(** Sorting by [created_at] raises exactly when two comments of the list
    compare with a [TypeError]. *)
Lemma created_sort_raises_pair cs :
  created_sort_raises cs = true <->
  exists i j a b, i <> j /\ cs !! i = Some a /\ cs !! j = Some b /\ created_lt_raises a b = true.
Proof.
  unfold created_sort_raises, created_lt_raises. split.
  - intros [Hl%Nat.leb_le [Ha Hn]%negb_true_iff%orb_false_iff]%andb_true_iff.
    destruct (forallb_false_lookup _ _ Ha) as (i & x & Hi & Hxa).
    destruct (is_naive x.(Comment.created_at)) eqn:Hxn.
    + destruct (forallb_false_lookup _ _ Hn) as (j & y & Hj & Hyn).
      destruct (is_aware y.(Comment.created_at)) eqn:Hya.
      * exists i, j, x, y. split_and!; [intros ->; congruence|done|done|]. by rewrite Hxa, Hyn, !andb_false_r.
      * destruct (lookup_other cs j Hl) as (k & z & Hk & Hz).
        exists j, k, y, z. split_and!; [done|done|done|]. by rewrite Hya, Hyn.
    + destruct (lookup_other cs i Hl) as (k & z & Hk & Hz).
      exists i, k, x, z. split_and!; [done|done|done|]. by rewrite Hxa, Hxn.
  - intros (i & j & a & b & Hij & Ha & Hb & Hr). apply andb_true_iff. split.
    + apply Nat.leb_le. apply lookup_lt_Some in Ha, Hb. lia.
    + apply negb_true_iff, orb_false_iff.
      split; apply not_true_iff_false; intros Hall; rewrite forallb_forall in Hall;
        rewrite (Hall a (lookup_elem _ _ _ Ha)), (Hall b (lookup_elem _ _ _ Hb)) in Hr;
        by rewrite ?orb_true_r in Hr.
Qed.

(** C19: [get_post_comments] reads the cache only (no initialization
    guard, no storage call, no change).  When two of the post's published
    comments compare with a [TypeError] (one has no [created_at], or one
    is naive and the other aware), the sort raises and the request fails
    as a whole; otherwise it returns the requested page of those comments
    in ascending [created_at] order, ties in cache order. *)
Theorem get_post_comments_spec pid uid page ps w :
  let cs := comments_of_post pid (dict_values (comments_dict w)) in
  ((exists i j a b, i <> j /\ cs !! i = Some a /\ cs !! j = Some b /\ created_lt_raises a b = true) ->
   get_post_comments pid uid page ps w = (Ok (mk_comments_response false [] false), w)) /\
  ((forall i j a b, i <> j -> cs !! i = Some a -> cs !! j = Some b -> created_lt_raises a b = false) ->
   get_post_comments pid uid page ps w =
     (Ok (mk_comments_response true (map (comment_item uid) (page_of (py_sort created_key cs) page ps))
            (snd (page_bounds page ps) <? Z.of_nat (length cs))%Z), w)).
Proof.
  intros cs. rewrite get_post_comments_run. cbv zeta. fold cs. split; intros H.
  - by rewrite (proj2 (created_sort_raises_pair cs) H).
  - destruct (created_sort_raises cs) eqn:E; [|done].
    destruct (proj1 (created_sort_raises_pair cs) E) as (i & j & a & b & Hij & Ha & Hb & Hr).
    by rewrite (H i j a b Hij Ha Hb) in Hr.
Qed.

(** Two comments, one without [created_at]: the request fails. *)
Lemma get_post_comments_spec_witness :
  let c1 := Comment.mk 1 (Some 1%Z) "a" "1" "a" 0 [] "published" None in
  let c2 := Comment.mk 2 (Some 1%Z) "b" "1" "a" 0 [] "published" (Some (mk_datetime 0 (Some 0%Z))) in
  let w := set_comments_dict [(1%Z, c1); (2%Z, c2)] demo_world in
  get_post_comments 1 "1" 1 20 w = (Ok (mk_comments_response false [] false), w).
Proof.
  intros c1 c2 w. apply (proj1 (get_post_comments_spec 1 "1" 1 20 w)).
  exists 0, 1, c1, c2. split_and!; [lia|reflexivity|reflexivity|reflexivity].
Defined.



(** ** A failed initialization leaves the cache half loaded *)

(** C28: On a fresh process (flag and both sequencers down) whose storage
    answers the two seeding queries and the posts query but fails the
    comments query, [initialize] catches the error, answers [False] and
    lowers its flag, yet keeps every stored post (with a nonzero [_id])
    that it loaded before the failure, with no comment cached (the
    specification asks for no half-populated cache); [get_post_comments],
    which has no initialization guard, then answers success with no
    comment for every post. *)
Theorem initialize_failure_half_loaded w fs :
  fm_initialized w = false -> initialized (post_seq w) = false ->
  initialized (comment_seq w) = false ->
  db_faults (db w) = [false; false; false; true] ++ fs ->
  (initialize w).1 = Ok false /\ fm_initialized (initialize w).2 = false /\
  comments_dict (initialize w).2 = [] /\
  (forall d, In d (dict_values (db_posts (db w))) -> PostDoc._id d <> 0%Z ->
     is_Some (dict_get (PostDoc._id d) (posts_dict (initialize w).2))) /\
  (forall pid uid page ps, get_post_comments pid uid page ps (initialize w).2 =
     (Ok (mk_comments_response true [] (snd (page_bounds page ps) <? 0)%Z), (initialize w).2)).
Proof.
  intros Hf Hp Hc Hdb.
  destruct w as [[pc pi] [cc ci] fl pd cd us [dp dc du df] t]; simpl in *; subst.
  unfold initialize, initialize_load, initialize_rest, post_initialize_counter,
    comment_initialize_counter, seq_initialize_counter, seq_seed, db_find_max_post_id,
    db_find_max_comment_id, load_posts_from_database, load_comments_from_database,
    db_find_posts, db_find_comments, db_call, py_try.
  run_monad.
  match goal with |- context [for_fold load_post ?l 0%Z ?w3] =>
    destruct (load_posts_fold l 0%Z w3 eq_refl) as (Hok & Hc' & Hdb' & _ & _ & Hin);
    destruct (for_fold load_post l 0%Z w3) as [r4 w4] end.
  simpl in Hok, Hc', Hdb', Hin. destruct Hok as [m ->]. rewrite Hdb'. simpl.
  split_and!; [done|done|exact Hc'|intros; by apply Hin|].
  intros pid uid page ps. rewrite get_post_comments_run. simpl. rewrite Hc'. simpl.
  unfold page_of. destruct (page_bounds page ps). unfold py_slice. by rewrite drop_nil, take_nil.
Qed.

Lemma initialize_failure_half_loaded_witness :
  let w := set_db (db_set_faults [false; false; false; true] demo_db) demo_world in
  fm_initialized w = false /\ initialized (post_seq w) = false /\
  initialized (comment_seq w) = false /\ db_faults (db w) = [false; false; false; true] ++ [] /\
  (initialize w).1 = Ok false.
Proof.
  intros w.
  assert (H1 : fm_initialized w = false) by reflexivity.
  assert (H2 : initialized (post_seq w) = false) by reflexivity.
  assert (H3 : initialized (comment_seq w) = false) by reflexivity.
  assert (H4 : db_faults (db w) = [false; false; false; true] ++ []) by reflexivity.
  split_and!; [exact H1|exact H2|exact H3|exact H4|].
  exact (proj1 (initialize_failure_half_loaded w [] H1 H2 H3 H4)).
Defined.

(** ** Listing posts *)

Lemma triple_any {A} (P : World -> Prop) (c : FM A) : triple P c (fun _ _ => True) (fun _ => True).
Proof. intros s _. by destruct (c s) as [[]]. Qed.

(** Step over a sub-computation about which nothing is needed. *)
Ltac skip_any := eapply triple_bind; [eapply triple_weaken; [apply (triple_any (fun _ => True))|done|done|done]|intros ?].

(** What [get_posts_list] can return: the failure response, or a page
    of some list of posts sorted as requested. *)
Lemma get_posts_list_shape uid st page ps w r :
  (get_posts_list uid st page ps w).1 = Ok r ->
  r = mk_list_response false [] false \/
  exists posts liked, r = mk_list_response true (map (post_item liked) (page_of (sort_posts st posts) page ps))
                            (snd (page_bounds page ps) <? Z.of_nat (length (sort_posts st posts)))%Z.
Proof.
  intros Hr.
  cut (triple (fun _ => True) (get_posts_list uid st page ps)
         (fun r _ => r = mk_list_response false [] false \/
            exists posts liked, r = mk_list_response true
              (map (post_item liked) (page_of (sort_posts st posts) page ps))
              (snd (page_bounds page ps) <? Z.of_nat (length (sort_posts st posts)))%Z)
         (fun _ => True)).
  { intros H. specialize (H w I).
    destruct (get_posts_list uid st page ps w) as [[a|e] s]; simpl in *; [|discriminate].
    by injection Hr as <-. }
  unfold get_posts_list. eapply triple_try with (R1 := fun _ => True); [|intros; symex; by left].
  skip_any. unfold published_posts. symex; [skip_any; symex|];
    unfold list_page, page_of; destruct (page_bounds page ps) as [skip e]; unfold db_find_one_user;
    symex; try done; right; eauto.
Qed.

(** The keys of a listed item, as the listings sort on them. *)
Definition item_hot_key (i : PostItem) : Z * Z * Z :=
  (item_like_count i, item_comment_count i, time_key (item_created_at i)).
Definition item_latest_key (i : PostItem) : Z := time_key (item_created_at i).

(** C20: The posts of a [get_posts_list] page come in the requested order:
    for "hot", by [(like_count, comment_count, created_at)] descending;
    for any other sort type, by [created_at] descending (a missing date
    counting as the earliest).  No item on a page has a strictly greater
    key than an item before it. *)
Theorem get_posts_list_order uid st page ps w r :
  (get_posts_list uid st page ps w).1 = Ok r ->
  if String.eqb st "hot"
  then StronglySorted (fun a b => py_lt (item_hot_key a) (item_hot_key b) = false) (lr_posts r)
  else StronglySorted (fun a b => py_lt (item_latest_key a) (item_latest_key b) = false) (lr_posts r).
Proof.
  intros Hr. destruct (get_posts_list_shape _ _ _ _ _ _ Hr) as [->|(posts & liked & ->)];
    [by destruct (String.eqb st "hot"); constructor|].
  simpl. unfold page_of, sort_posts. destruct (page_bounds page ps) as [skip e].
  destruct (String.eqb st "hot");
    apply StronglySorted_map, StronglySorted_py_slice;
    [exact (proj1 (proj2 (py_sort_reverse_spec hot_key posts [])))
    |exact (proj1 (proj2 (py_sort_reverse_spec latest_key posts [])))].
Qed.

Lemma get_posts_list_order_witness :
  let w := (initialize demo_world).2 in
  let r := match (get_posts_list "u1" "hot" 1 10 w).1 with Ok r => r | Raise _ => mk_list_response false [] false end in
  (get_posts_list "u1" "hot" 1 10 w).1 = Ok r /\
  StronglySorted (fun a b => py_lt (item_hot_key a) (item_hot_key b) = false) (lr_posts r).
Proof.
  intros w r. assert (H : (get_posts_list "u1" "hot" 1 10 w).1 = Ok r) by (vm_compute; reflexivity).
  split; [exact H|]. exact (get_posts_list_order _ _ _ _ _ _ H).
Defined.

(** ** An empty search is the latest listing *)

Lemma str_contains_empty s : str_contains "" s = true.
Proof. by destruct s. Qed.

Lemma filter_post_matches_empty (ps : list Post.t) :
  filter (fun p => post_matches (str_lower "") p = true) ps = ps.
Proof.
  induction ps as [|p ps IH]; [done|].
  rewrite filter_cons_True; [by rewrite IH|].
  unfold post_matches. by rewrite str_contains_empty.
Qed.

(** C21: [search_posts] with the empty query answers what
    [get_posts_list] answers with [sort_type = "latest"] (the same page
    and the same final state), on every world where the cache holds a
    published post once initialized: [""] is in every lower-cased
    content, the two handlers then sort the same posts by the same key,
    slice them the same way and annotate them with the same user
    document.  Where no post is published they differ: the listing
    reloads the cache by [force_reinitialize], the search does not. *)
Theorem search_empty_query_is_latest uid page page_size w :
  published (dict_values (posts_dict (ensure_initialized w).2)) <> [] ->
  search_posts uid "" page page_size w = get_posts_list uid "latest" page page_size w.
Proof.
  intros Hne. unfold search_posts, get_posts_list, py_try. rewrite !bind_run.
  destruct (ensure_initialized w) as [[[]|e] w1]; [|done]. simpl in Hne.
  unfold published_posts, gets. rewrite !bind_run, filter_post_matches_empty.
  rewrite bool_decide_false by done. done.
Qed.

Lemma search_empty_query_is_latest_witness :
  let w := (initialize demo_world).2 in
  published (dict_values (posts_dict (ensure_initialized w).2)) <> [] /\
  search_posts "u1" "" 1 10 w = get_posts_list "u1" "latest" 1 10 w.
Proof.
  intros w. assert (H : published (dict_values (posts_dict (ensure_initialized w).2)) <> [])
    by (vm_compute; discriminate).
  split; [exact H|]. exact (search_empty_query_is_latest _ _ _ _ H).
Defined.




(** ** No exception crosses the API boundary *)

Lemma py_try_handled {A} (c : FM A) (h : exc -> A) w :
  exists a, (py_try c (fun e => mret (h e)) w).1 = Ok a.
Proof. unfold py_try. destruct (c w) as [[a|e] w']; eauto. Qed.

Lemma api_total w :
  (forall cu ct ty cat tags media, exists r, (create_post cu ct ty cat tags media w).1 = Ok r) /\
  (forall uid st page ps, exists r, (get_posts_list uid st page ps w).1 = Ok r) /\
  (forall uid pid action, exists r, (toggle_post_like uid pid action w).1 = Ok r) /\
  (forall uid q page ps, exists r, (search_posts uid q page ps w).1 = Ok r) /\
  (forall uid pid, exists r, (get_post_detail uid pid w).1 = Ok r) /\
  (forall uid pid content, exists r, (create_comment uid pid content w).1 = Ok r) /\
  (forall pid uid page ps, exists r, (get_post_comments pid uid page ps w).1 = Ok r) /\
  (forall uid cid action, exists r, (toggle_comment_like uid cid action w).1 = Ok r) /\
  (exists r, (save_to_database w).1 = Ok r) /\
  (exists r, (initialize w).1 = Ok r) /\ (exists r, (force_reinitialize w).1 = Ok r).
Proof.
  unfold create_post, create_post_body, get_posts_list, toggle_post_like, toggle_post_like_memory, toggle_post_like_sync, toggle_post_like_handler, search_posts, get_post_detail, create_comment,
    get_post_comments, toggle_comment_like, save_to_database, force_reinitialize.
  split_and!; intros; try apply (py_try_handled _ (fun _ => _)); try apply py_try_handled.
  exists (fm_initialized (initialize w).2). apply initialize_outcome.
Qed.

(** Every forum operation, the flush and the (re)initialization return
    a result in every state, whatever storage does: each catches every
    exception at its boundary and turns it into a failure result. *)
Theorem api_never_raises w :
  (forall cu ct ty cat tags media, returns (create_post cu ct ty cat tags media) w) /\
  (forall uid st page ps, returns (get_posts_list uid st page ps) w) /\
  (forall uid pid action, returns (toggle_post_like uid pid action) w) /\
  (forall uid q page ps, returns (search_posts uid q page ps) w) /\
  (forall uid pid, returns (get_post_detail uid pid) w) /\
  (forall uid pid content, returns (create_comment uid pid content) w) /\
  (forall pid uid page ps, returns (get_post_comments pid uid page ps) w) /\
  (forall uid cid action, returns (toggle_comment_like uid cid action) w) /\
  returns save_to_database w /\ returns initialize w /\ returns force_reinitialize w.
Proof. unfold returns. apply api_total. Qed.

(** ** Comment order *)

Definition item_created_key (i : CommentItem) : Z :=
  match ci_created_at i with Some d => dt_instant d | None => 0%Z end.

(** C22: A successful [get_post_comments] page lists comments oldest first:
    no comment on the page was created strictly before one listed above
    it. *)
Theorem get_post_comments_order pid uid page ps w r :
  (get_post_comments pid uid page ps w).1 = Ok r ->
  StronglySorted (fun a b => py_lt (item_created_key b) (item_created_key a) = false) (gr_comments r).
Proof.
  rewrite get_post_comments_run. simpl. intros [= <-].
  destruct (created_sort_raises _); simpl; [constructor|].
  apply StronglySorted_map. unfold page_of. destruct (page_bounds page ps) as [skip e].
  apply StronglySorted_py_slice. exact (proj1 (proj2 (py_sort_characterization created_key _ []))).
Qed.

Lemma get_post_comments_order_witness :
  let w := (create_comment "u1" 1 "second" (initialize demo_world).2).2 in
  let r := match (get_post_comments 1 "u1" 1 10 w).1 with Ok r => r | Raise _ => mk_comments_response false [] false end in
  (get_post_comments 1 "u1" 1 10 w).1 = Ok r /\ length (gr_comments r) = 2 /\
  StronglySorted (fun a b => py_lt (item_created_key b) (item_created_key a) = false) (gr_comments r).
Proof.
  intros w r. assert (H : (get_post_comments 1 "u1" 1 10 w).1 = Ok r) by (vm_compute; reflexivity).
  split_and!; [exact H|vm_compute; reflexivity|exact (get_post_comments_order _ _ _ _ _ _ H)].
Defined.

(** ** The scenarios of the specification, on the demo storage *)

Definition demo_ready : World := (initialize demo_world).2.

(** Three published posts, pages of two: page 1 has two posts and more
    to come, page 2 has one and no more. *)
Example pagination_scenario :
  (get_posts_list "u1" "latest" 1 2 demo_ready).1 = Ok (mk_list_response true
     (map (post_item []) (take 2 (sort_posts "latest" (published (dict_values (posts_dict demo_ready)))))) true) /\
  length (lr_posts (default (mk_list_response false [] false)
     (match (get_posts_list "u1" "latest" 2 2 demo_ready).1 with Ok r => Some r | _ => None end))) = 1 /\
  lr_has_more (default (mk_list_response true [] true)
     (match (get_posts_list "u1" "latest" 2 2 demo_ready).1 with Ok r => Some r | _ => None end)) = false.
Proof. vm_compute. split_and!; reflexivity. Qed.

(** A post created with tags [a; b; c; d] is cached, and flushed to
    storage, with [a; b; c]. *)
Example create_post_tags_scenario :
  let w := (create_post "u1" "tagged" "text" "" ["a"; "b"; "c"; "d"] [] demo_ready).2 in
  option_map PostDoc.tags (dict_get 7%Z (db_posts (db (save_to_database w).2))) = Some (Some ["a"; "b"; "c"]).
Proof. vm_compute. reflexivity. Qed.

(** Liking a post twice: the count stays 1 and the post stays liked. *)
Example like_twice_scenario :
  let w := (toggle_post_like "u2" 1 "like" demo_ready).2 in
  (toggle_post_like "u2" 1 "like" w).1 = Ok (toggle_ok "like" 1 true) /\
  option_map Post.like_count (dict_get 1%Z (posts_dict (toggle_post_like "u2" 1 "like" w).2)) = Some 1%Z.
Proof. vm_compute. split; reflexivity. Qed.

(** A comment on a missing post fails, creates nothing and consumes no
    identifier: the next comment gets the identifier it would have had. *)
Example create_comment_missing_post_scenario :
  let w := (create_comment "u1" 99 "lost" demo_ready).2 in
  (create_comment "u1" 99 "lost" demo_ready).1 = Ok (mk_comment_response false None (Some "post not found")) /\
  w = demo_ready /\
  (create_comment "u1" 1 "kept" w).1 = (create_comment "u1" 1 "kept" demo_ready).1.
Proof. vm_compute. split_and!; reflexivity. Qed.
