(* ===== verification/Interleaving.v ===== *)
(** Requests interleaved at their [await] points.

    The service runs on one event loop: a request runs until it awaits a
    storage call, and any other ready request may run before it resumes.
    A request in flight is a [task]: finished, or ready to run one more
    segment, which returns what is left of the request.  [loop_step] runs
    one segment of one ready task.  A segment may run several awaits back
    to back (the schedule where no other task runs in between), so the
    tasks below split a call only at the await a schedule needs.

    [ForumManager.initialize] checks its flag, then awaits the sequencer
    seeding, and only at the end raises the flag: two requests that both
    find the flag down both run the whole initialization.  A request
    suspended at [Post.initialize_counter]'s storage read resumes with
    [initialize_resumed]: it writes the stored maximum into the post
    counter (the seeding's own check already passed) and clears and
    reloads the cache, whatever ran in between. *)

From S2P Require Import Prelude PyDict Records Exec World Sequencer Cache Api Flush Invariant Counters ApiSpec.
From stdpp Require Import relations.

Inductive task :=
  | Finished
  | Ready (run : World -> task * World).

(** The event loop resumes one ready task for one segment. *)
Inductive loop_step : list task * World -> list task * World -> Prop :=
  | loop_run ts1 f ts2 w : loop_step (ts1 ++ Ready f :: ts2, w) (ts1 ++ (f w).1 :: ts2, (f w).2).

(** What [initialize] runs when it resumes at [Post.initialize_counter]'s
    [await Database.find("posts", ...)]. *)
Definition initialize_resumed : FM bool :=
  py_try (seq_seed db_find_max_post_id set_post_seq;; initialize_rest) initialize_except.

(** What [create_post] runs when it resumes there: the rest of the guard's
    [await self.initialize()], then the body. *)
Definition create_post_resumed (creator_user_id post_content post_type post_category : string)
    (tags : list string) (media_files : list Media) : FM (option Z) :=
  py_try
    ((_ ← initialize_resumed; mret tt);;
     create_post_body creator_user_id post_content post_type post_category tags media_files)
    (fun _ => mret None).

(** [create_post] as a task: with the cache flag and the post sequencer
    down it suspends at the seeding's storage read; otherwise it runs to
    completion. *)
Definition create_post_task cu ct ty cat tags media : task :=
  Ready (fun w =>
    if negb (fm_initialized w) && negb (initialized (post_seq w))
    then (Ready (fun w' => (Finished, (create_post_resumed cu ct ty cat tags media w').2)), w)
    else (Finished, (create_post cu ct ty cat tags media w).2)).

(** ** Run alone, a task is the service call *)

Lemma post_initialize_counter_unseeded w :
  initialized (post_seq w) = false -> post_initialize_counter w = seq_seed db_find_max_post_id set_post_seq w.
Proof. intros H. unfold post_initialize_counter, seq_initialize_counter. rewrite bind_run. simpl. by rewrite H. Qed.

Lemma initialize_suspends w :
  fm_initialized w = false -> initialized (post_seq w) = false -> initialize w = initialize_resumed w.
Proof.
  intros Hf Hp. unfold initialize, initialize_resumed, initialize_load, py_try.
  rewrite bind_run. simpl. rewrite Hf, bind_run, post_initialize_counter_unseeded by done. reflexivity.
Qed.

Lemma create_post_suspends cu ct ty cat tags media w :
  fm_initialized w = false -> initialized (post_seq w) = false ->
  create_post cu ct ty cat tags media w = create_post_resumed cu ct ty cat tags media w.
Proof.
  intros Hf Hp. unfold create_post, create_post_resumed, ensure_initialized, py_try.
  rewrite !bind_run. simpl. rewrite Hf, !bind_run, initialize_suspends by done. reflexivity.
Qed.

Lemma loop_step_1 f w : loop_step ([Ready f], w) ([(f w).1], (f w).2).
Proof. apply (loop_run [] f []). Qed.

Lemma loop_step_2_fst f t w : loop_step ([Ready f; t], w) ([(f w).1; t], (f w).2).
Proof. apply (loop_run [] f [t]). Qed.

Lemma loop_step_2_snd t f w : loop_step ([t; Ready f], w) ([t; (f w).1], (f w).2).
Proof. apply (loop_run [t] f []). Qed.

(** ** Invariants of interleaved runs *)

(** Every segment of the task, run from a state satisfying [I], ends in a
    state satisfying [I], and so does what is left of the task. *)
Inductive task_keeps (I : World -> Prop) : task -> Prop :=
  | keeps_finished : task_keeps I Finished
  | keeps_ready f : (forall w, I w -> I (f w).2 /\ task_keeps I (f w).1) -> task_keeps I (Ready f).

Lemma task_keeps_run I f w : task_keeps I (Ready f) -> I w -> I (f w).2 /\ task_keeps I (f w).1.
Proof. inversion 1; auto. Qed.

Lemma loop_step_keeps I c c' :
  loop_step c c' -> Forall (task_keeps I) c.1 -> I c.2 -> Forall (task_keeps I) c'.1 /\ I c'.2.
Proof.
  intros [ts1 f ts2 w] Hts Hw. simpl in *. apply Forall_app in Hts as [H1 H2].
  inversion H2 as [|? ? Hf H3]; subst. inversion Hf as [|? Hk]; subst.
  destruct (Hk w Hw) as [Hw' Ht]. split; [apply Forall_app; split; [done|by constructor]|done].
Qed.

(** Whatever the schedule, tasks that each keep [I] keep it together. *)
Lemma rtc_loop_step_keeps I c c' :
  rtc loop_step c c' -> Forall (task_keeps I) c.1 -> I c.2 -> Forall (task_keeps I) c'.1 /\ I c'.2.
Proof.
  induction 1 as [|c1 c2 c3 Hs _ IH]; [done|]. intros Hts Hw.
  destruct (loop_step_keeps _ _ _ Hs Hts Hw). auto.
Qed.

(** Run with no other request in flight, the task of [create_post] ends
    in the state [create_post] ends in: the split at the await is
    faithful. *)
Theorem create_post_task_alone cu ct ty cat tags media w :
  rtc loop_step ([create_post_task cu ct ty cat tags media], w) ([Finished], (create_post cu ct ty cat tags media w).2).
Proof.
  destruct (negb (fm_initialized w) && negb (initialized (post_seq w))) eqn:E.
  - apply andb_prop in E as [Hf Hp]. apply negb_true_iff in Hf, Hp.
    eapply rtc_l; [apply loop_step_1|]. cbv beta. rewrite Hf, Hp. simpl.
    eapply rtc_l; [apply loop_step_1|]. simpl. rewrite create_post_suspends by done. apply rtc_refl.
  - eapply rtc_l; [apply loop_step_1|]. cbv beta. rewrite E. apply rtc_refl.
Qed.

(** ** What the resumed seeding does *)

(** The largest stored post identifier ([0] for no post). *)
Definition stored_max (w : World) : Z := default 0%Z (max_key (dict_keys (db_posts (db w)))).

(** With storage answering, the seeding writes the stored maximum into the
    counter, whatever the counter held. *)
Lemma seq_seed_answering w :
  db_faults (db w) = [] ->
  seq_seed db_find_max_post_id set_post_seq w = (Ok tt, set_post_seq (mk_seq (stored_max w) true) w).
Proof.
  intros Hf. unfold seq_seed, db_find_max_post_id, py_try, db_call. rewrite !bind_run. by rewrite Hf.
Qed.

Lemma initialize_rest_le : evolves counters_le initialize_rest.
Proof.
  unfold initialize_rest. solve_evolves;
    auto using comment_initialize_counter_le, load_posts_le, load_comments_le, reconcile_le;
    apply evolves_modify; intros; solve_le.
Qed.

(** Storage of posts untouched, and a storage that answers keeps answering. *)
Definition posts_stored (w w' : World) : Prop :=
  db_posts (db w') = db_posts (db w) /\ (db_faults (db w) = [] -> db_faults (db w') = []).

#[export] Instance posts_stored_preorder : PreOrder posts_stored.
Proof.
  split; [by intros w|]. intros a b c [H1 H2] [H3 H4]. split; [congruence|auto].
Qed.

Lemma db_call_stored : evolves posts_stored db_call.
Proof.
  intros s. rewrite db_call_state. unfold db_after, posts_stored.
  destruct (db_faults (db s)) as [|b f] eqn:E; split; simpl; done.
Qed.

Lemma post_new_stored cu cn ct ty cat tags media : evolves posts_stored (post_new cu cn ct ty cat tags media).
Proof. intros s. rewrite post_new_run. by destruct (initialized (post_seq s)). Qed.

Lemma comment_new_stored cu cn pid ct : evolves posts_stored (comment_new cu cn pid ct).
Proof. intros s. rewrite comment_new_spec. by destruct (initialized (comment_seq s)). Qed.

Ltac stored_op :=
  solve_evolves;
  first [ apply db_call_stored | apply post_new_stored | apply comment_new_stored
        | apply evolves_modify; intros; unfold posts_stored; try case_match; by split ].

(** [create_post] writes no post to storage: only the user document. *)
Lemma create_post_resumed_stored cu ct ty cat tags media :
  evolves posts_stored (create_post_resumed cu ct ty cat tags media).
Proof.
  unfold create_post_resumed, initialize_resumed, seq_seed, db_find_max_post_id, now_ms, initialize_rest,
    initialize_except, comment_initialize_counter, seq_initialize_counter, db_find_max_comment_id,
    load_posts_from_database, db_find_posts, load_post, advance_post_counter, posts_set, now,
    load_comments_from_database, db_find_comments, load_comment, advance_comment_counter, comments_set,
    reconcile_user_post_relationships, reconcile_post, get_user_instance, user_update,
    create_post_body, db_user_add_to_set, modify_db, seq_seed.
  stored_op.
Qed.

(** After the guard, the post takes the next identifier. *)
Lemma create_post_body_id cu ct ty cat tags media w p w' :
  initialized (post_seq w) = true -> create_post_body cu ct ty cat tags media w = (Ok (Some p), w') ->
  p = (counter (post_seq w) + 1)%Z.
Proof.
  intros Hi Hrun.
  cut (triple (fun s => s = w) (create_post_body cu ct ty cat tags media)
         (fun r _ => forall p, r = Some p -> p = (counter (post_seq w) + 1)%Z) (fun _ => True)).
  { intros H. specialize (H w eq_refl). rewrite Hrun in H. by apply H. }
  unfold create_post_body, get_user_instance, post_new, now, posts_set.
  symex; rewrite ?Hi in *; try done.
  eapply triple_bind; [apply triple_any|intros ?]. symex. by intros ? [= <-].
Qed.

(** A seeded post counter at least [m]. *)
Definition seeded_above (m : Z) (w : World) : Prop :=
  initialized (post_seq w) = true /\ (m <= counter (post_seq w))%Z.

Lemma seeded_above_le m w w' : seeded_above m w -> counters_le w w' -> seeded_above m w'.
Proof. intros [Hi Hm] [Hp _]. destruct (Hp Hi). split; [done|lia]. Qed.

Lemma initialize_resumed_above w0 :
  db_faults (db w0) = [] ->
  triple (fun s => s = w0) initialize_resumed (fun _ => seeded_above (stored_max w0))
    (seeded_above (stored_max w0)).
Proof.
  intros Hf. unfold initialize_resumed.
  eapply triple_try with (R1 := seeded_above (stored_max w0)).
  - intros s ->. rewrite bind_run, seq_seed_answering by done. simpl.
    pose proof (initialize_rest_le (set_post_seq (mk_seq (stored_max w0) true) w0)) as Hle.
    assert (H0 : seeded_above (stored_max w0) (set_post_seq (mk_seq (stored_max w0) true) w0))
      by (split; simpl; [done|lia]).
    destruct (initialize_rest _) as [[] w']; exact (seeded_above_le _ _ _ H0 Hle).
  - intros e. unfold initialize_except. symex. by destruct Hs.
Qed.

(** A request resumed at the seeding hands out an identifier above the
    stored maximum. *)
Lemma create_post_resumed_above cu ct ty cat tags media w0 :
  db_faults (db w0) = [] ->
  triple (fun s => s = w0) (create_post_resumed cu ct ty cat tags media)
    (fun r _ => forall p, r = Some p -> (stored_max w0 < p)%Z) (fun _ => True).
Proof.
  intros Hf. unfold create_post_resumed.
  eapply triple_try with (R1 := fun _ => True); [|intros; symex; done].
  eapply (triple_bind _ (fun _ => seeded_above (stored_max w0))).
  - eapply triple_bind; [eapply triple_weaken; [by apply initialize_resumed_above|done|done|done]|].
    intros; symex; done.
  - intros []. intros s [Hi Hm]. destruct (create_post_body cu ct ty cat tags media s) as [[[q|]|e] s'] eqn:E;
      [|done|done]. intros p [= <-]. rewrite (create_post_body_id _ _ _ _ _ _ _ _ _ Hi E). lia.
Qed.

(** An identifier above the stored maximum is not stored. *)
Lemma stored_max_absent w p : (stored_max w < p)%Z -> dict_get p (db_posts (db w)) = None.
Proof.
  intros Hp. apply dict_get_None. unfold stored_max in Hp. intros Hk.
  destruct (max_key (dict_keys (db_posts (db w)))) as [m|] eqn:E.
  - destruct (max_key_spec _ _ E) as [_ Hall]. rewrite Forall_forall in Hall. specialize (Hall _ Hk). simpl in Hp. lia.
  - apply max_key_None in E. rewrite E in Hk. set_solver.
Qed.

(** C7: Two requests at a freshly started process, with storage
    answering: when the first, resumed at its lazy initialization's post
    seeding, finishes [create_post] with identifier [p], that identifier
    is above every stored one, so its post is only in the cache; the
    second request, resumed at the same await, then writes the stored
    maximum back into the post counter, below [p]: the seeding the
    specification calls idempotent hands [p] out again, and the
    clearing that follows it drops the first post. *)
Theorem startup_race_counter_regresses cu ct ty cat tags media w0 p w1 :
  fm_initialized w0 = false -> initialized (post_seq w0) = false -> db_faults (db w0) = [] ->
  create_post_resumed cu ct ty cat tags media w0 = (Ok (Some p), w1) ->
  dict_get p (db_posts (db w1)) = None /\
  seq_seed db_find_max_post_id set_post_seq w1 = (Ok tt, set_post_seq (mk_seq (stored_max w0) true) w1) /\
  (stored_max w0 < p)%Z.
Proof.
  intros Hf Hp Hd Hrun.
  pose proof (create_post_resumed_above cu ct ty cat tags media w0 Hd w0 eq_refl) as Habove.
  rewrite Hrun in Habove. specialize (Habove p eq_refl).
  pose proof (create_post_resumed_stored cu ct ty cat tags media w0) as [Hposts Hfaults].
  rewrite Hrun in Hposts, Hfaults. simpl in Hposts, Hfaults.
  assert (Hmax : stored_max w1 = stored_max w0) by (unfold stored_max; by rewrite Hposts).
  split_and!; [apply stored_max_absent; lia|by rewrite seq_seed_answering, Hmax by auto|done].
Qed.

(** ** Two posts created at start-up *)

(** The schedule: both requests check the flags, then the first resumes
    and finishes, then the second. *)
Lemma startup_schedule cu ct ty cat tags media cu' ct' ty' cat' tags' media' w :
  fm_initialized w = false -> initialized (post_seq w) = false ->
  rtc loop_step
    ([create_post_task cu ct ty cat tags media; create_post_task cu' ct' ty' cat' tags' media'], w)
    ([Finished; Finished],
     (create_post_resumed cu' ct' ty' cat' tags' media' (create_post_resumed cu ct ty cat tags media w).2).2).
Proof.
  intros Hf Hp.
  eapply rtc_l; [apply loop_step_2_fst|]. cbv beta. rewrite Hf, Hp. simpl.
  eapply rtc_l; [apply loop_step_2_snd|]. cbv beta. rewrite Hf, Hp. simpl.
  eapply rtc_l; [apply loop_step_2_fst|]. simpl.
  eapply rtc_l; [apply loop_step_2_snd|]. simpl. apply rtc_refl.
Qed.

(** A process just started over [demo_db] (three stored posts). *)
Definition race_start : World := process_start demo_world.(users) demo_db demo_world.(clock).

(** Two [create_post] requests arrive at a freshly started process.
    Both find the cache flag down; the first runs its initialization and
    creates its post; the second then resumes at the seeding's storage
    read: it writes the stored maximum back into the post counter and
    clears and reloads the cache.  The first post is gone from the cache
    (it was never flushed), and the second request is handed the same
    identifier the first was.  Run one after the other, the two requests
    get different identifiers and both posts stay cached. *)
Example startup_race_reuses_post_id :
  let w1 := (create_post_resumed "u1" "first" "text" "" [] [] race_start).2 in
  let w2 := (create_post_resumed "u2" "second" "text" "" [] [] w1).2 in
  rtc loop_step
    ([create_post_task "u1" "first" "text" "" [] []; create_post_task "u2" "second" "text" "" [] []], race_start)
    ([Finished; Finished], w2) /\
  (create_post_resumed "u1" "first" "text" "" [] [] race_start).1 = Ok (Some 7%Z) /\
  (create_post_resumed "u2" "second" "text" "" [] [] w1).1 = Ok (Some 7%Z) /\
  option_map Post.post_content (dict_get 7%Z (posts_dict w2)) = Some "second" /\
  (create_post "u1" "first" "text" "" [] [] race_start).1 = Ok (Some 7%Z) /\
  (create_post "u2" "second" "text" "" [] [] (create_post "u1" "first" "text" "" [] [] race_start).2).1 =
    Ok (Some 8%Z).
Proof.
  intros w1 w2. split; [apply startup_schedule; reflexivity|vm_compute; split_and!; reflexivity].
Qed.

Lemma startup_race_counter_regresses_witness :
  fm_initialized race_start = false /\ initialized (post_seq race_start) = false /\
  db_faults (db race_start) = [] /\
  create_post_resumed "u1" "first" "text" "" [] [] race_start =
    (Ok (Some 7%Z), (create_post_resumed "u1" "first" "text" "" [] [] race_start).2) /\
  (stored_max race_start < 7)%Z.
Proof.
  assert (H : create_post_resumed "u1" "first" "text" "" [] [] race_start =
    (Ok (Some 7%Z), (create_post_resumed "u1" "first" "text" "" [] [] race_start).2))
    by (vm_compute; reflexivity).
  split_and!; [reflexivity|reflexivity|reflexivity|exact H|].
  exact (proj2 (proj2 (startup_race_counter_regresses "u1" "first" "text" "" [] [] race_start 7%Z _
    eq_refl eq_refl eq_refl H))).
Defined.

(** ** The resumed initialization keeps the invariant *)

(** [c] neither reads nor writes the post cache. *)
Definition posts_frame {A} (c : FM A) : Prop :=
  forall w, c (set_posts_dict [] w) = ((c w).1, set_posts_dict [] (c w).2).

Lemma seq_seed_post_frame : posts_frame (seq_seed db_find_max_post_id set_post_seq).
Proof.
  intros w. unfold seq_seed, db_find_max_post_id, db_call, now_ms, py_try. run_monad.
  destruct (db_faults (db w)) as [|[] f]; reflexivity.
Qed.

Lemma comment_initialize_counter_frame : posts_frame comment_initialize_counter.
Proof.
  intros w. unfold comment_initialize_counter, seq_initialize_counter, seq_seed, db_find_max_comment_id,
    db_call, now_ms, py_try. run_monad.
  destruct (initialized (comment_seq w)); [reflexivity|]. cbv beta.
  change (db (set_posts_dict [] w)) with (db w).
  destruct (db_faults (db w)) as [|[] f]; reflexivity.
Qed.

(** A seeding catches its storage failure. *)
Lemma seq_seed_ok find_max put w : (seq_seed find_max put w).1 = Ok tt.
Proof. unfold seq_seed, now_ms, py_try. run_monad. by destruct (find_max w) as [[|] ?]. Qed.

Lemma comment_initialize_counter_ok w : (comment_initialize_counter w).1 = Ok tt.
Proof.
  unfold comment_initialize_counter, seq_initialize_counter. rewrite bind_run. simpl.
  destruct (initialized (comment_seq w)); [done|apply seq_seed_ok].
Qed.

(** [initialize_rest] clears the post cache before it reads it. *)
Lemma initialize_rest_drop w : initialize_rest (set_posts_dict [] w) = initialize_rest w.
Proof.
  unfold initialize_rest. rewrite !bind_run, comment_initialize_counter_frame.
  pose proof (comment_initialize_counter_ok w) as Hok.
  destruct (comment_initialize_counter w) as [r w1]. simpl in Hok |- *. subst r. reflexivity.
Qed.

(** So the resumed initialization does not see what the cache held. *)
Lemma initialize_resumed_drop w : initialize_resumed w = initialize_resumed (set_posts_dict [] w).
Proof.
  unfold initialize_resumed, py_try. rewrite !bind_run, seq_seed_post_frame.
  pose proof (seq_seed_ok db_find_max_post_id set_post_seq w) as Hok.
  destruct (seq_seed db_find_max_post_id set_post_seq w) as [r w1]. simpl in Hok |- *. subst r.
  by rewrite initialize_rest_drop.
Qed.

Lemma seq_seed_post_empty_inv :
  triple (fun w => Inv w /\ posts_dict w = []) (seq_seed db_find_max_post_id set_post_seq)
    (fun _ w => Inv w /\ initialized (post_seq w) = true) Inv.
Proof.
  unfold seq_seed, db_find_max_post_id, now_ms.
  eapply triple_try with (R1 := fun w => Inv w /\ posts_dict w = []); [|intros];
    symex; destruct_and?; autorewrite with world in *;
    (split; [apply Inv_post_seed_empty; auto with forum|done]) || (split; auto with forum).
  all: by autorewrite with world.
Qed.

Lemma initialize_resumed_inv : triple Inv initialize_resumed (fun _ => Inv) Inv.
Proof.
  assert (H : triple (fun w => Inv w /\ posts_dict w = []) initialize_resumed (fun _ => Inv) Inv).
  { unfold initialize_resumed, initialize_except.
    eapply triple_try with (R1 := Inv); [|intros; symex; solve_inv].
    eapply triple_bind; [apply seq_seed_post_empty_inv|intros []; apply initialize_rest_inv]. }
  intros w Hw. rewrite initialize_resumed_drop. apply H. split; [by apply Inv_clear_posts|done].
Qed.

Lemma create_post_resumed_inv cu ct ty cat tags media :
  triple Inv (create_post_resumed cu ct ty cat tags media) (fun _ => Inv) Inv.
Proof.
  unfold create_post_resumed. eapply triple_try with (R1 := Inv); [|intros; symex; done].
  eapply triple_bind; [|intros; apply create_post_body_inv].
  eapply triple_bind; [apply initialize_resumed_inv|intros; symex; done].
Qed.

(** Both segments of [create_post]'s task keep the invariant: a request
    resumed at the seeding reloads the cache, whatever it held. *)
Lemma create_post_task_keeps cu ct ty cat tags media : task_keeps Inv (create_post_task cu ct ty cat tags media).
Proof.
  constructor. intros w Hw. case_match; simpl.
  - split; [done|]. constructor. intros w' Hw'. split; [|constructor].
    apply (triple_final Inv); [apply create_post_resumed_inv|done].
  - split; [|constructor]. apply (triple_final Inv); [apply create_post_inv|done].
Qed.
