(* ===== verification/Persistence.v ===== *)
(** What the flush writes: with storage answering, [save_to_database]
    stores every cached post and comment as its [to_dict] document and
    reports success.

    The two loops of the flush are the same code on two collections; the
    Section [FlushLoop] proves the loop once, for any entity type whose
    upsert writes [to_dict] under the entity's identifier.  The file ends
    with what this means for the repair script: [fix_memory_direct.py]
    reduces to initialization and the flush. *)

From S2P Require Import Prelude PyDict PySort Records Exec World Sequencer Cache Api Flush Invariant Counters ApiSpec.

(** The collection after upserting [l] in order. *)
Definition flushed {E D} (key : E -> Z) (to_doc : E -> D) (l : list E) (docs : pydict Z D) : pydict Z D :=
  foldl (fun acc e => dict_set (key e) (to_doc e) acc) docs l.

Section FlushLoop.
Context {E D : Type} (key : E -> Z) (to_doc : E -> D) (upsert : E -> FM unit)
  (coll : Database -> pydict Z D) (set_coll : pydict Z D -> Database -> Database).
Hypothesis coll_set : forall c d, coll (set_coll c d) = c.
Hypothesis set_coll_set : forall c c' d, set_coll c (set_coll c' d) = set_coll c d.
Hypothesis set_coll_coll : forall d, set_coll (coll d) d = d.
Hypothesis faults_set : forall c d, db_faults (set_coll c d) = db_faults d.
(** What the upsert needs of the stored collection (its documents keyed
    by their [_id]), kept by the upsert itself. *)
Context (P : World -> Prop).
Hypothesis P_upsert : forall e w,
  P w -> P (set_db (set_coll (dict_set (key e) (to_doc e) (coll (db w))) (db w)) w).
(** The upsert of one entity, storage answering. *)
Hypothesis upsert_spec : forall e w, db_faults (db w) = [] -> P w ->
  upsert e w = (Ok tt, set_db (set_coll (dict_set (key e) (to_doc e) (coll (db w))) (db w)) w).

Definition flush_one (n : Z) (e : E) : FM Z := py_try (upsert e;; mret (n + 1)%Z) (fun _ => mret n).

Lemma flush_one_step n e w :
  db_faults (db w) = [] -> P w ->
  flush_one n e w = (Ok (n + 1)%Z, set_db (set_coll (dict_set (key e) (to_doc e) (coll (db w))) (db w)) w).
Proof. intros Hf HP. unfold flush_one, py_try. by rewrite bind_run, upsert_spec. Qed.

(** The loop counts every entity and writes each one's document. *)
Lemma flush_loop l n w :
  db_faults (db w) = [] -> P w ->
  for_fold flush_one l n w =
    (Ok (n + Z.of_nat (length l))%Z, set_db (set_coll (flushed key to_doc l (coll (db w))) (db w)) w).
Proof.
  revert n w. induction l as [|e l IH]; intros n w Hf HP; simpl.
  - rewrite Z.add_0_r, set_coll_coll. by destruct w.
  - rewrite bind_run, flush_one_step by done. simpl.
    rewrite IH; [|simpl; by rewrite faults_set|by apply P_upsert]. simpl.
    rewrite coll_set, set_coll_set. do 2 f_equal. lia.
Qed.
End FlushLoop.

(** Later upserts of other keys leave a key's document alone. *)
Lemma flushed_get_notin {E D} (key : E -> Z) (to_doc : E -> D) l docs k :
  k ∉ map key l -> dict_get k (flushed key to_doc l docs) = dict_get k docs.
Proof.
  revert docs. induction l as [|e l IH]; intros docs Hk; simpl; [done|].
  rewrite IH by set_solver. apply dict_get_set_ne. set_solver.
Qed.

Lemma flushed_get {E D} (key : E -> Z) (to_doc : E -> D) l docs e :
  NoDup (map key l) -> e ∈ l -> dict_get (key e) (flushed key to_doc l docs) = Some (to_doc e).
Proof.
  revert docs. induction l as [|e' l IH]; intros docs Hnd Hin; [set_solver|]. simpl.
  apply NoDup_cons in Hnd as [Hn Hnd]. apply elem_of_cons in Hin as [->|Hin].
  - rewrite flushed_get_notin by done. apply dict_get_set_eq.
  - by apply IH.
Qed.

(** Storage in [w'] holds every post and comment cached in [w], each as
    its [to_dict] document. *)
Definition persisted (w w' : World) : Prop :=
  (forall k p, dict_get k (posts_dict w) = Some p -> dict_get k (db_posts (db w')) = Some (post_to_dict p)) /\
  (forall k c, dict_get k (comments_dict w) = Some c ->
     dict_get k (db_comments (db w')) = Some (comment_to_dict c)).

(** ** The two collections *)

Definition posts_keyed (w : World) : Prop := dict_Forall (fun k d => PostDoc._id d = k) (db_posts (db w)).
Definition comments_keyed (w : World) : Prop :=
  dict_Forall (fun k d => CommentDoc._id d = k) (db_comments (db w)).

Lemma upsert_post_spec p w :
  db_faults (db w) = [] -> posts_keyed w ->
  upsert_post p w =
    (Ok tt, set_db (db_set_posts (dict_set (Post.post_id p) (post_to_dict p) (db_posts (db w))) (db w)) w).
Proof.
  intros Hf Hk. unfold upsert_post, db_find_one_post, db_update_post_set, db_insert_post, modify_db,
    db_call. run_monad. rewrite Hf. simpl.
  destruct (dict_get (Post.post_id p) (db_posts (db w))) as [old|] eqn:E; simpl; rewrite Hf; simpl; rewrite ?E; [|done].
  rewrite (proj2 (post_doc_set_to_dict old p)); [done|]. exact (dict_Forall_get _ _ _ _ Hk E).
Qed.

Lemma upsert_comment_spec c w :
  db_faults (db w) = [] -> comments_keyed w ->
  upsert_comment c w =
    (Ok tt, set_db (db_set_comments (dict_set (Comment.comment_id c) (comment_to_dict c)
                                       (db_comments (db w))) (db w)) w).
Proof.
  intros Hf Hk. unfold upsert_comment, db_find_one_comment, db_update_comment_set, db_insert_comment,
    modify_db, db_call. run_monad. rewrite Hf. simpl.
  destruct (dict_get (Comment.comment_id c) (db_comments (db w))) as [old|] eqn:E; simpl; rewrite Hf; simpl; rewrite ?E; [|done].
  rewrite (proj2 (comment_doc_set_to_dict old c)); [done|]. exact (dict_Forall_get _ _ _ _ Hk E).
Qed.

Lemma flush_posts_run l n w :
  db_faults (db w) = [] -> posts_keyed w ->
  for_fold flush_post l n w =
    (Ok (n + Z.of_nat (length l))%Z,
     set_db (db_set_posts (flushed Post.post_id post_to_dict l (db_posts (db w))) (db w)) w).
Proof.
  intros Hf Hk. eapply (flush_loop Post.post_id post_to_dict upsert_post db_posts db_set_posts
    _ _ _ _ posts_keyed); try done.
  - intros e w' Hk'. by apply dict_Forall_set.
  - intros e w' Hf' Hk'. by apply upsert_post_spec.
  Unshelve. all: try done. by intros [].
Qed.

Lemma flush_comments_run l n w :
  db_faults (db w) = [] -> comments_keyed w ->
  for_fold flush_comment l n w =
    (Ok (n + Z.of_nat (length l))%Z,
     set_db (db_set_comments (flushed Comment.comment_id comment_to_dict l (db_comments (db w))) (db w)) w).
Proof.
  intros Hf Hk. eapply (flush_loop Comment.comment_id comment_to_dict upsert_comment db_comments
    db_set_comments _ _ _ _ comments_keyed); try done.
  - intros e w' Hk'. by apply dict_Forall_set.
  - intros e w' Hf' Hk'. by apply upsert_comment_spec.
  Unshelve. all: try done. by intros [].
Qed.

(** The reconciler, run under its [try], only rewrites the user registry. *)
Lemma reconcile_frame w :
  exists u, py_try reconcile_user_post_relationships (fun _ => mret tt) w = (Ok tt, set_users u w).
Proof.
  pose proof (reconcile_keeps (fun w' => exists u, w' = set_users u w)) as H.
  specialize (H ltac:(intros ? u' [u ->]; by exists u') w ltac:(exists (users w); by destruct w)).
  unfold py_try. destruct (reconcile_user_post_relationships w) as [[[]|e] w'];
    destruct H as [u ->]; by exists u.
Qed.

Lemma Inv_keyed w : Inv w -> posts_keyed w /\ comments_keyed w.
Proof.
  intros HI. split; eapply dict_Forall_impl; [apply (inv_db_posts _ HI)| |apply (inv_db_comments _ HI)|];
    by intros k d [].
Qed.

(** The identifiers of the cached entities are their keys, without repeats. *)
Lemma Inv_ids w :
  Inv w -> NoDup (map Post.post_id (dict_values (posts_dict w))) /\
           NoDup (map Comment.comment_id (dict_values (comments_dict w))).
Proof.
  intros HI. rewrite !dict_values_keys; [split; apply HI| |].
  - eapply dict_Forall_impl; [apply (inv_comments _ HI)|]. by intros k c [].
  - eapply dict_Forall_impl; [apply (inv_posts _ HI)|]. by intros k p [].
Qed.

(** The flush, run with storage answering, from a state satisfying [Inv]. *)
Lemma flush_saves_all w :
  Inv w -> db_faults (db w) = [] ->
  (save_to_database w).1 = Ok true /\
  (forall k p, dict_get k (posts_dict w) = Some p ->
     dict_get k (db_posts (db (save_to_database w).2)) = Some (post_to_dict p)) /\
  (forall k c, dict_get k (comments_dict w) = Some c ->
     dict_get k (db_comments (db (save_to_database w).2)) = Some (comment_to_dict c)).
Proof.
  intros HI Hf. destruct (reconcile_frame w) as [u Hr]. destruct (Inv_keyed w HI) as [Hkp Hkc].
  destruct (Inv_ids w HI) as [Hnp Hnc].
  unfold save_to_database. erewrite py_try_ok; cycle 1.
  { rewrite bind_run, Hr. run_monad. rewrite flush_posts_run by done. simpl.
    rewrite flush_comments_run by done. simpl. reflexivity. }
  simpl. rewrite bool_decide_true; [split_and!; [done| |]|unfold dict_len, dict_values; rewrite !length_map; lia].
  - intros k p Hp. destruct (dict_Forall_get _ _ _ _ (inv_posts _ HI) Hp) as [<- _].
    by apply flushed_get, dict_get_values with (k := Post.post_id p).
  - intros k c Hc. destruct (dict_Forall_get _ _ _ _ (inv_comments _ HI) Hc) as [<- _].
    by apply flushed_get, dict_get_values with (k := Comment.comment_id c).
Qed.

(** C10: With storage answering, the flush saves everything: it returns
    [True], and afterwards storage holds, under each cached post's and
    comment's identifier, exactly its [to_dict] document (an existing
    document is overwritten key by key, a missing one inserted). *)
Theorem save_to_database_persists w :
  Inv w -> db_faults (db w) = [] ->
  (save_to_database w).1 = Ok true /\ persisted w (save_to_database w).2.
Proof. unfold persisted. apply flush_saves_all. Qed.

Lemma save_to_database_persists_witness :
  let w := (initialize demo_world).2 in
  Inv w /\ db_faults (db w) = [] /\ (save_to_database w).1 = Ok true.
Proof.
  intros w. assert (HI : Inv w) by exact (triple_final _ _ _ initialize_inv Inv_demo_world).
  assert (Hf : db_faults (db w) = []) by (vm_compute; reflexivity).
  split_and!; [exact HI|exact Hf|]. exact (proj1 (save_to_database_persists w HI Hf)).
Defined.

(** ** The flush only reads the cache *)

Definition same_caches (w w' : World) : Prop :=
  posts_dict w = posts_dict w' /\ comments_dict w = comments_dict w'.

#[export] Instance same_caches_preorder : PreOrder same_caches.
Proof. split; [by split|intros ? ? ? [] []; split; congruence]. Qed.

(** C26: [save_to_database] never changes the cached posts and comments,
    whatever storage does; it writes storage and, through the reconciler,
    the user registry only. *)
Theorem save_to_database_frame : evolves same_caches save_to_database.
Proof.
  unfold save_to_database, reconcile_user_post_relationships, reconcile_post, get_user_instance,
    user_update, flush_post, flush_comment, upsert_post, upsert_comment, db_find_one_post,
    db_find_one_comment, db_update_post_set, db_update_comment_set, db_insert_post,
    db_insert_comment, modify_db.
  solve_evolves;
    first [ intros ?; rewrite db_call_state; unfold same_caches; by autorewrite with world
          | apply evolves_modify; intros; unfold same_caches; try case_match; done ].
Qed.

(** ** The repair script *)

