(* ===== verification/Routes.v ===== *)
(** The HTTP layer: the routes of [app/api/v1/ForumManager.py] and the
    pydantic models of [app/schemas/ForumManager.py].

    A request body is validated into its request model (FastAPI answers
    422 when a required field is missing or a [Field] constraint fails);
    the route calls the service with [user_id] an [int] (the service
    reads it through [str(user_id)]), builds the response model from the
    service's dict, and turns any exception, a refused response model
    included, into [HTTPException(status_code=500)].

    A body is a record with one optional field per key ([None]: the key is
    absent); values of the wrong JSON type are not modelled.  The
    response models of the toggles and of [create_comment] accept every
    dict the service returns; the item models carry
    [CreatorInfo.user_id : int], which pydantic coerces from the stored
    [str] id, and refuse an id that is not an integer. *)

From S2P Require Import Prelude PyDict PySort Records PyInt TimeDisplay Exec World Sequencer Cache Api Hydration ApiSpec.

(** ** HTTP outcomes *)

Inductive http (A : Type) :=
  | Http200 (body : A)
  | Http422            (** the request body does not validate *)
  | Http500.           (** [HTTPException(status_code=500, detail="internal error")] *)
Arguments Http200 {A} body.
Arguments Http422 {A}.
Arguments Http500 {A}.

(** The shape of every route: [try: result = await forum.<op>(...);
    return <Model>( **result) except Exception: raise HTTPException(500)].
    [conv] is the response model's construction, [None] when pydantic
    raises [ValidationError]. *)
Definition route_call {A B} (call : FM A) (conv : A -> option B) : FM (http B) :=
  py_try
    (result ← call;
     match conv result with
     | Some b => mret (Http200 b)
     | None => raise (ValidationError "response validation")
     end)
    (fun _ => mret Http500).

(** ** Response models *)

Module CreatorInfo.
Record t := mk { user_id : Z; user_name : string }.
End CreatorInfo.

Module PostStats.
Record t := mk { like_count : Z; comment_count : Z; view_count : Z }.
End PostStats.

Module PostItem.
Record t := mk {
  post_id : Z;
  post_content : string;
  post_type : string;
  creator : CreatorInfo.t;
  media_files : list Media;
  stats : PostStats.t;
  is_liked : bool;
  post_category : string;
  tags : list string;
  created_at : option datetime;
  time_display : string
}.

(** [PostItem( **item)]: the creator's [user_id] must read as an [int]. *)
Definition of_item (i : PostItem) : option t :=
  match int_of_str (item_creator_user_id i) with
  | None => None
  | Some uid =>
      Some (mk (item_post_id i) (item_post_content i) (item_post_type i)
              (CreatorInfo.mk uid (item_creator_user_name i)) (item_media_files i)
              (PostStats.mk (item_like_count i) (item_comment_count i) (item_view_count i))
              (item_is_liked i) (item_post_category i) (item_tags i) (item_created_at i)
              (item_time_display i))
  end.
End PostItem.

Module CommentItem.
Record t := mk {
  comment_id : Z;
  comment_content : string;
  commenter : CreatorInfo.t;
  like_count : Z;
  is_liked : bool;
  created_at : option datetime
}.

Definition of_item (i : CommentItem) : option t :=
  match int_of_str (ci_commenter_user_id i) with
  | None => None
  | Some uid =>
      Some (mk (ci_comment_id i) (ci_comment_content i) (CreatorInfo.mk uid (ci_commenter_user_name i))
              (ci_like_count i) (ci_is_liked i) (ci_created_at i))
  end.
End CommentItem.

(** A [List[Model]] field validates when every element does: stdpp's
    [mapM] in the option monad. *)

(** [GetPostsListResponse] and [SearchPostsResponse] *)
Module PostsResponse.
Record t := mk { success : bool; posts : list PostItem.t; has_more : bool }.
Definition of_result (r : ListResponse) : option t :=
  option_map (fun ps => mk (lr_success r) ps (lr_has_more r)) (mapM PostItem.of_item (lr_posts r)).
End PostsResponse.

Module GetPostDetailResponse.
Record t := mk { success : bool; post : option PostItem.t; message : option string }.
Definition of_result (r : DetailResponse) : option t :=
  match dr_post r with
  | None => Some (mk (dr_success r) None (dr_message r))
  | Some i => option_map (fun p => mk (dr_success r) (Some p) (dr_message r)) (PostItem.of_item i)
  end.
End GetPostDetailResponse.

Module GetPostCommentsResponse.
Record t := mk { success : bool; comments : list CommentItem.t; has_more : bool }.
Definition of_result (r : CommentsResponse) : option t :=
  option_map (fun cs => mk (gr_success r) cs (gr_has_more r)) (mapM CommentItem.of_item (gr_comments r)).
End GetPostCommentsResponse.

Module CreatePostResponse.
Record t := mk { success : bool; post_id : option Z; message : option string }.
End CreatePostResponse.

(** [TogglePostLikeResponse] and [ToggleCommentLikeResponse]: every field
    but [success] optional, so any toggle result dict validates. *)
Module TogglePostLikeResponse.
Record t := mk { success : bool; action : option string; new_like_count : option Z;
                 is_liked : option bool; message : option string }.
Definition of_result (r : ToggleResponse) : option t :=
  Some (mk (tr_success r) (tr_action r) (tr_new_like_count r) (tr_is_liked r) (tr_message r)).
End TogglePostLikeResponse.

Module ToggleCommentLikeResponse.
Record t := mk { success : bool; action : option string; new_like_count : option Z;
                 is_liked : option bool; message : option string }.
Definition of_result (r : ToggleResponse) : option t :=
  Some (mk (tr_success r) (tr_action r) (tr_new_like_count r) (tr_is_liked r) (tr_message r)).
End ToggleCommentLikeResponse.

Module CreateCommentResponse.
Record t := mk { success : bool; comment_id : option Z; message : option string }.
Definition of_result (r : CommentResponse) : option t :=
  Some (mk (cr_success r) (cr_comment_id r) (cr_message r)).
End CreateCommentResponse.

(** ** Request models *)

(** [GetPostsListRequest]: [page: int = Field(1, ge=1)],
    [page_size: int = Field(20, ge=1, le=100)]. *)
Module GetPostsListRequest.
Record t := mk { user_id : Z; sort_type : string; page : Z; page_size : Z }.
Record body := mk_body { b_user_id : option Z; b_sort_type : option string;
                         b_page : option Z; b_page_size : option Z }.
Definition validate (b : body) : option t :=
  match b_user_id b with
  | None => None
  | Some uid =>
      let page := default 1%Z (b_page b) in
      let page_size := default 20%Z (b_page_size b) in
      if bool_decide (1 <= page)%Z && bool_decide (1 <= page_size <= 100)%Z
      then Some (mk uid (default "latest" (b_sort_type b)) page page_size) else None
  end.
End GetPostsListRequest.

(** [CreatePostRequest]: [post_category: Optional[str] = ""] may be [null]. *)
Module CreatePostRequest.
Record t := mk { creator_user_id : Z; post_content : string; post_type : string;
                 post_category : option string; tags : list string; media_files : list Media }.
Record body := mk_body { b_creator_user_id : option Z; b_post_content : option string;
                         b_post_type : option string; b_post_category : option (option string);
                         b_tags : option (list string); b_media_files : option (list Media) }.
Definition validate (b : body) : option t :=
  match b_creator_user_id b, b_post_content b with
  | Some uid, Some content =>
      Some (mk uid content (default "text" (b_post_type b)) (default (Some "") (b_post_category b))
              (default [] (b_tags b)) (default [] (b_media_files b)))
  | _, _ => None
  end.
End CreatePostRequest.

(** [SearchPostsRequest]: [page: int = 1], [page_size: int = 20], no bounds. *)
Module SearchPostsRequest.
Record t := mk { user_id : Z; search_query : string; page : Z; page_size : Z }.
Record body := mk_body { b_user_id : option Z; b_search_query : option string;
                         b_page : option Z; b_page_size : option Z }.
Definition validate (b : body) : option t :=
  match b_user_id b, b_search_query b with
  | Some uid, Some q => Some (mk uid q (default 1%Z (b_page b)) (default 20%Z (b_page_size b)))
  | _, _ => None
  end.
End SearchPostsRequest.

(** [GetPostCommentsRequest]: [page: int = 1], [page_size: int = 20], no bounds. *)
Module GetPostCommentsRequest.
Record t := mk { post_id : Z; user_id : Z; page : Z; page_size : Z }.
Record body := mk_body { b_post_id : option Z; b_user_id : option Z;
                         b_page : option Z; b_page_size : option Z }.
Definition validate (b : body) : option t :=
  match b_post_id b, b_user_id b with
  | Some pid, Some uid => Some (mk pid uid (default 1%Z (b_page b)) (default 20%Z (b_page_size b)))
  | _, _ => None
  end.
End GetPostCommentsRequest.

(** The requests whose fields are all required: a body validates when
    every key is present. *)
Module TogglePostLikeRequest.
Record t := mk { user_id : Z; post_id : Z; action : string }.
Record body := mk_body { b_user_id : option Z; b_post_id : option Z; b_action : option string }.
Definition validate (b : body) : option t :=
  match b_user_id b, b_post_id b, b_action b with
  | Some u, Some p, Some a => Some (mk u p a)
  | _, _, _ => None
  end.
End TogglePostLikeRequest.

Module CreateCommentRequest.
Record t := mk { user_id : Z; post_id : Z; comment_content : string }.
Record body := mk_body { b_user_id : option Z; b_post_id : option Z; b_comment_content : option string }.
Definition validate (b : body) : option t :=
  match b_user_id b, b_post_id b, b_comment_content b with
  | Some u, Some p, Some c => Some (mk u p c)
  | _, _, _ => None
  end.
End CreateCommentRequest.

Module ToggleCommentLikeRequest.
Record t := mk { user_id : Z; comment_id : Z; action : string }.
Record body := mk_body { b_user_id : option Z; b_comment_id : option Z; b_action : option string }.
Definition validate (b : body) : option t :=
  match b_user_id b, b_comment_id b, b_action b with
  | Some u, Some c, Some a => Some (mk u c a)
  | _, _, _ => None
  end.
End ToggleCommentLikeRequest.

Module GetPostDetailRequest.
Record t := mk { user_id : Z; post_id : Z }.
Record body := mk_body { b_user_id : option Z; b_post_id : option Z }.
Definition validate (b : body) : option t :=
  match b_user_id b, b_post_id b with
  | Some u, Some p => Some (mk u p)
  | _, _ => None
  end.
End GetPostDetailRequest.

(** ** The routes *)

Inductive route_request :=
  | RGetPostsList (b : GetPostsListRequest.body)
  | RCreatePost (b : CreatePostRequest.body)
  | RSearchPosts (b : SearchPostsRequest.body)
  | RTogglePostLike (b : TogglePostLikeRequest.body)
  | RCreateComment (b : CreateCommentRequest.body)
  | RGetPostDetail (b : GetPostDetailRequest.body)
  | RGetPostComments (b : GetPostCommentsRequest.body)
  | RToggleCommentLike (b : ToggleCommentLikeRequest.body).

Inductive route_response :=
  | PostsListResp (r : http PostsResponse.t)
  | CreatePostResp (r : http CreatePostResponse.t)
  | SearchPostsResp (r : http PostsResponse.t)
  | TogglePostLikeResp (r : http TogglePostLikeResponse.t)
  | CreateCommentResp (r : http CreateCommentResponse.t)
  | PostDetailResp (r : http GetPostDetailResponse.t)
  | PostCommentsResp (r : http GetPostCommentsResponse.t)
  | ToggleCommentLikeResp (r : http ToggleCommentLikeResponse.t).

(** [get_posts_list] route *)
Definition route_get_posts_list (req : GetPostsListRequest.t) : FM (http PostsResponse.t) :=
  route_call
    (get_posts_list (py_str_int (GetPostsListRequest.user_id req)) (GetPostsListRequest.sort_type req)
       (GetPostsListRequest.page req) (GetPostsListRequest.page_size req))
    PostsResponse.of_result.

(** The response of the [create_post] route: [if not post_id] (no post,
    or the identifier [0]) is a failure. *)
Definition create_post_response (post_id : option Z) : CreatePostResponse.t :=
  match post_id with
  | Some pid =>
      if bool_decide (pid = 0%Z) then CreatePostResponse.mk false None (Some "帖子发布失败")
      else CreatePostResponse.mk true (Some pid) (Some "帖子发布成功")
  | None => CreatePostResponse.mk false None (Some "帖子发布失败")
  end.

(** [create_post] route: [post_category or ""], [tags or []]; the media
    models are passed as their dicts. *)
Definition route_create_post (req : CreatePostRequest.t) : FM (http CreatePostResponse.t) :=
  route_call
    (create_post (py_str_int (CreatePostRequest.creator_user_id req))
       (CreatePostRequest.post_content req) (CreatePostRequest.post_type req)
       (py_or_str (CreatePostRequest.post_category req) "")
       (CreatePostRequest.tags req) (CreatePostRequest.media_files req))
    (fun post_id => Some (create_post_response post_id)).

Definition route_search_posts (req : SearchPostsRequest.t) : FM (http PostsResponse.t) :=
  route_call
    (search_posts (py_str_int (SearchPostsRequest.user_id req)) (SearchPostsRequest.search_query req)
       (SearchPostsRequest.page req) (SearchPostsRequest.page_size req))
    PostsResponse.of_result.

Definition route_toggle_post_like (req : TogglePostLikeRequest.t) : FM (http TogglePostLikeResponse.t) :=
  route_call
    (toggle_post_like (py_str_int (TogglePostLikeRequest.user_id req)) (TogglePostLikeRequest.post_id req)
       (TogglePostLikeRequest.action req))
    TogglePostLikeResponse.of_result.

Definition route_create_comment (req : CreateCommentRequest.t) : FM (http CreateCommentResponse.t) :=
  route_call
    (create_comment (py_str_int (CreateCommentRequest.user_id req)) (CreateCommentRequest.post_id req)
       (CreateCommentRequest.comment_content req))
    CreateCommentResponse.of_result.

Definition route_get_post_detail (req : GetPostDetailRequest.t) : FM (http GetPostDetailResponse.t) :=
  route_call
    (get_post_detail (py_str_int (GetPostDetailRequest.user_id req)) (GetPostDetailRequest.post_id req))
    GetPostDetailResponse.of_result.

Definition route_get_post_comments (req : GetPostCommentsRequest.t) : FM (http GetPostCommentsResponse.t) :=
  route_call
    (get_post_comments (GetPostCommentsRequest.post_id req) (py_str_int (GetPostCommentsRequest.user_id req))
       (GetPostCommentsRequest.page req) (GetPostCommentsRequest.page_size req))
    GetPostCommentsResponse.of_result.

Definition route_toggle_comment_like (req : ToggleCommentLikeRequest.t) : FM (http ToggleCommentLikeResponse.t) :=
  route_call
    (toggle_comment_like (py_str_int (ToggleCommentLikeRequest.user_id req))
       (ToggleCommentLikeRequest.comment_id req) (ToggleCommentLikeRequest.action req))
    ToggleCommentLikeResponse.of_result.

(** Validate the body, then run the route: a body that does not validate
    is answered 422 without running anything. *)
Definition validated {R B} (v : option R) (run : R -> FM (http B)) : FM (http B) :=
  match v with
  | Some req => run req
  | None => mret Http422
  end.

Definition serve (r : route_request) : FM route_response :=
  match r with
  | RGetPostsList b => x ← validated (GetPostsListRequest.validate b) route_get_posts_list; mret (PostsListResp x)
  | RCreatePost b => x ← validated (CreatePostRequest.validate b) route_create_post; mret (CreatePostResp x)
  | RSearchPosts b => x ← validated (SearchPostsRequest.validate b) route_search_posts; mret (SearchPostsResp x)
  | RTogglePostLike b =>
      x ← validated (TogglePostLikeRequest.validate b) route_toggle_post_like; mret (TogglePostLikeResp x)
  | RCreateComment b =>
      x ← validated (CreateCommentRequest.validate b) route_create_comment; mret (CreateCommentResp x)
  | RGetPostDetail b =>
      x ← validated (GetPostDetailRequest.validate b) route_get_post_detail; mret (PostDetailResp x)
  | RGetPostComments b =>
      x ← validated (GetPostCommentsRequest.validate b) route_get_post_comments; mret (PostCommentsResp x)
  | RToggleCommentLike b =>
      x ← validated (ToggleCommentLikeRequest.validate b) route_toggle_comment_like; mret (ToggleCommentLikeResp x)
  end.

(** ** The routes refine the service *)

(** The response a route gives for a service result. *)
Definition to_http {B} (o : option B) : http B :=
  match o with Some b => Http200 b | None => Http500 end.

Lemma route_call_run {A B} (call : FM A) (conv : A -> option B) w a w' :
  call w = (Ok a, w') -> route_call call conv w = (Ok (to_http (conv a)), w').
Proof. intros H. unfold route_call, py_try. rewrite bind_run, H. by destruct (conv a). Qed.

Lemma route_call_refines {A B} (call : FM A) (conv : A -> option B) w :
  (exists a, (call w).1 = Ok a) ->
  exists a, call w = (Ok a, (route_call call conv w).2) /\ (route_call call conv w).1 = Ok (to_http (conv a)).
Proof.
  intros [a Ha]. exists a. destruct (call w) as [r w'] eqn:E. simpl in Ha. subst r.
  by rewrite (route_call_run _ _ _ _ _ E).
Qed.

Lemma route_results w :
  (forall req, exists a,
     create_post (py_str_int (CreatePostRequest.creator_user_id req))
       (CreatePostRequest.post_content req) (CreatePostRequest.post_type req)
       (py_or_str (CreatePostRequest.post_category req) "")
       (CreatePostRequest.tags req) (CreatePostRequest.media_files req) w =
       (Ok a, (route_create_post req w).2) /\
     (route_create_post req w).1 = Ok (Http200 (create_post_response a))) /\
  (forall req, exists a,
     get_posts_list (py_str_int (GetPostsListRequest.user_id req)) (GetPostsListRequest.sort_type req)
       (GetPostsListRequest.page req) (GetPostsListRequest.page_size req) w = (Ok a, (route_get_posts_list req w).2) /\
     (route_get_posts_list req w).1 = Ok (to_http (PostsResponse.of_result a))) /\
  (forall req, exists a,
     search_posts (py_str_int (SearchPostsRequest.user_id req)) (SearchPostsRequest.search_query req)
       (SearchPostsRequest.page req) (SearchPostsRequest.page_size req) w = (Ok a, (route_search_posts req w).2) /\
     (route_search_posts req w).1 = Ok (to_http (PostsResponse.of_result a))) /\
  (forall req, exists a,
     toggle_post_like (py_str_int (TogglePostLikeRequest.user_id req)) (TogglePostLikeRequest.post_id req)
       (TogglePostLikeRequest.action req) w = (Ok a, (route_toggle_post_like req w).2) /\
     (route_toggle_post_like req w).1 = Ok (to_http (TogglePostLikeResponse.of_result a))) /\
  (forall req, exists a,
     create_comment (py_str_int (CreateCommentRequest.user_id req)) (CreateCommentRequest.post_id req)
       (CreateCommentRequest.comment_content req) w = (Ok a, (route_create_comment req w).2) /\
     (route_create_comment req w).1 = Ok (to_http (CreateCommentResponse.of_result a))) /\
  (forall req, exists a,
     get_post_detail (py_str_int (GetPostDetailRequest.user_id req)) (GetPostDetailRequest.post_id req) w =
       (Ok a, (route_get_post_detail req w).2) /\
     (route_get_post_detail req w).1 = Ok (to_http (GetPostDetailResponse.of_result a))) /\
  (forall req, exists a,
     get_post_comments (GetPostCommentsRequest.post_id req) (py_str_int (GetPostCommentsRequest.user_id req))
       (GetPostCommentsRequest.page req) (GetPostCommentsRequest.page_size req) w =
       (Ok a, (route_get_post_comments req w).2) /\
     (route_get_post_comments req w).1 = Ok (to_http (GetPostCommentsResponse.of_result a))) /\
  (forall req, exists a,
     toggle_comment_like (py_str_int (ToggleCommentLikeRequest.user_id req))
       (ToggleCommentLikeRequest.comment_id req) (ToggleCommentLikeRequest.action req) w =
       (Ok a, (route_toggle_comment_like req w).2) /\
     (route_toggle_comment_like req w).1 = Ok (to_http (ToggleCommentLikeResponse.of_result a))).
Proof.
  destruct (api_total w) as (Hcp & Hl & Ht & Hs & Hd & Hc & Hg & Htc & _).
  unfold route_create_post, route_get_posts_list, route_search_posts, route_toggle_post_like, route_create_comment,
    route_get_post_detail, route_get_post_comments, route_toggle_comment_like.
  split_and!; intros;
    match goal with
    | |- exists a, _ = (Ok a, (route_call ?call ?conv ?w).2) /\ _ =>
        destruct (route_call_refines call conv w ltac:(eauto)) as (a & H1 & H2);
        exists a; split; [exact H1|exact H2]
    end.
Qed.

(** Every route answers the service's result, converted by its
    response model (500 when the model refuses it), and leaves the
    process exactly as the service call leaves it: the HTTP layer adds no
    effect of its own and never lets an exception through. *)
Theorem routes_refine_service w :
  (forall req, exists a,
     create_post (py_str_int (CreatePostRequest.creator_user_id req))
       (CreatePostRequest.post_content req) (CreatePostRequest.post_type req)
       (py_or_str (CreatePostRequest.post_category req) "")
       (CreatePostRequest.tags req) (CreatePostRequest.media_files req) w =
       (Ok a, (route_create_post req w).2) /\
     (route_create_post req w).1 = Ok (Http200 (create_post_response a))) /\
  (forall req, exists a,
     get_posts_list (py_str_int (GetPostsListRequest.user_id req)) (GetPostsListRequest.sort_type req)
       (GetPostsListRequest.page req) (GetPostsListRequest.page_size req) w = (Ok a, (route_get_posts_list req w).2) /\
     (route_get_posts_list req w).1 = Ok (to_http (PostsResponse.of_result a))) /\
  (forall req, exists a,
     search_posts (py_str_int (SearchPostsRequest.user_id req)) (SearchPostsRequest.search_query req)
       (SearchPostsRequest.page req) (SearchPostsRequest.page_size req) w = (Ok a, (route_search_posts req w).2) /\
     (route_search_posts req w).1 = Ok (to_http (PostsResponse.of_result a))) /\
  (forall req, exists a,
     toggle_post_like (py_str_int (TogglePostLikeRequest.user_id req)) (TogglePostLikeRequest.post_id req)
       (TogglePostLikeRequest.action req) w = (Ok a, (route_toggle_post_like req w).2) /\
     (route_toggle_post_like req w).1 = Ok (to_http (TogglePostLikeResponse.of_result a))) /\
  (forall req, exists a,
     create_comment (py_str_int (CreateCommentRequest.user_id req)) (CreateCommentRequest.post_id req)
       (CreateCommentRequest.comment_content req) w = (Ok a, (route_create_comment req w).2) /\
     (route_create_comment req w).1 = Ok (to_http (CreateCommentResponse.of_result a))) /\
  (forall req, exists a,
     get_post_detail (py_str_int (GetPostDetailRequest.user_id req)) (GetPostDetailRequest.post_id req) w =
       (Ok a, (route_get_post_detail req w).2) /\
     (route_get_post_detail req w).1 = Ok (to_http (GetPostDetailResponse.of_result a))) /\
  (forall req, exists a,
     get_post_comments (GetPostCommentsRequest.post_id req) (py_str_int (GetPostCommentsRequest.user_id req))
       (GetPostCommentsRequest.page req) (GetPostCommentsRequest.page_size req) w =
       (Ok a, (route_get_post_comments req w).2) /\
     (route_get_post_comments req w).1 = Ok (to_http (GetPostCommentsResponse.of_result a))) /\
  (forall req, exists a,
     toggle_comment_like (py_str_int (ToggleCommentLikeRequest.user_id req))
       (ToggleCommentLikeRequest.comment_id req) (ToggleCommentLikeRequest.action req) w =
       (Ok a, (route_toggle_comment_like req w).2) /\
     (route_toggle_comment_like req w).1 = Ok (to_http (ToggleCommentLikeResponse.of_result a))).
Proof. apply route_results. Qed.

(** ** Page sizes *)

Lemma get_posts_list_validate_bounds b req :
  GetPostsListRequest.validate b = Some req ->
  (1 <= GetPostsListRequest.page req)%Z /\ (1 <= GetPostsListRequest.page_size req <= 100)%Z.
Proof.
  unfold GetPostsListRequest.validate. destruct (GetPostsListRequest.b_user_id b); [|done].
  destruct (bool_decide (1 <= _)%Z) eqn:E1; destruct (bool_decide (1 <= _ <= 100)%Z) eqn:E2;
    simpl; intros; simplify_eq/=.
  apply bool_decide_eq_true in E1, E2. done.
Qed.

Lemma mapM_length {A B} (f : A -> option B) l k : mapM f l = Some k -> length k = length l.
Proof. intros H. symmetry. by eapply Forall2_length, mapM_Some_1. Qed.

Lemma page_of_length {A} (l : list A) page ps :
  (1 <= page)%Z -> (0 <= ps)%Z -> length (page_of l page ps) <= Z.to_nat ps.
Proof. intros. rewrite page_of_spec, length_take by done. lia. Qed.

(** C23: A [get_posts_list] request that passes [GetPostsListRequest]'s
    [Field] constraints ([page >= 1], [1 <= page_size <= 100]) is answered,
    when it is answered 200, with at most [page_size] posts, so never more
    than 100. *)
Theorem route_get_posts_list_bounds b req w r :
  GetPostsListRequest.validate b = Some req ->
  (route_get_posts_list req w).1 = Ok (Http200 r) ->
  (1 <= GetPostsListRequest.page req)%Z /\ (1 <= GetPostsListRequest.page_size req <= 100)%Z /\
  length (PostsResponse.posts r) <= Z.to_nat (GetPostsListRequest.page_size req) <= 100.
Proof.
  intros Hv Hr. destruct (get_posts_list_validate_bounds b req Hv) as [Hp Hs].
  destruct (route_results w) as (_ & Hl & _). destruct (Hl req) as (a & Ha & Ha').
  rewrite Ha' in Hr. unfold PostsResponse.of_result in Hr.
  destruct (mapM PostItem.of_item (lr_posts a)) as [ps|] eqn:Em; simplify_eq/=.
  rewrite (mapM_length _ _ _ Em). split_and!; try lia.
  pose proof (f_equal fst Ha) as Ha1. simpl in Ha1.
  destruct (get_posts_list_shape _ _ _ _ _ _ Ha1) as [->|(posts & liked & ->)];
    simpl; [lia|]. rewrite length_map. apply page_of_length; lia.
Qed.

(** C24: [GetPostCommentsRequest] puts no bound on [page_size]: with
    [page_size = 0] every page of a post that has comments is answered 200
    with no comments and [has_more = true], whatever the page number, so a
    client that pages while [has_more] holds never stops. *)
Theorem route_get_post_comments_zero_page_size b req w :
  GetPostCommentsRequest.validate b = Some req ->
  GetPostCommentsRequest.page_size req = 0%Z ->
  comments_of_post (GetPostCommentsRequest.post_id req) (dict_values (comments_dict w)) <> [] ->
  created_sort_raises (comments_of_post (GetPostCommentsRequest.post_id req) (dict_values (comments_dict w))) = false ->
  route_get_post_comments req w = (Ok (Http200 (GetPostCommentsResponse.mk true [] true)), w).
Proof.
  intros _ Hs Hne Hr. unfold route_get_post_comments.
  rewrite (route_call_run _ _ _ _ _ (get_post_comments_run _ _ _ _ w)). simpl. rewrite Hr, Hs.
  unfold page_of, page_bounds. rewrite Z.mul_0_r, Z.max_id, Z.add_0_r, py_slice_nonneg by lia.
  destruct (comments_of_post _ _) as [|c cs]; [done|]. done.
Qed.

Lemma route_get_post_comments_zero_page_size_witness :
  let b := GetPostCommentsRequest.mk_body (Some 1%Z) (Some 102%Z) (Some 7%Z) (Some 0%Z) in
  let req := GetPostCommentsRequest.mk 1 102 7 0 in
  GetPostCommentsRequest.validate b = Some req /\ GetPostCommentsRequest.page_size req = 0%Z /\
  comments_of_post 1 (dict_values (comments_dict demo_ready)) <> [] /\
  created_sort_raises (comments_of_post 1 (dict_values (comments_dict demo_ready))) = false /\
  route_get_post_comments req demo_ready = (Ok (Http200 (GetPostCommentsResponse.mk true [] true)), demo_ready).
Proof.
  intros b req.
  assert (H1 : GetPostCommentsRequest.validate b = Some req) by reflexivity.
  assert (H2 : GetPostCommentsRequest.page_size req = 0%Z) by reflexivity.
  assert (H3 : comments_of_post 1 (dict_values (comments_dict demo_ready)) <> []) by (vm_compute; discriminate).
  assert (H4 : created_sort_raises (comments_of_post 1 (dict_values (comments_dict demo_ready))) = false)
    by (vm_compute; reflexivity).
  split_and!; [exact H1|exact H2|exact H3|exact H4|].
  exact (route_get_post_comments_zero_page_size b req demo_ready H1 H2 H3 H4).
Defined.

(** ** A stored post without a creator *)

(** A process over storage whose users have numeric identifiers (as
    [str(user_id)] writes them) and whose post 3 has no
    [creator_user_id] key. *)
Definition orphan_post_doc : PostDoc.t :=
  PostDoc.mk 3 (Some "who wrote this") (Some "text") None None (Some [])
    (Some 0%Z) (Some 0%Z) (Some 0%Z) (Some []) (Some []) (Some "") (Some [])
    (Some "published") (Some (mk_datetime 3000 None)) (Some (mk_datetime 3000 None)).

Definition http_db : Database :=
  mk_db [(1%Z, demo_post_doc 1 "101" []); (2%Z, demo_post_doc 2 "102" []); (3%Z, orphan_post_doc)]
        []
        [("101", UserDoc.mk (Some [1%Z]) (Some [])); ("102", UserDoc.mk (Some [2%Z]) (Some []))]
        [].

Definition http_world : World :=
  mk_world (mk_seq 0 false) (mk_seq 0 false) false [] []
    [("101", User.new (Some "alice") None "101"); ("102", User.new (Some "bob") None "102")]
    http_db 10000000.

(** A [List[PostItem]] field refuses the list when it refuses one item. *)
Lemma mapM_elem_None {A B} (f : A -> option B) l x : In x l -> f x = None -> mapM f l = None.
Proof.
  induction l as [|y l IH]; simpl; [done|]. intros [->|Hx] Hf.
  - by rewrite Hf.
  - destruct (f y); simpl; [|done]. by rewrite IH.
Qed.

(** C25: A post stored without [creator_user_id] is cached by the loader
    with the creator [str(None) = "None"], and whenever a
    [get_posts_list] page shows a post whose creator is ["None"], the
    route answers 500 ([CreatorInfo.user_id: int] refuses it), though
    the service returned the page with success; the state is the
    service's. *)
Theorem orphan_creator_fails_listing req w r n d :
  (initialized (post_seq w) = true -> PostDoc._id d <> 0%Z -> PostDoc.creator_user_id d = None ->
   option_map Post.creator_user_id (dict_get (PostDoc._id d) (posts_dict (load_post n d w).2)) = Some "None") /\
  ((get_posts_list (py_str_int (GetPostsListRequest.user_id req)) (GetPostsListRequest.sort_type req)
      (GetPostsListRequest.page req) (GetPostsListRequest.page_size req) w).1 = Ok r ->
   (exists i, In i (lr_posts r) /\ item_creator_user_id i = "None") ->
   route_get_posts_list req w =
     (Ok Http500, (get_posts_list (py_str_int (GetPostsListRequest.user_id req)) (GetPostsListRequest.sort_type req)
                    (GetPostsListRequest.page req) (GetPostsListRequest.page_size req) w).2)).
Proof.
  split.
  - intros Hi Hd Hc. rewrite load_post_seeded by done. simpl. rewrite dict_get_set_eq. simpl. by rewrite Hc.
  - intros Hr (i & Hi & Hc). unfold route_get_posts_list, route_call, py_try. rewrite bind_run.
    destruct (get_posts_list _ _ _ _ w) as [res w'] eqn:E. simpl in Hr |- *. subst res.
    unfold PostsResponse.of_result.
    rewrite (mapM_elem_None _ _ i Hi) by (unfold PostItem.of_item; by rewrite Hc). done.
Qed.

(** The first page of [http_world]'s listing, as the service returns it. *)
Definition http_world_list : ListResponse :=
  match (get_posts_list (py_str_int 101) "latest" 1 20 http_world).1 with
  | Ok r => r
  | Raise _ => mk_list_response false [] false
  end.

(** The stored post 3 has no creator: the service lists three posts with
    success, newest (post 3) first, and the route answers 500. *)
Lemma orphan_creator_fails_listing_witness :
  lr_success http_world_list = true /\ length (lr_posts http_world_list) = 3%nat /\
  (route_get_posts_list (GetPostsListRequest.mk 101 "latest" 1 20) http_world).1 = Ok Http500.
Proof.
  assert (Hr : (get_posts_list (py_str_int 101) "latest" 1 20 http_world).1 = Ok http_world_list)
    by (vm_compute; reflexivity).
  assert (Hi : exists i, In i (lr_posts http_world_list) /\ item_creator_user_id i = "None")
    by (exists (hd (mk_post_item 0 "" "" "" "" [] 0 0 0 false "" [] None "") (lr_posts http_world_list));
        vm_compute; split; [left; reflexivity|reflexivity]).
  split_and!; [vm_compute; reflexivity|vm_compute; reflexivity|].
  rewrite (proj2 (orphan_creator_fails_listing (GetPostsListRequest.mk 101 "latest" 1 20) http_world
    http_world_list 0 orphan_post_doc) Hr Hi). reflexivity.
Defined.

(** The second page of one post of [http_world], newest first: post 2. *)
Definition http_world_page2 : PostsResponse.t :=
  match (route_get_posts_list (GetPostsListRequest.mk 101 "latest" 2 1) http_world).1 with
  | Ok (Http200 r) => r
  | _ => PostsResponse.mk false [] false
  end.

Lemma route_get_posts_list_bounds_witness :
  let b := GetPostsListRequest.mk_body (Some 101%Z) None (Some 2%Z) (Some 1%Z) in
  let req := GetPostsListRequest.mk 101 "latest" 2 1 in
  GetPostsListRequest.validate b = Some req /\
  (route_get_posts_list req http_world).1 = Ok (Http200 http_world_page2) /\
  length (PostsResponse.posts http_world_page2) <= 1.
Proof.
  intros b req.
  assert (H1 : GetPostsListRequest.validate b = Some req) by reflexivity.
  assert (H2 : (route_get_posts_list req http_world).1 = Ok (Http200 http_world_page2))
    by (vm_compute; reflexivity).
  split_and!; [exact H1|exact H2|].
  exact (proj1 (proj2 (proj2 (route_get_posts_list_bounds b req http_world _ H1 H2)))).
Defined.
