(* ===== verification/System.v ===== *)
(** The whole process as a transition system.

    A state is a [World]; a step is either one HTTP request served by its
    route, one service call made by the scheduler or a script (both run
    to completion), or a move of the
    environment: time passes, storage changes its failure pattern, the
    user subsystem registers or changes a user (in memory or in the
    [users] collection), or the maintenance script [force_reset_memory.py]
    runs.  Handlers are run one at a time here: the interleaving of
    coroutines at their [await] points is the subject of [Interleaving]
    and [Concurrency], and the theorems of this file hold for sequential
    runs only (at start-up two interleaved requests can reuse an
    identifier: [Interleaving.startup_race_counter_regresses]).

    The theorems: an HTTP step has exactly the effect of the service call
    it makes (the HTTP layer refines the service); every reachable state
    satisfies [Inv]; between two resets the sequencers only move forward,
    so the identifiers [create_post] returns strictly increase along any
    run; and from every reachable state the cache can be persisted. *)

From S2P Require Import Prelude PyDict PySort Records PyInt Exec World Sequencer Cache Api Flush Invariant TypedIds Counters Persistence ApiSpec Routes.
From stdpp Require Import relations.

(** The handlers reachable from the routes and scripts. *)
Inductive request :=
  | ReqCreatePost (creator_user_id post_content post_type post_category : string)
      (tags : list string) (media_files : list Media)
  | ReqGetPostsList (user_id sort_type : string) (page page_size : Z)
  | ReqSearchPosts (user_id search_query : string) (page page_size : Z)
  | ReqTogglePostLike (user_id : string) (post_id : Z) (action : string)
  | ReqCreateComment (user_id : string) (post_id : Z) (comment_content : string)
  | ReqGetPostDetail (user_id : string) (post_id : Z)
  | ReqGetPostComments (post_id : Z) (user_id : string) (page page_size : Z)
  | ReqToggleCommentLike (user_id : string) (comment_id : Z) (action : string)
  | ReqSaveToDatabase
  | ReqForceReinitialize
  | ReqInitialize.

Definition handle (r : request) : FM unit :=
  match r with
  | ReqCreatePost cu ct ty cat tags media => _ ← create_post cu ct ty cat tags media; mret tt
  | ReqGetPostsList uid st p ps => _ ← get_posts_list uid st p ps; mret tt
  | ReqSearchPosts uid q p ps => _ ← search_posts uid q p ps; mret tt
  | ReqTogglePostLike uid pid a => _ ← toggle_post_like uid pid a; mret tt
  | ReqCreateComment uid pid c => _ ← create_comment uid pid c; mret tt
  | ReqGetPostDetail uid pid => _ ← get_post_detail uid pid; mret tt
  | ReqGetPostComments pid uid p ps => _ ← get_post_comments pid uid p ps; mret tt
  | ReqToggleCommentLike uid cid a => _ ← toggle_comment_like uid cid a; mret tt
  | ReqSaveToDatabase => _ ← save_to_database; mret tt
  | ReqForceReinitialize => _ ← force_reinitialize; mret tt
  | ReqInitialize => _ ← initialize; mret tt
  end.

(** The service call an HTTP request makes once its body validates. *)
Definition service_request (r : route_request) : option request :=
  match r with
  | RGetPostsList b =>
      option_map (fun q => ReqGetPostsList (py_str_int (GetPostsListRequest.user_id q))
                             (GetPostsListRequest.sort_type q) (GetPostsListRequest.page q)
                             (GetPostsListRequest.page_size q)) (GetPostsListRequest.validate b)
  | RCreatePost b =>
      option_map (fun q => ReqCreatePost (py_str_int (CreatePostRequest.creator_user_id q))
                             (CreatePostRequest.post_content q) (CreatePostRequest.post_type q)
                             (py_or_str (CreatePostRequest.post_category q) "")
                             (CreatePostRequest.tags q) (CreatePostRequest.media_files q))
        (CreatePostRequest.validate b)
  | RSearchPosts b =>
      option_map (fun q => ReqSearchPosts (py_str_int (SearchPostsRequest.user_id q))
                             (SearchPostsRequest.search_query q) (SearchPostsRequest.page q)
                             (SearchPostsRequest.page_size q)) (SearchPostsRequest.validate b)
  | RTogglePostLike b =>
      option_map (fun q => ReqTogglePostLike (py_str_int (TogglePostLikeRequest.user_id q))
                             (TogglePostLikeRequest.post_id q) (TogglePostLikeRequest.action q))
        (TogglePostLikeRequest.validate b)
  | RCreateComment b =>
      option_map (fun q => ReqCreateComment (py_str_int (CreateCommentRequest.user_id q))
                             (CreateCommentRequest.post_id q) (CreateCommentRequest.comment_content q))
        (CreateCommentRequest.validate b)
  | RGetPostDetail b =>
      option_map (fun q => ReqGetPostDetail (py_str_int (GetPostDetailRequest.user_id q))
                             (GetPostDetailRequest.post_id q)) (GetPostDetailRequest.validate b)
  | RGetPostComments b =>
      option_map (fun q => ReqGetPostComments (GetPostCommentsRequest.post_id q)
                             (py_str_int (GetPostCommentsRequest.user_id q))
                             (GetPostCommentsRequest.page q) (GetPostCommentsRequest.page_size q))
        (GetPostCommentsRequest.validate b)
  | RToggleCommentLike b =>
      option_map (fun q => ReqToggleCommentLike (py_str_int (ToggleCommentLikeRequest.user_id q))
                             (ToggleCommentLikeRequest.comment_id q) (ToggleCommentLikeRequest.action q))
        (ToggleCommentLikeRequest.validate b)
  end.

Definition set_clock (t : Z) (w : World) : World :=
  mk_world w.(post_seq) w.(comment_seq) w.(fm_initialized) w.(posts_dict) w.(comments_dict)
    w.(users) w.(db) t.

(** A step of the running process (the maintenance script excluded). *)
Inductive step : World -> World -> Prop :=
  | step_request w r : step w (handle r w).2
  | step_http w r : step w (serve r w).2
  | step_clock w d : (0 <= d)%Z -> step w (set_clock (clock w + d) w)
  | step_faults w f : step w (set_db (db_set_faults f w.(db)) w)
  | step_register w uid u : step w (set_users (dict_set uid u w.(users)) w)
  | step_user_doc w uid d : step w (set_db (db_set_users (dict_set uid d w.(db).(db_users)) w.(db)) w).

(** A step of the system, the maintenance script included. *)
Inductive sys_step : World -> World -> Prop :=
  | sys_run w w' : step w w' -> sys_step w w'
  | sys_reset w : sys_step w (force_reset_memory w).

(** Storage as the forum expects to find it: documents keyed by [_id]
    with count/list parity. *)
Definition storage_ok (d : Database) : Prop :=
  dict_Forall post_doc_ok d.(db_posts) /\ dict_Forall comment_doc_ok d.(db_comments).

(** ** The HTTP layer refines the service *)

Lemma wrap_state {A B C} (route : FM B) (svc : FM A) (f : B -> C) w a :
  svc w = (Ok a, (route w).2) -> ((x ← route; mret (f x)) w).2 = ((_ ← svc; mret tt) w).2.
Proof. intros H. rewrite !bind_run, H. by destruct (route w) as [[b|e] s]. Qed.

Lemma serve_state r w :
  (serve r w).2 = match service_request r with Some q => (handle q w).2 | None => w end.
Proof.
  destruct (route_results w) as (Hcp & Hl & Hs & Ht & Hc & Hd & Hg & Htc).
  destruct r; unfold serve, service_request, validated, handle;
    repeat match goal with
    | |- context [GetPostsListRequest.validate ?b] => destruct (GetPostsListRequest.validate b)
    | |- context [CreatePostRequest.validate ?b] => destruct (CreatePostRequest.validate b)
    | |- context [SearchPostsRequest.validate ?b] => destruct (SearchPostsRequest.validate b)
    | |- context [GetPostCommentsRequest.validate ?b] => destruct (GetPostCommentsRequest.validate b)
    | |- context [TogglePostLikeRequest.validate ?b] => destruct (TogglePostLikeRequest.validate b)
    | |- context [CreateCommentRequest.validate ?b] => destruct (CreateCommentRequest.validate b)
    | |- context [GetPostDetailRequest.validate ?b] => destruct (GetPostDetailRequest.validate b)
    | |- context [ToggleCommentLikeRequest.validate ?b] => destruct (ToggleCommentLikeRequest.validate b)
    end; unfold option_map; cbv beta iota; try done.
  all:
    match goal with
    | |- context [route_create_post ?q] => destruct (Hcp q) as (? & Ha & _)
    | |- context [route_get_posts_list ?q] => destruct (Hl q) as (? & Ha & _)
    | |- context [route_search_posts ?q] => destruct (Hs q) as (? & Ha & _)
    | |- context [route_toggle_post_like ?q] => destruct (Ht q) as (? & Ha & _)
    | |- context [route_create_comment ?q] => destruct (Hc q) as (? & Ha & _)
    | |- context [route_get_post_detail ?q] => destruct (Hd q) as (? & Ha & _)
    | |- context [route_get_post_comments ?q] => destruct (Hg q) as (? & Ha & _)
    | |- context [route_toggle_comment_like ?q] => destruct (Htc q) as (? & Ha & _)
    end; exact (wrap_state _ _ _ _ _ Ha).
Qed.

(** Serving an HTTP request changes the process exactly as the one
    service call it makes: a body that does not validate changes nothing,
    and a valid one has the effect of the service method called with its
    fields ([user_id] passed through [str]).  So the process driven by
    HTTP requests is simulated step for step by the service-level one. *)
Theorem serve_refines r w :
  (serve r w).2 = match service_request r with Some q => (handle q w).2 | None => w end.
Proof. apply serve_state. Qed.

(** ** Every reachable state satisfies the invariant *)

Lemma handle_inv r : triple Inv (handle r) (fun _ => Inv) Inv.
Proof.
  destruct r; simpl; (eapply (triple_bind _ (fun _ => Inv)); [|intros; symex; done]);
    auto using create_post_inv, get_posts_list_inv, search_posts_inv, toggle_post_like_inv,
      create_comment_inv, get_post_detail_inv, get_post_comments_inv, toggle_comment_like_inv,
      save_to_database_inv, force_reinitialize_inv, initialize_inv.
Qed.

Lemma step_Inv w w' : step w w' -> Inv w -> Inv w'.
Proof.
  destruct 1; intros HI.
  - by apply triple_final; [apply handle_inv|].
  - rewrite serve_state. destruct (service_request r); [|done].
    by apply triple_final; [apply handle_inv|].
  - destruct HI; by constructor.
  - destruct HI; by constructor.
  - by apply Inv_set_users.
  - by apply Inv_set_db_users.
Qed.

Lemma sys_step_Inv w w' : sys_step w w' -> Inv w -> Inv w'.
Proof. destruct 1; [by apply step_Inv|apply force_reset_memory_inv]. Qed.

Lemma rtc_sys_step_Inv w w' : rtc sys_step w w' -> Inv w -> Inv w'.
Proof. induction 1; eauto using sys_step_Inv. Qed.

Lemma process_start_Inv us d t : storage_ok d -> Inv (process_start us d t).
Proof. intros [Hp Hc]. constructor; simpl; try done; constructor. Qed.

(** C1: From a freshly started process over well-formed storage, every state
    reachable by requests, environment moves and resets satisfies [Inv]:
    the caches are keyed by identifier without duplicates, every cached
    post and comment has count/list parity and an identifier not above
    its sequencer, and the cache flag implies both sequencers are seeded. *)
Theorem reachable_Inv us d t w :
  storage_ok d -> rtc sys_step (process_start us d t) w -> Inv w.
Proof.
  intros Hd Hr. by eapply rtc_sys_step_Inv, process_start_Inv.
Qed.

Lemma reachable_Inv_witness :
  storage_ok demo_db /\
  Inv (handle ReqInitialize (process_start demo_world.(users) demo_db demo_world.(clock))).2.
Proof.
  assert (Hd : storage_ok demo_db) by (split; repeat constructor).
  split; [exact Hd|]. eapply (reachable_Inv _ _ _ _ Hd).
  apply rtc_once, sys_run, step_request.
Defined.

(** ** The sequencers move forward *)

Lemma handle_le r : evolves counters_le (handle r).
Proof.
  destruct r; simpl; solve_evolves;
    auto using create_post_le, get_posts_list_le, search_posts_le, toggle_post_like_le,
      create_comment_le, get_post_detail_le, get_post_comments_le, toggle_comment_like_le,
      save_to_database_le, force_reinitialize_le, initialize_le.
Qed.

Lemma step_le w w' : step w w' -> counters_le w w'.
Proof.
  destruct 1; [apply handle_le| |solve_le..].
  rewrite serve_state. destruct (service_request r); [apply handle_le|reflexivity].
Qed.

Lemma steps_le w w' : rtc step w w' -> counters_le w w'.
Proof. induction 1; [reflexivity|etrans; eauto using step_le]. Qed.

(** C4: When requests are served one after another (each to completion,
    the [step] relation), post identifiers are never reused between two
    runs of the maintenance script: a post created after another, at any
    later point of the run, gets a strictly larger identifier, whatever
    storage failures and requests come in between.  Requests interleaved
    at the lazy initialization's await do reuse one
    ([Interleaving.startup_race_counter_regresses]): the monotonicity
    holds of every request run alone, not of the event loop. *)
Theorem create_post_ids_increase cu ct ty cat tags media cu' ct' ty' cat' tags' media'
    w0 w1 w2 w3 p1 p2 :
  create_post cu ct ty cat tags media w0 = (Ok (Some p1), w1) ->
  rtc step w1 w2 ->
  create_post cu' ct' ty' cat' tags' media' w2 = (Ok (Some p2), w3) ->
  (p1 < p2)%Z.
Proof.
  intros H1 Hr H2.
  destruct (create_post_counter _ _ _ _ _ _ _ _ _ H1) as (Hi1 & Hp1 & _).
  destruct (create_post_counter _ _ _ _ _ _ _ _ _ H2) as (_ & _ & Hlt).
  destruct (steps_le _ _ Hr) as [Hle _]. destruct (Hle Hi1) as [Hi2 ?].
  specialize (Hlt Hi2). lia.
Qed.

Lemma create_post_ids_increase_witness :
  let w1 := (create_post "u1" "hello" "text" "" [] [] demo_world).2 in
  let w3 := (create_post "u2" "again" "text" "" [] [] w1).2 in
  create_post "u1" "hello" "text" "" [] [] demo_world = (Ok (Some 7%Z), w1) /\
  create_post "u2" "again" "text" "" [] [] w1 = (Ok (Some 8%Z), w3) /\ (7 < 8)%Z.
Proof.
  intros w1 w3.
  assert (H1 : create_post "u1" "hello" "text" "" [] [] demo_world = (Ok (Some 7%Z), w1))
    by (vm_compute; reflexivity).
  assert (H2 : create_post "u2" "again" "text" "" [] [] w1 = (Ok (Some 8%Z), w3))
    by (vm_compute; reflexivity).
  split_and!; [exact H1|exact H2|].
  exact (create_post_ids_increase _ _ _ _ _ _ _ _ _ _ _ _ _ _ _ _ _ _ H1 (rtc_refl _ _) H2).
Defined.

(** ** Everything cached can reach storage *)

(** C16: Whatever state the process has reached, with any storage failures
    on the way, once storage answers again a single flush request leads
    to a state where storage holds every post and comment cached in that
    state, each as its [to_dict] document: unsaved work is never stuck in
    memory for good. *)
Theorem reachable_can_persist us d t w :
  storage_ok d -> rtc sys_step (process_start us d t) w ->
  exists w', rtc step w w' /\ persisted w w'.
Proof.
  unfold persisted. intros Hd Hr. pose proof (rtc_sys_step_Inv _ _ Hr (process_start_Inv us d t Hd)) as HI.
  set (w1 := set_db (db_set_faults [] (db w)) w).
  assert (HI1 : Inv w1) by (destruct HI; by constructor).
  destruct (flush_saves_all w1 HI1 eq_refl) as (_ & Hp & Hc).
  exists (handle ReqSaveToDatabase w1).2. split.
  - eapply rtc_l; [apply step_faults|]. apply rtc_once, step_request.
  - simpl. rewrite bind_run. destruct (save_to_database w1) as [r w2] eqn:E.
    simpl in Hp, Hc. destruct r; simpl; split; [apply Hp|apply Hc|apply Hp|apply Hc].
Qed.

Lemma reachable_can_persist_witness :
  storage_ok demo_db /\
  rtc sys_step (process_start demo_world.(users) demo_db demo_world.(clock))
    (handle ReqInitialize (process_start demo_world.(users) demo_db demo_world.(clock))).2 /\
  exists w', rtc step (handle ReqInitialize (process_start demo_world.(users) demo_db demo_world.(clock))).2 w'.
Proof.
  assert (Hd : storage_ok demo_db) by (split; repeat constructor).
  assert (Hr : rtc sys_step (process_start demo_world.(users) demo_db demo_world.(clock))
    (handle ReqInitialize (process_start demo_world.(users) demo_db demo_world.(clock))).2)
    by apply rtc_once, sys_run, step_request.
  split_and!; [exact Hd|exact Hr|].
  destruct (reachable_can_persist _ _ _ _ Hd Hr) as (w' & Hs & _). by exists w'.
Defined.

(** ** Integer user identifiers: no internal error *)

Lemma handle_typed r : triple Typed (handle r) (fun _ => Typed) Typed.
Proof.
  destruct r; simpl; (eapply (triple_bind _ (fun _ => Typed)); [|intros; symex; done]);
    auto using create_post_typed, get_posts_list_typed, search_posts_typed, toggle_post_like_typed,
      create_comment_typed, get_post_detail_typed, get_post_comments_typed, toggle_comment_like_typed,
      save_to_database_typed, force_reinitialize_typed, initialize_typed.
Qed.

(** Every registered user has an integer identifier. *)
Definition registry_typed (us : pydict string User.t) : Prop :=
  dict_Forall (fun _ u => int_str u.(User.user_id)) us.

(** Every stored post and comment names its author by an integer string. *)
Definition storage_typed (d : Database) : Prop :=
  dict_Forall (fun _ doc => doc_int_str doc.(PostDoc.creator_user_id)) d.(db_posts) /\
  dict_Forall (fun _ doc => doc_int_str doc.(CommentDoc.commenter_user_id)) d.(db_comments).

(** A step of the system after which the user registry still has integer
    identifiers only: every step but the registration of a user whose
    [user_id] is not an integer. *)
Definition typed_sys_step (w w' : World) : Prop := sys_step w w' /\ registry_typed (users w').

Lemma typed_sys_step_Typed w w' : typed_sys_step w w' -> Typed w -> Typed w'.
Proof.
  intros [Hs Hu] HT. destruct Hs as [w w' Hs|w]; [|by apply force_reset_memory_typed].
  destruct Hs.
  - by apply triple_final; [apply handle_typed|].
  - rewrite serve_state. destruct (service_request r); [|done].
    by apply triple_final; [apply handle_typed|].
  - destruct HT; by constructor.
  - by apply Typed_set_db_faults.
  - by apply Typed_set_users.
  - by apply Typed_set_db_users.
Qed.

Lemma rtc_typed_sys_step_Typed w w' : rtc typed_sys_step w w' -> Typed w -> Typed w'.
Proof. induction 1; eauto using typed_sys_step_Typed. Qed.

Lemma process_start_Typed us d t : registry_typed us -> storage_typed d -> Typed (process_start us d t).
Proof. intros Hu [Hp Hc]. constructor; simpl; try done; constructor. Qed.

(** An HTTP answer [HTTPException(status_code=500)]. *)
Definition is_500 {A} (h : http A) : bool := match h with Http500 => true | _ => false end.

Definition internal_error (r : route_response) : bool :=
  match r with
  | PostsListResp h => is_500 h
  | CreatePostResp h => is_500 h
  | SearchPostsResp h => is_500 h
  | TogglePostLikeResp h => is_500 h
  | CreateCommentResp h => is_500 h
  | PostDetailResp h => is_500 h
  | PostCommentsResp h => is_500 h
  | ToggleCommentLikeResp h => is_500 h
  end.

(** A route whose service call does not raise, and whose result the
    response model accepts whenever [Q] holds of it, answers 200 when the
    call ensures [Q]. *)
Lemma route_call_no_500 {A B} (call : FM A) (conv : A -> option B) (Q : A -> Prop) w :
  Typed w -> (exists a, (call w).1 = Ok a) -> triple Typed call (fun a _ => Q a) (fun _ => True) ->
  (forall a, Q a -> is_Some (conv a)) -> exists h, (route_call call conv w).1 = Ok h /\ is_500 h = false.
Proof.
  intros HT [a Ha] Hc Hq. specialize (Hc w HT). destruct (call w) as [r w'] eqn:E.
  simpl in Ha. subst r. rewrite (route_call_run _ _ _ _ _ E). destruct (Hq a Hc) as [b ->]. by eexists.
Qed.

Lemma serve_resp {B} (route : FM (http B)) (f : http B -> route_response) w h :
  (route w).1 = Ok h -> ((x ← route; mret (f x)) w).1 = Ok (f h).
Proof. rewrite bind_run. destruct (route w) as [[]]; simpl; congruence. Qed.

Lemma post_of_item_typed i : int_str (item_creator_user_id i) -> is_Some (PostItem.of_item i).
Proof. intros [n Hn]. unfold PostItem.of_item. rewrite Hn. by eexists. Qed.

Lemma comment_of_item_typed i : int_str (ci_commenter_user_id i) -> is_Some (CommentItem.of_item i).
Proof. intros [n Hn]. unfold CommentItem.of_item. rewrite Hn. by eexists. Qed.

Lemma posts_of_result_typed r : items_typed r -> is_Some (PostsResponse.of_result r).
Proof.
  intros H. unfold PostsResponse.of_result. destruct (mapM_is_Some_2 PostItem.of_item (lr_posts r)) as [l ->].
  - eapply Forall_impl; [exact H|]. intros i. apply post_of_item_typed.
  - by eexists.
Qed.

Lemma comments_of_result_typed r : comment_items_typed r -> is_Some (GetPostCommentsResponse.of_result r).
Proof.
  intros H. unfold GetPostCommentsResponse.of_result.
  destruct (mapM_is_Some_2 CommentItem.of_item (gr_comments r)) as [l ->].
  - eapply Forall_impl; [exact H|]. intros i. apply comment_of_item_typed.
  - by eexists.
Qed.

Lemma detail_of_result_typed r : detail_typed r -> is_Some (GetPostDetailResponse.of_result r).
Proof.
  unfold detail_typed, GetPostDetailResponse.of_result. destruct (dr_post r) as [i|]; [|by eexists].
  intros H. destruct (post_of_item_typed i H) as [p ->]. by eexists.
Qed.

Lemma serve_route_no_500 {A B} (call : FM A) (conv : A -> option B) (Q : A -> Prop)
    (f : http B -> route_response) w :
  (forall h, is_500 h = false -> internal_error (f h) = false) ->
  Typed w -> (exists a, (call w).1 = Ok a) -> triple Typed call (fun a _ => Q a) (fun _ => True) ->
  (forall a, Q a -> is_Some (conv a)) ->
  exists resp, ((x ← route_call call conv; mret (f x)) w).1 = Ok resp /\ internal_error resp = false.
Proof.
  intros Hf HT Hex Hc Hq. destruct (route_call_no_500 call conv Q w HT Hex Hc Hq) as (h & Hh & H5).
  exists (f h). split; [by apply serve_resp|by apply Hf].
Qed.

(** Over typed state, no route answers 500. *)
Lemma serve_no_500 r w :
  Typed w -> exists resp, (serve r w).1 = Ok resp /\ internal_error resp = false.
Proof.
  intros HT. destruct (api_total w) as (Hcp & Hl & Ht & Hs & Hd & Hc & Hg & Htc & _).
  destruct r as [b|b|b|b|b|b|b|b]; unfold serve, validated;
    [destruct (GetPostsListRequest.validate b) as [q|] | destruct (CreatePostRequest.validate b) as [q|]
    | destruct (SearchPostsRequest.validate b) as [q|] | destruct (TogglePostLikeRequest.validate b) as [q|]
    | destruct (CreateCommentRequest.validate b) as [q|] | destruct (GetPostDetailRequest.validate b) as [q|]
    | destruct (GetPostCommentsRequest.validate b) as [q|]
    | destruct (ToggleCommentLikeRequest.validate b) as [q|]];
    try (by eexists);
    unfold route_get_posts_list, route_create_post, route_search_posts, route_toggle_post_like,
      route_create_comment, route_get_post_detail, route_get_post_comments, route_toggle_comment_like;
    (eapply serve_route_no_500; [by intros ??|exact HT|by eauto| |]).
  - apply get_posts_list_items.
  - apply posts_of_result_typed.
  - apply triple_any.
  - intros. by eexists.
  - apply search_posts_items.
  - apply posts_of_result_typed.
  - apply triple_any.
  - intros. by eexists.
  - apply triple_any.
  - intros. by eexists.
  - apply get_post_detail_items.
  - apply detail_of_result_typed.
  - apply get_post_comments_items.
  - apply comments_of_result_typed.
  - apply triple_any.
  - intros. by eexists.
Qed.

(** C5: Over storage whose posts and comments name their authors by
    integer strings, and with only users of integer identifiers
    registered, every state the process reaches keeps every cached
    creator and commenter, every registered [user_id] and every stored
    author field an integer string: the loaders read them back through
    [str(...)], the constructors take them from registered users, and the
    flush writes them unchanged. *)
Theorem reachable_Typed us d t w :
  registry_typed us -> storage_typed d -> rtc typed_sys_step (process_start us d t) w -> Typed w.
Proof. intros Hu Hd Hr. eapply rtc_typed_sys_step_Typed; [exact Hr|]. by apply process_start_Typed. Qed.

(** C6: In such a process no HTTP request is ever answered 500: every
    route's service call returns, and its response model accepts the
    result, since every [CreatorInfo.user_id] the listings, the detail and
    the comments carry reads as an [int]. *)
Theorem typed_process_never_500 us d t w r :
  registry_typed us -> storage_typed d -> rtc typed_sys_step (process_start us d t) w ->
  exists resp, (serve r w).1 = Ok resp /\ internal_error resp = false.
Proof.
  intros Hu Hd Hr. apply serve_no_500.
  eapply rtc_typed_sys_step_Typed; [exact Hr|]. by apply process_start_Typed.
Qed.

Lemma registry_typed_check us :
  forallb (fun kv => int_strb (User.user_id kv.2)) us = true -> registry_typed us.
Proof. apply (dict_Forall_check _ (fun u => int_strb (User.user_id u))). intros _ u. apply int_strb_int_str. Qed.

Lemma storage_typed_check d :
  forallb (fun kv => doc_int_strb (PostDoc.creator_user_id kv.2)) (db_posts d) &&
  forallb (fun kv => doc_int_strb (CommentDoc.commenter_user_id kv.2)) (db_comments d) = true ->
  storage_typed d.
Proof.
  intros [Hp Hc]%andb_prop.
  split; [eapply (dict_Forall_check _ (fun v => doc_int_strb (PostDoc.creator_user_id v)))|
    eapply (dict_Forall_check _ (fun v => doc_int_strb (CommentDoc.commenter_user_id v)))];
    eauto using doc_int_strb_doc_int_str.
Qed.

(** The storage of [http_world] without its creatorless post. *)
Definition typed_db : Database :=
  mk_db [(1%Z, demo_post_doc 1 "101" []); (2%Z, demo_post_doc 2 "102" [])] [] (db_users http_db) [].

Definition typed_start : World := process_start (users http_world) typed_db 10000000.

Definition typed_post_body : CreatePostRequest.body :=
  CreatePostRequest.mk_body (Some 101%Z) (Some "hello") None None None None.

Definition typed_list_body : GetPostsListRequest.body :=
  GetPostsListRequest.mk_body (Some 102%Z) None None None.

Lemma reachable_Typed_witness :
  registry_typed (users http_world) /\ storage_typed typed_db /\
  rtc typed_sys_step typed_start (serve (RCreatePost typed_post_body) typed_start).2 /\
  Typed (serve (RCreatePost typed_post_body) typed_start).2.
Proof.
  assert (Hu : registry_typed (users http_world)) by (apply registry_typed_check; vm_compute; reflexivity).
  assert (Hd : storage_typed typed_db) by (apply storage_typed_check; vm_compute; reflexivity).
  assert (Hr : rtc typed_sys_step typed_start (serve (RCreatePost typed_post_body) typed_start).2).
  { apply rtc_once. split; [apply sys_run, step_http|]. apply registry_typed_check. vm_compute. reflexivity. }
  split_and!; [exact Hu|exact Hd|exact Hr|exact (reachable_Typed _ _ _ _ Hu Hd Hr)].
Defined.

Lemma typed_process_never_500_witness :
  registry_typed (users http_world) /\ storage_typed typed_db /\
  rtc typed_sys_step typed_start (serve (RCreatePost typed_post_body) typed_start).2 /\
  exists resp, (serve (RGetPostsList typed_list_body) (serve (RCreatePost typed_post_body) typed_start).2).1 = Ok resp /\
    internal_error resp = false.
Proof.
  assert (Hu : registry_typed (users http_world)) by (apply registry_typed_check; vm_compute; reflexivity).
  assert (Hd : storage_typed typed_db) by (apply storage_typed_check; vm_compute; reflexivity).
  assert (Hr : rtc typed_sys_step typed_start (serve (RCreatePost typed_post_body) typed_start).2).
  { apply rtc_once. split; [apply sys_run, step_http|]. apply registry_typed_check. vm_compute. reflexivity. }
  split_and!; [exact Hu|exact Hd|exact Hr|exact (typed_process_never_500 _ _ _ _ _ Hu Hd Hr)].
Defined.
