(* ===== verification/Concurrency.v ===== *)
(** Requests in flight together on the event loop.

    [Interleaving] splits [create_post] at its lazy initialization's
    storage read.  Here the other operations that hold a reference to the
    cache across an [await] are split the same way:
    - [toggle_post_like] at its [await Database.update_one("users", ...)]:
      the like is applied to the cached post before it, the user's
      storage document and the registry after it;
    - [save_to_database] at each item of its two loops
      [for post in self.posts_dict.values()] and
      [for comment in self.comments_dict.values()]: the loop iterates the
      live dicts, so what other requests do between two items is seen by
      the next [next()] of the iterator.
    A Python dict iterator remembers the size of its dict when it was
    created; [next()] raises [RuntimeError] when the live dict's size
    differs, and otherwise yields the entry at the next position of the
    live dict ([dict_values_next]).

    One item of the flush is two segments: [next()], [to_dict] and the
    [find_one] call; then, when [find_one] has answered, the write, whose
    own await is the switch between two items.  (When [find_one] fails,
    the [except] continues to the next item without a switch in the code;
    the model switches there too, which adds no end state since nothing
    of the item remains to run.)  [to_dict] copies the counts, strings
    and dates of the post but puts the post's own list objects in the
    document, so the write serializes the lists as they are at the write
    ([post_doc_at_write]).  The model finds the post at the iterator's
    position in the live dict ([live_at]): an in-place like or comment
    keeps that position.  A reload or a [create_post] reusing the id that
    replaces the object during one item's [find_one] is not told apart
    from an in-place update: there the model writes the new object's
    lists where Python writes the old object's.

    The in-memory invariant holds under every interleaving of the other
    requests ([interleaved_requests_Inv]); with a flush in flight it does
    not: a like during an item's [find_one] stores the new likers with
    the old count ([flush_like_race_breaks_parity]). *)

From S2P Require Import Prelude PyDict PySort Records Exec World Sequencer Cache Api Flush Invariant Counters ApiSpec Interleaving Persistence Routes System.
From stdpp Require Import relations.

(** ** A task run with nothing else in flight *)

(** A segment, and what is left of its task, run to the end. *)
Definition seg_runs_to (f : World -> task * World) (w w' : World) : Prop :=
  rtc loop_step ([(f w).1], (f w).2) ([Finished], w').

Lemma seg_runs_to_ready f w w' : seg_runs_to f w w' -> rtc loop_step ([Ready f], w) ([Finished], w').
Proof. intros H. eapply rtc_l; [apply loop_step_1|exact H]. Qed.

Lemma seg_runs_to_finished f w : (f w).1 = Finished -> seg_runs_to f w (f w).2.
Proof. intros H. unfold seg_runs_to. rewrite H. apply rtc_refl. Qed.

(** ** [toggle_post_like] as a task *)

(** The first segment runs the guard and the in-memory like; the second,
    after the storage call, the user's document and registry. *)
Definition toggle_post_like_task (user_id : string) (post_id : Z) (action : string) : task :=
  Ready (fun w =>
    match (ensure_initialized;; toggle_post_like_memory user_id post_id action) w with
    | (Ok (Some post'), w1) =>
        (Ready (fun w2 => (Finished,
           (py_try (toggle_post_like_sync user_id post_id action post') toggle_post_like_handler w2).2)), w1)
    | (Ok None, w1) => (Finished, w1)
    | (Raise e, w1) => (Finished, (toggle_post_like_handler e w1).2)
    end).

(** ** [save_to_database] as a task *)

(** [next()] on the iterator of [d.values()] created when [d] had [size0]
    entries, after [i] of them. *)
Definition dict_values_next {K V} (size0 i : nat) (d : pydict K V) : res (option V) :=
  if Nat.eqb (dict_len d) size0 then Ok (dict_values d !! i)
  else Raise (RuntimeError "dictionary changed size during iteration").

(** The success count after one item ([flush_comment] catches its own
    failures). *)
Definition count_after (n : Z) (r : res Z) : Z :=
  match r with Ok m => m | Raise _ => n end.

(** The document [await post.to_dict()] built from the post [p] when its
    item began, as the write serializes it: its lists are [p]'s own list
    objects, so they hold what the post holds at the write ([p']); its
    counts, strings and dates were copied by [to_dict]. *)
Definition post_doc_at_write (p p' : Post.t) : PostDoc.t :=
  let d := post_to_dict p in
  PostDoc.mk d.(PostDoc._id) d.(PostDoc.post_content) d.(PostDoc.post_type) d.(PostDoc.creator_user_id)
    d.(PostDoc.creator_user_name) (Some p'.(Post.media_files)) d.(PostDoc.like_count)
    d.(PostDoc.comment_count) d.(PostDoc.view_count) (Some p'.(Post.liked_user_ids))
    (Some p'.(Post.comment_ids)) d.(PostDoc.post_category) (Some p'.(Post.tags))
    d.(PostDoc.post_status) d.(PostDoc.created_at) d.(PostDoc.updated_at).

Definition comment_doc_at_write (c c' : Comment.t) : CommentDoc.t :=
  let d := comment_to_dict c in
  CommentDoc.mk d.(CommentDoc._id) d.(CommentDoc.post_id) d.(CommentDoc.comment_content)
    d.(CommentDoc.commenter_user_id) d.(CommentDoc.commenter_user_name) d.(CommentDoc.like_count)
    (Some c'.(Comment.liked_user_ids)) d.(CommentDoc.comment_status) d.(CommentDoc.created_at).

(** The object the iterator yielded at position [i], as the live dict now
    holds it: an in-place update keeps its key, and so its position. *)
Definition live_at {K V} (i : nat) (v : V) (d : pydict K V) : V := default v (dict_values d !! i).

(** An item after [await Database.find_one]: [update_one($set)] or
    [insert_one] of the document, then [success_count += 1]; a failure is
    counted out ([except: continue]). *)
Definition flush_post_write (n : Z) (i : nat) (p : Post.t) (existing : option PostDoc.t) : FM Z :=
  p' ← gets (fun w => live_at i p w.(posts_dict));
  let doc := post_doc_at_write p p' in
  py_try
    (match existing with
     | Some _ => db_update_post_set p.(Post.post_id) doc
     | None => db_insert_post doc
     end;; mret (n + 1)%Z)
    (fun _ => mret n).

Definition flush_comment_write (n : Z) (i : nat) (c : Comment.t) (existing : option CommentDoc.t) : FM Z :=
  c' ← gets (fun w => live_at i c w.(comments_dict));
  let doc := comment_doc_at_write c c' in
  py_try
    (match existing with
     | Some _ => db_update_comment_set c.(Comment.comment_id) doc
     | None => db_insert_comment doc
     end;; mret (n + 1)%Z)
    (fun _ => mret n).

(** The comments loop with [rem] of its [size0] items left.  An item is
    two segments: [next()], [to_dict] and the [find_one] call; then, when
    [find_one] has answered, the write. *)
Fixpoint save_comments_seg (size0 rem : nat) (n : Z) (w : World) : task * World :=
  match dict_values_next size0 (size0 - rem) (comments_dict w), rem with
  | Raise _, _ => (Finished, w)        (** the [except] clause: [return False] *)
  | Ok None, _ => (Finished, w)        (** [return success_count == total_count] *)
  | Ok (Some _), O => (Finished, w)    (** no entry at position [size0] of [size0] entries *)
  | Ok (Some c), S rem' =>
      match db_find_one_comment c.(Comment.comment_id) w with
      | (Raise _, w1) => (Ready (save_comments_seg size0 rem' n), w1)
      | (Ok existing, w1) =>
          (Ready (fun w2 =>
             let rw := flush_comment_write n (size0 - rem) c existing w2 in
             (Ready (save_comments_seg size0 rem' (count_after n rw.1)), rw.2)), w1)
      end
  end.

(** The posts loop; when it stops, the comments loop starts in the same
    segment. *)
Fixpoint save_posts_seg (size0 rem : nat) (n : Z) (w : World) : task * World :=
  match dict_values_next size0 (size0 - rem) (posts_dict w), rem with
  | Raise _, _ => (Finished, w)
  | Ok None, _ =>
      let m := dict_len (comments_dict w) in save_comments_seg m m n w
  | Ok (Some _), O => (Finished, w)
  | Ok (Some p), S rem' =>
      match db_find_one_post p.(Post.post_id) w with
      | (Raise _, w1) => (Ready (save_posts_seg size0 rem' n), w1)
      | (Ok existing, w1) =>
          (Ready (fun w2 =>
             let rw := flush_post_write n (size0 - rem) p existing w2 in
             (Ready (save_posts_seg size0 rem' (count_after n rw.1)), rw.2)), w1)
      end
  end.

Definition save_to_database_task : task :=
  Ready (fun w =>
    let w1 := (py_try reconcile_user_post_relationships (fun _ => mret tt) w).2 in
    let m := dict_len (posts_dict w1) in
    save_posts_seg m m 0%Z w1).

(** ** The flush leaves the caches as they are *)

Definition caches_same (w w' : World) : Prop :=
  posts_dict w' = posts_dict w /\ comments_dict w' = comments_dict w.

#[export] Instance caches_same_preorder : PreOrder caches_same.
Proof. split; [by intros w|]. intros a b c [H1 H2] [H3 H4]. split; congruence. Qed.

Lemma db_call_caches : evolves caches_same db_call.
Proof. intros s. rewrite db_call_state. unfold db_after. by case_match. Qed.

Ltac caches_op :=
  solve_evolves;
  first [ apply db_call_caches
        | apply evolves_modify; intros; unfold caches_same; try case_match; by split ].

Lemma flush_post_caches n p : evolves caches_same (flush_post n p).
Proof.
  unfold flush_post, upsert_post, db_find_one_post, db_update_post_set, db_insert_post, modify_db.
  caches_op.
Qed.

Lemma flush_comment_caches n c : evolves caches_same (flush_comment n c).
Proof.
  unfold flush_comment, upsert_comment, db_find_one_comment, db_update_comment_set, db_insert_comment,
    modify_db.
  caches_op.
Qed.

(** A failed upsert is counted out, never raised. *)
Lemma py_try_ret_handler {A} (c : FM A) (h : A) w : exists a, (py_try c (fun _ => mret h) w).1 = Ok a.
Proof. unfold py_try. destruct (c w) as [[a|e] w']; eauto. Qed.

(** ** Run alone, the flush task is [save_to_database] *)

Lemma dict_values_next_same {K V} (d : pydict K V) i :
  dict_values_next (dict_len d) i d = Ok (dict_values d !! i).
Proof. unfold dict_values_next. by rewrite Nat.eqb_refl. Qed.

Lemma dict_len_values {K V} (d : pydict K V) : length (dict_values d) = dict_len d.
Proof. apply length_map. Qed.

Section FlushAlone.
Context {V : Type} (cache : World -> pydict Z V) (flush : Z -> V -> FM Z)
  (flush_cache : forall n v w, cache (flush n v w).2 = cache w)
  (flush_ok : forall n v w, exists m, (flush n v w).1 = Ok m).
Context (seg : nat -> nat -> Z -> World -> task * World) (fin : Z -> World -> task * World).
Context {B : Type} (k : Z -> FM B) (size0 : nat).
(** Run alone, the segments of one item are [flush] on that item. *)
Hypothesis seg_item : forall rem n w v w',
  dict_values_next size0 (size0 - S rem) (cache w) = Ok (Some v) ->
  seg_runs_to (seg size0 rem (count_after n (flush n v w).1)) (flush n v w).2 w' ->
  seg_runs_to (seg size0 (S rem) n) w w'.
Hypothesis seg_none : forall rem n w,
  dict_values_next size0 (size0 - rem) (cache w) = Ok None -> seg size0 rem n w = fin n w.
Hypothesis fin_runs : forall n w, seg_runs_to (fin n) w (k n w).2.

(** With the dict unchanged between items, the loop's segments run
    [for_fold] over the entries not yet visited, then the rest [k]. *)
Lemma flush_loop_alone rem n w :
  dict_len (cache w) = size0 -> rem <= size0 ->
  seg_runs_to (seg size0 rem n) w ((for_fold flush (drop (size0 - rem) (dict_values (cache w))) n ≫= k) w).2.
Proof.
  revert n w. induction rem as [|r IH]; intros n w Hlen Hr.
  - unfold seg_runs_to in *.
    rewrite seg_none by (rewrite <- Hlen, dict_values_next_same; f_equal; apply lookup_ge_None_2;
      rewrite dict_len_values; lia).
    rewrite drop_ge by (rewrite dict_len_values; lia). simpl. rewrite bind_run. apply fin_runs.
  - destruct (lookup_lt_is_Some_2 (dict_values (cache w)) (size0 - S r)) as [v Hv];
      [rewrite dict_len_values; lia|].
    apply (seg_item r n w v); [by rewrite <- Hlen, dict_values_next_same, Hlen, Hv|].
    rewrite (drop_S _ _ _ Hv). simpl. rewrite bind_assoc, bind_run.
    destruct (flush_ok n v w) as [m Hm]. pose proof (flush_cache n v w) as Hc.
    destruct (flush n v w) as [r' w'] eqn:E. simpl in Hm, Hc |- *. subst r'. simpl.
    replace (S (size0 - S r)) with (size0 - r) by lia. rewrite <- Hc.
    apply IH; [congruence|lia].
Qed.
End FlushAlone.

Lemma flush_post_cache n p w : posts_dict (flush_post n p w).2 = posts_dict w.
Proof. apply (flush_post_caches n p w). Qed.

Lemma flush_post_comments n p w : comments_dict (flush_post n p w).2 = comments_dict w.
Proof. apply (flush_post_caches n p w). Qed.

Lemma flush_comment_cache n c w : comments_dict (flush_comment n c w).2 = comments_dict w.
Proof. apply (flush_comment_caches n c w). Qed.

Lemma flush_post_ok n p w : exists m, (flush_post n p w).1 = Ok m.
Proof. apply py_try_ret_handler. Qed.

Lemma flush_comment_ok n c w : exists m, (flush_comment n c w).1 = Ok m.
Proof. apply py_try_ret_handler. Qed.

(** The [try] of [save_to_database] returns [False] in the state it caught. *)
Lemma py_try_ret_state {A} (c : FM A) (a : A) w : (py_try c (fun _ => mret a) w).2 = (c w).2.
Proof. unfold py_try. by destruct (c w) as [[]]. Qed.

(** With the post unchanged at the write, its document is [to_dict]'s. *)
Lemma post_doc_at_write_same p : post_doc_at_write p p = post_to_dict p.
Proof. done. Qed.

Lemma comment_doc_at_write_same c : comment_doc_at_write c c = comment_to_dict c.
Proof. done. Qed.

Lemma db_find_one_post_cache k w : posts_dict (db_find_one_post k w).2 = posts_dict w.
Proof.
  unfold db_find_one_post. rewrite bind_run. pose proof (db_call_state w) as H.
  destruct (db_call w) as [[] w1]; simpl in *; subst; unfold db_after; by repeat case_match.
Qed.

Lemma db_find_one_comment_cache k w : comments_dict (db_find_one_comment k w).2 = comments_dict w.
Proof.
  unfold db_find_one_comment. rewrite bind_run. pose proof (db_call_state w) as H.
  destruct (db_call w) as [[] w1]; simpl in *; subst; unfold db_after; by repeat case_match.
Qed.

(** Nothing run between them, the two halves of an item are [flush_post]. *)
Lemma flush_post_split n i p w :
  dict_values (posts_dict w) !! i = Some p ->
  flush_post n p w =
    match db_find_one_post p.(Post.post_id) w with
    | (Raise _, w1) => (Ok n, w1)
    | (Ok existing, w1) => flush_post_write n i p existing w1
    end.
Proof.
  intros Hp. pose proof (db_find_one_post_cache p.(Post.post_id) w) as Hc.
  unfold flush_post, upsert_post, flush_post_write, py_try. rewrite !bind_run.
  destruct (db_find_one_post _ w) as [[ex|e] w1]; simpl in Hc |- *; [|done].
  rewrite bind_run. simpl. unfold live_at. rewrite Hc, Hp. simpl. rewrite post_doc_at_write_same.
  by rewrite bind_run.
Qed.

Lemma flush_comment_split n i c w :
  dict_values (comments_dict w) !! i = Some c ->
  flush_comment n c w =
    match db_find_one_comment c.(Comment.comment_id) w with
    | (Raise _, w1) => (Ok n, w1)
    | (Ok existing, w1) => flush_comment_write n i c existing w1
    end.
Proof.
  intros Hc0. pose proof (db_find_one_comment_cache c.(Comment.comment_id) w) as Hc.
  unfold flush_comment, upsert_comment, flush_comment_write, py_try. rewrite !bind_run.
  destruct (db_find_one_comment _ w) as [[ex|e] w1]; simpl in Hc |- *; [|done].
  rewrite bind_run. simpl. unfold live_at. rewrite Hc, Hc0. simpl. rewrite comment_doc_at_write_same.
  by rewrite bind_run.
Qed.

Lemma dict_values_next_some {K V} size0 i (d : pydict K V) v :
  dict_values_next size0 i d = Ok (Some v) -> dict_values d !! i = Some v.
Proof. unfold dict_values_next. case_match; by intros [= ->]. Qed.

Lemma save_comments_item size0 rem n w c w' :
  dict_values_next size0 (size0 - S rem) (comments_dict w) = Ok (Some c) ->
  seg_runs_to (save_comments_seg size0 rem (count_after n (flush_comment n c w).1)) (flush_comment n c w).2 w' ->
  seg_runs_to (save_comments_seg size0 (S rem) n) w w'.
Proof.
  intros Hv. rewrite (flush_comment_split n (size0 - S rem) c w) by exact (dict_values_next_some _ _ _ _ Hv).
  unfold seg_runs_to. cbn [save_comments_seg]. rewrite Hv.
  destruct (db_find_one_comment _ w) as [[ex|e] w1]; simpl; intros H.
  - eapply rtc_l; [apply loop_step_1|]. simpl. eapply rtc_l; [apply loop_step_1|exact H].
  - eapply rtc_l; [apply loop_step_1|exact H].
Qed.

Lemma save_posts_item size0 rem n w p w' :
  dict_values_next size0 (size0 - S rem) (posts_dict w) = Ok (Some p) ->
  seg_runs_to (save_posts_seg size0 rem (count_after n (flush_post n p w).1)) (flush_post n p w).2 w' ->
  seg_runs_to (save_posts_seg size0 (S rem) n) w w'.
Proof.
  intros Hv. rewrite (flush_post_split n (size0 - S rem) p w) by exact (dict_values_next_some _ _ _ _ Hv).
  unfold seg_runs_to. cbn [save_posts_seg]. rewrite Hv.
  destruct (db_find_one_post _ w) as [[ex|e] w1]; simpl; intros H.
  - eapply rtc_l; [apply loop_step_1|]. simpl. eapply rtc_l; [apply loop_step_1|exact H].
  - eapply rtc_l; [apply loop_step_1|exact H].
Qed.

Lemma save_comments_alone {B} (f : Z -> B) n w :
  seg_runs_to (save_comments_seg (dict_len (comments_dict w)) (dict_len (comments_dict w)) n) w
    ((for_fold flush_comment (dict_values (comments_dict w)) n ≫= fun n' => mret (f n')) w).2.
Proof.
  pose proof (flush_loop_alone comments_dict flush_comment flush_comment_cache flush_comment_ok
    save_comments_seg (fun _ w => (Finished, w)) (fun n' => mret (f n')) (dict_len (comments_dict w)))
    as H.
  rewrite <- (drop_0 (dict_values (comments_dict w))), <- (Nat.sub_diag (dict_len (comments_dict w))).
  apply H; try done.
  - intros rem m w' c w''. apply save_comments_item.
  - intros [|rem] m w' Hv; cbn [save_comments_seg]; by rewrite Hv.
  - intros m w'. apply rtc_refl.
Qed.

Lemma save_posts_alone {B} (f : Z -> B) n w :
  seg_runs_to (save_posts_seg (dict_len (posts_dict w)) (dict_len (posts_dict w)) n) w
    ((for_fold flush_post (dict_values (posts_dict w)) n ≫= fun n' =>
      cs ← gets (fun w => dict_values w.(comments_dict));
      n'' ← for_fold flush_comment cs n';
      mret (f n'')) w).2.
Proof.
  pose proof (flush_loop_alone posts_dict flush_post flush_post_cache flush_post_ok
    save_posts_seg (fun n w => save_comments_seg (dict_len (comments_dict w)) (dict_len (comments_dict w)) n w)
    (fun n' => cs ← gets (fun w => dict_values w.(comments_dict)); n'' ← for_fold flush_comment cs n';
               mret (f n'')) (dict_len (posts_dict w)))
    as H.
  rewrite <- (drop_0 (dict_values (posts_dict w))), <- (Nat.sub_diag (dict_len (posts_dict w))).
  apply H; try done.
  - intros rem m w' p w''. apply save_posts_item.
  - intros [|rem] m w' Hv; cbn [save_posts_seg]; by rewrite Hv.
  - intros m w'. rewrite bind_run. apply save_comments_alone.
Qed.

(** Run with no other request in flight, the task of
    [save_to_database] ends in the state [save_to_database] ends in. *)
Theorem save_to_database_task_alone w :
  rtc loop_step ([save_to_database_task], w) ([Finished], (save_to_database w).2).
Proof.
  apply seg_runs_to_ready. unfold seg_runs_to. cbv beta zeta.
  assert (E : py_try reconcile_user_post_relationships (fun _ => mret tt) w =
    (Ok tt, (reconcile_user_post_relationships w).2))
    by (unfold py_try; by destruct (reconcile_user_post_relationships w) as [[[]|] ?]).
  unfold save_to_database. rewrite (py_try_ret_state _ false), bind_run, E. simpl.
  rewrite !bind_run. simpl. apply (save_posts_alone (fun n => bool_decide (n = _))).
Qed.

(** Run with no other request in flight, the task of
    [toggle_post_like] ends in the state [toggle_post_like] ends in. *)
Theorem toggle_post_like_task_alone uid pid action w :
  rtc loop_step ([toggle_post_like_task uid pid action], w) ([Finished], (toggle_post_like uid pid action w).2).
Proof.
  apply seg_runs_to_ready. unfold seg_runs_to. cbv beta. unfold toggle_post_like, py_try.
  rewrite !bind_run. destruct (ensure_initialized w) as [[[]|e] w0]; simpl; [|apply rtc_refl].
  rewrite bind_run. destruct (toggle_post_like_memory uid pid action w0) as [[[p|]|e] w1]; simpl;
    [eapply rtc_l; [apply loop_step_1|]|..]; apply rtc_refl.
Qed.

(** ** Each task keeps the invariant *)

(** A request that runs to completion in one segment. *)
Definition atomic_task {A} (c : FM A) : task := Ready (fun w => (Finished, (c w).2)).

Lemma atomic_task_keeps {A} I (c : FM A) : triple I c (fun _ => I) I -> task_keeps I (atomic_task c).
Proof. intros Hc. constructor. intros w Hw. split; [by apply triple_final|constructor]. Qed.

Lemma toggle_post_like_task_keeps uid pid action : task_keeps Inv (toggle_post_like_task uid pid action).
Proof.
  constructor. intros w Hw.
  assert (H : triple Inv (ensure_initialized;; toggle_post_like_memory uid pid action) (fun _ => Inv) Inv)
    by (eapply triple_bind; [apply ensure_initialized_inv|intros; apply toggle_post_like_memory_inv]).
  specialize (H w Hw).
  destruct ((ensure_initialized;; toggle_post_like_memory uid pid action) w) as [[[p|]|e] w1]; simpl; [|split; [done|constructor]..].
  split; [done|]. apply atomic_task_keeps. unfold toggle_post_like_handler.
  eapply triple_try; [apply toggle_post_like_sync_inv|intros; symex; done].
Qed.

(** ** Requests as tasks *)

(** [create_post], [toggle_post_like] and [save_to_database] split at
    their awaits; every other request runs in one segment. *)
Definition request_task (r : request) : task :=
  match r with
  | ReqCreatePost cu ct ty cat tags media => create_post_task cu ct ty cat tags media
  | ReqTogglePostLike uid pid a => toggle_post_like_task uid pid a
  | ReqSaveToDatabase => save_to_database_task
  | r => atomic_task (handle r)
  end.

Lemma handle_state {A} (c : FM A) w : ((_ ← c; mret tt) w).2 = (c w).2.
Proof. rewrite bind_run. by destruct (c w) as [[]]. Qed.

(** Run with no other request in flight, the task of every request
    ends in the state the request's handler ends in: the split of
    [create_post], [toggle_post_like] and [save_to_database] at their
    awaits is faithful. *)
Theorem request_task_alone r w :
  rtc loop_step ([request_task r], w) ([Finished], (handle r w).2).
Proof.
  destruct r; first [ apply rtc_once, loop_step_1 | simpl; rewrite handle_state ];
    first [ apply create_post_task_alone | apply toggle_post_like_task_alone
          | apply save_to_database_task_alone ].
Qed.

Lemma request_task_keeps r : r <> ReqSaveToDatabase -> task_keeps Inv (request_task r).
Proof.
  intros Hr. destruct r; try done;
    first [ apply create_post_task_keeps | apply toggle_post_like_task_keeps
          | apply (atomic_task_keeps Inv (handle _)), handle_inv ].
Qed.

(** C2: The in-memory invariant (each cached post and comment keyed by its
    identifier, with like and comment parity, under a seeded counter, and
    the stored documents with parity) holds under every interleaving, at
    their awaits, of requests other than the flush, the start-up race of
    [create_post] included: a request resumed at the seeding reloads the
    cache whatever it held.  (With a flush in flight it does not hold:
    [flush_like_race_breaks_parity].) *)
Theorem interleaved_requests_Inv rs w c :
  Inv w -> ReqSaveToDatabase ∉ rs -> rtc loop_step (map request_task rs, w) c -> Inv c.2.
Proof.
  intros Hw Hs Hrun. apply (rtc_loop_step_keeps Inv _ _ Hrun); [|done].
  apply Forall_forall. intros t (r & -> & Hr)%list_elem_of_fmap.
  apply request_task_keeps. intros ->. contradiction.
Qed.

(** ** A cache that changes size under the flush *)

Lemma reconcile_caches : evolves caches_same (py_try reconcile_user_post_relationships (fun _ => mret tt)).
Proof.
  unfold reconcile_user_post_relationships, reconcile_post, get_user_instance, user_update. caches_op.
Qed.

(** The posts loop resumed on a posts dict of another size stops: the
    [RuntimeError] of its iterator is caught by [save_to_database]'s
    [except], which returns [False]. *)
Lemma save_posts_seg_resized size0 rem n w :
  dict_len (posts_dict w) <> size0 -> save_posts_seg size0 rem n w = (Finished, w).
Proof.
  intros H. apply Nat.eqb_neq in H. destruct rem; cbn [save_posts_seg]; unfold dict_values_next; by rewrite H.
Qed.

(** Run with nothing in between, the two segments of an item are
    [flush_post]. *)
Lemma save_posts_item_fst size0 rem n w p t :
  dict_values_next size0 (size0 - S rem) (posts_dict w) = Ok (Some p) ->
  rtc loop_step ([(save_posts_seg size0 (S rem) n w).1; t], (save_posts_seg size0 (S rem) n w).2)
    ([Ready (save_posts_seg size0 rem (count_after n (flush_post n p w).1)); t], (flush_post n p w).2).
Proof.
  intros Hv. rewrite (flush_post_split n (size0 - S rem) p w) by exact (dict_values_next_some _ _ _ _ Hv).
  cbn [save_posts_seg]. rewrite Hv.
  destruct (db_find_one_post _ w) as [[ex|e] w1]; simpl; [|apply rtc_refl].
  apply rtc_once, loop_step_2_fst.
Qed.

Lemma dict_values_next_first {K V} (d : pydict K V) v vs :
  dict_values d = v :: vs -> dict_len d = S (length vs) /\
  dict_values_next (S (length vs)) (S (length vs) - S (length vs)) d = Ok (Some v).
Proof.
  intros Hv. assert (Hl : dict_len d = S (length vs)) by (rewrite <- dict_len_values, Hv; done).
  split; [done|]. rewrite Nat.sub_diag, <- Hl, dict_values_next_same, Hv. done.
Qed.

(** C8: [save_to_database] iterates the live [posts_dict] across its
    awaits.  When a request that runs while the flush is suspended after
    its first post leaves the posts dict with another number of entries
    (a [create_post], a reload), the flush stops at its next item: the
    remaining posts and every comment are not written, although the
    specification says the flush may run concurrently with the other
    operations since it only reads the collections. *)
Theorem save_interrupted_by_resize {A} (c : FM A) w p ps :
  dict_values (posts_dict w) = p :: ps ->
  dict_len (posts_dict (c (flush_post 0 p (py_try reconcile_user_post_relationships (fun _ => mret tt) w).2).2).2)
    <> dict_len (posts_dict w) ->
  rtc loop_step ([save_to_database_task; atomic_task c], w)
    ([Finished; Finished],
     (c (flush_post 0 p (py_try reconcile_user_post_relationships (fun _ => mret tt) w).2).2).2).
Proof.
  intros Hv Hlen. destruct (reconcile_caches w) as [Hp _].
  set (w1 := (py_try _ _ w).2) in *.
  rewrite <- Hp in Hv. destruct (dict_values_next_first _ _ _ Hv) as [Hs Hn].
  eapply rtc_l; [apply loop_step_2_fst|]. cbv beta zeta. fold w1. rewrite Hs.
  etrans; [apply (save_posts_item_fst _ _ _ _ _ _ Hn)|].
  eapply rtc_l; [apply loop_step_2_snd|]. simpl.
  eapply rtc_l; [apply loop_step_2_fst|].
  rewrite save_posts_seg_resized by (rewrite <- Hs, Hp; exact Hlen).
  apply rtc_refl.
Qed.

(** ** A like during a flushed item's [find_one] *)

(** Requests that leave the post cache, the cache flag and storage as
    they are. *)
Definition cache_db_same (w w' : World) : Prop :=
  posts_dict w' = posts_dict w /\ fm_initialized w' = fm_initialized w /\ db w' = db w.

#[export] Instance cache_db_same_preorder : PreOrder cache_db_same.
Proof. split; [by intros w|]. intros a b c (? & ? & ?) (? & ? & ?). split_and!; congruence. Qed.

Lemma reconcile_cache_db :
  evolves cache_db_same (py_try reconcile_user_post_relationships (fun _ => mret tt)).
Proof.
  unfold reconcile_user_post_relationships, reconcile_post, get_user_instance, user_update.
  solve_evolves. apply evolves_modify. intros. unfold cache_db_same. case_match; by split_and!.
Qed.

Lemma toggle_sync_caches uid pid action p' :
  evolves caches_same (py_try (toggle_post_like_sync uid pid action p') toggle_post_like_handler).
Proof.
  unfold toggle_post_like_sync, toggle_post_like_handler, get_user_instance, user_update,
    db_user_add_to_set, db_user_pull, modify_db.
  caches_op.
Qed.

Lemma toggle_sync_stored uid pid action p' :
  evolves posts_stored (py_try (toggle_post_like_sync uid pid action p') toggle_post_like_handler).
Proof.
  unfold toggle_post_like_sync, toggle_post_like_handler, get_user_instance, user_update,
    db_user_add_to_set, db_user_pull, modify_db.
  stored_op.
Qed.

Lemma db_find_one_post_answering k w :
  db_faults (db w) = [] -> db_find_one_post k w = (Ok (dict_get k (db_posts (db w))), w).
Proof. intros H. unfold db_find_one_post. rewrite bind_run. unfold db_call. by rewrite H. Qed.

(** The like's first segment on a cached post. *)
Lemma toggle_like_memory_run uid k p w :
  fm_initialized w = true -> dict_get k (posts_dict w) = Some p ->
  (ensure_initialized;; toggle_post_like_memory uid k "like") w =
    (Ok (Some (post_like_mem uid p (utc_now (clock w)))),
     set_posts_dict (dict_set k (post_like_mem uid p (utc_now (clock w))) (posts_dict w)) w).
Proof.
  intros Hf Hp. rewrite bind_run, ensure_initialized_noop by done. simpl.
  unfold toggle_post_like_memory, posts_get, now, posts_set. run_monad. by rewrite Hp.
Qed.

(** The write of a post's document with storage answering. *)
Lemma flush_post_write_stored n i p p' w :
  db_faults (db w) = [] -> live_at i p (posts_dict w) = p' ->
  exists d, dict_get p.(Post.post_id) (db_posts (db (flush_post_write n i p (dict_get p.(Post.post_id) (db_posts (db w))) w).2)) = Some d /\
    d.(PostDoc.like_count) = Some p.(Post.like_count) /\ d.(PostDoc.liked_user_ids) = Some p'.(Post.liked_user_ids).
Proof.
  intros Hf Hl. unfold flush_post_write, py_try. rewrite !bind_run. simpl. rewrite Hl.
  destruct (dict_get (Post.post_id p) (db_posts (db w))) as [old|] eqn:E;
    unfold db_update_post_set, db_insert_post, modify_db; rewrite !bind_run; unfold db_call; rewrite Hf;
    run_monad; rewrite ?E; simpl; rewrite dict_get_set_eq; eexists; split_and!; done.
Qed.

(** C3: The document [to_dict] builds shares the post's lists but copies
    its counts, and the flush awaits [Database.find_one] between building
    it and writing it.  A like on the flushed post in that gap (from the
    cooperative schedule the specification calls safe) writes the new
    likers with the old count: the stored document loses its like parity,
    and a later reload caches the post with a count that no longer
    matches its likers. *)
Theorem flush_like_race_breaks_parity w uid p ps :
  Inv w -> fm_initialized w = true -> db_faults (db w) = [] ->
  dict_values (posts_dict w) = p :: ps -> py_in uid p.(Post.liked_user_ids) = false ->
  exists ts w' d,
    rtc loop_step ([save_to_database_task; request_task (ReqTogglePostLike uid p.(Post.post_id) "like")], w)
      (ts, w') /\
    dict_get p.(Post.post_id) (db_posts (db w')) = Some d /\
    d.(PostDoc.like_count) = Some p.(Post.like_count) /\
    d.(PostDoc.liked_user_ids) = Some (p.(Post.liked_user_ids) ++ [uid]) /\
    ~ post_doc_parity d.
Proof.
  intros HI Hf Hd Hv Hu.
  (* the flushed post is the first entry, keyed by its identifier, with parity *)
  destruct (posts_dict w) as [|[k0 p0] rest] eqn:Ep; [done|]. simpl in Hv. injection Hv as -> Hps.
  pose proof (inv_posts _ HI) as Hall. rewrite Ep in Hall. apply Forall_cons in Hall as [[Hk [Hpar _]] _].
  simpl in Hk. set (k := Post.post_id p) in *.
  (* the flush's first segment: reconcile, [next()], [find_one] *)
  destruct (reconcile_cache_db w) as (Hp1 & Hf1 & Hd1).
  set (w1 := (py_try reconcile_user_post_relationships (fun _ => mret tt) w).2) in *.
  assert (Hv1 : dict_values (posts_dict w1) = p :: ps) by (rewrite Hp1, Ep; simpl; congruence).
  destruct (dict_values_next_first _ _ _ Hv1) as [Hs Hn].
  assert (Hdb1 : db_faults (db w1) = []) by (rewrite Hd1; exact Hd).
  simpl in Hpar. subst k0.
  (* the like's first segment applies it to the cached post *)
  assert (Hg1 : dict_get k (posts_dict w1) = Some p) by (rewrite Hp1, Ep; simpl; by case_decide).
  pose proof (toggle_like_memory_run uid k p w1 ltac:(congruence) Hg1) as HT.
  set (p' := post_like_mem uid p (utc_now (clock w1))) in *.
  set (w2 := set_posts_dict (dict_set k p' (posts_dict w1)) w1) in *.
  (* its second segment leaves the cache and the posts collection *)
  set (w3 := (py_try (toggle_post_like_sync uid k "like" p') toggle_post_like_handler w2).2).
  destruct (toggle_sync_caches uid k "like" p' w2) as [Hp3 _].
  destruct (toggle_sync_stored uid k "like" p' w2) as [Hs3 Hf3]. fold w3 in Hp3, Hs3, Hf3.
  assert (Hl3 : live_at 0 p (posts_dict w3) = p')
    by (rewrite Hp3; simpl; rewrite Hp1, Ep; simpl; by case_decide).
  assert (Hdb3 : db_faults (db w3) = []) by (apply Hf3; exact Hdb1).
  destruct (flush_post_write_stored 0 0 p p' w3 Hdb3 Hl3) as (d & Hdoc & Hlc & Hlu).
  assert (Hex : dict_get k (db_posts (db w3)) = dict_get k (db_posts (db w1))) by (rewrite Hs3; done).
  fold k in Hdoc. rewrite Hex in Hdoc.
  assert (Hp' : Post.liked_user_ids p' = Post.liked_user_ids p ++ [uid])
    by (unfold p', post_like_mem; by rewrite Hu).
  eexists _, _, d. split_and!; [|exact Hdoc|exact Hlc|by rewrite Hlu, Hp'|].
  - eapply rtc_l; [apply loop_step_2_fst|]. cbv beta zeta. fold w1. rewrite Hs. cbn [save_posts_seg].
    rewrite Hn, db_find_one_post_answering by exact Hdb1. simpl.
    eapply rtc_l; [apply loop_step_2_snd|]. cbv beta. rewrite HT. simpl.
    eapply rtc_l; [apply loop_step_2_snd|]. simpl. fold w3.
    eapply rtc_l; [apply loop_step_2_fst|]. simpl. rewrite Nat.sub_diag. apply rtc_refl.
  - intros [Hc _]. rewrite Hlc, Hlu, Hp' in Hc. simpl in Hc. rewrite length_app in Hc. destruct Hpar as [Hc0 _]. simpl in Hc. lia.
Qed.

(** An initialized process where "u2" has just liked post 3: the like is
    only in the cache until the next flush. *)
Definition flush_race_start : World := (toggle_post_like "u2" 3 "like" (initialize demo_world).2).2.

Definition no_post : Post.t := Post.mk 0 "" "" "" "" [] "" [] 0 0 0 [] [] "" None None.

(** The flush writes post 1, then "u1" creates a post while the flush
    awaits: the flush stops, and post 3's like is not written, where the
    flush run alone writes it. *)
Lemma save_interrupted_by_resize_witness :
  let w := flush_race_start in
  let c := handle (ReqCreatePost "u1" "new" "text" "" [] []) in
  let wf := (c (flush_post 0 (hd no_post (dict_values (posts_dict w)))
                 (py_try reconcile_user_post_relationships (fun _ => mret tt) w).2).2).2 in
  rtc loop_step ([save_to_database_task; atomic_task c], w) ([Finished; Finished], wf) /\
  option_map PostDoc.like_count (dict_get 3%Z (db_posts (db wf))) = Some (Some 0%Z) /\
  option_map PostDoc.like_count (dict_get 3%Z (db_posts (db (save_to_database w).2))) = Some (Some 1%Z).
Proof.
  intros w c wf. split; [|vm_compute; split; reflexivity].
  apply (save_interrupted_by_resize c w _ (tl (dict_values (posts_dict w)))); vm_compute; [reflexivity|discriminate].
Defined.

(** A like's first segment, then an [initialize] request, from the
    demonstration state. *)
Lemma interleaved_requests_Inv_witness :
  exists c, rtc loop_step (map request_task [ReqTogglePostLike "u2" 1 "like"; ReqInitialize], demo_world) c /\
    Inv c.2.
Proof.
  assert (H : exists c, rtc loop_step
    (map request_task [ReqTogglePostLike "u2" 1 "like"; ReqInitialize], demo_world) c)
    by (eexists; eapply rtc_l; [apply loop_step_2_fst|]; eapply rtc_l; [apply loop_step_2_snd|apply rtc_refl]).
  assert (Hs : ReqSaveToDatabase ∉ [ReqTogglePostLike "u2" 1 "like"; ReqInitialize])
    by (intros Hin; apply list_elem_of_In in Hin; simpl in Hin; intuition discriminate).
  destruct H as [c Hc]. exists c. split; [exact Hc|].
  exact (interleaved_requests_Inv _ demo_world c Inv_demo_world Hs Hc).
Defined.

(** "u2" likes post 1 of the initialized demonstration process while the
    flush awaits post 1's [find_one]. *)
Lemma flush_like_race_breaks_parity_witness :
  let w := (initialize demo_world).2 in
  let p := hd no_post (dict_values (posts_dict w)) in
  exists ts w' d,
    rtc loop_step ([save_to_database_task; request_task (ReqTogglePostLike "u2" p.(Post.post_id) "like")], w)
      (ts, w') /\
    dict_get p.(Post.post_id) (db_posts (db w')) = Some d /\
    d.(PostDoc.like_count) = Some p.(Post.like_count) /\
    d.(PostDoc.liked_user_ids) = Some (p.(Post.liked_user_ids) ++ ["u2"]) /\
    ~ post_doc_parity d.
Proof.
  intros w p. apply (flush_like_race_breaks_parity w "u2" p (tl (dict_values (posts_dict w)))).
  - apply (triple_final Inv); [apply initialize_inv|apply Inv_demo_world].
  - vm_compute. reflexivity.
  - vm_compute. reflexivity.
  - vm_compute. reflexivity.
  - vm_compute. reflexivity.
Defined.
